(** * NeverYawn: the alarm engine, the command router and their collaborators

    A shallow embedding of the MicroPython sources [aktor_steuerung.py],
    [sensorik.py], [mqtt_steuerung.py] and [main.py], and the properties of
    the alarm state machine proved over it.

    Conventions of the embedding.
    - Python [int] is [Z].  Python [float] is [gleitkomma]: a rational, one of
      the two infinities, or NaN.  Comparisons are the exact ones of the
      values denoted; the rounding of float arithmetic is not tracked.
    - Module-level globals are fields of one record per module.  A function
      of the source is a program in the monad [Prog S]: it reads and writes
      the state [S], appends to a log of driver calls, and either finishes
      or raises.
    - What the hardware or the broker answers to a call is an input of the
      program (an [antwort], an [option ausnahme], ...). *)

From Stdlib Require Import ZArith QArith Qround Bool List String Lia.
From stdpp Require Import base gmap strings list.

Local Open Scope Z_scope.

(** ** Numbers *)

Inductive gleitkomma :=
  | Endlich (q : Q)
  | Unendlich (negativ : bool)
  | KeineZahl.

Inductive zahl :=
  | Ganz (z : Z)
  | Gleit (f : gleitkomma).

Definition Qlt_bool (x y : Q) : bool := negb (Qle_bool y x).

Definition gk_lt (a b : gleitkomma) : bool :=
  match a, b with
  | KeineZahl, _ | _, KeineZahl => false
  | Endlich x, Endlich y => Qlt_bool x y
  | Endlich _, Unendlich neg => negb neg
  | Unendlich neg, Endlich _ => neg
  | Unendlich n1, Unendlich n2 => n1 && negb n2
  end.

Definition gk_le (a b : gleitkomma) : bool :=
  match a, b with
  | KeineZahl, _ | _, KeineZahl => false
  | Endlich x, Endlich y => Qle_bool x y
  | Endlich _, Unendlich neg => negb neg
  | Unendlich neg, Endlich _ => neg
  | Unendlich n1, Unendlich n2 => n1 || negb n2
  end.

Definition gk_eq (a b : gleitkomma) : bool :=
  match a, b with
  | Endlich x, Endlich y => Qeq_bool x y
  | Unendlich n1, Unendlich n2 => Bool.eqb n1 n2
  | _, _ => false
  end.

(** [float(x)] of an [int]: the value itself (no rounding in this model). *)
Definition als_gleit (x : zahl) : gleitkomma :=
  match x with
  | Ganz z => Endlich (inject_Z z)
  | Gleit f => f
  end.

(** Python compares an [int] with a [float] by value. *)
Definition zahl_lt (a b : zahl) : bool := gk_lt (als_gleit a) (als_gleit b).
Definition zahl_le (a b : zahl) : bool := gk_le (als_gleit a) (als_gleit b).
Definition zahl_gt (a b : zahl) : bool := zahl_lt b a.
Definition zahl_ge (a b : zahl) : bool := zahl_le b a.
Definition zahl_eq (a b : zahl) : bool := gk_eq (als_gleit a) (als_gleit b).

(** [int(q)] truncates toward zero. *)
Definition int_von_Q (q : Q) : Z := Z.quot (Qnum q) (Z.pos (Qden q)).

(** [round(q * 10) / 10] with ties to even, as [round(x, 1)] computes it. *)
Definition runde_halb_gerade (q : Q) : Z :=
  let f := Qfloor q in
  let rest := (q - inject_Z f)%Q in
  if Qlt_bool rest (1 # 2) then f
  else if Qlt_bool (1 # 2) rest then f + 1
  else if Z.even f then f else f + 1.

Definition runde1 (x : zahl) : zahl :=
  match x with
  | Ganz z => Ganz z
  | Gleit (Endlich q) => Gleit (Endlich (inject_Z (runde_halb_gerade (q * 10)) / 10))
  | Gleit f => Gleit f
  end.

(** ** Programs: state, log, exceptions *)

(** The two classes of exception the handlers of the sources tell apart:
    [except OSError] and the catch-all [except Exception]. *)
Inductive ausnahme := OSError | AndereAusnahme.

Inductive ausgang (A : Type) :=
  | Fertig (a : A)
  | Geworfen (e : ausnahme).
Arguments Fertig {A} a.
Arguments Geworfen {A} e.

(** What a call into a driver answers. *)
Inductive antwort (A : Type) :=
  | Liefert (a : A)
  | Scheitert (e : ausnahme).
Arguments Liefert {A} a.
Arguments Scheitert {A} e.

(** The payload [main.py] publishes each tick. *)
Record nutzlast := {
  Temperatur : zahl; Temperatur_Status : Z;
  Luftfeuchtigkeit : zahl; Luftfeuchtigkeit_Status : Z;
  CO2 : Z; CO2_Status : Z;
  VOC : Z; VOC_Status : Z }.

(** The log: entries to the public functions of the actuator module and to
    the two methods of the display that [main.py] calls, the writes that
    reach a PWM driver, and the calls of [mqtt_client.publish] with those
    that returned. *)
Inductive ereignis :=
  | Ruf_summer_starten (erzwingen : bool)
  | Ruf_summer_stoppen
  | Ruf_summer_kurz_piepen (erzwingen : bool)
  | Ruf_servo_winken (wiederholungen : Z)
  | Ruf_stumm_schalten (status : bool)
  | Ruf_display_aktualisieren
  | Ruf_backlight_einschalten
  | Ruf_publish (p : nutzlast)
  | SummerFreq (f : Z)
  | SummerDuty (d : Z)
  | ServoDuty (d : Z)
  | Schlaf_ms (ms : Z)
  | Veroeffentlicht (p : nutzlast).

Definition Prog (S A : Type) : Type := S -> ausgang A * S * list ereignis.

Definition ret {S A} (a : A) : Prog S A := fun s => (Fertig a, s, []).

Definition bind {S A B} (m : Prog S A) (k : A -> Prog S B) : Prog S B :=
  fun s =>
    match m s with
    | (Fertig a, s1, l1) =>
        match k a s1 with
        | (r, s2, l2) => (r, s2, l1 ++ l2)
        end
    | (Geworfen e, s1, l1) => (Geworfen e, s1, l1)
    end.

Definition wirf {S A} (e : ausnahme) : Prog S A := fun s => (Geworfen e, s, []).
Definition lies {S} : Prog S S := fun s => (Fertig s, s, []).
Definition schreibe {S} (s : S) : Prog S unit := fun _ => (Fertig tt, s, []).
Definition aendere {S} (f : S -> S) : Prog S unit := fun s => (Fertig tt, f s, []).
Definition melde {S} (e : ereignis) : Prog S unit := fun s => (Fertig tt, s, [e]).

(** [try: m except <klasse> as e: h e]; the handler sees the state and the
    log as the raise left them.  An exception the clause does not cover
    propagates. *)
Definition versuche_wenn {S A} (faengt : ausnahme -> bool)
    (m : Prog S A) (h : ausnahme -> Prog S A) : Prog S A :=
  fun s =>
    match m s with
    | (Fertig a, s1, l1) => (Fertig a, s1, l1)
    | (Geworfen e, s1, l1) =>
        if faengt e then
          match h e s1 with
          | (r, s2, l2) => (r, s2, l1 ++ l2)
          end
        else (Geworfen e, s1, l1)
    end.

(** [try: m except Exception: h] *)
Definition versuche {S A} (m : Prog S A) (h : ausnahme -> Prog S A) : Prog S A :=
  versuche_wenn (fun _ => true) m h.

(** Run a program of a module inside a larger state. *)
Definition heben {S T A} (hole : T -> S) (setze : S -> T -> T)
    (m : Prog S A) : Prog T A :=
  fun t =>
    match m (hole t) with
    | (r, s1, l1) => (r, setze s1 t, l1)
    end.

Declare Scope prog_scope.
Delimit Scope prog_scope with prog.
Notation "x <- m ;; k" := (bind m (fun x => k))
  (at level 100, m at next level, right associativity) : prog_scope.
Notation "m ;; k" := (bind m (fun _ => k))
  (at level 100, right associativity) : prog_scope.
Local Open Scope prog_scope.

Definition wenn {S} (b : bool) (m : Prog S unit) : Prog S unit :=
  if b then m else ret tt.

(** [for _ in range(n): m] *)
Fixpoint wiederhole {S} (n : nat) (m : Prog S unit) : Prog S unit :=
  match n with
  | O => ret tt
  | Datatypes.S n' => m ;; wiederhole n' m
  end.

(** A call into a driver or library whose answer is given: a failing one
    raises. *)
Definition rufe {S A} (r : antwort A) : Prog S A :=
  match r with
  | Liefert a => ret a
  | Scheitert e => wirf e
  end.

(** The same for a call without a result: [None] when it returns, [Some e]
    when it raises [e]. *)
Definition rufe_ohne_wert {S} (fehler : option ausnahme) : Prog S unit :=
  match fehler with
  | None => ret tt
  | Some e => wirf e
  end.

(** [o is None] *)
Definition ist_none {A} (o : option A) : bool :=
  match o with None => true | Some _ => false end.

Definition zustand_nach {S A} (r : ausgang A * S * list ereignis) : S := snd (fst r).
Definition protokoll {S A} (r : ausgang A * S * list ereignis) : list ereignis := snd r.
Definition ergebnis {S A} (r : ausgang A * S * list ereignis) : ausgang A := fst (fst r).

(** ** aktor_steuerung.py: servo and buzzer *)

Module aktor_steuerung.

Definition SERVO_FREQUENZ : Z := 50.
Definition SERVO_DUTY_MIN : Z := 26.
Definition SERVO_DUTY_MAX : Z := 128.
Definition SERVO_STANDARD_WINKEL : Z := 90.
Definition SUMMER_STANDARD_FREQUENZ : Z := 1000.
Definition SUMMER_DUTY_AN : Z := 512.
Definition SUMMER_DUTY_AUS : Z := 0.
Definition SUMMER_PIEP_DAUER_MS : Z := 300.

(** A [machine.PWM] output.  A defective one raises on every call. *)
Record pwm := {
  pwm_freq : Z;
  pwm_duty : Z;
  pwm_defekt : bool }.

(** The module variables; [None] is Python's [None]. *)
Record zustand := {
  _servo_pwm_objekt : option pwm;
  _summer_pwm_objekt : option pwm;
  _ist_stummgeschaltet : bool;
  _summer_aktuelle_frequenz : Z;
  _summer_ist_dauerhaft_an : bool }.

Definition mit_servo (p : option pwm) (s : zustand) : zustand :=
  {| _servo_pwm_objekt := p;
     _summer_pwm_objekt := _summer_pwm_objekt s;
     _ist_stummgeschaltet := _ist_stummgeschaltet s;
     _summer_aktuelle_frequenz := _summer_aktuelle_frequenz s;
     _summer_ist_dauerhaft_an := _summer_ist_dauerhaft_an s |}.

Definition mit_summer (p : option pwm) (s : zustand) : zustand :=
  {| _servo_pwm_objekt := _servo_pwm_objekt s;
     _summer_pwm_objekt := p;
     _ist_stummgeschaltet := _ist_stummgeschaltet s;
     _summer_aktuelle_frequenz := _summer_aktuelle_frequenz s;
     _summer_ist_dauerhaft_an := _summer_ist_dauerhaft_an s |}.

Definition mit_stumm (b : bool) (s : zustand) : zustand :=
  {| _servo_pwm_objekt := _servo_pwm_objekt s;
     _summer_pwm_objekt := _summer_pwm_objekt s;
     _ist_stummgeschaltet := b;
     _summer_aktuelle_frequenz := _summer_aktuelle_frequenz s;
     _summer_ist_dauerhaft_an := _summer_ist_dauerhaft_an s |}.

Definition mit_dauerhaft_an (b : bool) (s : zustand) : zustand :=
  {| _servo_pwm_objekt := _servo_pwm_objekt s;
     _summer_pwm_objekt := _summer_pwm_objekt s;
     _ist_stummgeschaltet := _ist_stummgeschaltet s;
     _summer_aktuelle_frequenz := _summer_aktuelle_frequenz s;
     _summer_ist_dauerhaft_an := b |}.

(** [_summer_pwm_objekt.freq(f)] and [.duty(d)]: a call on [None] or on a
    defective output raises, otherwise the output takes the value. *)
Definition summer_freq (f : Z) : Prog zustand unit :=
  s <- lies ;;
  match _summer_pwm_objekt s with
  | None => wirf AndereAusnahme
  | Some p =>
      if pwm_defekt p then wirf AndereAusnahme
      else
        aendere (mit_summer (Some {| pwm_freq := f; pwm_duty := pwm_duty p;
                                     pwm_defekt := false |})) ;;
        melde (SummerFreq f)
  end.

Definition summer_duty (d : Z) : Prog zustand unit :=
  s <- lies ;;
  match _summer_pwm_objekt s with
  | None => wirf AndereAusnahme
  | Some p =>
      if pwm_defekt p then wirf AndereAusnahme
      else
        aendere (mit_summer (Some {| pwm_freq := pwm_freq p; pwm_duty := d;
                                     pwm_defekt := false |})) ;;
        melde (SummerDuty d)
  end.

Definition servo_duty (d : Z) : Prog zustand unit :=
  s <- lies ;;
  match _servo_pwm_objekt s with
  | None => wirf AndereAusnahme
  | Some p =>
      if pwm_defekt p then wirf AndereAusnahme
      else
        aendere (mit_servo (Some {| pwm_freq := pwm_freq p; pwm_duty := d;
                                    pwm_defekt := false |})) ;;
        melde (ServoDuty d)
  end.

Definition sleep_ms (ms : Z) : Prog zustand unit := melde (Schlaf_ms ms).

(** [int(SERVO_DUTY_MIN + (SERVO_DUTY_MAX - SERVO_DUTY_MIN) * (winkel / 180.0))]
    after clamping the angle to 0..180. *)
Definition _winkel_zu_duty (winkel : Z) : Z :=
  let winkel := Z.max 0 (Z.min 180 winkel) in
  int_von_Q (inject_Z SERVO_DUTY_MIN
             + inject_Z (SERVO_DUTY_MAX - SERVO_DUTY_MIN) * (inject_Z winkel / 180))%Q.

Definition servo_winkel_setzen (winkel : Z) : Prog zustand unit :=
  s <- lies ;;
  if ist_none (_servo_pwm_objekt s) then ret tt
  else versuche (servo_duty (_winkel_zu_duty winkel)) (fun _ => ret tt).

Definition servo_winken (wiederholungen winkel1 winkel2 pause_ms : Z)
    : Prog zustand unit :=
  melde (Ruf_servo_winken wiederholungen) ;;
  s <- lies ;;
  if ist_none (_servo_pwm_objekt s) then ret tt
  else
    versuche
      (let duty1 := _winkel_zu_duty winkel1 in
       let duty2 := _winkel_zu_duty winkel2 in
       let duty_standard := _winkel_zu_duty SERVO_STANDARD_WINKEL in
       wiederhole (Z.to_nat wiederholungen)
         (servo_duty duty1 ;; sleep_ms pause_ms ;;
          servo_duty duty2 ;; sleep_ms pause_ms) ;;
       servo_duty duty_standard)
      (fun _ =>
         versuche
           (s' <- lies ;;
            wenn (negb (ist_none (_servo_pwm_objekt s')))
                 (servo_duty (_winkel_zu_duty SERVO_STANDARD_WINKEL)))
           (fun _ => ret tt)).

Definition summer_kurz_piepen (dauer_ms : Z) (frequenz : option Z)
    (erzwingen : bool) : Prog zustand unit :=
  melde (Ruf_summer_kurz_piepen erzwingen) ;;
  s <- lies ;;
  if ist_none (_summer_pwm_objekt s) then ret tt
  else if _ist_stummgeschaltet s && negb erzwingen then ret tt
  else if _summer_ist_dauerhaft_an s then ret tt
  else
    let aktuelle_frequenz :=
      match frequenz with Some f => f | None => _summer_aktuelle_frequenz s end in
    versuche
      (summer_freq aktuelle_frequenz ;;
       summer_duty SUMMER_DUTY_AN ;;
       sleep_ms dauer_ms ;;
       summer_duty SUMMER_DUTY_AUS)
      (fun _ =>
         versuche
           (s' <- lies ;;
            wenn (negb (ist_none (_summer_pwm_objekt s')))
                 (summer_duty SUMMER_DUTY_AUS))
           (fun _ => ret tt)).

Definition summer_stoppen : Prog zustand unit :=
  melde Ruf_summer_stoppen ;;
  s <- lies ;;
  if ist_none (_summer_pwm_objekt s) then ret tt
  else
    versuche (summer_duty SUMMER_DUTY_AUS) (fun _ => ret tt) ;;
    aendere (mit_dauerhaft_an false).

Definition summer_starten (frequenz : option Z) (erzwingen : bool)
    : Prog zustand unit :=
  melde (Ruf_summer_starten erzwingen) ;;
  s <- lies ;;
  if ist_none (_summer_pwm_objekt s) then ret tt
  else if _ist_stummgeschaltet s && negb erzwingen then summer_stoppen
  else if _summer_ist_dauerhaft_an s && negb erzwingen then ret tt
  else
    let aktuelle_frequenz :=
      match frequenz with Some f => f | None => _summer_aktuelle_frequenz s end in
    versuche
      (summer_freq aktuelle_frequenz ;;
       summer_duty SUMMER_DUTY_AN ;;
       aendere (mit_dauerhaft_an true))
      (fun _ => aendere (mit_dauerhaft_an false)).

Definition stumm_schalten (status : bool) : Prog zustand unit :=
  melde (Ruf_stumm_schalten status) ;;
  aendere (mit_stumm status) ;;
  s <- lies ;;
  wenn (_ist_stummgeschaltet s) summer_stoppen.

Definition ist_stummgeschaltet : Prog zustand bool :=
  s <- lies ;; ret (_ist_stummgeschaltet s).

(** The module variables as the file sets them before
    [aktoren_initialisieren] runs. *)
Definition anfang : zustand :=
  {| _servo_pwm_objekt := None;
     _summer_pwm_objekt := None;
     _ist_stummgeschaltet := false;
     _summer_aktuelle_frequenz := SUMMER_STANDARD_FREQUENZ;
     _summer_ist_dauerhaft_an := false |}.

End aktor_steuerung.

(** ** sensorik.py: AHT10 and CCS811 *)

Module sensorik.

(** [_sensor_aht10] and [_sensor_ccs] are [true] when the object was created
    at import time and [false] for [None]. *)
Record zustand := {
  _sensor_aht10 : bool;
  _sensor_ccs : bool;
  _letzter_co2_wert : Z;
  _letzter_voc_wert : Z }.

Definition anfang (aht10 ccs : bool) : zustand :=
  {| _sensor_aht10 := aht10; _sensor_ccs := ccs;
     _letzter_co2_wert := 400; _letzter_voc_wert := 0 |}.

Definition mit_ccs_werten (co2 voc : Z) (s : zustand) : zustand :=
  {| _sensor_aht10 := _sensor_aht10 s; _sensor_ccs := _sensor_ccs s;
     _letzter_co2_wert := co2; _letzter_voc_wert := voc |}.

(** The error codes of the two AHT10 readers. *)
Definition TEMPERATUR_FEHLER : zahl := Gleit (Endlich (-999 # 10)).
Definition FEUCHTE_FEHLER : zahl := Ganz (-1).

Definition lese_feuchtigkeit (humidity : antwort zahl) : Prog zustand zahl :=
  s <- lies ;;
  if _sensor_aht10 s then
    versuche
      (feuchte <- rufe humidity ;;
       if zahl_le (Ganz 0) feuchte && zahl_le feuchte (Ganz 100)
       then ret (runde1 feuchte)
       else ret FEUCHTE_FEHLER)
      (fun _ => ret FEUCHTE_FEHLER)
  else ret FEUCHTE_FEHLER.

Definition lese_temperatur (temperature : antwort zahl) : Prog zustand zahl :=
  s <- lies ;;
  if _sensor_aht10 s then
    versuche
      (temperatur <- rufe temperature ;;
       if zahl_le (Ganz (-40)) temperatur && zahl_le temperatur (Ganz 85)
       then ret (runde1 temperatur)
       else ret TEMPERATUR_FEHLER)
      (fun _ => ret TEMPERATUR_FEHLER)
  else ret TEMPERATUR_FEHLER.

(** What the CCS811 driver answers to [data_ready()], [.eCO2] and [.tVOC]. *)
Record ccs_antwort := {
  data_ready : antwort bool;
  eCO2 : antwort Z;
  tVOC : antwort Z }.

Definition _aktualisiere_ccs_daten (c : ccs_antwort) : Prog zustand unit :=
  s <- lies ;;
  wenn (_sensor_ccs s)
    (versuche
       (bereit <- rufe (data_ready c) ;;
        wenn bereit
          (neuer_co2 <- rufe (eCO2 c) ;;
           neuer_voc <- rufe (tVOC c) ;;
           wenn ((400 <=? neuer_co2) && (neuer_co2 <=? 8000) && (0 <=? neuer_voc))
                (aendere (mit_ccs_werten neuer_co2 neuer_voc))))
       (fun _ => ret tt)).

Definition lese_co2 (c : ccs_antwort) : Prog zustand Z :=
  _aktualisiere_ccs_daten c ;;
  s <- lies ;;
  ret (_letzter_co2_wert s).

Definition lese_voc : Prog zustand Z :=
  s <- lies ;;
  ret (_letzter_voc_wert s).

End sensorik.

(** ** mqtt_steuerung.py: the messaging link *)

Module mqtt_steuerung.

Definition SENDE_TOPIC : string := "IoT-NeverYawn/Sensordaten".
Definition EMPFANGS_TOPIC : string := "IoT-NeverYawn/Geraetesteuerung".

Inductive klient := MQTTClient.

(** [mqtt_benutzer_callback] is [true] once a callback has been set. *)
Record zustand := {
  mqtt_client : option klient;
  mqtt_verbunden : bool;
  mqtt_benutzer_callback : bool }.

Definition anfang : zustand :=
  {| mqtt_client := None; mqtt_verbunden := false; mqtt_benutzer_callback := false |}.

Definition mit_verbindung (c : option klient) (v : bool) (s : zustand) : zustand :=
  {| mqtt_client := c; mqtt_verbunden := v;
     mqtt_benutzer_callback := mqtt_benutzer_callback s |}.

Definition mit_callback (s : zustand) : zustand :=
  {| mqtt_client := mqtt_client s; mqtt_verbunden := mqtt_verbunden s;
     mqtt_benutzer_callback := true |}.

Definition nur_OSError (e : ausnahme) : bool :=
  match e with OSError => true | AndereAusnahme => false end.

(** [try: m except OSError: h1 except Exception: h2] *)
Definition versuche_os {S A} (m : Prog S A) (h1 h2 : Prog S A) : Prog S A :=
  versuche m (fun e => if nur_OSError e then h1 else h2).

Definition mqtt_callback_setzen : Prog zustand unit :=
  aendere mit_callback.

(** [connect] is the answer of [MQTTClient(...)], [set_callback] and
    [connect()] taken together. *)
Definition mqtt_verbinden (connect : option ausnahme) : Prog zustand bool :=
  s <- lies ;;
  if mqtt_verbunden s then ret true
  else
    versuche
      (aendere (mit_verbindung None (mqtt_verbunden s)) ;;
       aendere (mit_verbindung (Some MQTTClient) (mqtt_verbunden s)) ;;
       rufe_ohne_wert connect ;;
       aendere (mit_verbindung (Some MQTTClient) true) ;;
       ret true)
      (fun _ => aendere (mit_verbindung None false) ;; ret false).

(** [publish] is the answer of [ujson.dumps] and [mqtt_client.publish]
    taken together. *)
Definition mqtt_senden (payload : nutzlast) (publish : option ausnahme)
    : Prog zustand bool :=
  s <- lies ;;
  if negb (mqtt_verbunden s) || ist_none (mqtt_client s)
  then ret false
  else
    versuche_os
      (melde (Ruf_publish payload) ;;
       rufe_ohne_wert publish ;;
       melde (Veroeffentlicht payload) ;;
       ret true)
      (aendere (mit_verbindung None false) ;; ret false)
      (ret false).

Definition mqtt_ist_verbunden : Prog zustand bool :=
  s <- lies ;; ret (mqtt_verbunden s).

Definition mqtt_trennen (disconnect : option ausnahme) : Prog zustand unit :=
  s <- lies ;;
  wenn (negb (ist_none (mqtt_client s)))
    (versuche (rufe_ohne_wert disconnect) (fun _ => ret tt) ;;
     aendere (mit_verbindung None false)).

Section im_hauptprogramm.
  (** The callback of the main program runs in the state [T] of the whole
      device, of which the module's variables are a part. *)
  Context {T : Type} (hole : T -> zustand) (setze : zustand -> T -> T).

Definition _mqtt_interner_callback (benutzer : Prog T unit) : Prog T unit :=
  t <- lies ;;
  wenn (mqtt_benutzer_callback (hole t))
       (versuche benutzer (fun _ => ret tt)).

(** [check_msg()]: when a message is waiting ([zustellung] is the user
    callback applied to it) the client calls the internal callback; the call
    then returns or raises [fehler]. *)
Definition check_msg (zustellung : option (Prog T unit)) (fehler : option ausnahme)
    : Prog T unit :=
  match zustellung with
  | Some benutzer => _mqtt_interner_callback benutzer
  | None => ret tt
  end ;;
  rufe_ohne_wert fehler.

Definition mqtt_nachrichten_pruefen (zustellung : option (Prog T unit))
    (fehler : option ausnahme) : Prog T unit :=
  t <- lies ;;
  if negb (mqtt_verbunden (hole t)) || ist_none (mqtt_client (hole t))
  then ret tt
  else
    versuche_os
      (check_msg zustellung fehler)
      (heben hole setze (aendere (mit_verbindung None false)))
      (ret tt).

End im_hauptprogramm.

End mqtt_steuerung.

(** ** main.py: thresholds, alarm state, the tick and the command callback *)

Definition SENSOR_LESEINTERVALL_SEK : Z := 2.
Definition STANDARD_TEMP_SCHWELLE : gleitkomma := Endlich 30.
Definition STANDARD_FEUCHTE_SCHWELLE : gleitkomma := Endlich 60.
Definition STANDARD_CO2_SCHWELLE : Z := 1500.
Definition STANDARD_VOC_SCHWELLE : Z := 1000.
Definition STANDARD_CO2_KRITISCH_SCHWELLE : Z := 2500.
Definition NORMAL_ALARM_SPERRE_SEK : Z := 300.
Definition NORMAL_ALARM_AUSLOESE_ZAEHLER : Z := 2.
Definition MQTT_SCHWELLE_TOPIC : string := "IoT-NeverYawn/Schwellwerte".

(** The globals of [main.py] with the module variables of the modules it
    imports. *)
Record welt := {
  aktor : aktor_steuerung.zustand;
  sensoren : sensorik.zustand;
  mqtt : mqtt_steuerung.zustand;
  letzte_sensorlesung_zeit : Z;
  kritischer_alarm_aktiv : bool;
  normal_alarm_sperre_bis : Z;
  normal_alarm_zaehler : Z;
  aktuelle_temp_schwelle : gleitkomma;
  aktuelle_feuchte_schwelle : gleitkomma;
  aktuelle_co2_schwelle : Z;
  aktuelle_voc_schwelle : Z;
  aktuelle_co2_kritisch_schwelle : Z }.

Definition mit_aktor (a : aktor_steuerung.zustand) (w : welt) : welt :=
  {| aktor := a; sensoren := sensoren w; mqtt := mqtt w;
     letzte_sensorlesung_zeit := letzte_sensorlesung_zeit w;
     kritischer_alarm_aktiv := kritischer_alarm_aktiv w;
     normal_alarm_sperre_bis := normal_alarm_sperre_bis w;
     normal_alarm_zaehler := normal_alarm_zaehler w;
     aktuelle_temp_schwelle := aktuelle_temp_schwelle w;
     aktuelle_feuchte_schwelle := aktuelle_feuchte_schwelle w;
     aktuelle_co2_schwelle := aktuelle_co2_schwelle w;
     aktuelle_voc_schwelle := aktuelle_voc_schwelle w;
     aktuelle_co2_kritisch_schwelle := aktuelle_co2_kritisch_schwelle w |}.

Definition mit_sensoren (s : sensorik.zustand) (w : welt) : welt :=
  {| aktor := aktor w; sensoren := s; mqtt := mqtt w;
     letzte_sensorlesung_zeit := letzte_sensorlesung_zeit w;
     kritischer_alarm_aktiv := kritischer_alarm_aktiv w;
     normal_alarm_sperre_bis := normal_alarm_sperre_bis w;
     normal_alarm_zaehler := normal_alarm_zaehler w;
     aktuelle_temp_schwelle := aktuelle_temp_schwelle w;
     aktuelle_feuchte_schwelle := aktuelle_feuchte_schwelle w;
     aktuelle_co2_schwelle := aktuelle_co2_schwelle w;
     aktuelle_voc_schwelle := aktuelle_voc_schwelle w;
     aktuelle_co2_kritisch_schwelle := aktuelle_co2_kritisch_schwelle w |}.

Definition mit_mqtt (m : mqtt_steuerung.zustand) (w : welt) : welt :=
  {| aktor := aktor w; sensoren := sensoren w; mqtt := m;
     letzte_sensorlesung_zeit := letzte_sensorlesung_zeit w;
     kritischer_alarm_aktiv := kritischer_alarm_aktiv w;
     normal_alarm_sperre_bis := normal_alarm_sperre_bis w;
     normal_alarm_zaehler := normal_alarm_zaehler w;
     aktuelle_temp_schwelle := aktuelle_temp_schwelle w;
     aktuelle_feuchte_schwelle := aktuelle_feuchte_schwelle w;
     aktuelle_co2_schwelle := aktuelle_co2_schwelle w;
     aktuelle_voc_schwelle := aktuelle_voc_schwelle w;
     aktuelle_co2_kritisch_schwelle := aktuelle_co2_kritisch_schwelle w |}.

Definition mit_lesezeit (t : Z) (w : welt) : welt :=
  {| aktor := aktor w; sensoren := sensoren w; mqtt := mqtt w;
     letzte_sensorlesung_zeit := t;
     kritischer_alarm_aktiv := kritischer_alarm_aktiv w;
     normal_alarm_sperre_bis := normal_alarm_sperre_bis w;
     normal_alarm_zaehler := normal_alarm_zaehler w;
     aktuelle_temp_schwelle := aktuelle_temp_schwelle w;
     aktuelle_feuchte_schwelle := aktuelle_feuchte_schwelle w;
     aktuelle_co2_schwelle := aktuelle_co2_schwelle w;
     aktuelle_voc_schwelle := aktuelle_voc_schwelle w;
     aktuelle_co2_kritisch_schwelle := aktuelle_co2_kritisch_schwelle w |}.

Definition mit_kritisch (b : bool) (w : welt) : welt :=
  {| aktor := aktor w; sensoren := sensoren w; mqtt := mqtt w;
     letzte_sensorlesung_zeit := letzte_sensorlesung_zeit w;
     kritischer_alarm_aktiv := b;
     normal_alarm_sperre_bis := normal_alarm_sperre_bis w;
     normal_alarm_zaehler := normal_alarm_zaehler w;
     aktuelle_temp_schwelle := aktuelle_temp_schwelle w;
     aktuelle_feuchte_schwelle := aktuelle_feuchte_schwelle w;
     aktuelle_co2_schwelle := aktuelle_co2_schwelle w;
     aktuelle_voc_schwelle := aktuelle_voc_schwelle w;
     aktuelle_co2_kritisch_schwelle := aktuelle_co2_kritisch_schwelle w |}.

Definition mit_sperre_bis (t : Z) (w : welt) : welt :=
  {| aktor := aktor w; sensoren := sensoren w; mqtt := mqtt w;
     letzte_sensorlesung_zeit := letzte_sensorlesung_zeit w;
     kritischer_alarm_aktiv := kritischer_alarm_aktiv w;
     normal_alarm_sperre_bis := t;
     normal_alarm_zaehler := normal_alarm_zaehler w;
     aktuelle_temp_schwelle := aktuelle_temp_schwelle w;
     aktuelle_feuchte_schwelle := aktuelle_feuchte_schwelle w;
     aktuelle_co2_schwelle := aktuelle_co2_schwelle w;
     aktuelle_voc_schwelle := aktuelle_voc_schwelle w;
     aktuelle_co2_kritisch_schwelle := aktuelle_co2_kritisch_schwelle w |}.

Definition mit_zaehler (n : Z) (w : welt) : welt :=
  {| aktor := aktor w; sensoren := sensoren w; mqtt := mqtt w;
     letzte_sensorlesung_zeit := letzte_sensorlesung_zeit w;
     kritischer_alarm_aktiv := kritischer_alarm_aktiv w;
     normal_alarm_sperre_bis := normal_alarm_sperre_bis w;
     normal_alarm_zaehler := n;
     aktuelle_temp_schwelle := aktuelle_temp_schwelle w;
     aktuelle_feuchte_schwelle := aktuelle_feuchte_schwelle w;
     aktuelle_co2_schwelle := aktuelle_co2_schwelle w;
     aktuelle_voc_schwelle := aktuelle_voc_schwelle w;
     aktuelle_co2_kritisch_schwelle := aktuelle_co2_kritisch_schwelle w |}.

Definition mit_temp_schwelle (x : gleitkomma) (w : welt) : welt :=
  {| aktor := aktor w; sensoren := sensoren w; mqtt := mqtt w;
     letzte_sensorlesung_zeit := letzte_sensorlesung_zeit w;
     kritischer_alarm_aktiv := kritischer_alarm_aktiv w;
     normal_alarm_sperre_bis := normal_alarm_sperre_bis w;
     normal_alarm_zaehler := normal_alarm_zaehler w;
     aktuelle_temp_schwelle := x;
     aktuelle_feuchte_schwelle := aktuelle_feuchte_schwelle w;
     aktuelle_co2_schwelle := aktuelle_co2_schwelle w;
     aktuelle_voc_schwelle := aktuelle_voc_schwelle w;
     aktuelle_co2_kritisch_schwelle := aktuelle_co2_kritisch_schwelle w |}.

Definition mit_feuchte_schwelle (x : gleitkomma) (w : welt) : welt :=
  {| aktor := aktor w; sensoren := sensoren w; mqtt := mqtt w;
     letzte_sensorlesung_zeit := letzte_sensorlesung_zeit w;
     kritischer_alarm_aktiv := kritischer_alarm_aktiv w;
     normal_alarm_sperre_bis := normal_alarm_sperre_bis w;
     normal_alarm_zaehler := normal_alarm_zaehler w;
     aktuelle_temp_schwelle := aktuelle_temp_schwelle w;
     aktuelle_feuchte_schwelle := x;
     aktuelle_co2_schwelle := aktuelle_co2_schwelle w;
     aktuelle_voc_schwelle := aktuelle_voc_schwelle w;
     aktuelle_co2_kritisch_schwelle := aktuelle_co2_kritisch_schwelle w |}.

Definition mit_co2_schwelle (x : Z) (w : welt) : welt :=
  {| aktor := aktor w; sensoren := sensoren w; mqtt := mqtt w;
     letzte_sensorlesung_zeit := letzte_sensorlesung_zeit w;
     kritischer_alarm_aktiv := kritischer_alarm_aktiv w;
     normal_alarm_sperre_bis := normal_alarm_sperre_bis w;
     normal_alarm_zaehler := normal_alarm_zaehler w;
     aktuelle_temp_schwelle := aktuelle_temp_schwelle w;
     aktuelle_feuchte_schwelle := aktuelle_feuchte_schwelle w;
     aktuelle_co2_schwelle := x;
     aktuelle_voc_schwelle := aktuelle_voc_schwelle w;
     aktuelle_co2_kritisch_schwelle := aktuelle_co2_kritisch_schwelle w |}.

Definition mit_voc_schwelle (x : Z) (w : welt) : welt :=
  {| aktor := aktor w; sensoren := sensoren w; mqtt := mqtt w;
     letzte_sensorlesung_zeit := letzte_sensorlesung_zeit w;
     kritischer_alarm_aktiv := kritischer_alarm_aktiv w;
     normal_alarm_sperre_bis := normal_alarm_sperre_bis w;
     normal_alarm_zaehler := normal_alarm_zaehler w;
     aktuelle_temp_schwelle := aktuelle_temp_schwelle w;
     aktuelle_feuchte_schwelle := aktuelle_feuchte_schwelle w;
     aktuelle_co2_schwelle := aktuelle_co2_schwelle w;
     aktuelle_voc_schwelle := x;
     aktuelle_co2_kritisch_schwelle := aktuelle_co2_kritisch_schwelle w |}.

Definition im_aktor {A} (m : Prog aktor_steuerung.zustand A) : Prog welt A :=
  heben aktor mit_aktor m.
Definition im_sensorik {A} (m : Prog sensorik.zustand A) : Prog welt A :=
  heben sensoren mit_sensoren m.
Definition im_mqtt {A} (m : Prog mqtt_steuerung.zustand A) : Prog welt A :=
  heben mqtt mit_mqtt m.

(** The state [main.py] starts its loop in, given what initialisation left
    of the actuators, sensors and link. *)
Definition start (a : aktor_steuerung.zustand) (s : sensorik.zustand)
    (m : mqtt_steuerung.zustand) : welt :=
  {| aktor := a; sensoren := s; mqtt := m;
     letzte_sensorlesung_zeit := 0;
     kritischer_alarm_aktiv := false;
     normal_alarm_sperre_bis := 0;
     normal_alarm_zaehler := 0;
     aktuelle_temp_schwelle := STANDARD_TEMP_SCHWELLE;
     aktuelle_feuchte_schwelle := STANDARD_FEUCHTE_SCHWELLE;
     aktuelle_co2_schwelle := STANDARD_CO2_SCHWELLE;
     aktuelle_voc_schwelle := STANDARD_VOC_SCHWELLE;
     aktuelle_co2_kritisch_schwelle := STANDARD_CO2_KRITISCH_SCHWELLE |}.

(** What the outside answers during one run of the timer callback. *)
Record umwelt := {
  zeit : Z;                           (* time.time() *)
  aht_temperature : antwort zahl;     (* _sensor_aht10.temperature() *)
  aht_humidity : antwort zahl;        (* _sensor_aht10.humidity() *)
  ccs : sensorik.ccs_antwort;
  backlight : option ausnahme;        (* bildschirm.backlight_einschalten() *)
  publish : option ausnahme }.        (* mqtt_client.publish(...) *)

Record messwerte := {
  temp : zahl;
  feuchte : zahl;
  co2 : Z;
  voc : Z }.

(** The comparisons of the section "Grenzwerte pruefen". *)
Definition ist_temp_alarm (m : messwerte) (w : welt) : bool :=
  zahl_gt (temp m) (Gleit (aktuelle_temp_schwelle w)).
Definition ist_feuchte_alarm (m : messwerte) (w : welt) : bool :=
  zahl_gt (feuchte m) (Gleit (aktuelle_feuchte_schwelle w)).
Definition ist_co2_alarm (m : messwerte) (w : welt) : bool :=
  aktuelle_co2_schwelle w <? co2 m.
Definition ist_voc_alarm (m : messwerte) (w : welt) : bool :=
  aktuelle_voc_schwelle w <? voc m.
Definition ist_co2_kritisch (m : messwerte) (w : welt) : bool :=
  aktuelle_co2_kritisch_schwelle w <? co2 m.
Definition soll_normal_alarm (m : messwerte) (w : welt) : bool :=
  ist_temp_alarm m w || ist_feuchte_alarm m w || ist_co2_alarm m w || ist_voc_alarm m w.

(** [if temp == -99.9 or feuchte == -1] *)
Definition ungueltig (m : messwerte) : bool :=
  zahl_eq (temp m) sensorik.TEMPERATUR_FEHLER || zahl_eq (feuchte m) sensorik.FEUCHTE_FEHLER.

(** The display is a collaborator: its calls are logged.  The update runs
    inside its own [try], the backlight call does not. *)
Definition display_aktualisieren : Prog welt unit :=
  melde Ruf_display_aktualisieren.

Definition backlight_einschalten (fehler : option ausnahme) : Prog welt unit :=
  melde Ruf_backlight_einschalten ;;
  rufe_ohne_wert fehler.

(** Lines 200-203: the four reads, in the order of the source. *)
Definition sensoren_lesen (u : umwelt) : Prog welt messwerte :=
  temp <- im_sensorik (sensorik.lese_temperatur (aht_temperature u)) ;;
  feuchte <- im_sensorik (sensorik.lese_feuchtigkeit (aht_humidity u)) ;;
  co2 <- im_sensorik (sensorik.lese_co2 (ccs u)) ;;
  voc <- im_sensorik sensorik.lese_voc ;;
  ret {| temp := temp; feuchte := feuchte; co2 := co2; voc := voc |}.

(** "1. Kritischer CO2-Alarm" *)
Definition alarm_kritisch (u : umwelt) (ist_co2_kritisch soll_normal_alarm : bool)
    : Prog welt unit :=
  let aktuelle_zeit := zeit u in
  if ist_co2_kritisch then
    im_aktor (aktor_steuerung.summer_starten None true) ;;
    w <- lies ;;
    wenn (negb (kritischer_alarm_aktiv w))
      (aendere (mit_kritisch true) ;;
       aendere (mit_zaehler 0) ;;
       aendere (mit_sperre_bis 0) ;;
       backlight_einschalten (backlight u))
  else
    w <- lies ;;
    wenn (kritischer_alarm_aktiv w)
      (im_aktor aktor_steuerung.summer_stoppen ;;
       aendere (mit_kritisch false) ;;
       wenn soll_normal_alarm
         (aendere (mit_sperre_bis (aktuelle_zeit + NORMAL_ALARM_SPERRE_SEK)) ;;
          aendere (mit_zaehler 0))).

(** "2. Normaler Alarm" *)
Definition alarm_normal (u : umwelt) (soll_normal_alarm : bool) : Prog welt unit :=
  let aktuelle_zeit := zeit u in
  w <- lies ;;
  wenn (negb (kritischer_alarm_aktiv w))
    (if soll_normal_alarm then
       aendere (fun w => mit_zaehler (normal_alarm_zaehler w + 1) w) ;;
       w <- lies ;;
       wenn ((NORMAL_ALARM_AUSLOESE_ZAEHLER <=? normal_alarm_zaehler w)
             && (normal_alarm_sperre_bis w <? aktuelle_zeit))
         (im_aktor (aktor_steuerung.summer_kurz_piepen
                      aktor_steuerung.SUMMER_PIEP_DAUER_MS None false) ;;
          im_aktor (aktor_steuerung.servo_winken 3 45 135 400) ;;
          backlight_einschalten (backlight u) ;;
          aendere (mit_sperre_bis (aktuelle_zeit + NORMAL_ALARM_SPERRE_SEK)) ;;
          aendere (mit_zaehler 0))
     else
       w <- lies ;;
       wenn (0 <? normal_alarm_zaehler w) (aendere (mit_zaehler 0)) ;;
       w <- lies ;;
       wenn (0 <? normal_alarm_sperre_bis w) (aendere (mit_sperre_bis 0))).

(** "Daten via MQTT senden" *)
Definition daten_senden (u : umwelt) (m : messwerte)
    (temp_alarm feuchte_alarm co2_alarm voc_alarm co2_kritisch : bool)
    : Prog welt unit :=
  verbunden <- im_mqtt mqtt_steuerung.mqtt_ist_verbunden ;;
  wenn verbunden
    (let daten :=
       {| Temperatur := temp m;
          Temperatur_Status := if temp_alarm then 1 else 0;
          Luftfeuchtigkeit := feuchte m;
          Luftfeuchtigkeit_Status := if feuchte_alarm then 1 else 0;
          CO2 := co2 m;
          CO2_Status := if co2_kritisch then 2 else if co2_alarm then 1 else 0;
          VOC := voc m;
          VOC_Status := if voc_alarm then 1 else 0 |} in
     _ <- im_mqtt (mqtt_steuerung.mqtt_senden daten (publish u)) ;;
     ret tt).

(** Lines 205-279: everything after the reads. *)
Definition verarbeiten_senden (u : umwelt) (m : messwerte) : Prog welt unit :=
  if ungueltig m then ret tt
  else
    w <- lies ;;
    let temp_alarm := ist_temp_alarm m w in
    let feuchte_alarm := ist_feuchte_alarm m w in
    let co2_alarm := ist_co2_alarm m w in
    let voc_alarm := ist_voc_alarm m w in
    let co2_kritisch := ist_co2_kritisch m w in
    let normal_alarm := temp_alarm || feuchte_alarm || co2_alarm || voc_alarm in
    display_aktualisieren ;;
    alarm_kritisch u co2_kritisch normal_alarm ;;
    alarm_normal u normal_alarm ;;
    daten_senden u m temp_alarm feuchte_alarm co2_alarm voc_alarm co2_kritisch.

(** The timer callback. *)
Definition sensoren_lesen_verarbeiten_senden (u : umwelt) : Prog welt unit :=
  aendere (mit_lesezeit (zeit u)) ;;
  versuche
    (m <- sensoren_lesen u ;;
     verarbeiten_senden u m)
    (fun _ => ret tt).

(** *** The command callback *)

(** A value inside a decoded message.  Lists and objects nested in it are
    not looked into by the callback. *)
Inductive jwert :=
  | JNull
  | JBool (b : bool)
  | JZahl (z : zahl)
  | JText (s : string)
  | JVerbund.

(** What [ujson.loads] returns: an object, or some other JSON value. *)
Inductive json :=
  | JObjekt (d : gmap string jwert)
  | JAnderes.

(** [daten.get(k)]: [None] for a missing key; on a value that is not an
    object the attribute lookup raises. *)
Definition daten_get {S} (daten : json) (k : string) : Prog S jwert :=
  match daten with
  | JObjekt d => ret (default JNull (d !! k))
  | JAnderes => wirf AndereAusnahme
  end.

(** [v == "text"] *)
Definition ist_text (v : jwert) (t : string) : bool :=
  match v with
  | JText s => String.eqb s t
  | _ => false
  end.

(** [int(x)]: truncation; an infinity or a NaN raises. *)
Definition int_von {S} (x : zahl) : Prog S Z :=
  match x with
  | Ganz z => ret z
  | Gleit (Endlich q) => ret (int_von_Q q)
  | Gleit _ => wirf AndereAusnahme
  end.

Section befehle.

(** Whether the runtime counts [True] and [False] as instances of [int]
    (CPython does). *)
Variable bool_ist_int : bool.

(** [isinstance(v, (int, float))], with the number found. *)
Definition als_zahl (v : jwert) : option zahl :=
  match v with
  | JZahl z => Some z
  | JBool b => if bool_ist_int then Some (Ganz (Z.b2z b)) else None
  | _ => None
  end.

(** The body of the inner [try] of the threshold topic. *)
Definition schwellwerte_aktualisieren (msg : antwort json) : Prog welt unit :=
  daten <- rufe msg ;;
  neue_temp <- daten_get daten "schwelle_temp" ;;
  match als_zahl neue_temp with
  | Some x => aendere (mit_temp_schwelle (als_gleit x))
  | None => ret tt
  end ;;
  neue_feuchte <- daten_get daten "schwelle_hum" ;;
  match als_zahl neue_feuchte with
  | Some x =>
      wenn (zahl_le (Ganz 0) x && zahl_le x (Ganz 100))
           (aendere (mit_feuchte_schwelle (als_gleit x)))
  | None => ret tt
  end ;;
  neue_co2 <- daten_get daten "schwelle_CO2" ;;
  match als_zahl neue_co2 with
  | Some x =>
      wenn (zahl_gt x (Ganz 0))
           (n <- int_von x ;; aendere (mit_co2_schwelle n))
  | None => ret tt
  end ;;
  neue_voc <- daten_get daten "schwelle_VOC" ;;
  match als_zahl neue_voc with
  | Some x =>
      wenn (zahl_ge x (Ganz 0))
           (n <- int_von x ;; aendere (mit_voc_schwelle n))
  | None => ret tt
  end.

(** The branch of the control topic. *)
Definition geraet_steuern (msg : antwort json) : Prog welt unit :=
  daten <- rufe msg ;;
  befehl <- daten_get daten "command" ;;
  status <- daten_get daten "status" ;;
  aktion <- daten_get daten "action" ;;
  if ist_text befehl "MUTE" then
    let mute_aktiv := ist_text status "ON" in
    im_aktor (aktor_steuerung.stumm_schalten mute_aktiv) ;;
    wenn mute_aktiv (aendere (mit_kritisch false))
  else if ist_text befehl "FLAG" && ist_text aktion "WAVE" then
    im_aktor (aktor_steuerung.servo_winken 3 45 135 400)
  else if ist_text befehl "BUZZER" then
    if ist_text status "ON" then
      im_aktor (aktor_steuerung.summer_starten None false)
    else if ist_text status "OFF" then
      im_aktor aktor_steuerung.summer_stoppen ;;
      aendere (mit_kritisch false)
    else ret tt
  else ret tt.

(** [topic_bytes] is the answer of [topic_bytes.decode('utf-8')], [msg] the
    answer of [ujson.loads(msg_bytes)]. *)
Definition mqtt_befehl_empfangen (topic_bytes : antwort string) (msg : antwort json)
    : Prog welt unit :=
  versuche
    (topic <- rufe topic_bytes ;;
     if String.eqb topic MQTT_SCHWELLE_TOPIC then
       versuche (schwellwerte_aktualisieren msg) (fun _ => ret tt)
     else if String.eqb topic mqtt_steuerung.EMPFANGS_TOPIC then
       geraet_steuern msg
     else ret tt)
    (fun _ => ret tt).

End befehle.

(** ** Vocabulary of the properties *)

(** The range test of [_aktualisiere_ccs_daten]. *)
Definition ccs_bereich (co2 voc : Z) : bool :=
  (400 <=? co2) && (co2 <=? 8000) && (0 <=? voc).

(** The four reads as one program of the sensor module. *)
Definition alle_lesen (u : umwelt) : Prog sensorik.zustand messwerte :=
  temp <- sensorik.lese_temperatur (aht_temperature u) ;;
  feuchte <- sensorik.lese_feuchtigkeit (aht_humidity u) ;;
  co2 <- sensorik.lese_co2 (ccs u) ;;
  voc <- sensorik.lese_voc ;;
  ret {| temp := temp; feuchte := feuchte; co2 := co2; voc := voc |}.

(** The values the timer callback reads when it runs in [w] against [u]. *)
Definition werte (u : umwelt) (w : welt) : option messwerte :=
  match ergebnis (sensoren_lesen u w) with
  | Fertig m => Some m
  | Geworfen _ => None
  end.

(** Consecutive runs of the timer callback, with the log of all of them. *)
Fixpoint lauf (us : list umwelt) (w : welt) : welt * list ereignis :=
  match us with
  | [] => (w, [])
  | u :: us' =>
      let r := sensoren_lesen_verarbeiten_senden u w in
      let r' := lauf us' (zustand_nach r) in
      (fst r', protokoll r ++ snd r')
  end.

(** [P] holds of every run of the callback in [lauf us w], each taken with
    the state it starts in. *)
Fixpoint jeder_tick (P : umwelt -> welt -> Prop) (us : list umwelt) (w : welt) : Prop :=
  match us with
  | [] => True
  | u :: us' =>
      P u w /\ jeder_tick P us' (zustand_nach (sensoren_lesen_verarbeiten_senden u w))
  end.

(** Classes of log entries. *)
Definition ist_normal_ausloesung (e : ereignis) : bool :=
  match e with
  | Ruf_summer_kurz_piepen _ | Ruf_servo_winken _ => true
  | _ => false
  end.

Definition treibt_summer (e : ereignis) : bool :=
  match e with
  | SummerFreq _ | SummerDuty _ => true
  | _ => false
  end.

Definition ist_aktor_ereignis (e : ereignis) : bool :=
  match e with
  | Ruf_summer_starten _ | Ruf_summer_stoppen | Ruf_summer_kurz_piepen _
  | Ruf_servo_winken _ | Ruf_stumm_schalten _ | Ruf_backlight_einschalten
  | SummerFreq _ | SummerDuty _ | ServoDuty _ | Schlaf_ms _ => true
  | Ruf_display_aktualisieren | Ruf_publish _ | Veroeffentlicht _ => false
  end.

Definition anzahl (p : ereignis -> bool) (l : list ereignis) : nat :=
  length (List.filter p l).

(** The alarm state of the engine. *)
Definition alarm_zustand (w : welt) : bool * Z * Z :=
  (kritischer_alarm_aktiv w, normal_alarm_sperre_bis w, normal_alarm_zaehler w).

(** A reading strictly below every threshold, the critical one included. *)
Definition unter_allen_schwellen (m : messwerte) (w : welt) : Prop :=
  zahl_lt (temp m) (Gleit (aktuelle_temp_schwelle w)) = true /\
  zahl_lt (feuchte m) (Gleit (aktuelle_feuchte_schwelle w)) = true /\
  co2 m < aktuelle_co2_schwelle w /\
  voc m < aktuelle_voc_schwelle w /\
  co2 m < aktuelle_co2_kritisch_schwelle w.

(** The result of a call that returns or raises. *)
Definition wurf (fehler : option ausnahme) : ausgang unit :=
  match fehler with
  | None => Fertig tt
  | Some e => Geworfen e
  end.

(** The two alarm stages of the callback, run on the values [m] in [w]. *)
Definition alarm_logik (u : umwelt) (m : messwerte) (w : welt)
    : ausgang unit * welt * list ereignis :=
  (alarm_kritisch u (ist_co2_kritisch m w) (soll_normal_alarm m w) ;;
   alarm_normal u (soll_normal_alarm m w)) w.

Definition ist_piep (e : ereignis) : bool :=
  match e with Ruf_summer_kurz_piepen _ => true | _ => false end.
Definition ist_winken (e : ereignis) : bool :=
  match e with Ruf_servo_winken _ => true | _ => false end.
Definition ist_wecken (e : ereignis) : bool :=
  match e with Ruf_backlight_einschalten => true | _ => false end.
Definition ist_veroeffentlicht (e : ereignis) : bool :=
  match e with Veroeffentlicht _ => true | _ => false end.

(** What the servo driver is sent during [servo_winken(wiederholungen=3)]. *)
Definition winken_folge : list ereignis :=
  [ServoDuty 51; Schlaf_ms 400; ServoDuty 102; Schlaf_ms 400;
   ServoDuty 51; Schlaf_ms 400; ServoDuty 102; Schlaf_ms 400;
   ServoDuty 51; Schlaf_ms 400; ServoDuty 102; Schlaf_ms 400;
   ServoDuty 77].

(** What the buzzer driver is sent during one short beep at frequency [f]. *)
Definition piep_folge (f : Z) : list ereignis :=
  [SummerFreq f; SummerDuty 512; Schlaf_ms 300; SummerDuty 0].

(** ** A device and readings to run the programs on *)

Definition beispiel_pwm (f : Z) : aktor_steuerung.pwm :=
  {| aktor_steuerung.pwm_freq := f; aktor_steuerung.pwm_duty := 0;
     aktor_steuerung.pwm_defekt := false |}.

(** The actuators after a successful [aktoren_initialisieren(21, 47)]. *)
Definition beispiel_aktor : aktor_steuerung.zustand :=
  aktor_steuerung.mit_summer (Some (beispiel_pwm 1000))
    (aktor_steuerung.mit_servo
       (Some {| aktor_steuerung.pwm_freq := 50; aktor_steuerung.pwm_duty := 77;
                aktor_steuerung.pwm_defekt := false |})
       aktor_steuerung.anfang).

Definition beispiel_mqtt : mqtt_steuerung.zustand :=
  {| mqtt_steuerung.mqtt_client := Some mqtt_steuerung.MQTTClient;
     mqtt_steuerung.mqtt_verbunden := true;
     mqtt_steuerung.mqtt_benutzer_callback := true |}.

(** Both sensors found, link up, default thresholds. *)
Definition beispiel_welt : welt :=
  start beispiel_aktor (sensorik.anfang true true) beispiel_mqtt.

(** A run of the callback at time [t] in which the sensors deliver
    [temperatur] degrees, 50 percent humidity, [co2] ppm and 100 ppb, and
    the display and the broker answer without error. *)
Definition beispiel_umwelt (t : Z) (temperatur : Q) (co2 : Z) : umwelt :=
  {| zeit := t;
     aht_temperature := Liefert (Gleit (Endlich temperatur));
     aht_humidity := Liefert (Gleit (Endlich 50));
     ccs := {| sensorik.data_ready := Liefert true;
               sensorik.eCO2 := Liefert co2;
               sensorik.tVOC := Liefert 100 |};
     backlight := None;
     publish := None |}.

(** The same run, except that the display wake raises [OSError]. *)
Definition beispiel_umwelt_anzeigefehler (t : Z) (temperatur : Q) (co2 : Z) : umwelt :=
  {| zeit := t;
     aht_temperature := Liefert (Gleit (Endlich temperatur));
     aht_humidity := Liefert (Gleit (Endlich 50));
     ccs := {| sensorik.data_ready := Liefert true;
               sensorik.eCO2 := Liefert co2;
               sensorik.tVOC := Liefert 100 |};
     backlight := Some OSError;
     publish := None |}.

Definition beispiel_werte (temperatur : Q) (co2 : Z) : messwerte :=
  {| temp := runde1 (Gleit (Endlich temperatur));
     feuchte := runde1 (Gleit (Endlich 50));
     co2 := co2; voc := 100 |}.

(** A run of the callback whose reading is valid, not above the critical CO2
    threshold, and above at least one of the four normal thresholds. *)
Definition ueberschreitung (u : umwelt) (w : welt) : Prop :=
  exists m, werte u w = Some m
    /\ ungueltig m = false
    /\ soll_normal_alarm m w = true
    /\ co2 m <= aktuelle_co2_kritisch_schwelle w.

(** A run of the callback whose reading is valid and strictly below all
    thresholds. *)
Definition unterschreitung (u : umwelt) (w : welt) : Prop :=
  exists m, werte u w = Some m
    /\ ungueltig m = false
    /\ unter_allen_schwellen m w.

(** *** Threshold updates, field by field

    The policy of the specification: each field of a threshold update is
    checked on its own (it must be a number; humidity within 0..100, CO2
    above 0, VOC at least 0); an accepted field replaces the threshold, any
    other leaves the value [alt] in place. *)

Definition feld (d : gmap string jwert) (k : string) : jwert :=
  default JNull (d !! k).

Definition ganzzahl (x : zahl) (alt : Z) : Z :=
  match x with
  | Ganz z => z
  | Gleit (Endlich q) => int_von_Q q
  | Gleit _ => alt
  end.

Definition temp_feld (b : bool) (v : jwert) (alt : gleitkomma) : gleitkomma :=
  match als_zahl b v with
  | Some x => als_gleit x
  | None => alt
  end.

Definition feuchte_feld (b : bool) (v : jwert) (alt : gleitkomma) : gleitkomma :=
  match als_zahl b v with
  | Some x => if zahl_le (Ganz 0) x && zahl_le x (Ganz 100) then als_gleit x else alt
  | None => alt
  end.

Definition co2_feld (b : bool) (v : jwert) (alt : Z) : Z :=
  match als_zahl b v with
  | Some x => if zahl_gt x (Ganz 0) then ganzzahl x alt else alt
  | None => alt
  end.

Definition voc_feld (b : bool) (v : jwert) (alt : Z) : Z :=
  match als_zahl b v with
  | Some x => if zahl_ge x (Ganz 0) then ganzzahl x alt else alt
  | None => alt
  end.

(** The state the policy asks for after the update [d]. *)
Definition schwellwerte_feldweise (b : bool) (d : gmap string jwert) (w : welt) : welt :=
  mit_voc_schwelle (voc_feld b (feld d "schwelle_VOC") (aktuelle_voc_schwelle w))
    (mit_co2_schwelle (co2_feld b (feld d "schwelle_CO2") (aktuelle_co2_schwelle w))
       (mit_feuchte_schwelle
          (feuchte_feld b (feld d "schwelle_hum") (aktuelle_feuchte_schwelle w))
          (mit_temp_schwelle
             (temp_feld b (feld d "schwelle_temp") (aktuelle_temp_schwelle w)) w))).

(** The one number that passes the range checks of CO2 and VOC and that
    [int] cannot convert. *)
Definition plus_unendlich (b : bool) (v : jwert) : bool :=
  match als_zahl b v with
  | Some (Gleit (Unendlich false)) => true
  | _ => false
  end.

(** *** The inbound poll of the main loop

    [mqtt_steuerung.mqtt_nachrichten_pruefen()] as the main loop runs it,
    after [mqtt_callback_setzen(mqtt_befehl_empfangen)]: [eingang] is the
    message waiting at the client, if any. *)
Definition nachrichten_pruefen (b : bool)
    (eingang : option (antwort string * antwort json))
    (fehler : option ausnahme) : Prog welt unit :=
  mqtt_steuerung.mqtt_nachrichten_pruefen mqtt mit_mqtt
    (option_map (fun tm => mqtt_befehl_empfangen b (fst tm) (snd tm)) eingang)
    fehler.

(** A program leaves the part [f] of the state as it finds it. *)
Definition erhaelt {S A X} (f : S -> X) (m : Prog S A) : Prop :=
  forall s, f (zustand_nach (m s)) = f s.

Definition beispiel_nutzlast : nutzlast :=
  {| Temperatur := Gleit (Endlich 22); Temperatur_Status := 0;
     Luftfeuchtigkeit := Gleit (Endlich 50); Luftfeuchtigkeit_Status := 0;
     CO2 := 800; CO2_Status := 0;
     VOC := 100; VOC_Status := 0 |}.

(** *** The CCS811 cache *)

(** The cached values are plausible. *)
Definition ccs_gueltig (s : sensorik.zustand) : Prop :=
  400 <= sensorik._letzter_co2_wert s <= 8000 /\ 0 <= sensorik._letzter_voc_wert s.

(** The sensor state after [lese_co2] was called once for each answer of
    the driver in [cs]. *)
Fixpoint abfragen (cs : list sensorik.ccs_antwort) (s : sensorik.zustand)
    : sensorik.zustand :=
  match cs with
  | [] => s
  | c :: cs' => abfragen cs' (zustand_nach (sensorik.lese_co2 c s))
  end.

(** A fresh sample: data ready, [eCO2 = co2], [tVOC = voc]. *)
Definition probe (co2 voc : Z) : sensorik.ccs_antwort :=
  {| sensorik.data_ready := Liefert true;
     sensorik.eCO2 := Liefert co2;
     sensorik.tVOC := Liefert voc |}.

(** ** The rest of aktor_steuerung.py: set-up, tear-down, sequences of calls *)

Module aktor_lebenszyklus.
Import aktor_steuerung.

(** The module variables with the two pin numbers, which only the set-up
    writes. *)
Record modul := {
  kern : zustand;
  _servo_pin_nr : Z;
  _summer_pin_nr : Z }.

Definition mit_kern (k : zustand) (m : modul) : modul :=
  {| kern := k; _servo_pin_nr := _servo_pin_nr m; _summer_pin_nr := _summer_pin_nr m |}.

Definition im_kern {A} (p : Prog zustand A) : Prog modul A := heben kern mit_kern p.

(** The file before [aktoren_initialisieren] runs. *)
Definition modul_anfang : modul :=
  {| kern := anfang; _servo_pin_nr := -1; _summer_pin_nr := -1 |}.

Definition mit_frequenz (f : Z) (s : zustand) : zustand :=
  {| _servo_pwm_objekt := _servo_pwm_objekt s;
     _summer_pwm_objekt := _summer_pwm_objekt s;
     _ist_stummgeschaltet := _ist_stummgeschaltet s;
     _summer_aktuelle_frequenz := f;
     _summer_ist_dauerhaft_an := _summer_ist_dauerhaft_an s |}.

(** [summer_pwm] and [servo_pwm] are the answers of [machine.Pin(...)] with
    [machine.PWM(...)]: a raise, or an output that works ([false]) or is
    defective ([true]). *)
Definition aktoren_initialisieren (servo_pin_nummer summer_pin_nummer summer_frequenz : Z)
    (summer_pwm servo_pwm : antwort bool) : Prog modul unit :=
  aendere (fun m => {| kern := mit_dauerhaft_an false (mit_frequenz summer_frequenz (kern m));
                       _servo_pin_nr := servo_pin_nummer;
                       _summer_pin_nr := summer_pin_nummer |}) ;;
  versuche
    (defekt <- rufe summer_pwm ;;
     m <- lies ;;
     im_kern (aendere (mit_summer
                (Some {| pwm_freq := _summer_aktuelle_frequenz (kern m);
                         pwm_duty := SUMMER_DUTY_AUS;
                         pwm_defekt := defekt |}))))
    (fun _ => im_kern (aendere (mit_summer None))) ;;
  versuche
    (defekt <- rufe servo_pwm ;;
     im_kern (aendere (mit_servo
                (Some {| pwm_freq := SERVO_FREQUENZ; pwm_duty := 0;
                         pwm_defekt := defekt |}))) ;;
     let duty_standard := _winkel_zu_duty SERVO_STANDARD_WINKEL in
     im_kern (servo_duty duty_standard) ;;
     im_kern (sleep_ms 500))
    (fun _ => im_kern (aendere (mit_servo None))).

(** [duty(0)] then [deinit()]; the reference is dropped in the [finally]. *)
Definition aktoren_aufräumen : Prog zustand unit :=
  s <- lies ;;
  wenn (negb (ist_none (_servo_pwm_objekt s)))
    (versuche (servo_duty 0) (fun _ => ret tt) ;;
     aendere (mit_servo None)) ;;
  s <- lies ;;
  wenn (negb (ist_none (_summer_pwm_objekt s)))
    (versuche (summer_duty 0) (fun _ => ret tt) ;;
     aendere (mit_summer None)).

(** A call of one of the public functions. *)
Inductive aufruf :=
  | Piepen (dauer_ms : Z) (frequenz : option Z) (erzwingen : bool)
  | Starten (frequenz : option Z) (erzwingen : bool)
  | Stoppen
  | Stumm (status : bool)
  | Winken (wiederholungen winkel1 winkel2 pause_ms : Z)
  | Winkel (winkel : Z).

Definition ausfuehren (a : aufruf) : Prog zustand unit :=
  match a with
  | Piepen d f e => summer_kurz_piepen d f e
  | Starten f e => summer_starten f e
  | Stoppen => summer_stoppen
  | Stumm b => stumm_schalten b
  | Winken n w1 w2 p => servo_winken n w1 w2 p
  | Winkel w => servo_winkel_setzen w
  end.

(** The calls of [l] one after the other. *)
Fixpoint nacheinander (l : list aufruf) : Prog zustand unit :=
  match l with
  | [] => ret tt
  | a :: l' => ausfuehren a ;; nacheinander l'
  end.

(** A call that neither forces the buzzer nor lifts the mute. *)
Definition ohne_zwang (a : aufruf) : bool :=
  match a with
  | Piepen _ _ e => negb e
  | Starten _ e => negb e
  | Stumm b => b
  | _ => true
  end.

(** For a buzzer that works, the duty cycle is [SUMMER_DUTY_AN] exactly
    when the module has it marked steadily on, and [SUMMER_DUTY_AUS]
    otherwise. *)
Definition summer_treu (s : zustand) : Prop :=
  forall p, _summer_pwm_objekt s = Some p -> pwm_defekt p = false ->
    pwm_duty p = if _summer_ist_dauerhaft_an s then SUMMER_DUTY_AN else SUMMER_DUTY_AUS.

(** A buzzer that is there is not marked steadily on, and at duty 0 when it
    works. *)
Definition summer_still (s : zustand) : Prop :=
  forall p, _summer_pwm_objekt s = Some p ->
    _summer_ist_dauerhaft_an s = false
    /\ (pwm_defekt p = false -> pwm_duty p = SUMMER_DUTY_AUS).

Definition ist_summer_an (e : ereignis) : bool :=
  match e with
  | SummerDuty d => negb (d =? SUMMER_DUTY_AUS)
  | _ => false
  end.

Definition ist_servo_duty (e : ereignis) : bool :=
  match e with ServoDuty _ => true | _ => false end.

(** A write to one of the two PWM drivers. *)
Definition ist_treiber (e : ereignis) : bool :=
  match e with
  | SummerFreq _ | SummerDuty _ | ServoDuty _ => true
  | _ => false
  end.

(** What a working servo is sent by [k] rounds of the wave between the
    duties [d1] and [d2]. *)
Definition winken_schritte (k : nat) (d1 d2 pause_ms : Z) : list ereignis :=
  concat (replicate k [ServoDuty d1; Schlaf_ms pause_ms; ServoDuty d2; Schlaf_ms pause_ms]).

(** The frequency a call uses: its argument, or the one of the set-up. *)
Definition ton (frequenz : option Z) (s : zustand) : Z :=
  match frequenz with Some f => f | None => _summer_aktuelle_frequenz s end.

End aktor_lebenszyklus.

(** ** Runs of the device: timer callbacks and messages in any order *)

(** What happens to the device between two iterations of the main loop:
    the timer fires, the client delivers a message to the callback, or the
    main loop polls the client. *)
Inductive schritt :=
  | Zeitgeber (u : umwelt)
  | Nachricht (topic_bytes : antwort string) (msg : antwort json)
  | Abfrage (eingang : option (antwort string * antwort json))
            (fehler : option ausnahme).

Definition schritt_ausfuehren (b : bool) (x : schritt) : Prog welt unit :=
  match x with
  | Zeitgeber u => sensoren_lesen_verarbeiten_senden u
  | Nachricht topic_bytes msg => mqtt_befehl_empfangen b topic_bytes msg
  | Abfrage eingang fehler => nachrichten_pruefen b eingang fehler
  end.

Fixpoint ablauf (b : bool) (xs : list schritt) : Prog welt unit :=
  match xs with
  | [] => ret tt
  | x :: xs' => schritt_ausfuehren b x ;; ablauf b xs'
  end.

(** The five thresholds. *)
Definition schwellen (w : welt) : gleitkomma * gleitkomma * Z * Z * Z :=
  (aktuelle_temp_schwelle w, aktuelle_feuchte_schwelle w,
   aktuelle_co2_schwelle w, aktuelle_voc_schwelle w,
   aktuelle_co2_kritisch_schwelle w).

(** The ranges the threshold topic is meant to enforce, as far as the code
    keeps them: humidity within 0..100, CO2 and VOC not negative, and the
    critical CO2 threshold at its default. *)
Definition schwellen_gueltig (w : welt) : Prop :=
  zahl_le (Ganz 0) (Gleit (aktuelle_feuchte_schwelle w)) = true
  /\ zahl_le (Gleit (aktuelle_feuchte_schwelle w)) (Ganz 100) = true
  /\ 0 <= aktuelle_co2_schwelle w
  /\ 0 <= aktuelle_voc_schwelle w
  /\ aktuelle_co2_kritisch_schwelle w = STANDARD_CO2_KRITISCH_SCHWELLE.

(** While the critical alarm is active the bookkeeping of the normal alarm
    rests at zero; the counter is never negative. *)
Definition alarm_geordnet (w : welt) : Prop :=
  (kritischer_alarm_aktiv w = true ->
   normal_alarm_zaehler w = 0 /\ normal_alarm_sperre_bis w = 0)
  /\ 0 <= normal_alarm_zaehler w.

(** The control messages that clear the critical alarm. *)
Definition loescht_alarm (topic_bytes : antwort string) (msg : antwort json) : bool :=
  match topic_bytes, msg with
  | Liefert topic, Liefert (JObjekt d) =>
      String.eqb topic mqtt_steuerung.EMPFANGS_TOPIC
      && ((ist_text (feld d "command") "MUTE" && ist_text (feld d "status") "ON")
          || (ist_text (feld d "command") "BUZZER" && ist_text (feld d "status") "OFF"))
  | _, _ => false
  end.

(** What the command callback leaves alone on every message: the link, the
    sensors, the time of the last reading, counter and cooldown of the
    normal alarm, and the critical CO2 threshold. *)
Definition befehl_rahmen (w : welt)
    : mqtt_steuerung.zustand * sensorik.zustand * Z * Z * Z * Z :=
  (mqtt w, sensoren w, letzte_sensorlesung_zeit w, normal_alarm_zaehler w,
   normal_alarm_sperre_bis w, aktuelle_co2_kritisch_schwelle w).

(** The state a run of the callback processes its values in: the time of
    the reading is set and the CCS811 cache refreshed. *)
Definition nach_dem_lesen (u : umwelt) (w : welt) : welt :=
  mit_sensoren (zustand_nach (sensorik.lese_co2 (ccs u) (sensoren w)))
    (mit_lesezeit (zeit u) w).

(** The buzzer [p] sounds steadily. *)
Definition dauerton (p : aktor_steuerung.pwm) (a : aktor_steuerung.zustand) : Prop :=
  aktor_steuerung._summer_pwm_objekt a = Some p
  /\ aktor_steuerung._summer_ist_dauerhaft_an a = true
  /\ aktor_steuerung.pwm_defekt p = false
  /\ aktor_steuerung.pwm_duty p = aktor_steuerung.SUMMER_DUTY_AN.

(** A run of the callback whose CO2 reading is not above the critical
    threshold, whether the reading is valid or not. *)
Definition unkritisch (u : umwelt) (w : welt) : Prop :=
  exists m, werte u w = Some m /\ co2 m <= aktuelle_co2_kritisch_schwelle w.

(** A program keeps the invariant [I]. *)
Definition bewahrt {S A} (I : S -> Prop) (m : Prog S A) : Prop :=
  forall s, I s -> I (zustand_nach (m s)).

(** The payload of a run of the callback on the values [m] in [w]. *)
Definition nutzlast_von (m : messwerte) (w : welt) : nutzlast :=
  {| Temperatur := temp m;
     Temperatur_Status := if ist_temp_alarm m w then 1 else 0;
     Luftfeuchtigkeit := feuchte m;
     Luftfeuchtigkeit_Status := if ist_feuchte_alarm m w then 1 else 0;
     CO2 := co2 m;
     CO2_Status := if ist_co2_kritisch m w then 2 else if ist_co2_alarm m w then 1 else 0;
     VOC := voc m;
     VOC_Status := if ist_voc_alarm m w then 1 else 0 |}.

Definition ist_publish (e : ereignis) : bool :=
  match e with Ruf_publish _ | Veroeffentlicht _ => true | _ => false end.

(** ** main.py: connection management and the main loop *)

Definition WLAN_NEUVERBINDUNG_WARTEZEIT_SEK : Z := 15.
Definition MQTT_NEUVERBINDUNG_WARTEZEIT_SEK : Z := 15.
Definition HAUPTSCHLEIFE_PAUSE_MS : Z := 200.

(** The device with the two flags of the main program; [laeuft] tells
    whether control is still inside [while True]. *)
Record haupt := {
  geraet : welt;
  wlan_ok : bool;
  mqtt_ok : bool;
  laeuft : bool }.

Definition mit_geraet (w : welt) (h : haupt) : haupt :=
  {| geraet := w; wlan_ok := wlan_ok h; mqtt_ok := mqtt_ok h; laeuft := laeuft h |}.
Definition mit_wlan_ok (b : bool) (h : haupt) : haupt :=
  {| geraet := geraet h; wlan_ok := b; mqtt_ok := mqtt_ok h; laeuft := laeuft h |}.
Definition mit_mqtt_ok (b : bool) (h : haupt) : haupt :=
  {| geraet := geraet h; wlan_ok := wlan_ok h; mqtt_ok := b; laeuft := laeuft h |}.
Definition mit_laeuft (b : bool) (h : haupt) : haupt :=
  {| geraet := geraet h; wlan_ok := wlan_ok h; mqtt_ok := mqtt_ok h; laeuft := b |}.

Definition im_geraet {A} (m : Prog welt A) : Prog haupt A := heben geraet mit_geraet m.

(** What the broker answers during one attempt to connect: [connect] as in
    [mqtt_verbinden], the two calls of [subscribe], and [disconnect]. *)
Record verbindung := {
  connect : option ausnahme;
  subscribe_steuerung : option ausnahme;
  subscribe_schwellen : option ausnahme;
  disconnect : option ausnahme }.

(** [mqtt_steuerung.mqtt_client.subscribe(topic)]: on [None] the attribute
    lookup raises. *)
Definition subscribe (fehler : option ausnahme) : Prog mqtt_steuerung.zustand unit :=
  s <- lies ;;
  match mqtt_steuerung.mqtt_client s with
  | None => wirf AndereAusnahme
  | Some _ => rufe_ohne_wert fehler
  end.

Definition mqtt_verbinden_und_abonnieren (v : verbindung) : Prog haupt bool :=
  ok <- im_geraet (im_mqtt (mqtt_steuerung.mqtt_verbinden (connect v))) ;;
  if ok then
    versuche
      (im_geraet (im_mqtt (subscribe (subscribe_steuerung v))) ;;
       im_geraet (im_mqtt (subscribe (subscribe_schwellen v))) ;;
       aendere (mit_mqtt_ok true) ;;
       ret true)
      (fun _ =>
         versuche (im_geraet (im_mqtt (mqtt_steuerung.mqtt_trennen (disconnect v))))
                  (fun _ => ret tt) ;;
         aendere (mit_mqtt_ok false) ;;
         ret false)
  else
    aendere (mit_mqtt_ok false) ;;
    ret false.

(** Lines 287-296: the start of the program.  [wlan] is the answer of
    [wifi_setup.wlan_verbinden()]. *)
Definition programmstart (wlan : antwort bool) (v : verbindung) : Prog haupt unit :=
  ok <- rufe wlan ;;
  aendere (mit_wlan_ok ok) ;;
  aendere (mit_mqtt_ok false) ;;
  wenn ok
    (ok' <- mqtt_verbinden_und_abonnieren v ;;
     aendere (mit_mqtt_ok ok')).

(** What the outside answers during one iteration of the main loop:
    [wifi_setup.wlan_ist_verbunden()], [wifi_setup.wlan_verbinden()], the
    broker, the message waiting at the client and the answer of
    [check_msg()]. *)
Record runde := {
  wlan_ist_verbunden : antwort bool;
  wlan_verbinden : antwort bool;
  broker : verbindung;
  eingang : option (antwort string * antwort json);
  check_fehler : option ausnahme }.

(** [try: mqtt_steuerung.mqtt_trennen() except: pass] *)
Definition trennen_versuchen (v : verbindung) : Prog haupt unit :=
  versuche (im_geraet (im_mqtt (mqtt_steuerung.mqtt_trennen (disconnect v))))
           (fun _ => ret tt).

(** "Verbindungsmanagement" (lines 313-326).  [time.sleep(s)] is logged as
    a pause of [s * 1000] milliseconds. *)
Definition verbindungen_verwalten (r : runde) : Prog haupt unit :=
  verbunden <- rufe (wlan_ist_verbunden r) ;;
  h <- lies ;;
  if negb verbunden then
    wenn (mqtt_ok h)
      (trennen_versuchen (broker r) ;;
       aendere (mit_mqtt_ok false)) ;;
    melde (Schlaf_ms (WLAN_NEUVERBINDUNG_WARTEZEIT_SEK * 1000)) ;;
    ok <- rufe (wlan_verbinden r) ;;
    aendere (mit_wlan_ok ok) ;;
    wenn ok (aendere (mit_mqtt_ok false))
  else if wlan_ok h && negb (mqtt_ok h) then
    melde (Schlaf_ms (MQTT_NEUVERBINDUNG_WARTEZEIT_SEK * 1000)) ;;
    ok <- mqtt_verbinden_und_abonnieren (broker r) ;;
    aendere (mit_mqtt_ok ok)
  else ret tt.

(** "Eingehende MQTT Nachrichten pruefen" (lines 329-338). *)
Definition nachrichten_abholen (b : bool) (r : runde) : Prog haupt unit :=
  h <- lies ;;
  wenn (mqtt_ok h)
    (versuche
       (im_geraet (nachrichten_pruefen b (eingang r) (check_fehler r)) ;;
        v <- im_geraet (im_mqtt mqtt_steuerung.mqtt_ist_verbunden) ;;
        wenn (negb v) (aendere (mit_mqtt_ok false)))
       (fun _ =>
          aendere (mit_mqtt_ok false) ;;
          trennen_versuchen (broker r))).

(** The body of [while True] (lines 312-341). *)
Definition schleifenrunde (b : bool) (r : runde) : Prog haupt unit :=
  verbindungen_verwalten r ;;
  nachrichten_abholen b r ;;
  melde (Schlaf_ms HAUPTSCHLEIFE_PAUSE_MS).

(** The main loop and the timer: the timer fires between two iterations of
    the loop, and goes on firing when the loop has been left. *)
Inductive takt :=
  | Runde (r : runde)
  | Timer (u : umwelt).

(** [try: while True: <body> except Exception: print(...)]: the first
    exception of the body ends the loop. *)
Definition takt_ausfuehren (b : bool) (t : takt) : Prog haupt unit :=
  match t with
  | Runde r =>
      h <- lies ;;
      wenn (laeuft h)
        (versuche (schleifenrunde b r) (fun _ => aendere (mit_laeuft false)))
  | Timer u => im_geraet (sensoren_lesen_verarbeiten_senden u)
  end.

Fixpoint hauptschleife (b : bool) (ts : list takt) : Prog haupt unit :=
  match ts with
  | [] => ret tt
  | t :: ts' => takt_ausfuehren b t ;; hauptschleife b ts'
  end.

(** The timer callbacks among [ts]. *)
Fixpoint zeitgeber (ts : list takt) : list umwelt :=
  match ts with
  | [] => []
  | Runde _ :: ts' => zeitgeber ts'
  | Timer u :: ts' => u :: zeitgeber ts'
  end.

(** A call into [wifi_setup] raises during the round. *)
Definition wlan_wirft (r : runde) : bool :=
  match wlan_ist_verbunden r with
  | Scheitert _ => true
  | Liefert true => false
  | Liefert false =>
      match wlan_verbinden r with
      | Scheitert _ => true
      | Liefert _ => false
      end
  end.

(** The link is up and the main program knows it. *)
Definition verbindung_steht (h : haupt) : Prop :=
  mqtt_ok h = true
  /\ mqtt_steuerung.mqtt_verbunden (mqtt (geraet h)) = true
  /\ mqtt_steuerung.mqtt_client (mqtt (geraet h)) = Some mqtt_steuerung.MQTTClient.

(** A round in which the WLAN is up, the broker accepts the connection and
    both subscriptions, and the poll does not lose the link. *)
Definition runde_gelingt (r : runde) : Prop :=
  wlan_ist_verbunden r = Liefert true
  /\ connect (broker r) = None
  /\ subscribe_steuerung (broker r) = None
  /\ subscribe_schwellen (broker r) = None
  /\ check_fehler r <> Some OSError.

(** The client object is there whenever the module says it is connected. *)
Definition verbindung_stimmig (m : mqtt_steuerung.zustand) : Prop :=
  mqtt_steuerung.mqtt_verbunden m = true ->
  mqtt_steuerung.mqtt_client m = Some mqtt_steuerung.MQTTClient.

(** A round in which the WLAN is up, the broker accepts the connection and
    both subscriptions, and no message is waiting. *)
Definition gute_runde : runde :=
  {| wlan_ist_verbunden := Liefert true;
     wlan_verbinden := Liefert true;
     broker := {| connect := None; subscribe_steuerung := None;
                  subscribe_schwellen := None; disconnect := None |};
     eingang := None;
     check_fehler := None |}.

(** ** wifi_setup.py: the WLAN station *)

Module wifi_setup.

Definition WLAN_VERBINDUNGS_TIMEOUT_SEK : Z := 20.

(** [_wlan_interface]: [None], or the station interface, of which the module
    switches the active flag. *)
Record zustand := { _wlan_interface : option bool }.

Definition anfang : zustand := {| _wlan_interface := None |}.

Definition mit_aktiv (a : bool) (s : zustand) : zustand :=
  {| _wlan_interface := Some a |}.

(** [isconnected] is the answer of [_wlan_interface.isconnected()], which
    is only asked of an interface that is there and active. *)
Definition wlan_ist_verbunden (isconnected : antwort bool) : Prog zustand bool :=
  s <- lies ;;
  match _wlan_interface s with
  | Some true => rufe isconnected
  | _ => ret false
  end.

(** What the outside answers during one call of [wlan_verbinden]: the first
    [isconnected()], [network.WLAN(network.STA_IF)] with the active flag the
    new object reports, [active(True)], [connect(...)], [time.time()] before
    the loop, then for each turn of the loop [isconnected()] with the
    [time.time()] read after a negative answer, and [disconnect()] and
    [active(False)] after the timeout. *)
Record versuch := {
  zuerst : antwort bool;
  erzeugen : antwort bool;
  aktivieren : option ausnahme;
  aufbauen : option ausnahme;
  start_zeit : Z;
  abfragen : list (antwort bool * Z);
  abbrechen : option ausnahme;
  deaktivieren : option ausnahme }.

(** [while not _wlan_interface.isconnected(): ...].  The result is [None]
    when the answers of [polls] are used up and the loop is still waiting. *)
Fixpoint warten (v : versuch) (polls : list (antwort bool * Z))
    : Prog zustand (option bool) :=
  match polls with
  | [] => ret None
  | (isconnected, jetzt) :: rest =>
      verbunden <- rufe isconnected ;;
      if verbunden then ret (Some true)
      else if WLAN_VERBINDUNGS_TIMEOUT_SEK <? jetzt - start_zeit v then
        versuche
          (rufe_ohne_wert (abbrechen v) ;;
           rufe_ohne_wert (deaktivieren v) ;;
           aendere (mit_aktiv false))
          (fun _ => ret tt) ;;
        ret (Some false)
      else
        melde (Schlaf_ms 1000) ;;
        warten v rest
  end.

Definition wlan_verbinden (v : versuch) : Prog zustand (option bool) :=
  verbunden <- wlan_ist_verbunden (zuerst v) ;;
  if verbunden then ret (Some true)
  else
    s <- lies ;;
    da <- (if ist_none (_wlan_interface s)
           then versuche
                  (aktiv <- rufe (erzeugen v) ;;
                   aendere (mit_aktiv aktiv) ;;
                   ret true)
                  (fun _ => ret false)
           else ret true) ;;
    if negb da then ret (Some false)
    else
      s <- lies ;;
      an <- (match _wlan_interface s with
             | Some false =>
                 versuche
                   (rufe_ohne_wert (aktivieren v) ;;
                    aendere (mit_aktiv true) ;;
                    melde (Schlaf_ms 1000) ;;
                    ret true)
                   (fun _ => ret false)
             | _ => ret true
             end) ;;
      if negb an then ret (Some false)
      else
        begonnen <- versuche (rufe_ohne_wert (aufbauen v) ;; ret true)
                             (fun _ => ret false) ;;
        if negb begonnen then ret (Some false)
        else warten v (abfragen v).

(** [isconnected], [disconnect] and [deactivate] are the answers of
    [isconnected()], [disconnect()] and [active(False)]. *)
Definition wlan_trennen (isconnected : antwort bool)
    (disconnect deactivate : option ausnahme) : Prog zustand unit :=
  s <- lies ;;
  match _wlan_interface s with
  | Some true =>
      versuche
        (verbunden <- rufe isconnected ;;
         wenn verbunden (rufe_ohne_wert disconnect) ;;
         rufe_ohne_wert deactivate ;;
         aendere (mit_aktiv false))
        (fun _ => ret tt)
  | _ => ret tt
  end.

(** The clock read in the loop: it never runs backwards, and a turn that
    slept one second reads at least one second more. *)
Fixpoint uhr_laeuft (t : Z) (polls : list (antwort bool * Z)) : Prop :=
  match polls with
  | [] => True
  | (_, jetzt) :: rest => t <= jetzt /\ uhr_laeuft (jetzt + 1) rest
  end.

(** No [isconnected()] of the loop raises. *)
Definition antworten (polls : list (antwort bool * Z)) : Prop :=
  Forall (fun p => exists b, fst p = Liefert b) polls.

End wifi_setup.

(** * Properties *)

(** ** The monad *)

Lemma heben_bind {S T A B} (hole : T -> S) (setze : S -> T -> T)
    (m : Prog S A) (k : A -> Prog S B) :
  (forall s t, hole (setze s t) = s) ->
  (forall s1 s2 t, setze s2 (setze s1 t) = setze s2 t) ->
  forall t, heben hole setze (bind m k) t
            = bind (heben hole setze m) (fun a => heben hole setze (k a)) t.
Proof.
  intros Hgs Hss t. unfold heben, bind.
  destruct (m (hole t)) as [[[a|e] s1] l1]; [|reflexivity].
  rewrite Hgs. destruct (k a s1) as [[r s2] l2]. now rewrite Hss.
Qed.

(** ** sensorik.py *)

Lemma lese_temperatur_fertig r s :
  exists v, sensorik.lese_temperatur r s = (Fertig v, s, []).
Proof.
  unfold sensorik.lese_temperatur, bind, lies, versuche, versuche_wenn, rufe, ret, wirf.
  destruct (sensorik._sensor_aht10 s); [|eauto].
  destruct r as [x|e]; cbn; [|eauto].
  destruct (_ && _); eauto.
Qed.

Lemma lese_feuchtigkeit_fertig r s :
  exists v, sensorik.lese_feuchtigkeit r s = (Fertig v, s, []).
Proof.
  unfold sensorik.lese_feuchtigkeit, bind, lies, versuche, versuche_wenn, rufe, ret, wirf.
  destruct (sensorik._sensor_aht10 s); [|eauto].
  destruct r as [x|e]; cbn; [|eauto].
  destruct (_ && _); eauto.
Qed.

Lemma aktualisiere_ccs_daten_fertig c s :
  exists s', sensorik._aktualisiere_ccs_daten c s = (Fertig tt, s', [])
    /\ (s' = s \/
        exists co2 voc, sensorik.eCO2 c = Liefert co2 /\ sensorik.tVOC c = Liefert voc
          /\ ccs_bereich co2 voc = true /\ s' = sensorik.mit_ccs_werten co2 voc s).
Proof.
  unfold sensorik._aktualisiere_ccs_daten, bind, lies, wenn, versuche, versuche_wenn,
    rufe, ret, wirf, aendere.
  destruct (sensorik._sensor_ccs s); [|eauto].
  destruct c as [[[|]|e] co2 voc]; cbn; eauto.
  destruct co2 as [x|e]; cbn; eauto.
  destruct voc as [y|e]; cbn; eauto.
  destruct (_ && _) eqn:Hb; cbn; eauto 10.
Qed.

Lemma alle_lesen_fertig u s :
  exists m s', alle_lesen u s = (Fertig m, s', []).
Proof.
  unfold alle_lesen, sensorik.lese_co2, sensorik.lese_voc, bind.
  destruct (lese_temperatur_fertig (aht_temperature u) s) as [t ->].
  destruct (lese_feuchtigkeit_fertig (aht_humidity u) s) as [f ->].
  destruct (aktualisiere_ccs_daten_fertig (ccs u) s) as [s' [-> _]].
  cbn. eauto.
Qed.

Lemma sensoren_lesen_alle u w :
  sensoren_lesen u w = heben sensoren mit_sensoren (alle_lesen u) w.
Proof.
  unfold sensoren_lesen, alle_lesen, im_sensorik, sensorik.lese_co2, sensorik.lese_voc,
    heben, bind.
  destruct (lese_temperatur_fertig (aht_temperature u) (sensoren w)) as [t ->].
  cbn [sensoren mit_sensoren].
  destruct (lese_feuchtigkeit_fertig (aht_humidity u) (sensoren w)) as [f ->].
  cbn [sensoren mit_sensoren].
  destruct (aktualisiere_ccs_daten_fertig (ccs u) (sensoren w)) as [s' [-> _]].
  reflexivity.
Qed.

Lemma werte_lesezeit u t w : werte u (mit_lesezeit t w) = werte u w.
Proof.
  unfold werte. rewrite !sensoren_lesen_alle. unfold heben.
  cbn [sensoren mit_lesezeit].
  now destruct (alle_lesen u (sensoren w)) as [[r s] l].
Qed.

Lemma werte_gibt_es u w : exists m, werte u w = Some m.
Proof.
  unfold werte. rewrite sensoren_lesen_alle. unfold heben.
  destruct (alle_lesen_fertig u (sensoren w)) as (m & s' & ->). cbn. eauto.
Qed.

Lemma sensoren_lesen_werte u w m :
  werte u w = Some m ->
  exists s', sensoren_lesen u w = (Fertig m, mit_sensoren s' w, []).
Proof.
  unfold werte. rewrite sensoren_lesen_alle. unfold heben.
  destruct (alle_lesen_fertig u (sensoren w)) as (m' & s' & ->). cbn.
  intros [= ->]. eauto.
Qed.

(** The callback is the processing of the values read, run in the state the
    reads leave. *)
Lemma tick_zerlegung u w m :
  werte u w = Some m ->
  exists s',
    sensoren_lesen_verarbeiten_senden u w
    = versuche (verarbeiten_senden u m) (fun _ => ret tt)
        (mit_sensoren s' (mit_lesezeit (zeit u) w)).
Proof.
  intros Hm. rewrite <- (werte_lesezeit u (zeit u)) in Hm.
  destruct (sensoren_lesen_werte _ _ _ Hm) as [s' Hs]. exists s'.
  unfold sensoren_lesen_verarbeiten_senden, bind at 1, aendere.
  unfold versuche, versuche_wenn, bind at 1. rewrite Hs.
  destruct (verarbeiten_senden u m _) as [[[[]|e] w2] l2]; cbn.
  - reflexivity.
  - destruct (ret tt w2) eqn:E. reflexivity.
Qed.

(** ** Programs that always finish *)

Lemma lauf_ergebnis {S A} (r : ausgang A * S * list ereignis) :
  r = (ergebnis r, zustand_nach r, protokoll r).
Proof. now destruct r as [[? ?] ?]. Qed.

Lemma bind_fertig {S A B} (m : Prog S A) (k : A -> Prog S B) s a :
  ergebnis (m s) = Fertig a ->
  bind m k s
  = (ergebnis (k a (zustand_nach (m s))),
     zustand_nach (k a (zustand_nach (m s))),
     protokoll (m s) ++ protokoll (k a (zustand_nach (m s)))).
Proof.
  unfold bind. destruct (m s) as [[r s1] l1]. cbn. intros ->.
  now destruct (k a s1) as [[? ?] ?].
Qed.

Lemma bind_geworfen {S A B} (m : Prog S A) (k : A -> Prog S B) s e :
  ergebnis (m s) = Geworfen e ->
  bind m k s = (Geworfen e, zustand_nach (m s), protokoll (m s)).
Proof. unfold bind. destruct (m s) as [[r s1] l1]. cbn. now intros ->. Qed.

Lemma heben_lauf {S T A} (hole : T -> S) (setze : S -> T -> T) (m : Prog S A) t :
  heben hole setze m t
  = (ergebnis (m (hole t)), setze (zustand_nach (m (hole t))) t, protokoll (m (hole t))).
Proof. unfold heben. now destruct (m (hole t)) as [[? ?] ?]. Qed.

(** ** aktor_steuerung.py *)

Module aktor_fakten.
Import aktor_steuerung.

Ltac faelle s :=
  destruct s as [servo summer stumm freq dauer];
  destruct summer as [[sf sd [|]]|];
  destruct servo as [[vf vd [|]]|];
  destruct stumm, dauer.

Ltac schliesse :=
  cbn;
  repeat match goal with
         | |- _ /\ _ => split
         | |- forall _, _ => intro
         | H : Some _ = Some _ |- _ => inversion H; subst; clear H
         | H : None = Some _ |- _ => discriminate H
         | H : true = false |- _ => discriminate H
         | H : false = true |- _ => discriminate H
         end;
  cbn in *; try reflexivity; try congruence.

Lemma summer_stoppen_fertig s : ergebnis (summer_stoppen s) = Fertig tt.
Proof. faelle s; reflexivity. Qed.

Lemma summer_starten_fertig f e s : ergebnis (summer_starten f e s) = Fertig tt.
Proof. faelle s; destruct e; reflexivity. Qed.

Lemma summer_kurz_piepen_fertig d f e s : ergebnis (summer_kurz_piepen d f e s) = Fertig tt.
Proof. faelle s; destruct e; reflexivity. Qed.

Lemma servo_winken_fertig s : ergebnis (servo_winken 3 45 135 400 s) = Fertig tt.
Proof. faelle s; reflexivity. Qed.

Lemma stumm_schalten_fertig b s : ergebnis (stumm_schalten b s) = Fertig tt.
Proof. faelle s; destruct b; reflexivity. Qed.

(** Forced start: the call is logged first; a present, working buzzer ends
    steadily on, whatever the mute flag; nothing else changes. *)
Lemma summer_starten_erzwungen s :
  exists l,
    protokoll (summer_starten None true s) = Ruf_summer_starten true :: l
    /\ anzahl ist_normal_ausloesung l = 0%nat
    /\ anzahl ist_wecken l = 0%nat.
Proof. faelle s; eexists; (split; [reflexivity|split; reflexivity]). Qed.

Lemma summer_starten_erzwungen_zustand s :
  let s' := zustand_nach (summer_starten None true s) in
  _ist_stummgeschaltet s' = _ist_stummgeschaltet s
  /\ _servo_pwm_objekt s' = _servo_pwm_objekt s
  /\ _summer_aktuelle_frequenz s' = _summer_aktuelle_frequenz s
  /\ (forall p, _summer_pwm_objekt s = Some p -> pwm_defekt p = false ->
       _summer_pwm_objekt s'
       = Some {| pwm_freq := _summer_aktuelle_frequenz s;
                 pwm_duty := SUMMER_DUTY_AN; pwm_defekt := false |}
       /\ _summer_ist_dauerhaft_an s' = true).
Proof.
  faelle s; schliesse.
Qed.

Lemma summer_starten_erzwungen_idempotent s :
  zustand_nach (summer_starten None true (zustand_nach (summer_starten None true s)))
  = zustand_nach (summer_starten None true s).
Proof. faelle s; reflexivity. Qed.

(** Stop: the call is logged; a present buzzer is no longer marked steadily
    on, and a working one is driven to duty 0. *)
Lemma summer_stoppen_protokoll s :
  exists l,
    protokoll (summer_stoppen s) = Ruf_summer_stoppen :: l
    /\ anzahl ist_normal_ausloesung l = 0%nat
    /\ anzahl ist_wecken l = 0%nat.
Proof. faelle s; eexists; (split; [reflexivity|split; reflexivity]). Qed.

Lemma summer_stoppen_zustand s :
  let s' := zustand_nach (summer_stoppen s) in
  _ist_stummgeschaltet s' = _ist_stummgeschaltet s
  /\ _servo_pwm_objekt s' = _servo_pwm_objekt s
  /\ (forall p, _summer_pwm_objekt s = Some p ->
       _summer_ist_dauerhaft_an s' = false
       /\ (pwm_defekt p = false ->
           _summer_pwm_objekt s'
           = Some {| pwm_freq := pwm_freq p; pwm_duty := SUMMER_DUTY_AUS;
                     pwm_defekt := false |})).
Proof.
  faelle s; schliesse.
Qed.

(** The short beep of a muted device: logged, and nothing else. *)
Lemma summer_kurz_piepen_stumm d f s :
  _ist_stummgeschaltet s = true ->
  summer_kurz_piepen d f false s = (Fertig tt, s, [Ruf_summer_kurz_piepen false]).
Proof. faelle s; schliesse. Qed.

Lemma summer_kurz_piepen_protokoll s :
  exists l,
    protokoll (summer_kurz_piepen SUMMER_PIEP_DAUER_MS None false s)
    = Ruf_summer_kurz_piepen false :: l
    /\ anzahl ist_piep l = 0%nat /\ anzahl ist_winken l = 0%nat
    /\ anzahl ist_wecken l = 0%nat
    /\ (forall p, _summer_pwm_objekt s = Some p -> pwm_defekt p = false ->
         _ist_stummgeschaltet s = false -> _summer_ist_dauerhaft_an s = false ->
         l = piep_folge (_summer_aktuelle_frequenz s)).
Proof.
  faelle s; eexists; (split; [reflexivity|]); schliesse.
Qed.

Lemma summer_kurz_piepen_zustand s :
  let s' := zustand_nach (summer_kurz_piepen SUMMER_PIEP_DAUER_MS None false s) in
  _ist_stummgeschaltet s' = _ist_stummgeschaltet s
  /\ _servo_pwm_objekt s' = _servo_pwm_objekt s.
Proof. faelle s; cbn; split; reflexivity. Qed.

(** The wave: logged; it never drives the buzzer; a present, working servo
    is sent [winken_folge]. *)
Lemma servo_winken_protokoll s :
  exists l,
    protokoll (servo_winken 3 45 135 400 s) = Ruf_servo_winken 3 :: l
    /\ anzahl ist_piep l = 0%nat /\ anzahl ist_winken l = 0%nat
    /\ anzahl ist_wecken l = 0%nat
    /\ anzahl treibt_summer l = 0%nat
    /\ (forall p, _servo_pwm_objekt s = Some p -> pwm_defekt p = false ->
         l = winken_folge).
Proof.
  faelle s; eexists; (split; [reflexivity|]); schliesse.
Qed.

Lemma servo_winken_zustand s :
  let s' := zustand_nach (servo_winken 3 45 135 400 s) in
  _ist_stummgeschaltet s' = _ist_stummgeschaltet s
  /\ _summer_pwm_objekt s' = _summer_pwm_objekt s
  /\ _summer_ist_dauerhaft_an s' = _summer_ist_dauerhaft_an s.
Proof. faelle s; cbn; repeat split; reflexivity. Qed.

(** Muting: the flag is set and the buzzer is stopped at once. *)
Lemma stumm_schalten_an s :
  let r := stumm_schalten true s in
  let s' := zustand_nach r in
  protokoll r = Ruf_stumm_schalten true :: protokoll (summer_stoppen (mit_stumm true s))
  /\ s' = zustand_nach (summer_stoppen (mit_stumm true s))
  /\ _ist_stummgeschaltet s' = true
  /\ (forall p, _summer_pwm_objekt s = Some p ->
       _summer_ist_dauerhaft_an s' = false
       /\ (pwm_defekt p = false ->
           _summer_pwm_objekt s'
           = Some {| pwm_freq := pwm_freq p; pwm_duty := SUMMER_DUTY_AUS;
                     pwm_defekt := false |})).
Proof.
  faelle s; schliesse.
Qed.

Lemma stumm_schalten_aus s :
  stumm_schalten false s = (Fertig tt, mit_stumm false s, [Ruf_stumm_schalten false]).
Proof. faelle s; reflexivity. Qed.

End aktor_fakten.

(** ** The stages of the timer callback *)

Arguments aktor_steuerung.summer_stoppen : simpl never.
Arguments aktor_steuerung.summer_starten : simpl never.
Arguments aktor_steuerung.summer_kurz_piepen : simpl never.
Arguments aktor_steuerung.servo_winken : simpl never.
Arguments aktor_steuerung.stumm_schalten : simpl never.

Lemma alarm_kritisch_an u sn w :
  alarm_kritisch u true sn w
  = let ra := aktor_steuerung.summer_starten None true (aktor w) in
    let w1 := mit_aktor (zustand_nach ra) w in
    if kritischer_alarm_aktiv w then (Fertig tt, w1, protokoll ra)
    else (wurf (backlight u),
          mit_sperre_bis 0 (mit_zaehler 0 (mit_kritisch true w1)),
          protokoll ra ++ [Ruf_backlight_einschalten]).
Proof.
  pose proof (aktor_fakten.summer_starten_fertig None true (aktor w)) as Hf.
  unfold alarm_kritisch, im_aktor, heben, bind, backlight_einschalten, bind.
  destruct (aktor_steuerung.summer_starten None true (aktor w)) as [[r a] l].
  cbn in Hf. subst r. cbn.
  destruct (kritischer_alarm_aktiv w); cbn.
  - now rewrite app_nil_r.
  - destruct (backlight u); cbn; reflexivity.
Qed.

Lemma alarm_kritisch_aus u sn w :
  alarm_kritisch u false sn w
  = if kritischer_alarm_aktiv w then
      let ra := aktor_steuerung.summer_stoppen (aktor w) in
      let w1 := mit_kritisch false (mit_aktor (zustand_nach ra) w) in
      (Fertig tt,
       if sn then mit_zaehler 0 (mit_sperre_bis (zeit u + NORMAL_ALARM_SPERRE_SEK) w1)
       else w1,
       protokoll ra)
    else (Fertig tt, w, []).
Proof.
  pose proof (aktor_fakten.summer_stoppen_fertig (aktor w)) as Hf.
  unfold alarm_kritisch, im_aktor, heben, bind.
  cbn [lies].
  destruct (kritischer_alarm_aktiv w); cbn; [|reflexivity].
  destruct (aktor_steuerung.summer_stoppen (aktor w)) as [[r a] l].
  cbn in Hf. subst r. cbn.
  destruct sn; cbn; now rewrite ?app_nil_r.
Qed.

Lemma alarm_normal_gesperrt u sn w :
  kritischer_alarm_aktiv w = true ->
  alarm_normal u sn w = (Fertig tt, w, []).
Proof. intros H. unfold alarm_normal, bind. cbn. now rewrite H. Qed.

(** The normal stage when some threshold is exceeded. *)
Lemma alarm_normal_ueberschritten u w :
  kritischer_alarm_aktiv w = false ->
  alarm_normal u true w
  = let w1 := mit_zaehler (normal_alarm_zaehler w + 1) w in
    if (NORMAL_ALARM_AUSLOESE_ZAEHLER <=? normal_alarm_zaehler w + 1)
       && (normal_alarm_sperre_bis w <? zeit u)
    then
      let rp := aktor_steuerung.summer_kurz_piepen
                  aktor_steuerung.SUMMER_PIEP_DAUER_MS None false (aktor w) in
      let rw := aktor_steuerung.servo_winken 3 45 135 400 (zustand_nach rp) in
      let w2 := mit_aktor (zustand_nach rw) w1 in
      (wurf (backlight u),
       match backlight u with
       | None => mit_zaehler 0 (mit_sperre_bis (zeit u + NORMAL_ALARM_SPERRE_SEK) w2)
       | Some _ => w2
       end,
       protokoll rp ++ protokoll rw ++ [Ruf_backlight_einschalten])
    else (Fertig tt, w1, []).
Proof.
  intros H.
  pose proof (aktor_fakten.summer_kurz_piepen_fertig
                aktor_steuerung.SUMMER_PIEP_DAUER_MS None false (aktor w)) as Hp.
  unfold alarm_normal, bind. cbn [lies]. rewrite H.
  cbn -[Z.add Z.leb Z.ltb].
  destruct (_ && _); [|reflexivity].
  cbn -[Z.add Z.leb Z.ltb].
  unfold im_aktor, heben, bind, backlight_einschalten, bind.
  cbn -[Z.add Z.leb Z.ltb].
  destruct (aktor_steuerung.summer_kurz_piepen _ _ _ _) as [[r a] l].
  cbn in Hp. subst r.
  cbn -[Z.add Z.leb Z.ltb].
  pose proof (aktor_fakten.servo_winken_fertig a) as Hw.
  destruct (aktor_steuerung.servo_winken 3 45 135 400 a) as [[r a'] l'].
  cbn in Hw. subst r.
  destruct (backlight u); cbn; now rewrite ?app_nil_r, <- ?app_assoc.
Qed.

Lemma alarm_normal_ruhig u w :
  kritischer_alarm_aktiv w = false ->
  alarm_normal u false w
  = (Fertig tt,
     (let w1 := if 0 <? normal_alarm_zaehler w then mit_zaehler 0 w else w in
      if 0 <? normal_alarm_sperre_bis w then mit_sperre_bis 0 w1 else w1),
     []).
Proof.
  intros H. unfold alarm_normal, bind. cbn [lies]. rewrite H.
  cbn -[Z.ltb].
  destruct (0 <? normal_alarm_zaehler w); cbn -[Z.ltb];
    destruct (0 <? normal_alarm_sperre_bis w); reflexivity.
Qed.

Lemma daten_senden_fertig u m b1 b2 b3 b4 b5 w :
  exists mq l,
    daten_senden u m b1 b2 b3 b4 b5 w = (Fertig tt, mit_mqtt mq w, l)
    /\ Forall (fun e => ist_aktor_ereignis e = false) l.
Proof.
  unfold daten_senden, im_mqtt, heben, bind, mqtt_steuerung.mqtt_ist_verbunden,
    mqtt_steuerung.mqtt_senden, mqtt_steuerung.versuche_os, versuche, versuche_wenn, bind.
  cbn. destruct w as [a s [c v cb] ? ? ? ? ? ? ? ? ?]. cbn.
  destruct v; cbn.
  - destruct c; cbn.
    + destruct (publish u) as [[|]|]; cbn; eexists _, _; (split; [reflexivity|]);
        repeat constructor.
    + eexists _, _; (split; [reflexivity|]); repeat constructor.
  - eexists _, _; (split; [reflexivity|]); repeat constructor.
Qed.

Lemma mit_mqtt_gleich w : mit_mqtt (mqtt w) w = w.
Proof. now destruct w. Qed.

(** A run of the callback on valid values: the display update, the two
    alarm stages, and a publish that touches the link only. *)
Lemma tick_alarm_logik u w m :
  werte u w = Some m ->
  ungueltig m = false ->
  exists s' mq l,
    let r := alarm_logik u m (mit_sensoren s' (mit_lesezeit (zeit u) w)) in
    let t := sensoren_lesen_verarbeiten_senden u w in
    ergebnis t = Fertig tt
    /\ zustand_nach t = mit_mqtt mq (zustand_nach r)
    /\ protokoll t = Ruf_display_aktualisieren :: protokoll r ++ l
    /\ Forall (fun e => ist_aktor_ereignis e = false) l.
Proof.
  intros Hm Hg. destruct (tick_zerlegung _ _ _ Hm) as [s' Ht]. exists s'.
  cbn zeta. rewrite Ht. clear Ht.
  set (w0 := mit_sensoren s' (mit_lesezeit (zeit u) w)).
  unfold alarm_logik, versuche, versuche_wenn, verarbeiten_senden. rewrite Hg.
  change (ist_temp_alarm m w0 || ist_feuchte_alarm m w0 || ist_co2_alarm m w0
          || ist_voc_alarm m w0) with (soll_normal_alarm m w0).
  unfold bind, display_aktualisieren. cbn [lies melde].
  destruct (alarm_kritisch u _ _ w0) as [[[[]|e] wk] lk]; cbn [ret].
  - destruct (alarm_normal u _ wk) as [[[[]|e] wn] ln]; cbn [ret].
    + destruct (daten_senden_fertig u m (ist_temp_alarm m w0) (ist_feuchte_alarm m w0)
                  (ist_co2_alarm m w0) (ist_voc_alarm m w0) (ist_co2_kritisch m w0) wn)
        as (mq & l & -> & Hl).
      exists mq, l. cbn. rewrite app_assoc. auto.
    + exists (mqtt wn), []. cbn. rewrite mit_mqtt_gleich, !app_nil_r. auto.
  - exists (mqtt wk), []. cbn. rewrite mit_mqtt_gleich, !app_nil_r. auto.
Qed.

(** ** The alarm stages in the three situations *)

(** CO2 above the critical threshold. *)
Lemma alarm_logik_kritisch u m w :
  ist_co2_kritisch m w = true ->
  alarm_logik u m w
  = let ra := aktor_steuerung.summer_starten None true (aktor w) in
    let w1 := mit_aktor (zustand_nach ra) w in
    if kritischer_alarm_aktiv w then (Fertig tt, w1, protokoll ra)
    else (wurf (backlight u),
          mit_sperre_bis 0 (mit_zaehler 0 (mit_kritisch true w1)),
          protokoll ra ++ [Ruf_backlight_einschalten]).
Proof.
  intros Hk. unfold alarm_logik, bind. rewrite Hk, alarm_kritisch_an. cbn zeta.
  destruct (kritischer_alarm_aktiv w) eqn:Ha.
  - rewrite alarm_normal_gesperrt by exact Ha. now rewrite app_nil_r.
  - destruct (backlight u); cbn [wurf]; [reflexivity|].
    rewrite alarm_normal_gesperrt by reflexivity. f_equal. apply app_nil_r.
Qed.

(** CO2 back at or below the critical threshold while the critical alarm
    is active. *)
Lemma alarm_logik_entwarnung u m w :
  ist_co2_kritisch m w = false ->
  kritischer_alarm_aktiv w = true ->
  alarm_logik u m w
  = let ra := aktor_steuerung.summer_stoppen (aktor w) in
    let w1 := mit_kritisch false (mit_aktor (zustand_nach ra) w) in
    (Fertig tt,
     (if soll_normal_alarm m w
      then mit_zaehler 1 (mit_zaehler 0
             (mit_sperre_bis (zeit u + NORMAL_ALARM_SPERRE_SEK) w1))
      else
        let w2 := if 0 <? normal_alarm_zaehler w then mit_zaehler 0 w1 else w1 in
        if 0 <? normal_alarm_sperre_bis w then mit_sperre_bis 0 w2 else w2),
     protokoll ra).
Proof.
  intros Hk Ha. unfold alarm_logik, bind. rewrite Hk, alarm_kritisch_aus, Ha. cbn zeta.
  destruct (soll_normal_alarm m w).
  - rewrite alarm_normal_ueberschritten by reflexivity.
    cbn [normal_alarm_zaehler mit_zaehler].
    change (NORMAL_ALARM_AUSLOESE_ZAEHLER <=? 0 + 1) with false.
    cbn [andb]. now rewrite app_nil_r.
  - rewrite alarm_normal_ruhig by reflexivity. cbn -[Z.ltb]. now rewrite app_nil_r.
Qed.

(** No critical alarm, before or now. *)
Lemma alarm_logik_normal u m w :
  ist_co2_kritisch m w = false ->
  kritischer_alarm_aktiv w = false ->
  alarm_logik u m w = alarm_normal u (soll_normal_alarm m w) w.
Proof.
  intros Hk Ha. unfold alarm_logik, bind. rewrite Hk, alarm_kritisch_aus, Ha.
  now destruct (alarm_normal u _ w) as [[? ?] ?].
Qed.

(** ** Counting log entries *)

Lemma anzahl_app p l1 l2 : anzahl p (l1 ++ l2) = (anzahl p l1 + anzahl p l2)%nat.
Proof. unfold anzahl. now rewrite List.filter_app, length_app. Qed.

Lemma anzahl_cons p e l :
  anzahl p (e :: l) = ((if p e then 1 else 0) + anzahl p l)%nat.
Proof. unfold anzahl. cbn. now destruct (p e). Qed.

Lemma anzahl_ohne_aktor p l :
  (forall e, p e = true -> ist_aktor_ereignis e = true) ->
  Forall (fun e => ist_aktor_ereignis e = false) l ->
  anzahl p l = 0%nat.
Proof.
  intros Hp. induction 1 as [|e l He _ IH]; [reflexivity|].
  rewrite anzahl_cons, IH. destruct (p e) eqn:E; [|reflexivity].
  apply Hp in E. congruence.
Qed.

Lemma piep_ist_aktor e : ist_piep e = true -> ist_aktor_ereignis e = true.
Proof. now destruct e. Qed.
Lemma winken_ist_aktor e : ist_winken e = true -> ist_aktor_ereignis e = true.
Proof. now destruct e. Qed.
Lemma wecken_ist_aktor e : ist_wecken e = true -> ist_aktor_ereignis e = true.
Proof. now destruct e. Qed.
Lemma ausloesung_ist_aktor e : ist_normal_ausloesung e = true -> ist_aktor_ereignis e = true.
Proof. now destruct e. Qed.
Lemma summer_ist_aktor e : treibt_summer e = true -> ist_aktor_ereignis e = true.
Proof. now destruct e. Qed.

Lemma anzahl_ausloesung l :
  anzahl ist_normal_ausloesung l = (anzahl ist_piep l + anzahl ist_winken l)%nat.
Proof.
  induction l as [|e l IH]; [reflexivity|].
  rewrite !anzahl_cons, IH. destruct e; cbn; lia.
Qed.

Lemma anzahl_nil p : anzahl p [] = 0%nat.
Proof. reflexivity. Qed.

Ltac zaehle :=
  repeat (rewrite anzahl_app || rewrite anzahl_cons || rewrite anzahl_nil);
  cbn [ist_piep ist_winken ist_wecken ist_normal_ausloesung treibt_summer];
  lia.

(** ** The callback when CO2 is above the critical threshold *)

Lemma tick_kritisch u w m :
  werte u w = Some m ->
  ungueltig m = false ->
  ist_co2_kritisch m w = true ->
  let r := sensoren_lesen_verarbeiten_senden u w in
  let w' := zustand_nach r in
  ergebnis r = Fertig tt
  /\ aktor w' = zustand_nach (aktor_steuerung.summer_starten None true (aktor w))
  /\ kritischer_alarm_aktiv w' = true
  /\ normal_alarm_zaehler w'
     = (if kritischer_alarm_aktiv w then normal_alarm_zaehler w else 0)
  /\ normal_alarm_sperre_bis w'
     = (if kritischer_alarm_aktiv w then normal_alarm_sperre_bis w else 0)
  /\ exists l,
       protokoll r = Ruf_display_aktualisieren :: Ruf_summer_starten true :: l
       /\ anzahl ist_normal_ausloesung l = 0%nat
       /\ anzahl ist_wecken l = (if kritischer_alarm_aktiv w then 0 else 1)%nat.
Proof.
  intros Hm Hg Hk.
  destruct (tick_alarm_logik u w m Hm Hg) as (s' & mq & l & Ht).
  cbn zeta in Ht. destruct Ht as (He & Hz & Hp & Hl).
  rewrite alarm_logik_kritisch in Hz, Hp by exact Hk.
  cbn zeta in Hz, Hp. cbn [kritischer_alarm_aktiv aktor mit_sensoren mit_lesezeit] in Hz, Hp.
  destruct (aktor_fakten.summer_starten_erzwungen (aktor w)) as (la & Hla & Hn & Hw).
  cbn zeta. rewrite Hz, Hp, Hla. clear Hz Hp.
  pose proof (anzahl_ohne_aktor _ _ ausloesung_ist_aktor Hl) as Hl1.
  pose proof (anzahl_ohne_aktor _ _ wecken_ist_aktor Hl) as Hl2.
  destruct (kritischer_alarm_aktiv w) eqn:Ha; cbn.
  - repeat split; try assumption. eexists. split; [reflexivity|].
    split; zaehle.
  - repeat split; try assumption. eexists. split; [reflexivity|].
    split; zaehle.
Qed.

(** ** The callback without a critical alarm *)

Lemma tick_normal u w m :
  werte u w = Some m ->
  ungueltig m = false ->
  ist_co2_kritisch m w = false ->
  kritischer_alarm_aktiv w = false ->
  exists s' mq l,
    let rn := alarm_normal u (soll_normal_alarm m w)
                (mit_sensoren s' (mit_lesezeit (zeit u) w)) in
    let t := sensoren_lesen_verarbeiten_senden u w in
    ergebnis t = Fertig tt
    /\ zustand_nach t = mit_mqtt mq (zustand_nach rn)
    /\ protokoll t = Ruf_display_aktualisieren :: protokoll rn ++ l
    /\ Forall (fun e => ist_aktor_ereignis e = false) l.
Proof.
  intros Hm Hg Hk Ha.
  destruct (tick_alarm_logik u w m Hm Hg) as (s' & mq & l & Ht).
  exists s', mq, l. cbn zeta in *.
  now rewrite alarm_logik_normal in Ht by assumption.
Qed.

(** Exceeded, but fewer than two strikes or still within the cooldown: the
    strike is counted and nothing else happens. *)
Lemma tick_gezaehlt u w m :
  werte u w = Some m ->
  ungueltig m = false ->
  ist_co2_kritisch m w = false ->
  kritischer_alarm_aktiv w = false ->
  soll_normal_alarm m w = true ->
  normal_alarm_zaehler w + 1 < NORMAL_ALARM_AUSLOESE_ZAEHLER
  \/ zeit u <= normal_alarm_sperre_bis w ->
  let t := sensoren_lesen_verarbeiten_senden u w in
  let w' := zustand_nach t in
  ergebnis t = Fertig tt
  /\ alarm_zustand w' = (false, normal_alarm_sperre_bis w, normal_alarm_zaehler w + 1)
  /\ aktor w' = aktor w
  /\ Forall (fun e => ist_aktor_ereignis e = false) (protokoll t).
Proof.
  intros Hm Hg Hk Ha Hs Hc.
  destruct (tick_normal u w m Hm Hg Hk Ha) as (s' & mq & l & Ht).
  cbn zeta in Ht. destruct Ht as (He & Hz & Hp & Hl).
  rewrite Hs, alarm_normal_ueberschritten in Hz, Hp by exact Ha.
  cbn zeta in Hz, Hp.
  cbn [normal_alarm_zaehler normal_alarm_sperre_bis mit_sensoren mit_lesezeit] in Hz, Hp.
  replace ((NORMAL_ALARM_AUSLOESE_ZAEHLER <=? normal_alarm_zaehler w + 1)
           && (normal_alarm_sperre_bis w <? zeit u)) with false in Hz, Hp.
  2:{ symmetry. apply andb_false_iff. destruct Hc; [left|right]; lia. }
  cbn zeta. rewrite Hz, Hp. unfold alarm_zustand. cbn. rewrite Ha.
  repeat split; try assumption. constructor; [reflexivity|assumption].
Qed.

(** Exceeded, second strike or later, cooldown over, display wake without
    error: beep, wave, wake, and the cooldown starts. *)
Lemma tick_ausgeloest u w m :
  werte u w = Some m ->
  ungueltig m = false ->
  ist_co2_kritisch m w = false ->
  kritischer_alarm_aktiv w = false ->
  soll_normal_alarm m w = true ->
  NORMAL_ALARM_AUSLOESE_ZAEHLER <= normal_alarm_zaehler w + 1 ->
  normal_alarm_sperre_bis w < zeit u ->
  backlight u = None ->
  let t := sensoren_lesen_verarbeiten_senden u w in
  let w' := zustand_nach t in
  let rp := aktor_steuerung.summer_kurz_piepen
              aktor_steuerung.SUMMER_PIEP_DAUER_MS None false (aktor w) in
  let rw := aktor_steuerung.servo_winken 3 45 135 400 (zustand_nach rp) in
  ergebnis t = Fertig tt
  /\ alarm_zustand w' = (false, zeit u + NORMAL_ALARM_SPERRE_SEK, 0)
  /\ aktor w' = zustand_nach rw
  /\ exists l,
       protokoll t
       = Ruf_display_aktualisieren
           :: protokoll rp ++ protokoll rw ++ Ruf_backlight_einschalten :: l
       /\ Forall (fun e => ist_aktor_ereignis e = false) l.
Proof.
  intros Hm Hg Hk Ha Hs Hz1 Hz2 Hb.
  destruct (tick_normal u w m Hm Hg Hk Ha) as (s' & mq & l & Ht).
  cbn zeta in Ht. destruct Ht as (He & Hz & Hp & Hl).
  rewrite Hs, alarm_normal_ueberschritten in Hz, Hp by exact Ha.
  cbn zeta in Hz, Hp.
  cbn [normal_alarm_zaehler normal_alarm_sperre_bis aktor mit_sensoren mit_lesezeit]
    in Hz, Hp.
  replace ((NORMAL_ALARM_AUSLOESE_ZAEHLER <=? normal_alarm_zaehler w + 1)
           && (normal_alarm_sperre_bis w <? zeit u)) with true in Hz, Hp.
  2:{ symmetry. apply andb_true_iff. split; lia. }
  rewrite Hb in Hz, Hp.
  cbn zeta. rewrite Hz, Hp. unfold alarm_zustand. cbn. rewrite Ha.
  repeat split; try assumption. exists l. split; [|assumption].
  now rewrite <- !app_assoc.
Qed.

(** Exceeded, second strike or later, cooldown over, but the display wake
    raises: beep and wave are done, the run ends at the wake, and neither
    the cooldown nor the counter is updated. *)
Lemma tick_ausgeloest_anzeigefehler u w m e :
  werte u w = Some m ->
  ungueltig m = false ->
  ist_co2_kritisch m w = false ->
  kritischer_alarm_aktiv w = false ->
  soll_normal_alarm m w = true ->
  NORMAL_ALARM_AUSLOESE_ZAEHLER <= normal_alarm_zaehler w + 1 ->
  normal_alarm_sperre_bis w < zeit u ->
  backlight u = Some e ->
  let t := sensoren_lesen_verarbeiten_senden u w in
  let w' := zustand_nach t in
  let rp := aktor_steuerung.summer_kurz_piepen
              aktor_steuerung.SUMMER_PIEP_DAUER_MS None false (aktor w) in
  let rw := aktor_steuerung.servo_winken 3 45 135 400 (zustand_nach rp) in
  ergebnis t = Fertig tt
  /\ alarm_zustand w' = (false, normal_alarm_sperre_bis w, normal_alarm_zaehler w + 1)
  /\ aktor w' = zustand_nach rw
  /\ exists l,
       protokoll t
       = Ruf_display_aktualisieren
           :: protokoll rp ++ protokoll rw ++ Ruf_backlight_einschalten :: l
       /\ Forall (fun e => ist_aktor_ereignis e = false) l.
Proof.
  intros Hm Hg Hk Ha Hs Hz1 Hz2 Hb.
  destruct (tick_normal u w m Hm Hg Hk Ha) as (s' & mq & l & Ht).
  cbn zeta in Ht. destruct Ht as (He & Hz & Hp & Hl).
  rewrite Hs, alarm_normal_ueberschritten in Hz, Hp by exact Ha.
  cbn zeta in Hz, Hp.
  cbn [normal_alarm_zaehler normal_alarm_sperre_bis aktor mit_sensoren mit_lesezeit]
    in Hz, Hp.
  replace ((NORMAL_ALARM_AUSLOESE_ZAEHLER <=? normal_alarm_zaehler w + 1)
           && (normal_alarm_sperre_bis w <? zeit u)) with true in Hz, Hp.
  2:{ symmetry. apply andb_true_iff. split; lia. }
  rewrite Hb in Hz, Hp.
  cbn zeta. rewrite Hz, Hp. unfold alarm_zustand. cbn. rewrite Ha.
  repeat split; try assumption. exists l. split; [|assumption].
  now rewrite <- !app_assoc.
Qed.

(** No threshold exceeded: counter and cooldown are cleared. *)
Lemma tick_ruhig u w m :
  werte u w = Some m ->
  ungueltig m = false ->
  ist_co2_kritisch m w = false ->
  kritischer_alarm_aktiv w = false ->
  soll_normal_alarm m w = false ->
  let t := sensoren_lesen_verarbeiten_senden u w in
  let w' := zustand_nach t in
  ergebnis t = Fertig tt
  /\ alarm_zustand w'
     = (false,
        (if 0 <? normal_alarm_sperre_bis w then 0 else normal_alarm_sperre_bis w),
        (if 0 <? normal_alarm_zaehler w then 0 else normal_alarm_zaehler w))
  /\ aktor w' = aktor w
  /\ Forall (fun e => ist_aktor_ereignis e = false) (protokoll t).
Proof.
  intros Hm Hg Hk Ha Hs.
  destruct (tick_normal u w m Hm Hg Hk Ha) as (s' & mq & l & Ht).
  cbn zeta in Ht. destruct Ht as (He & Hz & Hp & Hl).
  rewrite Hs, alarm_normal_ruhig in Hz, Hp by exact Ha.
  cbn zeta in Hz, Hp.
  cbn [normal_alarm_zaehler normal_alarm_sperre_bis mit_sensoren mit_lesezeit] in Hz, Hp.
  cbn zeta. rewrite Hz, Hp. unfold alarm_zustand.
  destruct (0 <? normal_alarm_zaehler w); destruct (0 <? normal_alarm_sperre_bis w);
    cbn; rewrite ?Ha; repeat split; try assumption;
    (constructor; [reflexivity|assumption]).
Qed.

(** ** Runs of the callback during the cooldown *)

Lemma ueberschreitung_nicht_kritisch m w :
  co2 m <= aktuelle_co2_kritisch_schwelle w -> ist_co2_kritisch m w = false.
Proof. intros H. apply Z.ltb_ge. exact H. Qed.

Lemma alarm_zustand_felder w k s z :
  alarm_zustand w = (k, s, z) ->
  kritischer_alarm_aktiv w = k /\ normal_alarm_sperre_bis w = s
  /\ normal_alarm_zaehler w = z.
Proof. unfold alarm_zustand. intros [= <- <- <-]. auto. Qed.

Lemma lauf_in_sperre T us :
  forall w,
    kritischer_alarm_aktiv w = false ->
    normal_alarm_sperre_bis w = T ->
    jeder_tick (fun u w' => ueberschreitung u w' /\ zeit u <= T) us w ->
    Forall (fun e => ist_aktor_ereignis e = false) (snd (lauf us w))
    /\ kritischer_alarm_aktiv (fst (lauf us w)) = false
    /\ normal_alarm_sperre_bis (fst (lauf us w)) = T
    /\ aktor (fst (lauf us w)) = aktor w.
Proof.
  induction us as [|u us IH]; intros w Hk Hs Hj; cbn [lauf fst snd].
  - auto.
  - destruct Hj as [[(m & Hm & Hg & Hn & Hc) Ht] Hj].
    destruct (tick_gezaehlt u w m Hm Hg (ueberschreitung_nicht_kritisch _ _ Hc) Hk Hn)
      as (_ & Hz & Ha & Hl); [right; lia|].
    apply alarm_zustand_felder in Hz. destruct Hz as (Hk1 & Hs1 & _).
    rewrite Hs in Hs1.
    destruct (IH _ Hk1 Hs1 Hj) as (Hl' & Hk' & Hs' & Ha').
    repeat split; try assumption.
    + apply Forall_app. auto.
    + congruence.
Qed.

(** ** Readings below the thresholds *)

Lemma Qlt_bool_asym x y : Qlt_bool x y = true -> Qlt_bool y x = false.
Proof.
  unfold Qlt_bool. intros H. apply negb_true_iff in H. apply negb_false_iff.
  apply Qle_bool_iff. destruct (Qlt_le_dec x y) as [Hlt|Hle].
  - apply Qlt_le_weak. exact Hlt.
  - apply Qle_bool_iff in Hle. congruence.
Qed.

Lemma gk_lt_asym a b : gk_lt a b = true -> gk_lt b a = false.
Proof.
  destruct a as [x|[|]|], b as [y|[|]|]; cbn; try congruence.
  apply Qlt_bool_asym.
Qed.

Lemma unter_allen_schwellen_ruhig m w :
  unter_allen_schwellen m w ->
  soll_normal_alarm m w = false /\ ist_co2_kritisch m w = false.
Proof.
  intros (Ht & Hf & Hc & Hv & Hk).
  unfold soll_normal_alarm, ist_temp_alarm, ist_feuchte_alarm, ist_co2_alarm,
    ist_voc_alarm, ist_co2_kritisch, zahl_gt.
  unfold zahl_lt in *. rewrite (gk_lt_asym _ _ Ht), (gk_lt_asym _ _ Hf).
  cbn [orb]. split; [apply orb_false_iff; split|]; apply Z.ltb_ge; lia.
Qed.

Lemma lauf_unter_den_schwellen us :
  forall w,
    alarm_zustand w = (false, 0, 0) ->
    jeder_tick unterschreitung us w ->
    alarm_zustand (fst (lauf us w)) = (false, 0, 0)
    /\ aktor (fst (lauf us w)) = aktor w
    /\ Forall (fun e => ist_aktor_ereignis e = false) (snd (lauf us w)).
Proof.
  induction us as [|u us IH]; intros w Hz Hj; cbn [lauf fst snd].
  - auto.
  - destruct Hj as [(m & Hm & Hg & Hu) Hj].
    destruct (unter_allen_schwellen_ruhig m w Hu) as (Hn & Hk).
    apply alarm_zustand_felder in Hz. destruct Hz as (Ha & Hs & Hc).
    destruct (tick_ruhig u w m Hm Hg Hk Ha Hn) as (_ & Hz' & Ha' & Hl).
    rewrite Hs, Hc in Hz'. cbn in Hz'.
    destruct (IH _ Hz' Hj) as (Hz2 & Ha2 & Hl2).
    split; [exact Hz2|]. split; [exact (eq_trans Ha2 Ha')|].
    apply Forall_app. auto.
Qed.

Lemma jeder_tick_take P n :
  forall us w, jeder_tick P us w -> jeder_tick P (take n us) w.
Proof.
  induction n as [|n IH]; intros [|u us] w H; cbn; try exact I.
  destruct H as [H1 H2]. split; [exact H1|]. apply IH. exact H2.
Qed.

(** ** The command callback *)

Lemma geraet_steuern_mute_on w d :
  d !! "command" = Some (JText "MUTE") ->
  d !! "status" = Some (JText "ON") ->
  geraet_steuern (Liefert (JObjekt d)) w
  = (Fertig tt,
     mit_kritisch false
       (mit_aktor (zustand_nach (aktor_steuerung.stumm_schalten true (aktor w))) w),
     protokoll (aktor_steuerung.stumm_schalten true (aktor w))).
Proof.
  intros Hc Hs.
  pose proof (aktor_fakten.stumm_schalten_fertig true (aktor w)) as Hf.
  unfold geraet_steuern, daten_get, rufe, bind, ret. rewrite Hc, Hs. cbn.
  unfold im_aktor, heben, bind.
  destruct (aktor_steuerung.stumm_schalten true (aktor w)) as [[r a] l].
  cbn in Hf. subst r. cbn. now rewrite !app_nil_r.
Qed.

Lemma geraet_steuern_buzzer_off w d :
  d !! "command" = Some (JText "BUZZER") ->
  d !! "status" = Some (JText "OFF") ->
  geraet_steuern (Liefert (JObjekt d)) w
  = (Fertig tt,
     mit_kritisch false
       (mit_aktor (zustand_nach (aktor_steuerung.summer_stoppen (aktor w))) w),
     protokoll (aktor_steuerung.summer_stoppen (aktor w))).
Proof.
  intros Hc Hs.
  pose proof (aktor_fakten.summer_stoppen_fertig (aktor w)) as Hf.
  unfold geraet_steuern, daten_get, rufe, bind, ret. rewrite Hc, Hs. cbn.
  unfold im_aktor, heben, bind.
  destruct (aktor_steuerung.summer_stoppen (aktor w)) as [[r a] l].
  cbn in Hf. subst r. cbn. now rewrite !app_nil_r.
Qed.

Lemma mqtt_befehl_empfangen_steuerung b msg w :
  ergebnis (geraet_steuern msg w) = Fertig tt ->
  mqtt_befehl_empfangen b (Liefert mqtt_steuerung.EMPFANGS_TOPIC) msg w
  = geraet_steuern msg w.
Proof.
  intros H. unfold mqtt_befehl_empfangen, versuche, versuche_wenn, bind, rufe, ret.
  cbn. destruct (geraet_steuern msg w) as [[r w'] l]. cbn in H. subst r.
  cbn. reflexivity.
Qed.

(** ** Threshold updates *)

Lemma ganzzahl_int_von {S} x alt (s : S) :
  (forall n, x <> Gleit (Unendlich n)) -> x <> Gleit KeineZahl ->
  @int_von S x s = (Fertig (ganzzahl x alt), s, []).
Proof.
  destruct x as [z|[q|n|]]; intros H1 H2; try reflexivity.
  - now destruct (H1 n).
  - now destruct H2.
Qed.

Lemma zahl_gt_KeineZahl y : zahl_gt (Gleit KeineZahl) y = false.
Proof. unfold zahl_gt, zahl_lt. cbn. now destruct (als_gleit y). Qed.

Lemma zahl_ge_KeineZahl y : zahl_ge (Gleit KeineZahl) y = false.
Proof. unfold zahl_ge, zahl_le. cbn. now destruct (als_gleit y). Qed.

Lemma zahl_gt_minus_unendlich : zahl_gt (Gleit (Unendlich true)) (Ganz 0) = false.
Proof. reflexivity. Qed.

Lemma zahl_ge_minus_unendlich : zahl_ge (Gleit (Unendlich true)) (Ganz 0) = false.
Proof. reflexivity. Qed.

(** Unless CO2 or VOC is plus infinity, the update is the field-by-field
    one, and it finishes. *)
Lemma schwellwerte_aktualisieren_feldweise b d w :
  plus_unendlich b (feld d "schwelle_CO2") = false ->
  plus_unendlich b (feld d "schwelle_VOC") = false ->
  schwellwerte_aktualisieren b (Liefert (JObjekt d)) w
  = (Fertig tt, schwellwerte_feldweise b d w, []).
Proof.
  unfold plus_unendlich, schwellwerte_feldweise, temp_feld, feuchte_feld, co2_feld,
    voc_feld, schwellwerte_aktualisieren, daten_get, feld, rufe.
  intros Hc Hv. destruct w.
  unfold bind, ret, wenn, aendere. cbn -[zahl_le zahl_gt zahl_ge als_zahl].
  destruct (als_zahl b (default JNull (d !! "schwelle_temp"))) as [xt|];
  destruct (als_zahl b (default JNull (d !! "schwelle_hum"))) as [xf|];
  destruct (als_zahl b (default JNull (d !! "schwelle_CO2"))) as [[zc|[qc|[|]|]]|];
  destruct (als_zahl b (default JNull (d !! "schwelle_VOC"))) as [[zv|[qv|[|]|]]|];
  try discriminate Hc; try discriminate Hv;
  cbn -[zahl_le zahl_gt zahl_ge];
  rewrite ?zahl_gt_KeineZahl, ?zahl_ge_KeineZahl,
    ?zahl_gt_minus_unendlich, ?zahl_ge_minus_unendlich;
  repeat match goal with
         | |- context [if ?c then _ else _] => destruct c; cbn -[zahl_le zahl_gt zahl_ge]
         end; reflexivity.
Qed.

Lemma versuche_faengt_alles {S} (m : Prog S unit) s :
  ergebnis (versuche m (fun _ => ret tt) s) = Fertig tt.
Proof.
  unfold versuche, versuche_wenn. now destruct (m s) as [[[[]|e] s1] l1].
Qed.

Lemma mqtt_befehl_empfangen_schwelle b msg w :
  mqtt_befehl_empfangen b (Liefert MQTT_SCHWELLE_TOPIC) msg w
  = versuche (schwellwerte_aktualisieren b msg) (fun _ => ret tt) w.
Proof.
  pose proof (versuche_faengt_alles (schwellwerte_aktualisieren b msg) w) as H.
  unfold mqtt_befehl_empfangen.
  unfold versuche at 1, versuche_wenn at 1. unfold bind, rufe, ret.
  cbn beta iota. rewrite String.eqb_refl.
  destruct (versuche (schwellwerte_aktualisieren b msg) _ w) as [[r w'] l].
  cbn in H. subst r. reflexivity.
Qed.

(** The example of the specification: humidity 150 is dropped, temperature
    28.0 is taken. *)
Lemma schwellwerte_ein_feld_ungueltig b w :
  zustand_nach
    (mqtt_befehl_empfangen b (Liefert MQTT_SCHWELLE_TOPIC)
       (Liefert (JObjekt (<["schwelle_hum" := JZahl (Ganz 150)]>
                            (<["schwelle_temp" := JZahl (Gleit (Endlich 28))]> ∅))))
       w)
  = mit_temp_schwelle (Endlich 28) w.
Proof.
  rewrite mqtt_befehl_empfangen_schwelle. unfold versuche, versuche_wenn.
  rewrite schwellwerte_aktualisieren_feldweise by reflexivity.
  now destruct w.
Qed.

(** ** What the command callback leaves alone *)

Lemma erhaelt_ret {S A X} (f : S -> X) (a : A) : erhaelt f (ret a).
Proof. intros s. reflexivity. Qed.

Lemma erhaelt_wirf {S A X} (f : S -> X) e : erhaelt f (@wirf S A e).
Proof. intros s. reflexivity. Qed.

Lemma erhaelt_lies {S X} (f : S -> X) : erhaelt f lies.
Proof. intros s. reflexivity. Qed.

Lemma erhaelt_rufe {S A X} (f : S -> X) (r : antwort A) : erhaelt f (rufe r).
Proof. intros s. now destruct r. Qed.

Lemma erhaelt_bind {S A B X} (f : S -> X) (m : Prog S A) (k : A -> Prog S B) :
  erhaelt f m -> (forall a, erhaelt f (k a)) -> erhaelt f (bind m k).
Proof.
  intros Hm Hk s. unfold bind. specialize (Hm s).
  destruct (m s) as [[[a|e] s1] l1]; cbn in *; [|exact Hm].
  specialize (Hk a s1). destruct (k a s1) as [[r s2] l2]. cbn in *. congruence.
Qed.

Lemma erhaelt_versuche {S A X} (f : S -> X) (m : Prog S A) h :
  erhaelt f m -> (forall e, erhaelt f (h e)) -> erhaelt f (versuche m h).
Proof.
  intros Hm Hh s. unfold versuche, versuche_wenn. specialize (Hm s).
  destruct (m s) as [[[a|e] s1] l1]; cbn in *; [exact Hm|].
  specialize (Hh e s1). destruct (h e s1) as [[r s2] l2]. cbn in *. congruence.
Qed.

Lemma erhaelt_wenn {S X} (f : S -> X) b (m : Prog S unit) :
  erhaelt f m -> erhaelt f (wenn b m).
Proof. intros H. destruct b; [exact H|apply erhaelt_ret]. Qed.

Lemma erhaelt_aendere {S X} (f : S -> X) (g : S -> S) :
  (forall s, f (g s) = f s) -> erhaelt f (aendere g).
Proof. intros H s. apply H. Qed.

Lemma erhaelt_im_aktor {A X} (f : welt -> X) (m : Prog aktor_steuerung.zustand A) :
  (forall a w, f (mit_aktor a w) = f w) -> erhaelt f (im_aktor m).
Proof.
  intros H w. unfold im_aktor, heben.
  destruct (m (aktor w)) as [[r a] l]. apply H.
Qed.

Lemma erhaelt_int_von {S X} (f : S -> X) x : erhaelt f (int_von x).
Proof. intros s. now destruct x as [z|[q|n|]]. Qed.

Lemma erhaelt_daten_get {S X} (f : S -> X) d k : erhaelt f (daten_get d k).
Proof. intros s. now destruct d. Qed.

Ltac erhalte :=
  repeat first
    [ apply erhaelt_bind; [|intro]
    | apply erhaelt_versuche; [|intro]
    | apply erhaelt_wenn
    | apply erhaelt_ret
    | apply erhaelt_wirf
    | apply erhaelt_lies
    | apply erhaelt_rufe
    | apply erhaelt_int_von
    | apply erhaelt_daten_get
    | apply erhaelt_im_aktor; reflexivity
    | apply erhaelt_aendere; reflexivity
    | match goal with
      | |- erhaelt _ (if ?c then _ else _) => destruct c
      | |- erhaelt _ (match ?c with _ => _ end) => destruct c
      end ].

(** The callback does not touch the variables of the messaging module. *)
Lemma mqtt_befehl_empfangen_erhaelt_mqtt b t msg :
  erhaelt mqtt (mqtt_befehl_empfangen b t msg).
Proof.
  unfold mqtt_befehl_empfangen, schwellwerte_aktualisieren, geraet_steuern.
  erhalte.
Qed.

(** ** The messaging link *)

Lemma mqtt_senden_getrennt p f s :
  mqtt_steuerung.mqtt_verbunden s = false \/ mqtt_steuerung.mqtt_client s = None ->
  mqtt_steuerung.mqtt_senden p f s = (Fertig false, s, []).
Proof.
  destruct s as [[c|] [|] cb]; cbn; intros [H|H]; try discriminate H; reflexivity.
Qed.

Lemma mqtt_senden_verbunden p f s :
  mqtt_steuerung.mqtt_verbunden s = true ->
  mqtt_steuerung.mqtt_client s = Some mqtt_steuerung.MQTTClient ->
  mqtt_steuerung.mqtt_senden p f s
  = match f with
    | None => (Fertig true, s, [Ruf_publish p; Veroeffentlicht p])
    | Some OSError =>
        (Fertig false, mqtt_steuerung.mit_verbindung None false s, [Ruf_publish p])
    | Some AndereAusnahme => (Fertig false, s, [Ruf_publish p])
    end.
Proof.
  destruct s as [[[]|] [|] cb]; cbn; intros H1 H2; try discriminate; clear H1 H2.
  destruct f as [[|]|]; reflexivity.
Qed.

Lemma interner_callback_lauf b eingang w :
  exists w1 l1,
    match option_map (fun tm => mqtt_befehl_empfangen b (fst tm) (snd tm)) eingang with
    | Some benutzer => mqtt_steuerung._mqtt_interner_callback mqtt benutzer
    | None => ret tt
    end w = (Fertig tt, w1, l1)
    /\ mqtt w1 = mqtt w.
Proof.
  destruct eingang as [[t msg]|]; cbn [option_map fst snd].
  - unfold mqtt_steuerung._mqtt_interner_callback, bind, wenn. cbn [lies].
    destruct (mqtt_steuerung.mqtt_benutzer_callback (mqtt w)).
    + pose proof (versuche_faengt_alles (mqtt_befehl_empfangen b t msg) w) as He.
      pose proof (erhaelt_versuche mqtt (mqtt_befehl_empfangen b t msg)
                    (fun _ => ret tt)
                    (mqtt_befehl_empfangen_erhaelt_mqtt b t msg)
                    (fun _ => erhaelt_ret mqtt tt) w) as Hm.
      destruct (versuche (mqtt_befehl_empfangen b t msg) _ w) as [[r w1] l1].
      cbn in He, Hm. subst r. cbn. eauto.
    + cbn. eauto.
  - cbn. eauto.
Qed.

Lemma nachrichten_pruefen_lauf b eingang f w :
  mqtt_steuerung.mqtt_verbunden (mqtt w) = true ->
  mqtt_steuerung.mqtt_client (mqtt w) = Some mqtt_steuerung.MQTTClient ->
  let r := nachrichten_pruefen b eingang f w in
  ergebnis r = Fertig tt
  /\ mqtt_steuerung.mqtt_verbunden (mqtt (zustand_nach r))
     = match f with Some OSError => false | _ => true end.
Proof.
  intros Hv Hc.
  destruct (interner_callback_lauf b eingang w) as (w1 & l1 & Hz & Hm).
  cbv beta delta [nachrichten_pruefen mqtt_steuerung.mqtt_nachrichten_pruefen
                  mqtt_steuerung.versuche_os versuche versuche_wenn
                  mqtt_steuerung.check_msg bind lies] zeta.
  cbn beta iota. rewrite Hv, Hc. cbn [negb orb ist_none].
  cbn beta iota. rewrite Hz. rewrite <- Hm in Hv.
  destruct f as [[|]|]; cbn; auto.
Qed.

Lemma mqtt_ist_verbunden_ergebnis s :
  ergebnis (mqtt_steuerung.mqtt_ist_verbunden s)
  = Fertig (mqtt_steuerung.mqtt_verbunden s).
Proof. reflexivity. Qed.

(** ** The CCS811 cache *)

Lemma ccs_bereich_gueltig co2 voc s :
  ccs_bereich co2 voc = true -> ccs_gueltig (sensorik.mit_ccs_werten co2 voc s).
Proof.
  unfold ccs_bereich, ccs_gueltig. cbn. intros H.
  apply andb_true_iff in H. destruct H as [H Hv].
  apply andb_true_iff in H. destruct H as [Hl Hu]. lia.
Qed.

Lemma lese_co2_lauf c s :
  exists s',
    sensorik.lese_co2 c s = (Fertig (sensorik._letzter_co2_wert s'), s', [])
    /\ (ccs_gueltig s -> ccs_gueltig s').
Proof.
  unfold sensorik.lese_co2, bind.
  destruct (aktualisiere_ccs_daten_fertig c s) as (s' & -> & Hs). cbn.
  exists s'. split; [reflexivity|].
  destruct Hs as [->|(co2 & voc & _ & _ & Hb & ->)]; [auto|].
  intros _. apply ccs_bereich_gueltig. exact Hb.
Qed.

Lemma abfragen_gueltig cs : forall s, ccs_gueltig s -> ccs_gueltig (abfragen cs s).
Proof.
  induction cs as [|c cs IH]; intros s Hs; cbn [abfragen]; [exact Hs|].
  apply IH. destruct (lese_co2_lauf c s) as (s' & -> & H). cbn. auto.
Qed.

(** ** Tactics for concrete runs *)

Ltac zeige_ueberschreitung :=
  eexists;
  split; [vm_compute; reflexivity|];
  split; [vm_compute; reflexivity|];
  split; [vm_compute; reflexivity|];
  vm_compute; discriminate.

Ltac zeige_unterschreitung :=
  eexists;
  split; [vm_compute; reflexivity|];
  split; [vm_compute; reflexivity|];
  repeat split; vm_compute; reflexivity.

(** * The claims *)

(** C1, as the code has it.  On a run of the callback with a valid reading
    whose CO2 is at or below the critical threshold while the critical alarm
    is active, [summer_stoppen] is called straight after the display update
    (a buzzer that is present is no longer marked steadily on, and a working
    one is at duty 0) and the critical flag is cleared.  When a normal
    threshold is still strictly exceeded, the run ends with the cooldown
    deadline at now + [NORMAL_ALARM_SPERRE_SEK] and the strike counter at 1,
    whatever the counter was before: the critical stage sets it to 0 and the
    normal stage of the same run counts this exceedance.  In every case the
    log of the run has no beep and no wave. *)
Theorem entwarnung_ohne_normalen_alarm u w m :
  werte u w = Some m ->
  ungueltig m = false ->
  co2 m <= aktuelle_co2_kritisch_schwelle w ->
  kritischer_alarm_aktiv w = true ->
  let r := sensoren_lesen_verarbeiten_senden u w in
  let w' := zustand_nach r in
  ergebnis r = Fertig tt
  /\ (exists l, protokoll r
                = Ruf_display_aktualisieren :: Ruf_summer_stoppen :: l)
  /\ anzahl ist_normal_ausloesung (protokoll r) = 0%nat
  /\ (forall p,
        aktor_steuerung._summer_pwm_objekt (aktor w) = Some p ->
        aktor_steuerung._summer_ist_dauerhaft_an (aktor w') = false
        /\ (aktor_steuerung.pwm_defekt p = false ->
            aktor_steuerung._summer_pwm_objekt (aktor w')
            = Some {| aktor_steuerung.pwm_freq := aktor_steuerung.pwm_freq p;
                      aktor_steuerung.pwm_duty := aktor_steuerung.SUMMER_DUTY_AUS;
                      aktor_steuerung.pwm_defekt := false |}))
  /\ kritischer_alarm_aktiv w' = false
  /\ (soll_normal_alarm m w = true ->
      normal_alarm_sperre_bis w' = zeit u + NORMAL_ALARM_SPERRE_SEK
      /\ normal_alarm_zaehler w' = 1).
Proof.
  intros Hm Hg Hc Ha.
  assert (Hk : ist_co2_kritisch m w = false) by (apply Z.ltb_ge; exact Hc).
  destruct (tick_alarm_logik u w m Hm Hg) as (s' & mq & l & Ht).
  cbn zeta in Ht. destruct Ht as (He & Hz & Hp & Hl).
  rewrite alarm_logik_entwarnung in Hz, Hp by assumption.
  cbn zeta in Hz, Hp.
  cbn [aktor normal_alarm_zaehler normal_alarm_sperre_bis mit_sensoren mit_lesezeit
       zustand_nach protokoll fst snd] in Hz, Hp.
  change (soll_normal_alarm m (mit_sensoren s' (mit_lesezeit (zeit u) w)))
    with (soll_normal_alarm m w) in Hz.
  destruct (aktor_fakten.summer_stoppen_protokoll (aktor w)) as (la & Hla & Hn & _).
  destruct (aktor_fakten.summer_stoppen_zustand (aktor w)) as (_ & _ & Hsu).
  pose proof (anzahl_ohne_aktor _ _ ausloesung_ist_aktor Hl) as Hl1.
  cbn zeta. rewrite Hz, Hp, Hla.
  split; [exact He|]. split; [eauto|]. split; [zaehle|].
  split.
  { destruct (soll_normal_alarm m w); [exact Hsu|].
    destruct (0 <? normal_alarm_zaehler w), (0 <? normal_alarm_sperre_bis w); exact Hsu. }
  split.
  { destruct (soll_normal_alarm m w); [reflexivity|].
    destruct (0 <? normal_alarm_zaehler w), (0 <? normal_alarm_sperre_bis w);
      reflexivity. }
  intros ->. split; reflexivity.
Qed.

Lemma entwarnung_ohne_normalen_alarm_zeuge :
  werte (beispiel_umwelt 1008 31 1000)
        (mit_kritisch true beispiel_welt)
  = Some (beispiel_werte 31 1000)
  /\ ungueltig (beispiel_werte 31 1000) = false
  /\ co2 (beispiel_werte 31 1000)
     <= aktuelle_co2_kritisch_schwelle (mit_kritisch true beispiel_welt)
  /\ kritischer_alarm_aktiv (mit_kritisch true beispiel_welt) = true
  /\ anzahl ist_normal_ausloesung
       (protokoll (sensoren_lesen_verarbeiten_senden (beispiel_umwelt 1008 31 1000)
                     (mit_kritisch true beispiel_welt))) = 0%nat
  /\ normal_alarm_sperre_bis
       (zustand_nach (sensoren_lesen_verarbeiten_senden (beispiel_umwelt 1008 31 1000)
                        (mit_kritisch true beispiel_welt)))
     = 1008 + NORMAL_ALARM_SPERRE_SEK
  /\ normal_alarm_zaehler
       (zustand_nach (sensoren_lesen_verarbeiten_senden (beispiel_umwelt 1008 31 1000)
                        (mit_kritisch true beispiel_welt)))
     = 1.
Proof.
  assert (H1 : werte (beispiel_umwelt 1008 31 1000) (mit_kritisch true beispiel_welt)
               = Some (beispiel_werte 31 1000)) by reflexivity.
  assert (H2 : ungueltig (beispiel_werte 31 1000) = false) by reflexivity.
  assert (H3 : co2 (beispiel_werte 31 1000)
               <= aktuelle_co2_kritisch_schwelle (mit_kritisch true beispiel_welt))
    by (vm_compute; discriminate).
  assert (H4 : kritischer_alarm_aktiv (mit_kritisch true beispiel_welt) = true)
    by reflexivity.
  assert (H5 : soll_normal_alarm (beispiel_werte 31 1000)
                 (mit_kritisch true beispiel_welt) = true)
    by (vm_compute; reflexivity).
  split; [exact H1|]. split; [exact H2|]. split; [exact H3|]. split; [exact H4|].
  pose proof (entwarnung_ohne_normalen_alarm _ _ _ H1 H2 H3 H4) as H.
  cbn zeta in H. destruct H as (_ & _ & H & _ & _ & H6).
  destruct (H6 H5) as (H7 & H8).
  split; [exact H|]. split; [exact H7|exact H8].
Defined.

(** C1, as claimed, fails: on a run that ends an active critical alarm
    while the temperature is still above its threshold, the cooldown is
    armed and no alarm fires, but the strike counter is 1 at the end of the
    run, not 0. *)
Lemma entwarnung_endet_mit_zaehler_eins :
  let w := mit_kritisch true beispiel_welt in
  let u := beispiel_umwelt 1008 31 1000 in
  let w' := zustand_nach (sensoren_lesen_verarbeiten_senden u w) in
  kritischer_alarm_aktiv w = true
  /\ werte u w = Some (beispiel_werte 31 1000)
  /\ ungueltig (beispiel_werte 31 1000) = false
  /\ co2 (beispiel_werte 31 1000) <= aktuelle_co2_kritisch_schwelle w
  /\ soll_normal_alarm (beispiel_werte 31 1000) w = true
  /\ kritischer_alarm_aktiv w' = false
  /\ normal_alarm_sperre_bis w' = 1008 + NORMAL_ALARM_SPERRE_SEK
  /\ normal_alarm_zaehler w' = 1
  /\ normal_alarm_zaehler w' <> 0.
Proof.
  cbv zeta.
  split; [reflexivity|]. split; [reflexivity|]. split; [reflexivity|].
  split; [vm_compute; discriminate|]. split; [reflexivity|].
  split; [reflexivity|]. split; [reflexivity|]. split; [reflexivity|].
  vm_compute. discriminate.
Qed.

(** C2 (the input on which the code departs from the claim).  Two
    consecutive runs of the callback whose readings exceed a normal
    threshold, with the critical alarm inactive, no strike counted yet and
    the cooldown deadline passed, where the display wake of the second run
    raises: [backlight_einschalten] is called without a handler of its own
    before the deadline and the counter are written, unlike the display
    update at the head of the run.  The second run beeps, waves and calls
    the wake once each and ends normally, but the deadline stays as it was
    and the counter stays at 2; a further exceeding run inside what would
    have been the cooldown fires again. *)
Theorem anzeigefehler_laesst_die_sperre_aus w u1 u2 u3 e :
  kritischer_alarm_aktiv w = false ->
  normal_alarm_zaehler w = 0 ->
  let r1 := sensoren_lesen_verarbeiten_senden u1 w in
  let w1 := zustand_nach r1 in
  let r2 := sensoren_lesen_verarbeiten_senden u2 w1 in
  let w2 := zustand_nach r2 in
  let r3 := sensoren_lesen_verarbeiten_senden u3 w2 in
  ueberschreitung u1 w ->
  ueberschreitung u2 w1 ->
  normal_alarm_sperre_bis w < zeit u2 ->
  backlight u2 = Some e ->
  ueberschreitung u3 w2 ->
  zeit u2 <= zeit u3 ->
  (ergebnis r2 = Fertig tt
   /\ anzahl ist_piep (protokoll r2) = 1%nat
   /\ anzahl ist_winken (protokoll r2) = 1%nat
   /\ anzahl ist_wecken (protokoll r2) = 1%nat)
  /\ (normal_alarm_sperre_bis w2 = normal_alarm_sperre_bis w
      /\ normal_alarm_zaehler w2 = 2)
  /\ (zeit u3 <= zeit u2 + NORMAL_ALARM_SPERRE_SEK ->
      anzahl ist_piep (protokoll r3) = 1%nat
      /\ anzahl ist_winken (protokoll r3) = 1%nat).
Proof.
  intros Hk Hz r1 w1 r2 w2 r3 (m1 & Hm1 & Hg1 & Hn1 & Hc1) (m2 & Hm2 & Hg2 & Hn2 & Hc2)
    Hs Hb (m3 & Hm3 & Hg3 & Hn3 & Hc3) Ht.
  destruct (tick_gezaehlt u1 w m1 Hm1 Hg1 (ueberschreitung_nicht_kritisch _ _ Hc1) Hk Hn1)
    as (_ & Hz1 & _).
  { left. rewrite Hz. reflexivity. }
  fold r1 w1 in Hz1.
  apply alarm_zustand_felder in Hz1. destruct Hz1 as (Hk1 & Hs1 & Hc).
  rewrite Hz in Hc. cbn in Hc.
  destruct (tick_ausgeloest_anzeigefehler u2 w1 m2 e Hm2 Hg2
              (ueberschreitung_nicht_kritisch _ _ Hc2) Hk1 Hn2)
    as (He2 & Hz2 & _ & l & Hp2 & Hl2).
  { rewrite Hc. unfold NORMAL_ALARM_AUSLOESE_ZAEHLER. lia. }
  { rewrite Hs1. exact Hs. }
  { exact Hb. }
  fold r2 w2 in He2, Hz2, Hp2.
  apply alarm_zustand_felder in Hz2. destruct Hz2 as (Hk2 & Hs2 & Hc').
  rewrite Hs1 in Hs2. rewrite Hc in Hc'. cbn in Hc'.
  destruct (aktor_fakten.summer_kurz_piepen_protokoll (aktor w1))
    as (lp & Hlp & Hp1 & Hp3 & Hp4 & _).
  destruct (aktor_fakten.servo_winken_protokoll
              (zustand_nach (aktor_steuerung.summer_kurz_piepen
                               aktor_steuerung.SUMMER_PIEP_DAUER_MS None false
                               (aktor w1))))
    as (lw & Hlw & Hw1 & Hw2 & Hw3 & _).
  pose proof (anzahl_ohne_aktor _ _ piep_ist_aktor Hl2) as Hx1.
  pose proof (anzahl_ohne_aktor _ _ winken_ist_aktor Hl2) as Hx2.
  pose proof (anzahl_ohne_aktor _ _ wecken_ist_aktor Hl2) as Hx3.
  split; [|split].
  - split; [exact He2|]. rewrite Hp2, Hlp, Hlw. repeat split; zaehle.
  - split; [exact Hs2|exact Hc'].
  - intros _.
    destruct (aktor_fakten.summer_kurz_piepen_protokoll (aktor w2))
      as (lp3 & Hlp3 & Hq1 & Hq3 & Hq4 & _).
    destruct (aktor_fakten.servo_winken_protokoll
                (zustand_nach (aktor_steuerung.summer_kurz_piepen
                                 aktor_steuerung.SUMMER_PIEP_DAUER_MS None false
                                 (aktor w2))))
      as (lw3 & Hlw3 & Hv1 & Hv2 & Hv3 & _).
    assert (H3 : exists l3,
               protokoll r3
               = Ruf_display_aktualisieren
                   :: protokoll (aktor_steuerung.summer_kurz_piepen
                                   aktor_steuerung.SUMMER_PIEP_DAUER_MS None false
                                   (aktor w2))
                   ++ protokoll (aktor_steuerung.servo_winken 3 45 135 400
                                   (zustand_nach
                                      (aktor_steuerung.summer_kurz_piepen
                                         aktor_steuerung.SUMMER_PIEP_DAUER_MS None
                                         false (aktor w2))))
                   ++ Ruf_backlight_einschalten :: l3
               /\ Forall (fun e => ist_aktor_ereignis e = false) l3).
    { destruct (backlight u3) as [e3|] eqn:Hb3.
      - destruct (tick_ausgeloest_anzeigefehler u3 w2 m3 e3 Hm3 Hg3
                    (ueberschreitung_nicht_kritisch _ _ Hc3) Hk2 Hn3)
          as (_ & _ & _ & H).
        + rewrite Hc'. unfold NORMAL_ALARM_AUSLOESE_ZAEHLER. lia.
        + rewrite Hs2. lia.
        + exact Hb3.
        + exact H.
      - destruct (tick_ausgeloest u3 w2 m3 Hm3 Hg3
                    (ueberschreitung_nicht_kritisch _ _ Hc3) Hk2 Hn3)
          as (_ & _ & _ & H).
        + rewrite Hc'. unfold NORMAL_ALARM_AUSLOESE_ZAEHLER. lia.
        + rewrite Hs2. lia.
        + exact Hb3.
        + exact H. }
    destruct H3 as (l3 & Hp3' & Hl3).
    pose proof (anzahl_ohne_aktor _ _ piep_ist_aktor Hl3) as Hy1.
    pose proof (anzahl_ohne_aktor _ _ winken_ist_aktor Hl3) as Hy2.
    rewrite Hp3', Hlp3, Hlw3. split; zaehle.
Qed.

Lemma anzeigefehler_laesst_die_sperre_aus_zeuge :
  let w1 := zustand_nach
              (sensoren_lesen_verarbeiten_senden (beispiel_umwelt 1000 31 1000)
                 beispiel_welt) in
  let r2 := sensoren_lesen_verarbeiten_senden
              (beispiel_umwelt_anzeigefehler 1002 31 1000) w1 in
  let r3 := sensoren_lesen_verarbeiten_senden (beispiel_umwelt 1004 31 1000)
              (zustand_nach r2) in
  anzahl ist_piep (protokoll r2) = 1%nat
  /\ normal_alarm_sperre_bis (zustand_nach r2) = 0
  /\ normal_alarm_zaehler (zustand_nach r2) = 2
  /\ anzahl ist_piep (protokoll r3) = 1%nat
  /\ anzahl ist_winken (protokoll r3) = 1%nat.
Proof.
  cbv zeta.
  pose proof (anzeigefehler_laesst_die_sperre_aus beispiel_welt
                (beispiel_umwelt 1000 31 1000)
                (beispiel_umwelt_anzeigefehler 1002 31 1000)
                (beispiel_umwelt 1004 31 1000) OSError
                eq_refl eq_refl) as H.
  cbn zeta in H.
  assert (H1 : ueberschreitung (beispiel_umwelt 1000 31 1000) beispiel_welt)
    by zeige_ueberschreitung.
  assert (H2 : ueberschreitung (beispiel_umwelt_anzeigefehler 1002 31 1000)
                 (zustand_nach
                    (sensoren_lesen_verarbeiten_senden (beispiel_umwelt 1000 31 1000)
                       beispiel_welt)))
    by zeige_ueberschreitung.
  assert (H3 : ueberschreitung (beispiel_umwelt 1004 31 1000)
                 (zustand_nach
                    (sensoren_lesen_verarbeiten_senden
                       (beispiel_umwelt_anzeigefehler 1002 31 1000)
                       (zustand_nach
                          (sensoren_lesen_verarbeiten_senden
                             (beispiel_umwelt 1000 31 1000) beispiel_welt)))))
    by zeige_ueberschreitung.
  specialize (H H1 H2 eq_refl eq_refl H3).
  destruct H as ((_ & Hp & _) & (Hs & Hz) & H).
  - vm_compute. discriminate.
  - destruct H as (Hp3 & Hw3); [vm_compute; discriminate|].
    split; [exact Hp|]. split; [exact Hs|]. split; [exact Hz|].
    split; [exact Hp3|exact Hw3].
Defined.

(** C2, when the display wake returns.  With the critical alarm inactive and no strike counted yet: a first
    run of the callback whose reading exceeds a normal threshold logs no beep
    and no wave and leaves the counter at 1.  A second such run, with the
    cooldown deadline passed and the display wake returning, calls the short
    beep, then the wave, then the display wake, each exactly once; it leaves
    the deadline at now + [NORMAL_ALARM_SPERRE_SEK] and the counter at 0.
    After that, in any number of further such runs up to the deadline, no
    beep and no wave is logged. *)
Theorem normaler_alarm_zwei_treffer_dann_sperre w u1 u2 us :
  kritischer_alarm_aktiv w = false ->
  normal_alarm_zaehler w = 0 ->
  let r1 := sensoren_lesen_verarbeiten_senden u1 w in
  let w1 := zustand_nach r1 in
  let r2 := sensoren_lesen_verarbeiten_senden u2 w1 in
  let w2 := zustand_nach r2 in
  ueberschreitung u1 w ->
  ueberschreitung u2 w1 ->
  normal_alarm_sperre_bis w < zeit u2 ->
  backlight u2 = None ->
  jeder_tick
    (fun u w' => ueberschreitung u w' /\ zeit u <= zeit u2 + NORMAL_ALARM_SPERRE_SEK)
    us w2 ->
  (anzahl ist_normal_ausloesung (protokoll r1) = 0%nat
   /\ normal_alarm_zaehler w1 = 1)
  /\ (anzahl ist_piep (protokoll r2) = 1%nat
      /\ anzahl ist_winken (protokoll r2) = 1%nat
      /\ anzahl ist_wecken (protokoll r2) = 1%nat
      /\ (exists l,
            protokoll r2
            = Ruf_display_aktualisieren
                :: protokoll (aktor_steuerung.summer_kurz_piepen
                                aktor_steuerung.SUMMER_PIEP_DAUER_MS None false
                                (aktor w1))
                ++ protokoll (aktor_steuerung.servo_winken 3 45 135 400
                                (zustand_nach
                                   (aktor_steuerung.summer_kurz_piepen
                                      aktor_steuerung.SUMMER_PIEP_DAUER_MS None false
                                      (aktor w1))))
                ++ Ruf_backlight_einschalten :: l
            /\ Forall (fun e => ist_aktor_ereignis e = false) l)
      /\ (forall p,
            aktor_steuerung._summer_pwm_objekt (aktor w1) = Some p ->
            aktor_steuerung.pwm_defekt p = false ->
            aktor_steuerung._ist_stummgeschaltet (aktor w1) = false ->
            aktor_steuerung._summer_ist_dauerhaft_an (aktor w1) = false ->
            exists l1 l2,
              protokoll r2
              = l1 ++ piep_folge (aktor_steuerung._summer_aktuelle_frequenz (aktor w1))
                   ++ l2)
      /\ (forall p,
            aktor_steuerung._servo_pwm_objekt (aktor w1) = Some p ->
            aktor_steuerung.pwm_defekt p = false ->
            exists l1 l2, protokoll r2 = l1 ++ winken_folge ++ l2)
      /\ normal_alarm_sperre_bis w2 = zeit u2 + NORMAL_ALARM_SPERRE_SEK
      /\ normal_alarm_zaehler w2 = 0)
  /\ anzahl ist_normal_ausloesung (snd (lauf us w2)) = 0%nat.
Proof.
  intros Hk Hz r1 w1 r2 w2 (m1 & Hm1 & Hg1 & Hn1 & Hc1) (m2 & Hm2 & Hg2 & Hn2 & Hc2)
    Hs Hb Hj.
  destruct (tick_gezaehlt u1 w m1 Hm1 Hg1 (ueberschreitung_nicht_kritisch _ _ Hc1) Hk Hn1)
    as (_ & Hz1 & Ha1 & Hl1).
  { left. rewrite Hz. reflexivity. }
  fold r1 w1 in Hz1, Ha1, Hl1.
  apply alarm_zustand_felder in Hz1. destruct Hz1 as (Hk1 & Hs1 & Hc).
  rewrite Hz in Hc. cbn in Hc.
  destruct (tick_ausgeloest u2 w1 m2 Hm2 Hg2 (ueberschreitung_nicht_kritisch _ _ Hc2)
              Hk1 Hn2) as (_ & Hz2 & Ha2 & l & Hp2 & Hl2).
  { rewrite Hc. unfold NORMAL_ALARM_AUSLOESE_ZAEHLER. lia. }
  { rewrite Hs1. exact Hs. }
  { exact Hb. }
  fold r2 w2 in Hz2, Ha2, Hp2.
  apply alarm_zustand_felder in Hz2. destruct Hz2 as (Hk2 & Hs2 & Hc').
  destruct (aktor_fakten.summer_kurz_piepen_protokoll (aktor w1))
    as (lp & Hlp & Hp1 & Hp3 & Hp4 & Hp5).
  destruct (aktor_fakten.summer_kurz_piepen_zustand (aktor w1)) as (_ & Hsv).
  destruct (aktor_fakten.servo_winken_protokoll
              (zustand_nach (aktor_steuerung.summer_kurz_piepen
                               aktor_steuerung.SUMMER_PIEP_DAUER_MS None false
                               (aktor w1))))
    as (lw & Hlw & Hw1 & Hw2 & Hw3 & _ & Hw5).
  pose proof (anzahl_ohne_aktor _ _ piep_ist_aktor Hl2) as Hx1.
  pose proof (anzahl_ohne_aktor _ _ winken_ist_aktor Hl2) as Hx2.
  pose proof (anzahl_ohne_aktor _ _ wecken_ist_aktor Hl2) as Hx3.
  split; [|split].
  - split; [|exact Hc]. apply anzahl_ohne_aktor; [apply ausloesung_ist_aktor|exact Hl1].
  - split; [|split; [|split; [|split; [|split; [|split; [|split]]]]]].
    + rewrite Hp2, Hlp, Hlw. zaehle.
    + rewrite Hp2, Hlp, Hlw. zaehle.
    + rewrite Hp2, Hlp, Hlw. zaehle.
    + exists l. split; [exact Hp2|exact Hl2].
    + intros p Hp Hd Hm Hda. rewrite Hp2, Hlp, (Hp5 p Hp Hd Hm Hda).
      exists [Ruf_display_aktualisieren; Ruf_summer_kurz_piepen false].
      eexists. cbn [app]. reflexivity.
    + intros p Hp Hd. rewrite <- Hsv in Hp. rewrite Hp2, Hlw, (Hw5 p Hp Hd).
      exists (Ruf_display_aktualisieren
                :: protokoll (aktor_steuerung.summer_kurz_piepen
                                aktor_steuerung.SUMMER_PIEP_DAUER_MS None false
                                (aktor w1))
                ++ [Ruf_servo_winken 3]).
      exists (Ruf_backlight_einschalten :: l).
      cbn [app]. rewrite <- !app_assoc. reflexivity.
    + exact Hs2.
    + exact Hc'.
  - destruct (lauf_in_sperre _ us w2 Hk2 Hs2 Hj) as (Hl & _).
    apply anzahl_ohne_aktor; [apply ausloesung_ist_aktor|exact Hl].
Qed.

Lemma normaler_alarm_zwei_treffer_dann_sperre_zeuge :
  anzahl ist_piep
    (protokoll
       (sensoren_lesen_verarbeiten_senden (beispiel_umwelt 1002 31 1000)
          (zustand_nach
             (sensoren_lesen_verarbeiten_senden (beispiel_umwelt 1000 31 1000)
                beispiel_welt)))) = 1%nat
  /\ anzahl ist_normal_ausloesung
       (snd (lauf [beispiel_umwelt 1004 31 1000; beispiel_umwelt 1302 32 1000]
               (zustand_nach
                  (sensoren_lesen_verarbeiten_senden (beispiel_umwelt 1002 31 1000)
                     (zustand_nach
                        (sensoren_lesen_verarbeiten_senden
                           (beispiel_umwelt 1000 31 1000) beispiel_welt))))))
     = 0%nat.
Proof.
  pose proof (normaler_alarm_zwei_treffer_dann_sperre beispiel_welt
                (beispiel_umwelt 1000 31 1000) (beispiel_umwelt 1002 31 1000)
                [beispiel_umwelt 1004 31 1000; beispiel_umwelt 1302 32 1000]
                eq_refl eq_refl) as H.
  cbn zeta in H.
  assert (H1 : ueberschreitung (beispiel_umwelt 1000 31 1000) beispiel_welt)
    by zeige_ueberschreitung.
  assert (H2 : ueberschreitung (beispiel_umwelt 1002 31 1000)
                 (zustand_nach
                    (sensoren_lesen_verarbeiten_senden (beispiel_umwelt 1000 31 1000)
                       beispiel_welt)))
    by zeige_ueberschreitung.
  specialize (H H1 H2 eq_refl eq_refl).
  destruct H as (_ & (H & _) & H').
  - cbn [jeder_tick]. split; [split; [zeige_ueberschreitung|vm_compute; discriminate]|].
    split; [split; [zeige_ueberschreitung|vm_compute; discriminate]|]. exact I.
  - split; [exact H|exact H'].
Defined.

(** C3. On every run of the callback with a valid reading whose CO2 is
    strictly above the critical threshold, [summer_starten(erzwingen=True)]
    is called straight after the display update.  The mute flag plays no
    part and is not changed: a buzzer that is present and working ends the
    run at duty [SUMMER_DUTY_AN] and marked steadily on, muted or not.
    Asserting the forced start again leaves the actuators as they are.  The
    critical flag is set; when it was not set before, the strike counter and
    the cooldown deadline are 0 afterwards and the display is woken exactly
    once. *)
Theorem kritisch_erzwingt_summer u w m :
  werte u w = Some m ->
  ungueltig m = false ->
  aktuelle_co2_kritisch_schwelle w < co2 m ->
  let r := sensoren_lesen_verarbeiten_senden u w in
  let w' := zustand_nach r in
  ergebnis r = Fertig tt
  /\ (exists l, protokoll r
                = Ruf_display_aktualisieren :: Ruf_summer_starten true :: l)
  /\ aktor_steuerung._ist_stummgeschaltet (aktor w')
     = aktor_steuerung._ist_stummgeschaltet (aktor w)
  /\ (forall p,
        aktor_steuerung._summer_pwm_objekt (aktor w) = Some p ->
        aktor_steuerung.pwm_defekt p = false ->
        aktor_steuerung._summer_pwm_objekt (aktor w')
        = Some {| aktor_steuerung.pwm_freq :=
                    aktor_steuerung._summer_aktuelle_frequenz (aktor w);
                  aktor_steuerung.pwm_duty := aktor_steuerung.SUMMER_DUTY_AN;
                  aktor_steuerung.pwm_defekt := false |}
        /\ aktor_steuerung._summer_ist_dauerhaft_an (aktor w') = true)
  /\ zustand_nach (aktor_steuerung.summer_starten None true (aktor w')) = aktor w'
  /\ kritischer_alarm_aktiv w' = true
  /\ (kritischer_alarm_aktiv w = false ->
      normal_alarm_zaehler w' = 0
      /\ normal_alarm_sperre_bis w' = 0
      /\ anzahl ist_wecken (protokoll r) = 1%nat).
Proof.
  intros Hm Hg Hc.
  assert (Hk : ist_co2_kritisch m w = true) by (apply Z.ltb_lt; exact Hc).
  destruct (tick_kritisch u w m Hm Hg Hk) as (He & Ha & Hkr & Hz & Hs & l & Hp & Hn & Hw).
  destruct (aktor_fakten.summer_starten_erzwungen_zustand (aktor w))
    as (Hst & _ & _ & Hsu).
  cbn zeta. rewrite Ha.
  split; [exact He|]. split; [eauto|]. split; [exact Hst|]. split; [exact Hsu|].
  split; [apply aktor_fakten.summer_starten_erzwungen_idempotent|].
  split; [exact Hkr|].
  intros Hv. rewrite Hv in Hz, Hs, Hw. rewrite Hp.
  split; [exact Hz|]. split; [exact Hs|]. zaehle.
Qed.

Lemma kritisch_erzwingt_summer_zeuge :
  werte (beispiel_umwelt 1000 22 3000)
        (mit_aktor (aktor_steuerung.mit_stumm true beispiel_aktor) beispiel_welt)
  = Some (beispiel_werte 22 3000)
  /\ ungueltig (beispiel_werte 22 3000) = false
  /\ aktuelle_co2_kritisch_schwelle
       (mit_aktor (aktor_steuerung.mit_stumm true beispiel_aktor) beispiel_welt)
     < co2 (beispiel_werte 22 3000)
  /\ kritischer_alarm_aktiv
       (zustand_nach
          (sensoren_lesen_verarbeiten_senden (beispiel_umwelt 1000 22 3000)
             (mit_aktor (aktor_steuerung.mit_stumm true beispiel_aktor) beispiel_welt)))
     = true.
Proof.
  assert (H1 : werte (beispiel_umwelt 1000 22 3000)
                 (mit_aktor (aktor_steuerung.mit_stumm true beispiel_aktor) beispiel_welt)
               = Some (beispiel_werte 22 3000)) by reflexivity.
  assert (H2 : ungueltig (beispiel_werte 22 3000) = false) by reflexivity.
  assert (H3 : aktuelle_co2_kritisch_schwelle
                 (mit_aktor (aktor_steuerung.mit_stumm true beispiel_aktor) beispiel_welt)
               < co2 (beispiel_werte 22 3000)) by reflexivity.
  split; [exact H1|]. split; [exact H2|]. split; [exact H3|].
  pose proof (kritisch_erzwingt_summer _ _ _ H1 H2 H3) as H.
  cbn zeta in H. destruct H as (_ & _ & _ & _ & _ & H & _). exact H.
Defined.

(** C4 (the input on which the code departs from the claim).  On a muted
    device, a run of the callback that fires the normal alarm (a reading
    over a normal threshold, second strike or later, cooldown over) while
    the display wake raises: the wave is called once and nothing is sent to
    the buzzer driver, but the run ends at the wake, which has no handler of
    its own, so the cooldown is not re-armed and the strike counter is not
    reset. *)
Theorem anzeigefehler_bei_stummem_alarm u w e :
  ueberschreitung u w ->
  kritischer_alarm_aktiv w = false ->
  aktor_steuerung._ist_stummgeschaltet (aktor w) = true ->
  NORMAL_ALARM_AUSLOESE_ZAEHLER <= normal_alarm_zaehler w + 1 ->
  normal_alarm_sperre_bis w < zeit u ->
  backlight u = Some e ->
  let r := sensoren_lesen_verarbeiten_senden u w in
  let w' := zustand_nach r in
  ergebnis r = Fertig tt
  /\ anzahl ist_winken (protokoll r) = 1%nat
  /\ anzahl treibt_summer (protokoll r) = 0%nat
  /\ normal_alarm_sperre_bis w' = normal_alarm_sperre_bis w
  /\ normal_alarm_zaehler w' = normal_alarm_zaehler w + 1
  /\ normal_alarm_sperre_bis w' <> zeit u + NORMAL_ALARM_SPERRE_SEK
  /\ normal_alarm_zaehler w' <> 0.
Proof.
  intros (m & Hm & Hg & Hn & Hc) Hk Hst Hz Hs Hb.
  destruct (tick_ausgeloest_anzeigefehler u w m e Hm Hg
              (ueberschreitung_nicht_kritisch _ _ Hc) Hk Hn Hz Hs Hb)
    as (He & Hz2 & Ha2 & l & Hp2 & Hl2).
  apply alarm_zustand_felder in Hz2. destruct Hz2 as (Hk2 & Hs2 & Hc2).
  rewrite aktor_fakten.summer_kurz_piepen_stumm in Ha2, Hp2 by exact Hst.
  cbn [zustand_nach protokoll fst snd] in Ha2, Hp2.
  destruct (aktor_fakten.servo_winken_protokoll (aktor w))
    as (lw & Hlw & Hw1 & Hw2 & Hw3 & Hw4 & Hw5).
  pose proof (anzahl_ohne_aktor _ _ winken_ist_aktor Hl2) as Hx2.
  pose proof (anzahl_ohne_aktor _ _ summer_ist_aktor Hl2) as Hx3.
  cbn zeta. rewrite Hp2, Hlw, Hs2, Hc2.
  split; [exact He|]. split; [zaehle|]. split; [zaehle|].
  split; [reflexivity|]. split; [reflexivity|].
  unfold NORMAL_ALARM_AUSLOESE_ZAEHLER, NORMAL_ALARM_SPERRE_SEK in *.
  split; lia.
Qed.

Lemma anzeigefehler_bei_stummem_alarm_zeuge :
  let w := mit_zaehler 1
             (mit_aktor (aktor_steuerung.mit_stumm true beispiel_aktor)
                beispiel_welt) in
  let r := sensoren_lesen_verarbeiten_senden
             (beispiel_umwelt_anzeigefehler 1002 31 1000) w in
  anzahl ist_winken (protokoll r) = 1%nat
  /\ anzahl treibt_summer (protokoll r) = 0%nat
  /\ normal_alarm_sperre_bis (zustand_nach r) = 0
  /\ normal_alarm_zaehler (zustand_nach r) = 2.
Proof.
  cbv zeta.
  assert (H1 : ueberschreitung (beispiel_umwelt_anzeigefehler 1002 31 1000)
                 (mit_zaehler 1
                    (mit_aktor (aktor_steuerung.mit_stumm true beispiel_aktor)
                       beispiel_welt)))
    by zeige_ueberschreitung.
  pose proof (anzeigefehler_bei_stummem_alarm _ _ OSError H1 eq_refl eq_refl) as H.
  cbn zeta in H.
  destruct H as (_ & Hw & Hs & Hsp & Hz & _).
  - vm_compute. discriminate.
  - reflexivity.
  - reflexivity.
  - split; [exact Hw|]. split; [exact Hs|]. split; [exact Hsp|exact Hz].
Defined.

(** C4, when the display wake returns.  On a muted device, a run of the callback that fires the normal
    alarm (a reading over a normal threshold, second strike or later,
    cooldown over, display wake returning) still calls the wave exactly once
    (a present, working servo is sent the whole wave), arms the cooldown and
    resets the strike counter, but sends nothing to the buzzer driver and
    leaves the buzzer output as it was: the short beep, not forced, returns
    at once on a muted device.  Setting mute to true calls [summer_stoppen]
    at once: a present buzzer is no longer marked steadily on and a working
    one is at duty 0. *)
Theorem stumm_unterdrueckt_nur_den_piep u w :
  ueberschreitung u w ->
  kritischer_alarm_aktiv w = false ->
  aktor_steuerung._ist_stummgeschaltet (aktor w) = true ->
  NORMAL_ALARM_AUSLOESE_ZAEHLER <= normal_alarm_zaehler w + 1 ->
  normal_alarm_sperre_bis w < zeit u ->
  backlight u = None ->
  let r := sensoren_lesen_verarbeiten_senden u w in
  let w' := zustand_nach r in
  (anzahl ist_winken (protokoll r) = 1%nat
   /\ (forall p,
         aktor_steuerung._servo_pwm_objekt (aktor w) = Some p ->
         aktor_steuerung.pwm_defekt p = false ->
         exists l1 l2, protokoll r = l1 ++ winken_folge ++ l2)
   /\ normal_alarm_sperre_bis w' = zeit u + NORMAL_ALARM_SPERRE_SEK
   /\ normal_alarm_zaehler w' = 0
   /\ kritischer_alarm_aktiv w' = false)
  /\ (anzahl ist_piep (protokoll r) = 1%nat
      /\ anzahl treibt_summer (protokoll r) = 0%nat
      /\ aktor_steuerung._summer_pwm_objekt (aktor w')
         = aktor_steuerung._summer_pwm_objekt (aktor w)
      /\ aktor_steuerung._summer_ist_dauerhaft_an (aktor w')
         = aktor_steuerung._summer_ist_dauerhaft_an (aktor w)
      /\ forall dauer_ms frequenz,
           aktor_steuerung.summer_kurz_piepen dauer_ms frequenz false (aktor w)
           = (Fertig tt, aktor w, [Ruf_summer_kurz_piepen false]))
  /\ (forall s,
        let rs := aktor_steuerung.stumm_schalten true s in
        let s' := zustand_nach rs in
        ergebnis rs = Fertig tt
        /\ aktor_steuerung._ist_stummgeschaltet s' = true
        /\ (exists l, protokoll rs
                      = Ruf_stumm_schalten true :: Ruf_summer_stoppen :: l)
        /\ forall p,
             aktor_steuerung._summer_pwm_objekt s = Some p ->
             aktor_steuerung._summer_ist_dauerhaft_an s' = false
             /\ (aktor_steuerung.pwm_defekt p = false ->
                 aktor_steuerung._summer_pwm_objekt s'
                 = Some {| aktor_steuerung.pwm_freq := aktor_steuerung.pwm_freq p;
                           aktor_steuerung.pwm_duty := aktor_steuerung.SUMMER_DUTY_AUS;
                           aktor_steuerung.pwm_defekt := false |})).
Proof.
  intros (m & Hm & Hg & Hn & Hc) Hk Hst Hz Hs Hb.
  destruct (tick_ausgeloest u w m Hm Hg (ueberschreitung_nicht_kritisch _ _ Hc)
              Hk Hn Hz Hs Hb) as (_ & Hz2 & Ha2 & l & Hp2 & Hl2).
  apply alarm_zustand_felder in Hz2. destruct Hz2 as (Hk2 & Hs2 & Hc2).
  rewrite aktor_fakten.summer_kurz_piepen_stumm in Ha2, Hp2 by exact Hst.
  cbn [zustand_nach protokoll fst snd] in Ha2, Hp2.
  destruct (aktor_fakten.servo_winken_protokoll (aktor w))
    as (lw & Hlw & Hw1 & Hw2 & Hw3 & Hw4 & Hw5).
  destruct (aktor_fakten.servo_winken_zustand (aktor w)) as (_ & Hsu & Hda).
  pose proof (anzahl_ohne_aktor _ _ piep_ist_aktor Hl2) as Hx1.
  pose proof (anzahl_ohne_aktor _ _ winken_ist_aktor Hl2) as Hx2.
  pose proof (anzahl_ohne_aktor _ _ summer_ist_aktor Hl2) as Hx3.
  cbn zeta. rewrite Hp2, Ha2, Hlw.
  split; [|split].
  - split; [zaehle|]. split; [|auto].
    intros p Hp Hd. rewrite (Hw5 p Hp Hd).
    exists [Ruf_display_aktualisieren; Ruf_summer_kurz_piepen false; Ruf_servo_winken 3].
    exists (Ruf_backlight_einschalten :: l). reflexivity.
  - split; [zaehle|]. split; [zaehle|]. split; [exact Hsu|]. split; [exact Hda|].
    intros d f. apply aktor_fakten.summer_kurz_piepen_stumm. exact Hst.
  - intros s.
    destruct (aktor_fakten.stumm_schalten_an s) as (Hp & _ & Hm' & Hsum).
    destruct (aktor_fakten.summer_stoppen_protokoll (aktor_steuerung.mit_stumm true s))
      as (ls & Hls & _).
    cbn zeta. split; [apply aktor_fakten.stumm_schalten_fertig|].
    split; [exact Hm'|]. split; [|exact Hsum].
    exists ls. now rewrite Hp, Hls.
Qed.

Lemma stumm_unterdrueckt_nur_den_piep_zeuge :
  anzahl treibt_summer
    (protokoll
       (sensoren_lesen_verarbeiten_senden (beispiel_umwelt 1002 31 1000)
          (mit_zaehler 1
             (mit_aktor (aktor_steuerung.mit_stumm true beispiel_aktor)
                beispiel_welt)))) = 0%nat
  /\ anzahl ist_winken
       (protokoll
          (sensoren_lesen_verarbeiten_senden (beispiel_umwelt 1002 31 1000)
             (mit_zaehler 1
                (mit_aktor (aktor_steuerung.mit_stumm true beispiel_aktor)
                   beispiel_welt)))) = 1%nat.
Proof.
  assert (H1 : ueberschreitung (beispiel_umwelt 1002 31 1000)
                 (mit_zaehler 1
                    (mit_aktor (aktor_steuerung.mit_stumm true beispiel_aktor)
                       beispiel_welt)))
    by zeige_ueberschreitung.
  pose proof (stumm_unterdrueckt_nur_den_piep _ _ H1 eq_refl eq_refl) as H.
  cbn zeta in H.
  destruct H as ((Hw & _) & (_ & Hs & _) & _).
  - vm_compute. discriminate.
  - reflexivity.
  - reflexivity.
  - split; [exact Hs|exact Hw].
Defined.

(** C5. A run of the timer callback whose reading is invalid (the
    temperature equals the error code -99.9 or the humidity equals the error
    code -1) is skipped: it finishes with an empty log (no buzzer, servo or
    display call, nothing sent to the broker), and the critical flag, the
    cooldown deadline, the strike counter, the actuators, the link and the
    thresholds are what they were. *)
Theorem ungueltige_messung_uebersprungen u w m :
  werte u w = Some m ->
  zahl_eq (temp m) sensorik.TEMPERATUR_FEHLER = true
  \/ zahl_eq (feuchte m) sensorik.FEUCHTE_FEHLER = true ->
  let r := sensoren_lesen_verarbeiten_senden u w in
  let w' := zustand_nach r in
  ergebnis r = Fertig tt
  /\ protokoll r = []
  /\ kritischer_alarm_aktiv w' = kritischer_alarm_aktiv w
  /\ normal_alarm_sperre_bis w' = normal_alarm_sperre_bis w
  /\ normal_alarm_zaehler w' = normal_alarm_zaehler w
  /\ aktor w' = aktor w
  /\ mqtt w' = mqtt w
  /\ aktuelle_temp_schwelle w' = aktuelle_temp_schwelle w
  /\ aktuelle_feuchte_schwelle w' = aktuelle_feuchte_schwelle w
  /\ aktuelle_co2_schwelle w' = aktuelle_co2_schwelle w
  /\ aktuelle_voc_schwelle w' = aktuelle_voc_schwelle w
  /\ aktuelle_co2_kritisch_schwelle w' = aktuelle_co2_kritisch_schwelle w.
Proof.
  intros Hm Hu.
  assert (Hg : ungueltig m = true).
  { unfold ungueltig. apply orb_true_iff. exact Hu. }
  destruct (tick_zerlegung u w m Hm) as [s' Ht].
  cbn zeta. rewrite Ht.
  unfold versuche, versuche_wenn, verarbeiten_senden. rewrite Hg.
  cbn. repeat split; reflexivity.
Qed.

Lemma ungueltige_messung_uebersprungen_zeuge :
  werte {| zeit := 1000;
           aht_temperature := Scheitert OSError;
           aht_humidity := Liefert (Gleit (Endlich 50));
           ccs := ccs (beispiel_umwelt 1000 22 3000);
           backlight := None; publish := None |}
        beispiel_welt
  = Some {| temp := sensorik.TEMPERATUR_FEHLER;
            feuchte := runde1 (Gleit (Endlich 50)); co2 := 3000; voc := 100 |}
  /\ protokoll
       (sensoren_lesen_verarbeiten_senden
          {| zeit := 1000;
             aht_temperature := Scheitert OSError;
             aht_humidity := Liefert (Gleit (Endlich 50));
             ccs := ccs (beispiel_umwelt 1000 22 3000);
             backlight := None; publish := None |}
          beispiel_welt) = [].
Proof.
  split; [reflexivity|].
  pose proof (ungueltige_messung_uebersprungen
                {| zeit := 1000;
                   aht_temperature := Scheitert OSError;
                   aht_humidity := Liefert (Gleit (Endlich 50));
                   ccs := ccs (beispiel_umwelt 1000 22 3000);
                   backlight := None; publish := None |}
                beispiel_welt
                {| temp := sensorik.TEMPERATUR_FEHLER;
                   feuchte := runde1 (Gleit (Endlich 50)); co2 := 3000; voc := 100 |}
                eq_refl (or_introl eq_refl)) as H.
  cbn zeta in H. destruct H as (_ & H & _). exact H.
Defined.

(** C6 (the input on which the code departs from the claim).  An update
    whose CO2 field is plus infinity (the JSON number 1e999) and whose VOC
    field is the valid 500: the infinity passes [isinstance] and [> 0], its
    conversion by [int] raises inside the one [try] that holds all four
    fields, and the handler gives the rest of the message up.  The valid VOC
    field is not applied; without the CO2 field the same VOC field is. *)
Theorem schwellwert_unendlich_verwirft_folgefelder b w :
  aktuelle_voc_schwelle
    (zustand_nach
       (mqtt_befehl_empfangen b (Liefert MQTT_SCHWELLE_TOPIC)
          (Liefert (JObjekt (<["schwelle_VOC" := JZahl (Ganz 500)]>
                               (<["schwelle_CO2" := JZahl (Gleit (Unendlich false))]>
                                  ∅))))
          w))
  = aktuelle_voc_schwelle w
  /\ aktuelle_voc_schwelle
       (zustand_nach
          (mqtt_befehl_empfangen b (Liefert MQTT_SCHWELLE_TOPIC)
             (Liefert (JObjekt (<["schwelle_VOC" := JZahl (Ganz 500)]> ∅)))
             w))
     = 500
  /\ voc_feld b (JZahl (Ganz 500)) (aktuelle_voc_schwelle w) = 500.
Proof.
  rewrite !mqtt_befehl_empfangen_schwelle. unfold versuche, versuche_wenn.
  split; [|split].
  - destruct w. reflexivity.
  - rewrite schwellwerte_aktualisieren_feldweise by reflexivity.
    destruct w. reflexivity.
  - reflexivity.
Qed.

(** C7. From a state with the critical alarm inactive and the strike
    counter and cooldown deadline at 0, for any thresholds and any sequence
    of runs of the callback whose readings are valid and strictly below
    every threshold (the critical one included): after every prefix of the
    sequence the critical flag is still false and counter and deadline are
    still 0; the actuators are untouched; and the whole log contains no
    buzzer start, stop or beep, no wave, no display wake and no write to the
    buzzer or servo driver. *)
Theorem kein_alarm_unter_den_schwellen w us :
  alarm_zustand w = (false, 0, 0) ->
  jeder_tick unterschreitung us w ->
  (forall n, alarm_zustand (fst (lauf (take n us) w)) = (false, 0, 0))
  /\ alarm_zustand (fst (lauf us w)) = (false, 0, 0)
  /\ aktor (fst (lauf us w)) = aktor w
  /\ Forall (fun e => ist_aktor_ereignis e = false) (snd (lauf us w))
  /\ anzahl ist_normal_ausloesung (snd (lauf us w)) = 0%nat
  /\ anzahl treibt_summer (snd (lauf us w)) = 0%nat.
Proof.
  intros Hz Hj.
  destruct (lauf_unter_den_schwellen us w Hz Hj) as (H1 & H2 & H3).
  split.
  { intros n. apply lauf_unter_den_schwellen; [exact Hz|].
    apply jeder_tick_take. exact Hj. }
  repeat split; try assumption.
  - apply anzahl_ohne_aktor; [apply ausloesung_ist_aktor|exact H3].
  - apply anzahl_ohne_aktor; [apply summer_ist_aktor|exact H3].
Qed.

Lemma kein_alarm_unter_den_schwellen_zeuge :
  alarm_zustand
    (fst (lauf [beispiel_umwelt 1000 22 800; beispiel_umwelt 1002 (291 # 10) 1499]
            beispiel_welt)) = (false, 0, 0)
  /\ Forall (fun e => ist_aktor_ereignis e = false)
       (snd (lauf [beispiel_umwelt 1000 22 800; beispiel_umwelt 1002 (291 # 10) 1499]
               beispiel_welt)).
Proof.
  pose proof (kein_alarm_unter_den_schwellen beispiel_welt
                [beispiel_umwelt 1000 22 800; beispiel_umwelt 1002 (291 # 10) 1499]
                eq_refl) as H.
  destruct H as (_ & H1 & _ & H2 & _).
  - cbn [jeder_tick]. split; [zeige_unterschreitung|].
    split; [zeige_unterschreitung|]. exact I.
  - split; [exact H1|exact H2].
Defined.

(** C8, as the code has it.  While the link is connected, a send or an
    inbound poll that fails with [OSError] drops the connection state to
    disconnected ([mqtt_ist_verbunden] returns False afterwards, the client
    is discarded); one that fails with any other exception is logged only
    and leaves the link connected.  A failed send returns False in both
    cases, and neither function raises to its caller.  A send while not
    connected returns False, publishes nothing and changes nothing. *)
Theorem nur_OSError_trennt_die_verbindung b p eingang w :
  mqtt_steuerung.mqtt_verbunden (mqtt w) = true ->
  mqtt_steuerung.mqtt_client (mqtt w) = Some mqtt_steuerung.MQTTClient ->
  (forall e,
     let r := mqtt_steuerung.mqtt_senden p (Some e) (mqtt w) in
     ergebnis r = Fertig false
     /\ ergebnis (mqtt_steuerung.mqtt_ist_verbunden (zustand_nach r))
        = Fertig (negb (mqtt_steuerung.nur_OSError e))
     /\ zustand_nach r
        = (if mqtt_steuerung.nur_OSError e
           then mqtt_steuerung.mit_verbindung None false (mqtt w)
           else mqtt w)
     /\ anzahl ist_veroeffentlicht (protokoll r) = 0%nat)
  /\ (forall e,
        let r := nachrichten_pruefen b eingang (Some e) w in
        ergebnis r = Fertig tt
        /\ ergebnis (mqtt_steuerung.mqtt_ist_verbunden (mqtt (zustand_nach r)))
           = Fertig (negb (mqtt_steuerung.nur_OSError e)))
  /\ (forall f, exists v, ergebnis (mqtt_steuerung.mqtt_senden p f (mqtt w)) = Fertig v)
  /\ (forall f, ergebnis (nachrichten_pruefen b eingang f w) = Fertig tt)
  /\ (forall f s,
        mqtt_steuerung.mqtt_verbunden s = false ->
        mqtt_steuerung.mqtt_senden p f s = (Fertig false, s, [])).
Proof.
  intros Hv Hc. split; [|split; [|split; [|split]]].
  - intros e. cbn zeta. rewrite mqtt_senden_verbunden by assumption.
    destruct e; cbn [ergebnis zustand_nach protokoll fst snd mqtt_steuerung.nur_OSError negb];
      rewrite mqtt_ist_verbunden_ergebnis, ?Hv; repeat split; reflexivity.
  - intros e. destruct (nachrichten_pruefen_lauf b eingang (Some e) w Hv Hc) as (H1 & H2).
    cbn zeta. split; [exact H1|].
    rewrite mqtt_ist_verbunden_ergebnis, H2. now destruct e.
  - intros f. rewrite mqtt_senden_verbunden by assumption.
    destruct f as [[|]|]; eexists; reflexivity.
  - intros f. apply (nachrichten_pruefen_lauf b eingang f w Hv Hc).
  - intros f s H. apply mqtt_senden_getrennt. left. exact H.
Qed.

Lemma nur_OSError_trennt_die_verbindung_zeuge :
  ergebnis
    (mqtt_steuerung.mqtt_ist_verbunden
       (zustand_nach
          (mqtt_steuerung.mqtt_senden beispiel_nutzlast (Some OSError)
             (mqtt beispiel_welt))))
  = Fertig false.
Proof.
  pose proof (nur_OSError_trennt_die_verbindung true beispiel_nutzlast None
                beispiel_welt eq_refl eq_refl) as H.
  destruct H as (H & _). specialize (H OSError). cbn zeta in H.
  destruct H as (_ & H & _). exact H.
Defined.

(** C8, as claimed, fails: a send that fails with an exception other than
    [OSError] while the link is connected returns False, but
    [mqtt_ist_verbunden] still returns True afterwards; the same holds for
    an inbound poll that fails that way. *)
Lemma sendefehler_ohne_trennung :
  ergebnis (mqtt_steuerung.mqtt_senden beispiel_nutzlast (Some AndereAusnahme)
              (mqtt beispiel_welt)) = Fertig false
  /\ ergebnis
       (mqtt_steuerung.mqtt_ist_verbunden
          (zustand_nach
             (mqtt_steuerung.mqtt_senden beispiel_nutzlast (Some AndereAusnahme)
                (mqtt beispiel_welt))))
     = Fertig true
  /\ ergebnis
       (mqtt_steuerung.mqtt_ist_verbunden
          (mqtt (zustand_nach
                   (nachrichten_pruefen true None (Some AndereAusnahme)
                      beispiel_welt))))
     = Fertig true.
Proof. repeat split; reflexivity. Qed.

(** C9. A message on the control topic whose object has command "MUTE" with
    status "ON", or command "BUZZER" with status "OFF", clears the critical
    flag, whatever the last CO2 reading was; [summer_stoppen] is called (a
    present buzzer is no longer marked steadily on, a working one is at duty
    0), and "MUTE" sets the mute flag.  Strike counter, cooldown deadline and
    thresholds are untouched.  The next run of the timer callback with a
    valid reading whose CO2 is above the critical threshold enters the
    critical stage as on a first critical run: forced buzzer start, critical
    flag set, counter and deadline at 0, one display wake. *)
Theorem fernbefehl_loescht_kritischen_alarm b w d :
  (d !! "command" = Some (JText "MUTE") /\ d !! "status" = Some (JText "ON"))
  \/ (d !! "command" = Some (JText "BUZZER") /\ d !! "status" = Some (JText "OFF")) ->
  let r := mqtt_befehl_empfangen b (Liefert mqtt_steuerung.EMPFANGS_TOPIC)
             (Liefert (JObjekt d)) w in
  let w' := zustand_nach r in
  ergebnis r = Fertig tt
  /\ kritischer_alarm_aktiv w' = false
  /\ In Ruf_summer_stoppen (protokoll r)
  /\ (d !! "command" = Some (JText "MUTE") ->
      aktor_steuerung._ist_stummgeschaltet (aktor w') = true)
  /\ (forall p,
        aktor_steuerung._summer_pwm_objekt (aktor w) = Some p ->
        aktor_steuerung._summer_ist_dauerhaft_an (aktor w') = false
        /\ (aktor_steuerung.pwm_defekt p = false ->
            aktor_steuerung._summer_pwm_objekt (aktor w')
            = Some {| aktor_steuerung.pwm_freq := aktor_steuerung.pwm_freq p;
                      aktor_steuerung.pwm_duty := aktor_steuerung.SUMMER_DUTY_AUS;
                      aktor_steuerung.pwm_defekt := false |}))
  /\ (normal_alarm_zaehler w' = normal_alarm_zaehler w
      /\ normal_alarm_sperre_bis w' = normal_alarm_sperre_bis w
      /\ aktuelle_co2_kritisch_schwelle w' = aktuelle_co2_kritisch_schwelle w
      /\ sensoren w' = sensoren w)
  /\ (forall u m,
        werte u w' = Some m ->
        ungueltig m = false ->
        aktuelle_co2_kritisch_schwelle w' < co2 m ->
        let r2 := sensoren_lesen_verarbeiten_senden u w' in
        (exists l, protokoll r2
                   = Ruf_display_aktualisieren :: Ruf_summer_starten true :: l)
        /\ kritischer_alarm_aktiv (zustand_nach r2) = true
        /\ normal_alarm_zaehler (zustand_nach r2) = 0
        /\ normal_alarm_sperre_bis (zustand_nach r2) = 0
        /\ anzahl ist_wecken (protokoll r2) = 1%nat).
Proof.
  intros Hd.
  assert (Hr : exists a l,
             mqtt_befehl_empfangen b (Liefert mqtt_steuerung.EMPFANGS_TOPIC)
               (Liefert (JObjekt d)) w
             = (Fertig tt, mit_kritisch false (mit_aktor a w), l)
             /\ In Ruf_summer_stoppen l
             /\ (d !! "command" = Some (JText "MUTE") ->
                 aktor_steuerung._ist_stummgeschaltet a = true)
             /\ (forall p,
                   aktor_steuerung._summer_pwm_objekt (aktor w) = Some p ->
                   aktor_steuerung._summer_ist_dauerhaft_an a = false
                   /\ (aktor_steuerung.pwm_defekt p = false ->
                       aktor_steuerung._summer_pwm_objekt a
                       = Some {| aktor_steuerung.pwm_freq := aktor_steuerung.pwm_freq p;
                                 aktor_steuerung.pwm_duty :=
                                   aktor_steuerung.SUMMER_DUTY_AUS;
                                 aktor_steuerung.pwm_defekt := false |}))).
  { destruct Hd as [[Hc Hs]|[Hc Hs]].
    - pose proof (geraet_steuern_mute_on w d Hc Hs) as Hg.
      rewrite mqtt_befehl_empfangen_steuerung by (now rewrite Hg).
      rewrite Hg. eexists _, _. split; [reflexivity|].
      destruct (aktor_fakten.stumm_schalten_an (aktor w)) as (Hp & _ & Hm & Hsu).
      destruct (aktor_fakten.summer_stoppen_protokoll
                  (aktor_steuerung.mit_stumm true (aktor w))) as (ls & Hls & _).
      split; [|split; [intros _; exact Hm|exact Hsu]].
      rewrite Hp, Hls. right. left. reflexivity.
    - pose proof (geraet_steuern_buzzer_off w d Hc Hs) as Hg.
      rewrite mqtt_befehl_empfangen_steuerung by (now rewrite Hg).
      rewrite Hg. eexists _, _. split; [reflexivity|].
      destruct (aktor_fakten.summer_stoppen_protokoll (aktor w)) as (ls & Hls & _).
      destruct (aktor_fakten.summer_stoppen_zustand (aktor w)) as (_ & _ & Hsu).
      split; [|split; [intros Hm; congruence|exact Hsu]].
      rewrite Hls. left. reflexivity. }
  destruct Hr as (a & l & Hr & Hin & Hmute & Hsu).
  cbn zeta. rewrite Hr. cbn [ergebnis zustand_nach protokoll fst snd].
  split; [reflexivity|]. split; [reflexivity|]. split; [exact Hin|].
  split; [exact Hmute|]. split; [exact Hsu|].
  split; [repeat split; reflexivity|].
  intros u m Hm Hg Hc.
  assert (Hk : ist_co2_kritisch m (mit_kritisch false (mit_aktor a w)) = true)
    by (apply Z.ltb_lt; exact Hc).
  destruct (tick_kritisch u _ m Hm Hg Hk) as (_ & _ & Hkr & Hz & Hs & l2 & Hp & _ & Hw).
  cbn [kritischer_alarm_aktiv mit_kritisch] in Hz, Hs, Hw.
  split; [eauto|]. split; [exact Hkr|]. split; [exact Hz|]. split; [exact Hs|].
  rewrite Hp. zaehle.
Qed.

Lemma fernbefehl_loescht_kritischen_alarm_zeuge :
  kritischer_alarm_aktiv
    (zustand_nach
       (mqtt_befehl_empfangen true (Liefert mqtt_steuerung.EMPFANGS_TOPIC)
          (Liefert (JObjekt (<["status" := JText "ON"]>
                               (<["command" := JText "MUTE"]> ∅))))
          (mit_kritisch true beispiel_welt))) = false.
Proof.
  pose proof (fernbefehl_loescht_kritischen_alarm true
                (mit_kritisch true beispiel_welt)
                (<["status" := JText "ON"]> (<["command" := JText "MUTE"]> ∅))) as H.
  cbn zeta in H.
  destruct H as (_ & H & _).
  - left. split; reflexivity.
  - exact H.
Defined.

(** C10. Whatever the CCS811 driver has answered so far and answers now,
    from the start of the module on: [lese_co2] finishes with an integer
    within 400..8000 and [lese_voc], called after it as the callback does,
    with an integer of at least 0; neither logs anything or raises.  The
    cache starts at 400 and 0.  A fresh sample replaces both cached values
    together when CO2 is within 400..8000 and VOC is at least 0 (and the
    sensor object exists); any other sample leaves the whole sensor state as
    it was. *)
Theorem ccs_werte_immer_im_bereich aht10 ccs_da cs c :
  let s := abfragen cs (sensorik.anfang aht10 ccs_da) in
  let r := sensorik.lese_co2 c s in
  (exists v, r = (Fertig v, zustand_nach r, []) /\ 400 <= v <= 8000)
  /\ (exists v, sensorik.lese_voc (zustand_nach r) = (Fertig v, zustand_nach r, [])
                /\ 0 <= v)
  /\ (exists v, sensorik.lese_voc s = (Fertig v, s, []) /\ 0 <= v)
  /\ (sensorik._letzter_co2_wert (sensorik.anfang aht10 ccs_da) = 400
      /\ sensorik._letzter_voc_wert (sensorik.anfang aht10 ccs_da) = 0)
  /\ (forall s0 co2 voc,
        zustand_nach (sensorik._aktualisiere_ccs_daten (probe co2 voc) s0)
        = if ccs_bereich co2 voc && sensorik._sensor_ccs s0
          then sensorik.mit_ccs_werten co2 voc s0
          else s0).
Proof.
  cbn zeta.
  assert (Hs : ccs_gueltig (abfragen cs (sensorik.anfang aht10 ccs_da))).
  { apply abfragen_gueltig. unfold ccs_gueltig. cbn. lia. }
  destruct (lese_co2_lauf c (abfragen cs (sensorik.anfang aht10 ccs_da)))
    as (s' & Hr & Hg).
  rewrite Hr. cbn [zustand_nach fst snd]. specialize (Hg Hs). destruct Hg as [Hc Hv].
  split; [eauto|]. split; [eexists; split; [reflexivity|exact Hv]|].
  split; [eexists; split; [reflexivity|apply Hs]|].
  split; [split; reflexivity|].
  intros s0 co2 voc.
  unfold sensorik._aktualisiere_ccs_daten, probe, bind, wenn, versuche, versuche_wenn,
    rufe, ret, aendere. cbn -[Z.leb].
  fold (ccs_bereich co2 voc).
  destruct (sensorik._sensor_ccs s0); cbn -[Z.leb ccs_bereich];
    destruct (ccs_bereich co2 voc) eqn:E; cbn -[Z.leb ccs_bereich];
    unfold ccs_bereich in E; rewrite ?E; reflexivity.
Qed.

(** * Further properties *)

(** ** aktor_steuerung.py: angles, set-up, tear-down, sequences of calls *)

Module aktor_weiteres.
Import aktor_steuerung aktor_lebenszyklus aktor_fakten.

Lemma winkel_zu_duty_formel w :
  _winkel_zu_duty w = 26 + (17 * Z.max 0 (Z.min 180 w)) / 30.
Proof.
  unfold _winkel_zu_duty, int_von_Q, SERVO_DUTY_MIN, SERVO_DUTY_MAX.
  set (c := Z.max 0 (Z.min 180 w)).
  assert (Hc : 0 <= c) by (unfold c; lia).
  unfold Qdiv, Qplus, Qmult, Qinv, inject_Z. cbn [Qnum Qden Z.sub].
  change (Z.pos (1 * (1 * (1 * 180)))) with 180.
  change (Z.pos (1 * (1 * 180))) with 180.
  rewrite Z.quot_div_nonneg by lia.
  replace (26 * 180 + (128 - 26) * (c * 1) * 1) with (6 * (17 * c) + 26 * 180) by lia.
  rewrite Z.div_add by lia.
  change 180 with (6 * 30) at 1.
  rewrite Z.div_mul_cancel_l by lia. lia.
Qed.

(** X1 ([_winkel_zu_duty], [servo_winkel_setzen]).  The duty cycle computed
    for an angle always lies between [SERVO_DUTY_MIN] and [SERVO_DUTY_MAX]:
    angles at or below 0 give the minimum, angles at or above 180 the
    maximum, and a larger angle never gives a smaller duty.
    [servo_winkel_setzen] writes exactly that duty to a servo that works and
    does nothing, without raising, when the servo is absent or defective. *)
Theorem servo_duty_im_bereich w1 w2 :
  (SERVO_DUTY_MIN <= _winkel_zu_duty w1 <= SERVO_DUTY_MAX)
  /\ (w1 <= 0 -> _winkel_zu_duty w1 = SERVO_DUTY_MIN)
  /\ (180 <= w1 -> _winkel_zu_duty w1 = SERVO_DUTY_MAX)
  /\ (w1 <= w2 -> _winkel_zu_duty w1 <= _winkel_zu_duty w2)
  /\ (forall s,
        servo_winkel_setzen w1 s
        = match _servo_pwm_objekt s with
          | Some p =>
              if pwm_defekt p then (Fertig tt, s, [])
              else (Fertig tt,
                    mit_servo (Some {| pwm_freq := pwm_freq p;
                                       pwm_duty := _winkel_zu_duty w1;
                                       pwm_defekt := false |}) s,
                    [ServoDuty (_winkel_zu_duty w1)])
          | None => (Fertig tt, s, [])
          end).
Proof.
  rewrite !winkel_zu_duty_formel. unfold SERVO_DUTY_MIN, SERVO_DUTY_MAX.
  split; [|split; [|split; [|split]]].
  - assert (H : 0 <= (17 * Z.max 0 (Z.min 180 w1)) / 30 <= 102).
    { split; [apply Z.div_pos; lia|]. apply Z.div_le_upper_bound; lia. }
    lia.
  - intros H. replace (Z.max 0 (Z.min 180 w1)) with 0 by lia. reflexivity.
  - intros H. replace (Z.max 0 (Z.min 180 w1)) with 180 by lia. reflexivity.
  - intros H. apply Z.add_le_mono_l. apply Z.div_le_mono; lia.
  - intros s. rewrite <- winkel_zu_duty_formel.
    destruct s as [[[vf vd [|]]|] summer stumm freq dauer]; reflexivity.
Qed.

Lemma wiederhole_winken k d1 d2 pause :
  forall s p,
    _servo_pwm_objekt s = Some p -> pwm_defekt p = false ->
    wiederhole k (bind (servo_duty d1) (fun _ => bind (sleep_ms pause)
                   (fun _ => bind (servo_duty d2) (fun _ => sleep_ms pause)))) s
    = (Fertig tt,
       match k with
       | O => s
       | Datatypes.S _ =>
           mit_servo (Some {| pwm_freq := pwm_freq p; pwm_duty := d2;
                              pwm_defekt := false |}) s
       end,
       winken_schritte k d1 d2 pause).
Proof.
  induction k as [|k IH]; intros s p Hp Hd; [reflexivity|].
  cbn [wiederhole]. unfold bind at 1.
  assert (H1 : bind (servo_duty d1) (fun _ => bind (sleep_ms pause)
                 (fun _ => bind (servo_duty d2) (fun _ => sleep_ms pause))) s
               = (Fertig tt,
                  mit_servo (Some {| pwm_freq := pwm_freq p; pwm_duty := d2;
                                     pwm_defekt := false |}) s,
                  [ServoDuty d1; Schlaf_ms pause; ServoDuty d2; Schlaf_ms pause])).
  { destruct s as [servo summer stumm freq dauer]. cbn in Hp. subst servo.
    destruct p as [pf pd pdef]. cbn in Hd. subst pdef. reflexivity. }
  rewrite H1.
  rewrite (IH _ {| pwm_freq := pwm_freq p; pwm_duty := d2; pwm_defekt := false |})
    by reflexivity.
  unfold winken_schritte. cbn [replicate concat].
  destruct k; destruct s; reflexivity.
Qed.

Lemma winken_schritte_kein_summer k d1 d2 pause :
  anzahl ist_summer_an (winken_schritte k d1 d2 pause) = 0%nat
  /\ anzahl ist_servo_duty (winken_schritte k d1 d2 pause) = (2 * k)%nat
  /\ anzahl treibt_summer (winken_schritte k d1 d2 pause) = 0%nat.
Proof.
  unfold winken_schritte.
  induction k as [|k (IH1 & IH2 & IH3)]; [repeat split; reflexivity|].
  cbn [replicate concat]. rewrite !anzahl_app, IH1, IH2, IH3.
  repeat split; cbn; lia.
Qed.

Lemma versuche_fertig {S A} (m : Prog S A) h s a s1 l1 :
  m s = (Fertig a, s1, l1) -> versuche m h s = (Fertig a, s1, l1).
Proof. unfold versuche, versuche_wenn. now intros ->. Qed.

Lemma servo_winken_lauf n w1 w2 pause s :
  servo_winken n w1 w2 pause s
  = match _servo_pwm_objekt s with
    | Some p =>
        if pwm_defekt p then (Fertig tt, s, [Ruf_servo_winken n])
        else (Fertig tt,
              mit_servo (Some {| pwm_freq := pwm_freq p;
                                 pwm_duty := _winkel_zu_duty SERVO_STANDARD_WINKEL;
                                 pwm_defekt := false |}) s,
              Ruf_servo_winken n
              :: winken_schritte (Z.to_nat n) (_winkel_zu_duty w1) (_winkel_zu_duty w2) pause
              ++ [ServoDuty (_winkel_zu_duty SERVO_STANDARD_WINKEL)])
    | None => (Fertig tt, s, [Ruf_servo_winken n])
    end.
Proof.
  destruct (_servo_pwm_objekt s) as [p|] eqn:Hp.
  - destruct (pwm_defekt p) eqn:Hd.
    + destruct s as [servo summer stumm freq dauer]. cbn in Hp. subst servo.
      destruct p as [pf pd pdef]. cbn in Hd. subst pdef.
      unfold servo_winken. destruct (Z.to_nat n); reflexivity.
    + unfold servo_winken.
      unfold bind at 1. cbn [melde]. unfold bind at 1. cbn [lies].
      rewrite Hp. cbn [ist_none].
      cbv zeta.
      rewrite (versuche_fertig _ _ _ tt
                 (mit_servo (Some {| pwm_freq := pwm_freq p;
                                     pwm_duty := _winkel_zu_duty SERVO_STANDARD_WINKEL;
                                     pwm_defekt := false |}) s)
                 (winken_schritte (Z.to_nat n) (_winkel_zu_duty w1) (_winkel_zu_duty w2) pause
                  ++ [ServoDuty (_winkel_zu_duty SERVO_STANDARD_WINKEL)])).
      * reflexivity.
      * unfold bind at 1. rewrite (wiederhole_winken _ _ _ _ s p Hp Hd).
        destruct s as [servo summer stumm freq dauer]. cbn in Hp. subst servo.
        destruct p as [pf pd pdef]. cbn in Hd. subst pdef.
        destruct (Z.to_nat n); reflexivity.
  - destruct s as [servo summer stumm freq dauer]. cbn in Hp. subst servo. reflexivity.
Qed.

(** X2 ([servo_winken]).  For every repeat count, pair of angles and pause
    the wave returns normally and leaves the buzzer, the mute flag and the
    steady-tone flag alone.  A servo that works receives
    [2 * max(n, 0) + 1] duty writes, the last one the rest position, and
    ends there; an absent or defective servo leaves the state as it was. *)
Theorem servo_winken_beliebig n w1 w2 pause s :
  let r := servo_winken n w1 w2 pause s in
  ergebnis r = Fertig tt
  /\ _summer_pwm_objekt (zustand_nach r) = _summer_pwm_objekt s
  /\ _ist_stummgeschaltet (zustand_nach r) = _ist_stummgeschaltet s
  /\ _summer_ist_dauerhaft_an (zustand_nach r) = _summer_ist_dauerhaft_an s
  /\ _summer_aktuelle_frequenz (zustand_nach r) = _summer_aktuelle_frequenz s
  /\ anzahl treibt_summer (protokoll r) = 0%nat
  /\ match _servo_pwm_objekt s with
     | Some p =>
         if pwm_defekt p
         then zustand_nach r = s /\ anzahl ist_servo_duty (protokoll r) = 0%nat
         else _servo_pwm_objekt (zustand_nach r)
              = Some {| pwm_freq := pwm_freq p;
                        pwm_duty := _winkel_zu_duty SERVO_STANDARD_WINKEL;
                        pwm_defekt := false |}
              /\ anzahl ist_servo_duty (protokoll r) = (2 * Z.to_nat n + 1)%nat
              /\ protokoll r
                 = Ruf_servo_winken n
                   :: winken_schritte (Z.to_nat n) (_winkel_zu_duty w1)
                        (_winkel_zu_duty w2) pause
                   ++ [ServoDuty (_winkel_zu_duty SERVO_STANDARD_WINKEL)]
     | None => zustand_nach r = s /\ anzahl ist_servo_duty (protokoll r) = 0%nat
     end.
Proof.
  cbv zeta. rewrite servo_winken_lauf.
  destruct (_servo_pwm_objekt s) as [p|] eqn:Hp; [destruct (pwm_defekt p) eqn:Hd|].
  - repeat split.
  - destruct (winken_schritte_kein_summer (Z.to_nat n) (_winkel_zu_duty w1)
                (_winkel_zu_duty w2) pause) as (_ & H2 & H3).
    cbn [ergebnis zustand_nach protokoll fst snd].
    rewrite !anzahl_cons, !anzahl_app, H2, H3.
    destruct s; cbn. repeat split; lia.
  - repeat split.
Qed.

Ltac loese :=
  cbv;
  repeat match goal with
         | |- _ /\ _ => split
         | |- forall _, _ => intro
         | H : _ /\ _ |- _ => destruct H
         | H : Some _ = Some _ |- _ => inversion H; subst; clear H
         | H : None = Some _ |- _ => discriminate H
         | H : true = false |- _ => discriminate H
         | H : false = true |- _ => discriminate H
         | H : forall p : pwm, _ |- _ => specialize (H _ eq_refl)
         | H : ?a = ?a -> _ |- _ => specialize (H eq_refl)
         end;
  cbv in *; try reflexivity; try congruence; auto.

(** X3 ([aktoren_initialisieren]).  The set-up never raises, whatever the
    two drivers answer.  Afterwards the pin numbers and the frequency are the
    arguments, the steady-tone flag is off and the mute flag is untouched;
    the buzzer is the new output at duty [SUMMER_DUTY_AUS], or absent when
    its driver raised; the servo is at the rest position when its driver
    gave a working output, and absent both when the driver raised and when
    the first duty write failed. *)
Theorem aktoren_initialisieren_ergebnis servo_pin summer_pin f summer_pwm servo_pwm m :
  let r := aktoren_initialisieren servo_pin summer_pin f summer_pwm servo_pwm m in
  let k := kern (zustand_nach r) in
  ergebnis r = Fertig tt
  /\ _servo_pin_nr (zustand_nach r) = servo_pin
  /\ _summer_pin_nr (zustand_nach r) = summer_pin
  /\ _summer_aktuelle_frequenz k = f
  /\ _summer_ist_dauerhaft_an k = false
  /\ _ist_stummgeschaltet k = _ist_stummgeschaltet (kern m)
  /\ _summer_pwm_objekt k
     = match summer_pwm with
       | Liefert defekt =>
           Some {| pwm_freq := f; pwm_duty := SUMMER_DUTY_AUS; pwm_defekt := defekt |}
       | Scheitert _ => None
       end
  /\ _servo_pwm_objekt k
     = match servo_pwm with
       | Liefert false =>
           Some {| pwm_freq := SERVO_FREQUENZ;
                   pwm_duty := _winkel_zu_duty SERVO_STANDARD_WINKEL;
                   pwm_defekt := false |}
       | _ => None
       end
  /\ protokoll r
     = match servo_pwm with
       | Liefert false => [ServoDuty (_winkel_zu_duty SERVO_STANDARD_WINKEL); Schlaf_ms 500]
       | _ => []
       end
  /\ summer_treu k /\ summer_still k.
Proof.
  destruct m as [k0 p1 p2]. destruct k0 as [servo summer stumm freq dauer].
  destruct summer_pwm as [[|]|e1], servo_pwm as [[|]|e2]; loese.
Qed.

Lemma aktoren_aufraeumen_lauf s :
  let r := aktoren_aufräumen s in
  ergebnis r = Fertig tt
  /\ zustand_nach r = mit_summer None (mit_servo None s)
  /\ protokoll r
     = match _servo_pwm_objekt s with
       | Some p => if pwm_defekt p then [] else [ServoDuty 0]
       | None => []
       end
       ++ match _summer_pwm_objekt s with
          | Some p => if pwm_defekt p then [] else [SummerDuty 0]
          | None => []
          end.
Proof. faelle s; repeat split. Qed.

(** Without both outputs every call returns, leaves them absent and writes
    to no driver. *)
Lemma ausfuehren_ohne_ausgaenge a s :
  _servo_pwm_objekt s = None -> _summer_pwm_objekt s = None ->
  let r := ausfuehren a s in
  ergebnis r = Fertig tt
  /\ _servo_pwm_objekt (zustand_nach r) = None
  /\ _summer_pwm_objekt (zustand_nach r) = None
  /\ anzahl ist_treiber (protokoll r) = 0%nat.
Proof.
  intros H1 H2. destruct s as [servo summer stumm freq dauer]. cbn in H1, H2. subst.
  destruct a as [d f [|]|f [|]| |[|]|n w1 w2 p|w]; repeat split.
Qed.

Lemma nacheinander_ohne_ausgaenge l :
  forall s,
    _servo_pwm_objekt s = None -> _summer_pwm_objekt s = None ->
    let r := nacheinander l s in
    ergebnis r = Fertig tt
    /\ _servo_pwm_objekt (zustand_nach r) = None
    /\ _summer_pwm_objekt (zustand_nach r) = None
    /\ anzahl ist_treiber (protokoll r) = 0%nat.
Proof.
  induction l as [|a l IH]; intros s H1 H2; [repeat split; assumption|].
  cbv zeta. cbn [nacheinander].
  destruct (ausfuehren_ohne_ausgaenge a s H1 H2) as (Ha & Hb & Hc & Hd).
  rewrite (bind_fertig _ _ _ tt Ha).
  destruct (IH _ Hb Hc) as (Ia & Ib & Ic & Id).
  cbn [ergebnis zustand_nach protokoll fst snd].
  rewrite anzahl_app, Hd, Id. repeat split; assumption.
Qed.

(** X4 ([aktoren_aufräumen]).  The tear-down never raises and drops both
    outputs, after sending duty 0 to each one that works; the mute flag
    stays.  From then on every sequence of calls of the public functions
    returns normally, leaves both outputs absent and writes to no driver. *)
Theorem nach_dem_aufraeumen_still s l :
  let r := aktoren_aufräumen s in
  let r' := nacheinander l (zustand_nach r) in
  ergebnis r = Fertig tt
  /\ _servo_pwm_objekt (zustand_nach r) = None
  /\ _summer_pwm_objekt (zustand_nach r) = None
  /\ _ist_stummgeschaltet (zustand_nach r) = _ist_stummgeschaltet s
  /\ (forall p, _servo_pwm_objekt s = Some p -> pwm_defekt p = false ->
        anzahl (fun e => match e with ServoDuty 0 => true | _ => false end)
          (protokoll r) = 1%nat)
  /\ (forall p, _summer_pwm_objekt s = Some p -> pwm_defekt p = false ->
        anzahl (fun e => match e with SummerDuty 0 => true | _ => false end)
          (protokoll r) = 1%nat)
  /\ ergebnis r' = Fertig tt
  /\ _servo_pwm_objekt (zustand_nach r') = None
  /\ _summer_pwm_objekt (zustand_nach r') = None
  /\ anzahl ist_treiber (protokoll r') = 0%nat.
Proof.
  cbv zeta. destruct (aktoren_aufraeumen_lauf s) as (H1 & H2 & H3).
  rewrite H3, H2.
  split; [exact H1|].
  split; [reflexivity|]. split; [reflexivity|]. split; [reflexivity|].
  split; [|split].
  - intros p Hp Hd. rewrite Hp, Hd.
    destruct (_summer_pwm_objekt s) as [[? ? [|]]|]; reflexivity.
  - intros p Hp Hd. rewrite Hp, Hd.
    destruct (_servo_pwm_objekt s) as [[? ? [|]]|]; reflexivity.
  - apply nacheinander_ohne_ausgaenge; reflexivity.
Qed.

Lemma winken_summer_an k d1 d2 pause :
  anzahl ist_summer_an (winken_schritte k d1 d2 pause) = 0%nat.
Proof. apply winken_schritte_kein_summer. Qed.

Lemma ausfuehren_treu a s :
  summer_treu s ->
  ergebnis (ausfuehren a s) = Fertig tt /\ summer_treu (zustand_nach (ausfuehren a s)).
Proof.
  destruct a as [d f e|f e| |b|n w1 w2 p|w]; cbn [ausfuehren].
  - unfold summer_treu. faelle s; destruct e, f; loese.
  - unfold summer_treu. faelle s; destruct e, f; loese.
  - unfold summer_treu. faelle s; loese.
  - unfold summer_treu. faelle s; destruct b; loese.
  - intros H. rewrite servo_winken_lauf.
    destruct (_servo_pwm_objekt s) as [[vf vd [|]]|]; (split; [reflexivity|]);
      exact H.
  - unfold summer_treu. faelle s; loese.
Qed.

(** X5 (all public functions of aktor_steuerung.py).  The steady-tone flag
    tells the truth about a working buzzer: if its duty is
    [SUMMER_DUTY_AN] exactly when [_summer_ist_dauerhaft_an] is set and
    [SUMMER_DUTY_AUS] otherwise, then this still holds after any sequence of
    beeps, starts, stops, mute switches and servo moves, forced or not, and
    none of these calls raises. *)
Theorem summer_treu_bleibt l :
  forall s,
    summer_treu s ->
    ergebnis (nacheinander l s) = Fertig tt
    /\ summer_treu (zustand_nach (nacheinander l s)).
Proof.
  induction l as [|a l IH]; intros s H; [split; [reflexivity|exact H]|].
  cbn [nacheinander].
  destruct (ausfuehren_treu a s H) as (Ha & Hb).
  rewrite (bind_fertig _ _ _ tt Ha).
  destruct (IH _ Hb) as (Ia & Ib).
  split; assumption.
Qed.

Lemma summer_treu_bleibt_zeuge :
  let l := [Stumm true; Piepen 300 None true; Starten None false;
            Starten (Some 2000) true; Winken 1 45 135 400;
            Piepen 300 None false] in
  let r := nacheinander l beispiel_aktor in
  summer_treu beispiel_aktor
  /\ ergebnis r = Fertig tt
  /\ _summer_ist_dauerhaft_an (zustand_nach r) = true
  /\ exists p,
       _summer_pwm_objekt (zustand_nach r) = Some p
       /\ pwm_defekt p = false
       /\ pwm_freq p = 2000
       /\ pwm_duty p = SUMMER_DUTY_AN.
Proof.
  cbv zeta.
  assert (H : summer_treu beispiel_aktor)
    by (intros p Hp _; injection Hp as <-; reflexivity).
  destruct (summer_treu_bleibt
              [Stumm true; Piepen 300 None true; Starten None false;
               Starten (Some 2000) true; Winken 1 45 135 400;
               Piepen 300 None false]
              beispiel_aktor H) as (He & Ht).
  split; [exact H|]. split; [exact He|]. split; [reflexivity|].
  eexists. split; [vm_compute; reflexivity|].
  split; [reflexivity|]. split; [reflexivity|].
  exact (Ht _ eq_refl eq_refl).
Defined.

Lemma ausfuehren_stumm a s :
  ohne_zwang a = true ->
  _ist_stummgeschaltet s = true -> summer_still s ->
  let r := ausfuehren a s in
  ergebnis r = Fertig tt
  /\ _ist_stummgeschaltet (zustand_nach r) = true
  /\ summer_still (zustand_nach r)
  /\ anzahl ist_summer_an (protokoll r) = 0%nat.
Proof.
  destruct a as [d f e|f e| |b|n w1 w2 p|w]; cbn [ausfuehren].
  - unfold summer_still. faelle s; destruct e, f; loese.
  - unfold summer_still. faelle s; destruct e, f; loese.
  - unfold summer_still. faelle s; loese.
  - unfold summer_still. faelle s; destruct b; loese.
  - intros _ Hm Hs. cbv zeta. rewrite servo_winken_lauf.
    destruct (_servo_pwm_objekt s) as [[vf vd [|]]|];
      cbn [ergebnis zustand_nach protokoll fst snd pwm_defekt pwm_freq];
      (split; [reflexivity|]); (split; [destruct s; exact Hm|]);
      (split; [destruct s; exact Hs|]); try reflexivity.
    rewrite anzahl_cons, anzahl_app, winken_summer_an. reflexivity.
  - unfold summer_still. faelle s; loese.
Qed.

Lemma nacheinander_stumm l :
  forall s,
    forallb ohne_zwang l = true ->
    _ist_stummgeschaltet s = true -> summer_still s ->
    let r := nacheinander l s in
    ergebnis r = Fertig tt
    /\ _ist_stummgeschaltet (zustand_nach r) = true
    /\ summer_still (zustand_nach r)
    /\ anzahl ist_summer_an (protokoll r) = 0%nat.
Proof.
  induction l as [|a l IH]; intros s Hl Hm Hs.
  { split; [reflexivity|]. split; [exact Hm|]. split; [exact Hs|reflexivity]. }
  cbn [forallb] in Hl. apply andb_prop in Hl as (Ha & Hl).
  cbv zeta. cbn [nacheinander].
  destruct (ausfuehren_stumm a s Ha Hm Hs) as (A1 & A2 & A3 & A4).
  rewrite (bind_fertig _ _ _ tt A1).
  destruct (IH _ Hl A2 A3) as (I1 & I2 & I3 & I4).
  cbn [ergebnis zustand_nach protokoll fst snd].
  rewrite anzahl_app, A4, I4.
  split; [exact I1|]. split; [exact I2|]. split; [exact I3|reflexivity].
Qed.

Lemma stumm_schalten_still s :
  let r := stumm_schalten true s in
  ergebnis r = Fertig tt
  /\ _ist_stummgeschaltet (zustand_nach r) = true
  /\ summer_still (zustand_nach r)
  /\ anzahl ist_summer_an (protokoll r) = 0%nat.
Proof.
  unfold summer_still. faelle s; loese.
Qed.

(** X6 ([stumm_schalten] with the other public functions).  After
    [stumm_schalten(True)], from any state, no sequence of calls that
    neither force the buzzer nor lift the mute turns the buzzer on: no duty
    other than [SUMMER_DUTY_AUS] is written to it, the module stays muted,
    and a buzzer that is there stays marked off and at duty 0. *)
Theorem stumm_haelt_den_summer_still l s :
  forallb ohne_zwang l = true ->
  let r := nacheinander (Stumm true :: l) s in
  ergebnis r = Fertig tt
  /\ _ist_stummgeschaltet (zustand_nach r) = true
  /\ summer_still (zustand_nach r)
  /\ anzahl ist_summer_an (protokoll r) = 0%nat.
Proof.
  intros Hl. cbv zeta. cbn [nacheinander ausfuehren].
  destruct (stumm_schalten_still s) as (A1 & A2 & A3 & A4).
  rewrite (bind_fertig _ _ _ tt A1).
  destruct (nacheinander_stumm l _ Hl A2 A3) as (I1 & I2 & I3 & I4).
  cbn [ergebnis zustand_nach protokoll fst snd].
  rewrite anzahl_app, A4, I4.
  split; [exact I1|]. split; [exact I2|]. split; [exact I3|reflexivity].
Qed.

Lemma stumm_haelt_den_summer_still_zeuge :
  let l := [Starten None false; Piepen 300 None false; Winken 3 45 135 400; Stoppen] in
  let r := nacheinander (Stumm true :: l)
             (mit_dauerhaft_an true
                (mit_summer (Some {| pwm_freq := 1000; pwm_duty := SUMMER_DUTY_AN;
                                     pwm_defekt := false |}) anfang)) in
  forallb ohne_zwang l = true
  /\ _ist_stummgeschaltet (zustand_nach r) = true
  /\ anzahl ist_summer_an (protokoll r) = 0%nat.
Proof.
  cbv zeta.
  pose proof (stumm_haelt_den_summer_still
                [Starten None false; Piepen 300 None false; Winken 3 45 135 400; Stoppen]
                (mit_dauerhaft_an true
                   (mit_summer (Some {| pwm_freq := 1000; pwm_duty := SUMMER_DUTY_AN;
                                        pwm_defekt := false |}) anfang))
                eq_refl) as H.
  cbv zeta in H. destruct H as (_ & H2 & _ & H5).
  split; [reflexivity|]. split; [exact H2|exact H5].
Defined.

(** X7 ([summer_kurz_piepen]).  A beep never raises and never changes the
    mute flag, the steady-tone flag or the servo.  It is skipped when the
    buzzer is absent or defective, when the module is muted and the beep is
    not forced, and, even when forced, while the steady tone is on.
    Otherwise it sets the frequency (the argument, or the one of the
    set-up), turns the buzzer on for the given time and leaves it at duty
    [SUMMER_DUTY_AUS]. *)
Theorem summer_kurz_piepen_allgemein d f e s :
  let r := summer_kurz_piepen d f e s in
  ergebnis r = Fertig tt
  /\ _ist_stummgeschaltet (zustand_nach r) = _ist_stummgeschaltet s
  /\ _summer_ist_dauerhaft_an (zustand_nach r) = _summer_ist_dauerhaft_an s
  /\ _servo_pwm_objekt (zustand_nach r) = _servo_pwm_objekt s
  /\ match _summer_pwm_objekt s with
     | Some p =>
         if pwm_defekt p
            || (_ist_stummgeschaltet s && negb e)
            || _summer_ist_dauerhaft_an s
         then r = (Fertig tt, s, [Ruf_summer_kurz_piepen e])
         else r = (Fertig tt,
                   mit_summer (Some {| pwm_freq := ton f s; pwm_duty := SUMMER_DUTY_AUS;
                                       pwm_defekt := false |}) s,
                   [Ruf_summer_kurz_piepen e; SummerFreq (ton f s);
                    SummerDuty SUMMER_DUTY_AN; Schlaf_ms d; SummerDuty SUMMER_DUTY_AUS])
     | None => r = (Fertig tt, s, [Ruf_summer_kurz_piepen e])
     end.
Proof.
  faelle s; destruct e, f; repeat split.
Qed.

(** X8 ([summer_starten] without [erzwingen]).  On a muted module the call
    is a [summer_stoppen]: a buzzer that works is driven to duty 0 and the
    steady-tone flag is cleared.  Unmuted, it does nothing when the tone is
    already on or the buzzer is defective, and otherwise sets the frequency,
    turns the buzzer on and sets the flag.  It never raises and never
    touches the mute flag or the servo. *)
Theorem summer_starten_ohne_zwang f s :
  let r := summer_starten f false s in
  ergebnis r = Fertig tt
  /\ _ist_stummgeschaltet (zustand_nach r) = _ist_stummgeschaltet s
  /\ _servo_pwm_objekt (zustand_nach r) = _servo_pwm_objekt s
  /\ match _summer_pwm_objekt s with
     | Some p =>
         if _ist_stummgeschaltet s then
           _summer_ist_dauerhaft_an (zustand_nach r) = false
           /\ protokoll r = Ruf_summer_starten false :: protokoll (summer_stoppen s)
           /\ zustand_nach r = zustand_nach (summer_stoppen s)
           /\ (pwm_defekt p = false ->
               _summer_pwm_objekt (zustand_nach r)
               = Some {| pwm_freq := pwm_freq p; pwm_duty := SUMMER_DUTY_AUS;
                         pwm_defekt := false |})
         else if _summer_ist_dauerhaft_an s then
           r = (Fertig tt, s, [Ruf_summer_starten false])
         else if pwm_defekt p then
           r = (Fertig tt, s, [Ruf_summer_starten false])
         else
           r = (Fertig tt,
                mit_dauerhaft_an true
                  (mit_summer (Some {| pwm_freq := ton f s; pwm_duty := SUMMER_DUTY_AN;
                                       pwm_defekt := false |}) s),
                [Ruf_summer_starten false; SummerFreq (ton f s);
                 SummerDuty SUMMER_DUTY_AN])
     | None => r = (Fertig tt, s, [Ruf_summer_starten false])
     end.
Proof.
  faelle s; destruct f; repeat split; discriminate.
Qed.

End aktor_weiteres.

(** ** sensorik.py: the AHT10 readers and the CCS811 cache *)

Lemma Qfloor_inject_le a q : (inject_Z a <= q)%Q -> a <= Qfloor q.
Proof.
  intros H. rewrite <- (Qfloor_Z a). now apply Qfloor_resp_le.
Qed.

Lemma Qfloor_le_inject q b : (q <= inject_Z b)%Q -> Qfloor q <= b.
Proof.
  intros H. rewrite <- (Qfloor_Z b). now apply Qfloor_resp_le.
Qed.

(** Rounding to the nearest integer stays between integer bounds. *)
Lemma runde_halb_gerade_schranken q a b :
  (inject_Z a <= q)%Q -> (q <= inject_Z b)%Q ->
  a <= runde_halb_gerade q <= b.
Proof.
  intros Ha Hb. unfold runde_halb_gerade.
  pose proof (Qfloor_inject_le a q Ha) as Hfa.
  pose proof (Qfloor_le_inject q b Hb) as Hfb.
  assert (Hs : Qlt_bool (q - inject_Z (Qfloor q)) (1 # 2) = false -> Qfloor q + 1 <= b).
  { unfold Qlt_bool. intros H. apply negb_false_iff, Qle_bool_iff in H.
    assert (Hq : (inject_Z (Qfloor q) < q)%Q).
    { apply Qlt_minus_iff.
      apply Qlt_le_trans with (1 # 2)%Q; [reflexivity|].
      exact H. }
    assert (Hlt : (inject_Z (Qfloor q) < inject_Z b)%Q)
      by (eapply Qlt_le_trans; eassumption).
    rewrite <- Zlt_Qlt in Hlt. lia. }
  cbv zeta.
  destruct (Qlt_bool (q - inject_Z (Qfloor q)) (1 # 2)) eqn:E1; [lia|].
  specialize (Hs eq_refl).
  destruct (Qlt_bool (1 # 2) (q - inject_Z (Qfloor q))); [lia|].
  destruct (Z.even (Qfloor q)); lia.
Qed.

(** [round(x, 1)] of a value within integer bounds stays within them. *)
Lemma runde1_schranken a b x :
  zahl_le (Ganz a) x = true -> zahl_le x (Ganz b) = true ->
  zahl_le (Ganz a) (runde1 x) = true /\ zahl_le (runde1 x) (Ganz b) = true.
Proof.
  destruct x as [z|[q|n|]]; cbn; try (intros; split; assumption).
  intros Ha Hb. apply Qle_bool_iff in Ha, Hb.
  destruct (runde_halb_gerade_schranken (q * 10) (a * 10) (b * 10)) as (H1 & H2).
  - rewrite inject_Z_mult. apply Qmult_le_compat_r; [exact Ha|discriminate].
  - rewrite inject_Z_mult. apply Qmult_le_compat_r; [exact Hb|discriminate].
  - split; apply Qle_bool_iff.
    + apply Qle_shift_div_l; [reflexivity|].
      change 10%Q with (inject_Z 10).
      rewrite <- inject_Z_mult. now rewrite <- Zle_Qle.
    + apply Qle_shift_div_r; [reflexivity|].
      change 10%Q with (inject_Z 10).
      rewrite <- inject_Z_mult. now rewrite <- Zle_Qle.
Qed.

(** A number at or above [a] is not a number strictly below [a]. *)
Lemma zahl_eq_unterhalb a x c :
  zahl_le (Ganz a) x = true -> zahl_lt c (Ganz a) = true -> zahl_eq x c = false.
Proof.
  unfold zahl_le, zahl_lt, zahl_eq.
  destruct (als_gleit x) as [q|n|], (als_gleit c) as [r|m|]; cbn; try reflexivity;
    try discriminate.
  - intros H1 H2. apply Qle_bool_iff in H1.
    unfold Qlt_bool in H2. apply negb_true_iff in H2.
    destruct (Qeq_bool q r) eqn:E; [|reflexivity].
    apply Qeq_bool_iff in E.
    assert (Hc : Qle_bool (inject_Z a) r = true).
    { apply Qle_bool_iff. now rewrite <- E. }
    congruence.
  - destruct n, m; cbn; try reflexivity; discriminate.
Qed.

(** X9 ([lese_temperatur], [lese_feuchtigkeit]).  The two AHT10 readers
    never raise and change nothing.  The result is the error code (-99.9,
    respectively -1) exactly when the sensor is missing, the driver raised
    or the raw value lies outside -40..85 (respectively 0..100).  Every
    other result lies, also after the rounding to one decimal, inside that
    range: a valid reading is never mistaken for the error code. *)
Theorem aht10_fehlercode_eindeutig (temperature humidity : antwort zahl) s :
  let rt := sensorik.lese_temperatur temperature s in
  let rf := sensorik.lese_feuchtigkeit humidity s in
  exists t f,
    rt = (Fertig t, s, []) /\ rf = (Fertig f, s, [])
    /\ (zahl_eq t sensorik.TEMPERATUR_FEHLER
        = negb (sensorik._sensor_aht10 s
                && match temperature with
                   | Liefert x => zahl_le (Ganz (-40)) x && zahl_le x (Ganz 85)
                   | Scheitert _ => false
                   end))
    /\ (zahl_eq f sensorik.FEUCHTE_FEHLER
        = negb (sensorik._sensor_aht10 s
                && match humidity with
                   | Liefert x => zahl_le (Ganz 0) x && zahl_le x (Ganz 100)
                   | Scheitert _ => false
                   end))
    /\ (zahl_eq t sensorik.TEMPERATUR_FEHLER = false ->
        zahl_le (Ganz (-40)) t = true /\ zahl_le t (Ganz 85) = true)
    /\ (zahl_eq f sensorik.FEUCHTE_FEHLER = false ->
        zahl_le (Ganz 0) f = true /\ zahl_le f (Ganz 100) = true).
Proof.
  cbv zeta. destruct s as [aht ccs_da lc lv].
  assert (Ht : exists t,
             sensorik.lese_temperatur temperature
               {| sensorik._sensor_aht10 := aht; sensorik._sensor_ccs := ccs_da;
                  sensorik._letzter_co2_wert := lc; sensorik._letzter_voc_wert := lv |}
             = (Fertig t, {| sensorik._sensor_aht10 := aht; sensorik._sensor_ccs := ccs_da;
                  sensorik._letzter_co2_wert := lc; sensorik._letzter_voc_wert := lv |}, [])
             /\ (zahl_eq t sensorik.TEMPERATUR_FEHLER
                 = negb (aht && match temperature with
                                | Liefert x => zahl_le (Ganz (-40)) x && zahl_le x (Ganz 85)
                                | Scheitert _ => false
                                end))
             /\ (zahl_eq t sensorik.TEMPERATUR_FEHLER = false ->
                 zahl_le (Ganz (-40)) t = true /\ zahl_le t (Ganz 85) = true)).
  { destruct aht; [|eexists; split; [reflexivity|split; [reflexivity|discriminate]]].
    destruct temperature as [x|e];
      [|eexists; split; [reflexivity|split; [reflexivity|discriminate]]].
    destruct (zahl_le (Ganz (-40)) x && zahl_le x (Ganz 85)) eqn:E.
    - apply andb_prop in E as (E1 & E2).
      destruct (runde1_schranken _ _ _ E1 E2) as (R1 & R2).
      exists (runde1 x). split; [|split].
      + cbv beta iota delta [sensorik.lese_temperatur bind lies versuche versuche_wenn rufe ret
                                sensorik._sensor_aht10].
        rewrite E1, E2. reflexivity.
      + cbn [negb andb]. apply (zahl_eq_unterhalb (-40)); [exact R1|reflexivity].
      + intros _. split; assumption.
    - exists sensorik.TEMPERATUR_FEHLER. split; [|split].
      + cbv beta iota delta [sensorik.lese_temperatur bind lies versuche versuche_wenn rufe ret
                                sensorik._sensor_aht10].
        rewrite E. reflexivity.
      + reflexivity.
      + discriminate. }
  assert (Hf : exists f,
             sensorik.lese_feuchtigkeit humidity
               {| sensorik._sensor_aht10 := aht; sensorik._sensor_ccs := ccs_da;
                  sensorik._letzter_co2_wert := lc; sensorik._letzter_voc_wert := lv |}
             = (Fertig f, {| sensorik._sensor_aht10 := aht; sensorik._sensor_ccs := ccs_da;
                  sensorik._letzter_co2_wert := lc; sensorik._letzter_voc_wert := lv |}, [])
             /\ (zahl_eq f sensorik.FEUCHTE_FEHLER
                 = negb (aht && match humidity with
                                | Liefert x => zahl_le (Ganz 0) x && zahl_le x (Ganz 100)
                                | Scheitert _ => false
                                end))
             /\ (zahl_eq f sensorik.FEUCHTE_FEHLER = false ->
                 zahl_le (Ganz 0) f = true /\ zahl_le f (Ganz 100) = true)).
  { destruct aht; [|eexists; split; [reflexivity|split; [reflexivity|discriminate]]].
    destruct humidity as [x|e];
      [|eexists; split; [reflexivity|split; [reflexivity|discriminate]]].
    destruct (zahl_le (Ganz 0) x && zahl_le x (Ganz 100)) eqn:E.
    - apply andb_prop in E as (E1 & E2).
      destruct (runde1_schranken _ _ _ E1 E2) as (R1 & R2).
      exists (runde1 x). split; [|split].
      + cbv beta iota delta [sensorik.lese_feuchtigkeit bind lies versuche versuche_wenn rufe ret
                                sensorik._sensor_aht10].
        rewrite E1, E2. reflexivity.
      + cbn [negb andb]. apply (zahl_eq_unterhalb 0); [exact R1|reflexivity].
      + intros _. split; assumption.
    - exists sensorik.FEUCHTE_FEHLER. split; [|split].
      + cbv beta iota delta [sensorik.lese_feuchtigkeit bind lies versuche versuche_wenn rufe ret
                                sensorik._sensor_aht10].
        rewrite E. reflexivity.
      + reflexivity.
      + discriminate. }
  destruct Ht as (t & T1 & T2 & T3), Hf as (f & F1 & F2 & F3).
  exists t, f. repeat split; try assumption; try (apply T3; assumption);
    try (apply F3; assumption).
Qed.

(** The values a run of the callback reads, and the sensor state it leaves:
    the two AHT10 answers as the readers return them, and the cache as
    [lese_co2] leaves it. *)
Lemma alle_lesen_genau u s :
  exists t f,
    sensorik.lese_temperatur (aht_temperature u) s = (Fertig t, s, [])
    /\ sensorik.lese_feuchtigkeit (aht_humidity u) s = (Fertig f, s, [])
    /\ alle_lesen u s
       = (Fertig {| temp := t; feuchte := f;
                    co2 := sensorik._letzter_co2_wert
                             (zustand_nach (sensorik.lese_co2 (ccs u) s));
                    voc := sensorik._letzter_voc_wert
                             (zustand_nach (sensorik.lese_co2 (ccs u) s)) |},
          zustand_nach (sensorik.lese_co2 (ccs u) s), []).
Proof.
  destruct (lese_temperatur_fertig (aht_temperature u) s) as [t Ht].
  destruct (lese_feuchtigkeit_fertig (aht_humidity u) s) as [f Hf].
  exists t, f. split; [exact Ht|]. split; [exact Hf|].
  unfold alle_lesen. unfold bind at 1. rewrite Ht.
  unfold bind at 1. rewrite Hf.
  unfold bind at 1.
  destruct (lese_co2_lauf (ccs u) s) as (s' & Hc & _). rewrite Hc.
  reflexivity.
Qed.

Lemma tick_genau u w :
  exists t f,
    let s' := zustand_nach (sensorik.lese_co2 (ccs u) (sensoren w)) in
    let m := {| temp := t; feuchte := f;
                co2 := sensorik._letzter_co2_wert s';
                voc := sensorik._letzter_voc_wert s' |} in
    sensorik.lese_temperatur (aht_temperature u) (sensoren w) = (Fertig t, sensoren w, [])
    /\ sensorik.lese_feuchtigkeit (aht_humidity u) (sensoren w)
       = (Fertig f, sensoren w, [])
    /\ werte u w = Some m
    /\ sensoren_lesen_verarbeiten_senden u w
       = versuche (verarbeiten_senden u m) (fun _ => ret tt)
           (mit_sensoren s' (mit_lesezeit (zeit u) w)).
Proof.
  destruct (alle_lesen_genau u (sensoren w)) as (t & f & Ht & Hf & Ha).
  exists t, f. cbv zeta. split; [exact Ht|]. split; [exact Hf|].
  assert (Hs : forall w0, sensoren w0 = sensoren w ->
            sensoren_lesen u w0
            = (Fertig {| temp := t; feuchte := f;
                         co2 := sensorik._letzter_co2_wert
                                  (zustand_nach (sensorik.lese_co2 (ccs u) (sensoren w)));
                         voc := sensorik._letzter_voc_wert
                                  (zustand_nach (sensorik.lese_co2 (ccs u) (sensoren w))) |},
               mit_sensoren (zustand_nach (sensorik.lese_co2 (ccs u) (sensoren w))) w0,
               [])).
  { intros w0 Hw0. rewrite sensoren_lesen_alle. unfold heben. rewrite Hw0, Ha.
    reflexivity. }
  split.
  - unfold werte. rewrite (Hs w eq_refl). reflexivity.
  - unfold sensoren_lesen_verarbeiten_senden, bind at 1, aendere.
    unfold versuche, versuche_wenn, bind at 1.
    rewrite (Hs (mit_lesezeit (zeit u) w) eq_refl).
    destruct (verarbeiten_senden u _ _) as [[[[]|e] w2] l2]; cbn.
    + reflexivity.
    + destruct (ret tt w2) eqn:E. reflexivity.
Qed.

(** One run of the callback on a device without AHT10. *)
Lemma tick_ohne_aht10 u w :
  sensorik._sensor_aht10 (sensoren w) = false ->
  sensoren_lesen_verarbeiten_senden u w
  = (Fertig tt,
     mit_sensoren (zustand_nach (sensorik.lese_co2 (ccs u) (sensoren w)))
       (mit_lesezeit (zeit u) w),
     []).
Proof.
  intros H. destruct (tick_genau u w) as (t & f & Ht & _ & _ & Hr).
  rewrite Hr.
  assert (Et : t = sensorik.TEMPERATUR_FEHLER).
  { unfold sensorik.lese_temperatur, bind, lies in Ht. rewrite H in Ht.
    cbn in Ht. congruence. }
  subst t. reflexivity.
Qed.

Lemma lese_co2_erhaelt_sensoren c s :
  sensorik._sensor_aht10 (zustand_nach (sensorik.lese_co2 c s)) = sensorik._sensor_aht10 s
  /\ sensorik._sensor_ccs (zustand_nach (sensorik.lese_co2 c s)) = sensorik._sensor_ccs s.
Proof.
  unfold sensorik.lese_co2, bind.
  destruct (aktualisiere_ccs_daten_fertig c s) as (s' & -> & Hs). cbn.
  destruct Hs as [->|(co2 & voc & _ & _ & _ & ->)]; split; reflexivity.
Qed.

(** X10 ([sensoren_lesen_verarbeiten_senden] on a device without AHT10).
    When the AHT10 was not found at start, every run of the timer callback
    is skipped: over any sequence of runs nothing is logged (no display
    update, no alarm, no publish) and the alarm state, the actuators and the
    link stay as they were, whatever the CO2 reading, while each run still
    refreshes the CCS811 cache. *)
Theorem ohne_aht10_keine_ueberwachung us :
  forall w,
    sensorik._sensor_aht10 (sensoren w) = false ->
    snd (lauf us w) = []
    /\ alarm_zustand (fst (lauf us w)) = alarm_zustand w
    /\ aktor (fst (lauf us w)) = aktor w
    /\ mqtt (fst (lauf us w)) = mqtt w
    /\ sensoren (fst (lauf us w)) = abfragen (map ccs us) (sensoren w).
Proof.
  induction us as [|u us IH]; intros w H; [repeat split|].
  cbn [lauf map abfragen]. cbv zeta.
  rewrite (tick_ohne_aht10 u w H).
  cbn [zustand_nach protokoll fst snd].
  destruct (IH (mit_sensoren (zustand_nach (sensorik.lese_co2 (ccs u) (sensoren w)))
                  (mit_lesezeit (zeit u) w))) as (I1 & I2 & I3 & I4 & I5).
  { cbn [sensoren mit_sensoren]. rewrite (proj1 (lese_co2_erhaelt_sensoren _ _)). exact H. }
  rewrite I1, I2, I3, I4, I5. repeat split.
Qed.

Lemma ohne_aht10_keine_ueberwachung_zeuge :
  let w := start beispiel_aktor (sensorik.anfang false true) beispiel_mqtt in
  let us := [beispiel_umwelt 100 22 3000; beispiel_umwelt 102 22 3000] in
  sensorik._sensor_aht10 (sensoren w) = false
  /\ snd (lauf us w) = []
  /\ sensorik._letzter_co2_wert (sensoren (fst (lauf us w))) = 3000.
Proof.
  cbv zeta.
  pose proof (ohne_aht10_keine_ueberwachung
                [beispiel_umwelt 100 22 3000; beispiel_umwelt 102 22 3000]
                (start beispiel_aktor (sensorik.anfang false true) beispiel_mqtt)
                eq_refl) as H.
  destruct H as (H1 & _ & _ & _ & H5).
  split; [reflexivity|]. split; [exact H1|].
  rewrite H5. reflexivity.
Defined.

Lemma abfragen_ohne_ccs cs :
  forall s, sensorik._sensor_ccs s = false -> abfragen cs s = s.
Proof.
  induction cs as [|c cs IH]; intros s H; [reflexivity|].
  cbn [abfragen].
  assert (E : zustand_nach (sensorik.lese_co2 c s) = s).
  { unfold sensorik.lese_co2, sensorik._aktualisiere_ccs_daten, bind, lies, wenn.
    rewrite H. reflexivity. }
  rewrite E. apply IH. exact H.
Qed.

(** X11 ([_aktualisiere_ccs_daten], [lese_co2]).  [lese_co2] never raises
    and returns the cached CO2 value as the refresh leaves it.  The cache
    changes only when the CCS811 is there, reports data ready, both reads
    return and the pair passes the range test; both values are then
    replaced together.  In every other case both cached values stay, and
    without a CCS811 they never change. *)
Theorem ccs_cache_nur_ganze_proben c s :
  let r := sensorik.lese_co2 c s in
  let s' := zustand_nach r in
  r = (Fertig (sensorik._letzter_co2_wert s'), s', [])
  /\ s' = match sensorik.data_ready c, sensorik.eCO2 c, sensorik.tVOC c with
          | Liefert true, Liefert co2, Liefert voc =>
              if sensorik._sensor_ccs s && ccs_bereich co2 voc
              then sensorik.mit_ccs_werten co2 voc s
              else s
          | _, _, _ => s
          end
  /\ (forall cs, sensorik._sensor_ccs s = false -> abfragen cs s = s).
Proof.
  cbv zeta. split; [|split].
  - destruct (lese_co2_lauf c s) as (s' & H & _). rewrite H. reflexivity.
  - unfold sensorik.lese_co2, sensorik._aktualisiere_ccs_daten, bind, lies, wenn,
      versuche, versuche_wenn, rufe, ret, wirf, aendere, ccs_bereich.
    destruct (sensorik._sensor_ccs s);
      destruct c as [[[|]|e] [x|e1] [y|e2]]; cbn; try reflexivity.
    destruct (_ && _); reflexivity.
  - intros cs H. apply abfragen_ohne_ccs. exact H.
Qed.

(** ** main.py: the command callback on any message *)

Lemma erhaelt_melde {S X} (f : S -> X) e : erhaelt f (melde e).
Proof. intros s. reflexivity. Qed.

Lemma erhaelt_rufe_ohne_wert {S X} (f : S -> X) r : erhaelt f (rufe_ohne_wert r).
Proof. intros s. now destruct r. Qed.

Lemma erhaelt_heben {S T A X} (hole : T -> S) (setze : S -> T -> T) (f : T -> X)
    (m : Prog S A) :
  (forall s t, f (setze s t) = f t) -> erhaelt f (heben hole setze m).
Proof.
  intros H t. unfold heben. destruct (m (hole t)) as [[r s1] l1]. apply H.
Qed.

(** A field of the actuator module that a program of the module keeps is
    kept by the program run inside the device. *)
Lemma erhaelt_im_aktor_feld {A X} (g : aktor_steuerung.zustand -> X)
    (m : Prog aktor_steuerung.zustand A) :
  erhaelt g m -> erhaelt (fun w => g (aktor w)) (im_aktor m).
Proof.
  intros H w. unfold im_aktor, heben. specialize (H (aktor w)).
  destruct (m (aktor w)) as [[r a] l]. exact H.
Qed.

Lemma mqtt_befehl_empfangen_rahmen b t msg :
  erhaelt befehl_rahmen (mqtt_befehl_empfangen b t msg).
Proof.
  unfold mqtt_befehl_empfangen, schwellwerte_aktualisieren, geraet_steuern.
  erhalte.
Qed.

Lemma mqtt_befehl_empfangen_fertig b t msg w :
  ergebnis (mqtt_befehl_empfangen b t msg w) = Fertig tt.
Proof. apply versuche_faengt_alles. Qed.

Lemma topics_verschieden :
  String.eqb mqtt_steuerung.EMPFANGS_TOPIC MQTT_SCHWELLE_TOPIC = false.
Proof. reflexivity. Qed.

(** X12 ([mqtt_befehl_empfangen]).  The command callback never raises, and
    whatever arrives it leaves the link, the sensor module, the time of the
    last reading, the counter and the cooldown of the normal alarm and the
    critical CO2 threshold alone.  It does nothing at all (no state change,
    no call) when the topic cannot be decoded, when the topic is neither
    the threshold nor the control topic, when the payload cannot be parsed
    and when the parsed payload is not an object. *)
Theorem mqtt_befehl_empfangen_robust b topic_bytes msg w :
  let r := mqtt_befehl_empfangen b topic_bytes msg w in
  ergebnis r = Fertig tt
  /\ befehl_rahmen (zustand_nach r) = befehl_rahmen w
  /\ (match topic_bytes, msg with
      | Scheitert _, _ => True
      | Liefert topic, _ =>
          (String.eqb topic MQTT_SCHWELLE_TOPIC = false
           /\ String.eqb topic mqtt_steuerung.EMPFANGS_TOPIC = false)
          \/ (exists e, msg = Scheitert e) \/ msg = Liefert JAnderes
      end -> r = (Fertig tt, w, [])).
Proof.
  cbv zeta. split; [apply mqtt_befehl_empfangen_fertig|].
  split; [apply mqtt_befehl_empfangen_rahmen|].
  destruct topic_bytes as [topic|e]; [|reflexivity].
  intros [(H1 & H2)|[[e ->]| ->]].
  - unfold mqtt_befehl_empfangen, versuche, versuche_wenn, bind. cbn [rufe ret].
    rewrite H1, H2. reflexivity.
  - unfold mqtt_befehl_empfangen, versuche, versuche_wenn, bind. cbn [rufe ret].
    destruct (String.eqb topic MQTT_SCHWELLE_TOPIC); [reflexivity|].
    destruct (String.eqb topic mqtt_steuerung.EMPFANGS_TOPIC); reflexivity.
  - unfold mqtt_befehl_empfangen, versuche, versuche_wenn, bind. cbn [rufe ret].
    destruct (String.eqb topic MQTT_SCHWELLE_TOPIC); [reflexivity|].
    destruct (String.eqb topic mqtt_steuerung.EMPFANGS_TOPIC); reflexivity.
Qed.

Lemma mqtt_befehl_empfangen_robust_zeuge :
  mqtt_befehl_empfangen true (Liefert "IoT-NeverYawn/Geraetesteuerung")
    (Liefert JAnderes) beispiel_welt
  = (Fertig tt, beispiel_welt, []).
Proof.
  pose proof (mqtt_befehl_empfangen_robust true
                (Liefert "IoT-NeverYawn/Geraetesteuerung") (Liefert JAnderes)
                beispiel_welt) as H.
  cbv zeta in H. destruct H as (_ & _ & H).
  apply H. right. right. reflexivity.
Defined.

Lemma bind_ret_l {S A B} (a : A) (k : A -> Prog S B) s : bind (ret a) k s = k a s.
Proof. unfold bind, ret. now destruct (k a s) as [[? ?] ?]. Qed.

Lemma im_aktor_lauf {A} (m : Prog aktor_steuerung.zustand A) w :
  im_aktor m w
  = (ergebnis (m (aktor w)), mit_aktor (zustand_nach (m (aktor w))) w,
     protokoll (m (aktor w))).
Proof. apply heben_lauf. Qed.

(** The control topic on a JSON object, branch by branch. *)
Lemma geraet_steuern_lauf d w :
  let befehl := feld d "command" in
  let status := feld d "status" in
  let aktion := feld d "action" in
  let im (m : Prog aktor_steuerung.zustand unit) (loeschen : bool) :=
    (Fertig tt,
     (if loeschen then mit_kritisch false else fun w => w)
       (mit_aktor (zustand_nach (m (aktor w))) w),
     protokoll (m (aktor w))) in
  geraet_steuern (Liefert (JObjekt d)) w
  = if ist_text befehl "MUTE" then
      im (aktor_steuerung.stumm_schalten (ist_text status "ON")) (ist_text status "ON")
    else if ist_text befehl "FLAG" && ist_text aktion "WAVE" then
      im (aktor_steuerung.servo_winken 3 45 135 400) false
    else if ist_text befehl "BUZZER" then
      if ist_text status "ON" then im (aktor_steuerung.summer_starten None false) false
      else if ist_text status "OFF" then im aktor_steuerung.summer_stoppen true
      else (Fertig tt, w, [])
    else (Fertig tt, w, []).
Proof.
  cbv zeta. unfold geraet_steuern, feld. cbn [rufe]. rewrite bind_ret_l.
  cbn [daten_get]. rewrite !bind_ret_l.
  destruct (ist_text (default JNull (d !! "command")) "MUTE").
  - unfold bind. rewrite im_aktor_lauf, aktor_fakten.stumm_schalten_fertig.
    destruct (ist_text (default JNull (d !! "status")) "ON"); cbn;
      now rewrite app_nil_r.
  - destruct (ist_text (default JNull (d !! "command")) "FLAG"
              && ist_text (default JNull (d !! "action")) "WAVE").
    + rewrite im_aktor_lauf, aktor_fakten.servo_winken_fertig. reflexivity.
    + destruct (ist_text (default JNull (d !! "command")) "BUZZER"); [|reflexivity].
      destruct (ist_text (default JNull (d !! "status")) "ON").
      * rewrite im_aktor_lauf, aktor_fakten.summer_starten_fertig. reflexivity.
      * destruct (ist_text (default JNull (d !! "status")) "OFF"); [|reflexivity].
        unfold bind. rewrite im_aktor_lauf, aktor_fakten.summer_stoppen_fertig.
        cbn. now rewrite app_nil_r.
Qed.

Lemma geraet_steuern_fertig msg w :
  ergebnis (geraet_steuern msg w) = Fertig tt
  \/ (geraet_steuern msg w = (Geworfen AndereAusnahme, w, [])
      /\ msg = Liefert JAnderes)
  \/ exists e, msg = Scheitert e /\ geraet_steuern msg w = (Geworfen e, w, []).
Proof.
  destruct msg as [[d|]|e].
  - left. rewrite geraet_steuern_lauf. cbv zeta.
    repeat match goal with |- context [if ?c then _ else _] => destruct c end;
      reflexivity.
  - right. left. split; reflexivity.
  - right. right. exists e. split; reflexivity.
Qed.

Lemma ist_text_eq v t : ist_text v t = true -> v = JText t.
Proof.
  destruct v; cbn; try discriminate. intros H. apply String.eqb_eq in H. now subst.
Qed.

(** The callback on the control topic. *)
Lemma mqtt_befehl_empfangen_objekt b d w :
  mqtt_befehl_empfangen b (Liefert mqtt_steuerung.EMPFANGS_TOPIC) (Liefert (JObjekt d)) w
  = geraet_steuern (Liefert (JObjekt d)) w.
Proof.
  apply mqtt_befehl_empfangen_steuerung.
  destruct (geraet_steuern_fertig (Liefert (JObjekt d)) w) as [H|[(_ & H)|(e & H & _)]];
    [exact H|discriminate H|discriminate H].
Qed.

(** The critical flag after the callback. *)
Lemma befehl_kritisch b topic_bytes msg w :
  kritischer_alarm_aktiv (zustand_nach (mqtt_befehl_empfangen b topic_bytes msg w))
  = (if loescht_alarm topic_bytes msg then false else kritischer_alarm_aktiv w).
Proof.
  destruct topic_bytes as [topic|e]; [|reflexivity].
  destruct (String.eqb topic MQTT_SCHWELLE_TOPIC) eqn:E1.
  - apply String.eqb_eq in E1. subst topic.
    assert (Hl : loescht_alarm (Liefert MQTT_SCHWELLE_TOPIC) msg = false)
      by (destruct msg as [[d|]|e]; reflexivity).
    rewrite Hl, mqtt_befehl_empfangen_schwelle.
    assert (He : erhaelt kritischer_alarm_aktiv
                   (versuche (schwellwerte_aktualisieren b msg) (fun _ => ret tt))).
    { unfold schwellwerte_aktualisieren. erhalte. }
    apply He.
  - destruct (String.eqb topic mqtt_steuerung.EMPFANGS_TOPIC) eqn:E2.
    + apply String.eqb_eq in E2. subst topic.
      destruct msg as [[d|]|e]; [|reflexivity|reflexivity].
      rewrite mqtt_befehl_empfangen_objekt, geraet_steuern_lauf. cbv zeta.
      unfold loescht_alarm. rewrite String.eqb_refl. cbn [andb].
      destruct (ist_text (feld d "command") "MUTE") eqn:Em.
      * apply ist_text_eq in Em. rewrite Em.
        destruct (ist_text (feld d "status") "ON"); reflexivity.
      * destruct (ist_text (feld d "command") "FLAG"
                  && ist_text (feld d "action") "WAVE") eqn:Ef.
        { apply andb_prop in Ef as (Ef & _). apply ist_text_eq in Ef. rewrite Ef.
          reflexivity. }
        destruct (ist_text (feld d "command") "BUZZER"); [|reflexivity].
        destruct (ist_text (feld d "status") "ON") eqn:Eo.
        { apply ist_text_eq in Eo. rewrite Eo. reflexivity. }
        destruct (ist_text (feld d "status") "OFF"); reflexivity.
    + assert (Hl : loescht_alarm (Liefert topic) msg = false).
      { unfold loescht_alarm. destruct msg as [[d|]|e]; try reflexivity.
        rewrite E2. reflexivity. }
      rewrite Hl.
      unfold mqtt_befehl_empfangen, versuche, versuche_wenn, bind. cbn [rufe ret].
      rewrite E1, E2. reflexivity.
Qed.

(** X13 ([mqtt_befehl_empfangen]).  Among all messages exactly two clear the
    flag of the critical alarm: MUTE with status ON and BUZZER with status
    OFF, both on the control topic.  Every other message leaves the flag as
    it is, no message sets it, and no message changes the counter or the
    cooldown of the normal alarm. *)
Theorem nur_zwei_befehle_loeschen_den_alarm b topic_bytes msg w :
  let r := mqtt_befehl_empfangen b topic_bytes msg w in
  kritischer_alarm_aktiv (zustand_nach r)
  = (if loescht_alarm topic_bytes msg then false else kritischer_alarm_aktiv w)
  /\ (kritischer_alarm_aktiv (zustand_nach r) = true -> kritischer_alarm_aktiv w = true)
  /\ normal_alarm_zaehler (zustand_nach r) = normal_alarm_zaehler w
  /\ normal_alarm_sperre_bis (zustand_nach r) = normal_alarm_sperre_bis w.
Proof.
  cbv zeta.
  pose proof (mqtt_befehl_empfangen_rahmen b topic_bytes msg w) as Hr.
  pose proof (befehl_kritisch b topic_bytes msg w) as Hk.
  unfold befehl_rahmen in Hr. injection Hr as _ _ _ Hz Hs _.
  split; [exact Hk|]. split; [|split; assumption].
  rewrite Hk. destruct (loescht_alarm topic_bytes msg); [discriminate|trivial].
Qed.

(** X14 ([mqtt_befehl_empfangen], command MUTE).  The status of a MUTE command
    is only compared with ON: every MUTE whose status is anything else
    (OFF, a missing status, a number, a misspelt word) unmutes the device
    by the single call [stumm_schalten(False)] and changes nothing else. *)
Theorem mute_ohne_ON_hebt_stumm_auf b d w :
  ist_text (feld d "command") "MUTE" = true ->
  ist_text (feld d "status") "ON" = false ->
  mqtt_befehl_empfangen b (Liefert mqtt_steuerung.EMPFANGS_TOPIC) (Liefert (JObjekt d)) w
  = (Fertig tt, mit_aktor (aktor_steuerung.mit_stumm false (aktor w)) w,
     [Ruf_stumm_schalten false]).
Proof.
  intros Hc Hs.
  rewrite mqtt_befehl_empfangen_objekt, geraet_steuern_lauf. cbv zeta.
  rewrite Hc, Hs, aktor_fakten.stumm_schalten_aus. reflexivity.
Qed.

Lemma mute_ohne_ON_hebt_stumm_auf_zeuge :
  let d : gmap string jwert := <["command" := JText "MUTE"]> ∅ in
  let w := mit_aktor (aktor_steuerung.mit_stumm true beispiel_aktor) beispiel_welt in
  aktor_steuerung._ist_stummgeschaltet (aktor w) = true
  /\ aktor_steuerung._ist_stummgeschaltet
       (aktor (zustand_nach
                 (mqtt_befehl_empfangen true (Liefert mqtt_steuerung.EMPFANGS_TOPIC)
                    (Liefert (JObjekt d)) w))) = false.
Proof.
  cbv zeta. split; [reflexivity|].
  pose proof (mute_ohne_ON_hebt_stumm_auf true (<["command" := JText "MUTE"]> ∅)
                (mit_aktor (aktor_steuerung.mit_stumm true beispiel_aktor) beispiel_welt))
    as H.
  rewrite H; reflexivity.
Defined.

Lemma int_von_Q_unter_eins q : (0 < q)%Q -> (q < 1)%Q -> int_von_Q q = 0.
Proof.
  unfold int_von_Q, Qlt. cbn. intros H0 H1. apply Z.quot_small. lia.
Qed.

(** X15 ([mqtt_befehl_empfangen], key schwelle_CO2).  A CO2 threshold strictly
    between 0 and 1 passes the test [> 0] and is stored as [int(...)],
    which is 0: from then on every reading with a positive CO2 value asks
    for the normal alarm. *)
Theorem co2_schwelle_unter_eins_wird_null b q d w :
  (0 < q)%Q -> (q < 1)%Q ->
  d !! "schwelle_CO2" = Some (JZahl (Gleit (Endlich q))) ->
  plus_unendlich b (feld d "schwelle_VOC") = false ->
  let w' := zustand_nach
              (mqtt_befehl_empfangen b (Liefert MQTT_SCHWELLE_TOPIC)
                 (Liefert (JObjekt d)) w) in
  aktuelle_co2_schwelle w' = 0
  /\ forall m, 0 < co2 m -> soll_normal_alarm m w' = true.
Proof.
  intros H0 H1 Hd Hv. cbv zeta.
  rewrite mqtt_befehl_empfangen_schwelle.
  assert (Hc : plus_unendlich b (feld d "schwelle_CO2") = false)
    by (unfold plus_unendlich, feld; rewrite Hd; reflexivity).
  unfold versuche, versuche_wenn.
  rewrite (schwellwerte_aktualisieren_feldweise b d w Hc Hv).
  cbn [zustand_nach fst snd].
  assert (E : aktuelle_co2_schwelle (schwellwerte_feldweise b d w) = 0).
  { unfold schwellwerte_feldweise. cbn [aktuelle_co2_schwelle mit_voc_schwelle
      mit_co2_schwelle].
    unfold co2_feld, feld. rewrite Hd. cbn -[zahl_gt int_von_Q].
    assert (Hg : zahl_gt (Gleit (Endlich q)) (Ganz 0) = true).
    { unfold zahl_gt, zahl_lt. cbn. unfold Qlt_bool. apply negb_true_iff.
      destruct (Qle_bool q (inject_Z 0)) eqn:E; [|reflexivity].
      apply Qle_bool_iff in E. exfalso. apply (Qlt_irrefl 0).
      eapply Qlt_le_trans; eassumption. }
    rewrite Hg. now apply int_von_Q_unter_eins. }
  split; [exact E|].
  intros m Hm. unfold soll_normal_alarm, ist_co2_alarm. rewrite E.
  apply Z.ltb_lt in Hm. rewrite Hm. now rewrite orb_true_r.
Qed.

Lemma co2_schwelle_unter_eins_wird_null_zeuge :
  aktuelle_co2_schwelle
    (zustand_nach
       (mqtt_befehl_empfangen true (Liefert MQTT_SCHWELLE_TOPIC)
          (Liefert (JObjekt (<["schwelle_CO2" := JZahl (Gleit (Endlich (1 # 2)))]> ∅)))
          beispiel_welt)) = 0.
Proof.
  refine (proj1 (co2_schwelle_unter_eins_wird_null true (1 # 2)
                   (<["schwelle_CO2" := JZahl (Gleit (Endlich (1 # 2)))]> ∅)
                   beispiel_welt _ _ _ _)); reflexivity.
Defined.

(** ** main.py: the timer callback on any reading *)

Lemma daten_senden_lauf u m b1 b2 b3 b4 b5 w :
  daten_senden u m b1 b2 b3 b4 b5 w
  = let p := {| Temperatur := temp m;
                Temperatur_Status := if b1 then 1 else 0;
                Luftfeuchtigkeit := feuchte m;
                Luftfeuchtigkeit_Status := if b2 then 1 else 0;
                CO2 := co2 m;
                CO2_Status := if b5 then 2 else if b3 then 1 else 0;
                VOC := voc m;
                VOC_Status := if b4 then 1 else 0 |} in
    let r := mqtt_steuerung.mqtt_senden p (publish u) (mqtt w) in
    if mqtt_steuerung.mqtt_verbunden (mqtt w)
    then (Fertig tt, mit_mqtt (zustand_nach r) w, protokoll r)
    else (Fertig tt, w, []).
Proof.
  unfold daten_senden, im_mqtt, heben, bind, mqtt_steuerung.mqtt_ist_verbunden,
    mqtt_steuerung.mqtt_senden, mqtt_steuerung.versuche_os, versuche, versuche_wenn, bind.
  cbn. destruct w as [a s [c v cb] ? ? ? ? ? ? ? ? ?]. cbn.
  destruct v; cbn; [|reflexivity].
  destruct c; cbn; [|reflexivity].
  destruct (publish u) as [[|]|]; reflexivity.
Qed.

(** One run of the callback, whatever the sensors, the display and the
    broker answer. *)
Lemma tick_vollstaendig u w :
  exists t f,
    let w0 := nach_dem_lesen u w in
    let m := {| temp := t; feuchte := f;
                co2 := sensorik._letzter_co2_wert (sensoren w0);
                voc := sensorik._letzter_voc_wert (sensoren w0) |} in
    let r := alarm_logik u m w0 in
    let rs := daten_senden u m (ist_temp_alarm m w0) (ist_feuchte_alarm m w0)
                (ist_co2_alarm m w0) (ist_voc_alarm m w0) (ist_co2_kritisch m w0)
                (zustand_nach r) in
    sensorik.lese_temperatur (aht_temperature u) (sensoren w) = (Fertig t, sensoren w, [])
    /\ sensorik.lese_feuchtigkeit (aht_humidity u) (sensoren w)
       = (Fertig f, sensoren w, [])
    /\ werte u w = Some m
    /\ sensoren_lesen_verarbeiten_senden u w
       = if ungueltig m then (Fertig tt, w0, [])
         else match ergebnis r with
              | Fertig _ =>
                  (Fertig tt, zustand_nach rs,
                   Ruf_display_aktualisieren :: protokoll r ++ protokoll rs)
              | Geworfen _ =>
                  (Fertig tt, zustand_nach r, Ruf_display_aktualisieren :: protokoll r)
              end.
Proof.
  destruct (tick_genau u w) as (t & f & Ht & Hf & Hw & Hr).
  exists t, f. cbv zeta. split; [exact Ht|]. split; [exact Hf|].
  split; [exact Hw|].
  cbv zeta in Hr. rewrite Hr. clear Hr Hw Ht Hf.
  unfold nach_dem_lesen. cbn [sensoren mit_sensoren].
  set (w0 := mit_sensoren _ (mit_lesezeit (zeit u) w)).
  set (m := {| temp := t; feuchte := f; co2 := _; voc := _ |}).
  unfold alarm_logik, versuche, versuche_wenn, verarbeiten_senden.
  destruct (ungueltig m); [reflexivity|].
  change (ist_temp_alarm m w0 || ist_feuchte_alarm m w0 || ist_co2_alarm m w0
          || ist_voc_alarm m w0) with (soll_normal_alarm m w0).
  unfold bind, display_aktualisieren. cbn [lies melde].
  destruct (alarm_kritisch u _ _ w0) as [[[[]|e] wk] lk];
    cbn [ret ergebnis zustand_nach protokoll fst snd].
  - destruct (alarm_normal u _ wk) as [[[[]|e] wn] ln];
      cbn [ret ergebnis zustand_nach protokoll fst snd].
    + destruct (daten_senden_fertig u m (ist_temp_alarm m w0) (ist_feuchte_alarm m w0)
                  (ist_co2_alarm m w0) (ist_voc_alarm m w0) (ist_co2_kritisch m w0) wn)
        as (mq & l & E & Hl).
      rewrite E. cbn [ergebnis zustand_nach protokoll fst snd app].
      now rewrite app_assoc.
    + cbn [app]. now rewrite !app_nil_r.
  - cbn [app]. now rewrite !app_nil_r.
Qed.

Lemma tick_fertig u w : ergebnis (sensoren_lesen_verarbeiten_senden u w) = Fertig tt.
Proof.
  destruct (tick_vollstaendig u w) as (t & f & _ & _ & _ & H). cbv zeta in H.
  rewrite H. destruct (ungueltig _); [reflexivity|].
  destruct (ergebnis (alarm_logik _ _ _)); reflexivity.
Qed.

Lemma erhaelt_im_sensorik {A X} (f : welt -> X) (m : Prog sensorik.zustand A) :
  (forall s w, f (mit_sensoren s w) = f w) -> erhaelt f (im_sensorik m).
Proof. apply erhaelt_heben. Qed.

Lemma erhaelt_im_mqtt {A X} (f : welt -> X) (m : Prog mqtt_steuerung.zustand A) :
  (forall s w, f (mit_mqtt s w) = f w) -> erhaelt f (im_mqtt m).
Proof. apply erhaelt_heben. Qed.

(** A part of the state that the four actuator calls of the callback keep,
    and that none of the variables the processing assigns belongs to, is
    kept by the processing of a reading. *)
Lemma verarbeiten_erhaelt {X} (f : welt -> X) u m :
  erhaelt f (im_aktor (aktor_steuerung.summer_starten None true)) ->
  erhaelt f (im_aktor aktor_steuerung.summer_stoppen) ->
  erhaelt f (im_aktor (aktor_steuerung.summer_kurz_piepen
                         aktor_steuerung.SUMMER_PIEP_DAUER_MS None false)) ->
  erhaelt f (im_aktor (aktor_steuerung.servo_winken 3 45 135 400)) ->
  (forall s w, f (mit_mqtt s w) = f w) ->
  (forall k w, f (mit_kritisch k w) = f w) ->
  (forall z w, f (mit_zaehler z w) = f w) ->
  (forall t w, f (mit_sperre_bis t w) = f w) ->
  erhaelt f (versuche (verarbeiten_senden u m) (fun _ => ret tt)).
Proof.
  intros H1 H2 H3 H4 Hm Hk Hz Hp.
  unfold verarbeiten_senden, alarm_kritisch, alarm_normal, daten_senden,
    display_aktualisieren, backlight_einschalten.
  repeat first
    [ assumption
    | apply erhaelt_bind; [|intro]
    | apply erhaelt_versuche; [|intro]
    | apply erhaelt_wenn
    | apply erhaelt_ret
    | apply erhaelt_lies
    | apply erhaelt_melde
    | apply erhaelt_rufe_ohne_wert
    | apply erhaelt_im_mqtt; exact Hm
    | match goal with
      | |- erhaelt _ (if ?c then _ else _) => destruct c
      | |- erhaelt _ (aendere _) => apply erhaelt_aendere; intro; solve [auto]
      end
    | progress cbv beta zeta ].
Qed.

(** The same for the whole callback, when the part is neither the time of
    the last reading nor among the variables of the sensor module. *)
Lemma tick_erhaelt {X} (f : welt -> X) u :
  erhaelt f (im_aktor (aktor_steuerung.summer_starten None true)) ->
  erhaelt f (im_aktor aktor_steuerung.summer_stoppen) ->
  erhaelt f (im_aktor (aktor_steuerung.summer_kurz_piepen
                         aktor_steuerung.SUMMER_PIEP_DAUER_MS None false)) ->
  erhaelt f (im_aktor (aktor_steuerung.servo_winken 3 45 135 400)) ->
  (forall s w, f (mit_sensoren s w) = f w) ->
  (forall s w, f (mit_mqtt s w) = f w) ->
  (forall t w, f (mit_lesezeit t w) = f w) ->
  (forall k w, f (mit_kritisch k w) = f w) ->
  (forall z w, f (mit_zaehler z w) = f w) ->
  (forall t w, f (mit_sperre_bis t w) = f w) ->
  erhaelt f (sensoren_lesen_verarbeiten_senden u).
Proof.
  intros H1 H2 H3 H4 Hs Hm Hl Hk Hz Hp w.
  destruct (tick_genau u w) as (t & f0 & _ & _ & _ & Hr). cbv zeta in Hr.
  rewrite Hr, (verarbeiten_erhaelt f u _ H1 H2 H3 H4 Hm Hk Hz Hp).
  now rewrite Hs, Hl.
Qed.

Lemma tick_erhaelt_schwellen u : erhaelt schwellen (sensoren_lesen_verarbeiten_senden u).
Proof.
  apply tick_erhaelt; try (apply erhaelt_im_aktor; reflexivity); reflexivity.
Qed.

Lemma aktor_erhaelt_stumm :
  erhaelt aktor_steuerung._ist_stummgeschaltet (aktor_steuerung.summer_starten None true)
  /\ erhaelt aktor_steuerung._ist_stummgeschaltet aktor_steuerung.summer_stoppen
  /\ erhaelt aktor_steuerung._ist_stummgeschaltet
       (aktor_steuerung.summer_kurz_piepen aktor_steuerung.SUMMER_PIEP_DAUER_MS None false)
  /\ erhaelt aktor_steuerung._ist_stummgeschaltet
       (aktor_steuerung.servo_winken 3 45 135 400).
Proof.
  repeat split; intros s; aktor_fakten.faelle s; reflexivity.
Qed.

Lemma tick_erhaelt_stumm u :
  erhaelt (fun w => aktor_steuerung._ist_stummgeschaltet (aktor w))
    (sensoren_lesen_verarbeiten_senden u).
Proof.
  destruct aktor_erhaelt_stumm as (H1 & H2 & H3 & H4).
  apply tick_erhaelt;
    try (apply (erhaelt_im_aktor_feld aktor_steuerung._ist_stummgeschaltet); assumption);
    reflexivity.
Qed.

(** X16 ([sensoren_lesen_verarbeiten_senden]).  The timer callback never
    raises, whatever the sensors, the display and the broker do.  It
    records the time of the run, never changes one of the five thresholds
    or the mute flag, and leaves the sensor module as a single [lese_co2]
    leaves it. *)
Theorem zeitgeber_rahmen u w :
  let r := sensoren_lesen_verarbeiten_senden u w in
  let w' := zustand_nach r in
  ergebnis r = Fertig tt
  /\ letzte_sensorlesung_zeit w' = zeit u
  /\ schwellen w' = schwellen w
  /\ aktor_steuerung._ist_stummgeschaltet (aktor w')
     = aktor_steuerung._ist_stummgeschaltet (aktor w)
  /\ sensoren w' = zustand_nach (sensorik.lese_co2 (ccs u) (sensoren w)).
Proof.
  cbv zeta. split; [apply tick_fertig|].
  split; [|split; [apply tick_erhaelt_schwellen|split; [apply (tick_erhaelt_stumm u)|]]].
  - destruct (tick_genau u w) as (t & f0 & _ & _ & _ & Hr). cbv zeta in Hr.
    rewrite Hr.
    rewrite (verarbeiten_erhaelt letzte_sensorlesung_zeit);
      try (apply erhaelt_im_aktor; reflexivity); reflexivity.
  - destruct (tick_genau u w) as (t & f0 & _ & _ & _ & Hr). cbv zeta in Hr.
    rewrite Hr.
    rewrite (verarbeiten_erhaelt sensoren);
      try (apply erhaelt_im_aktor; reflexivity); reflexivity.
Qed.

(** ** main.py: invariants of every run of the device *)

Lemma bewahrt_ret {S A} (I : S -> Prop) (a : A) : bewahrt I (ret a).
Proof. intros s H. exact H. Qed.

Lemma bewahrt_bind {S A B} (I : S -> Prop) (m : Prog S A) (k : A -> Prog S B) :
  bewahrt I m -> (forall a, bewahrt I (k a)) -> bewahrt I (bind m k).
Proof.
  intros Hm Hk s Hs. unfold bind. specialize (Hm s Hs).
  destruct (m s) as [[[a|e] s1] l1]; cbn in *; [|exact Hm].
  specialize (Hk a s1 Hm). destruct (k a s1) as [[r s2] l2]. exact Hk.
Qed.

Lemma bewahrt_versuche {S A} (I : S -> Prop) (m : Prog S A) h :
  bewahrt I m -> (forall e, bewahrt I (h e)) -> bewahrt I (versuche m h).
Proof.
  intros Hm Hh s Hs. unfold versuche, versuche_wenn. specialize (Hm s Hs).
  destruct (m s) as [[[a|e] s1] l1]; cbn in *; [exact Hm|].
  specialize (Hh e s1 Hm). destruct (h e s1) as [[r s2] l2]. exact Hh.
Qed.

Lemma bewahrt_erhaelt {S A X} (I : S -> Prop) (f : S -> X) (m : Prog S A) :
  (forall s s', f s' = f s -> I s -> I s') -> erhaelt f m -> bewahrt I m.
Proof. intros H He s Hs. exact (H s _ (He s) Hs). Qed.

Lemma schwellen_gueltig_gleich w w' :
  schwellen w' = schwellen w -> schwellen_gueltig w -> schwellen_gueltig w'.
Proof.
  unfold schwellen, schwellen_gueltig. intros [= H1 H2 H3 H4 H5].
  now rewrite H2, H3, H4, H5.
Qed.

Lemma alarm_geordnet_gleich w w' :
  alarm_zustand w' = alarm_zustand w -> alarm_geordnet w -> alarm_geordnet w'.
Proof.
  unfold alarm_zustand, alarm_geordnet. intros [= H1 H2 H3].
  now rewrite H1, H2, H3.
Qed.

(** [int] of a number above or at 0 is not negative. *)
Lemma int_von_Q_nicht_negativ q : (0 <= q)%Q -> 0 <= int_von_Q q.
Proof.
  unfold int_von_Q, Qle. cbn. intros H. apply Z.quot_pos; lia.
Qed.

Lemma int_von_nicht_negativ {S} x (s : S) :
  zahl_ge x (Ganz 0) = true ->
  match @int_von S x s with
  | (Fertig n, s', l) => 0 <= n /\ s' = s /\ l = []
  | (Geworfen _, s', l) => s' = s /\ l = []
  end.
Proof.
  unfold zahl_ge, zahl_le. destruct x as [z|[q|n|]]; cbn; intros H.
  - apply Qle_bool_iff in H. unfold Qle in H. cbn in H. repeat split. lia.
  - apply Qle_bool_iff in H. repeat split. now apply int_von_Q_nicht_negativ.
  - split; reflexivity.
  - split; reflexivity.
Qed.

Lemma zahl_gt_ge x y : zahl_gt x y = true -> zahl_ge x y = true.
Proof.
  unfold zahl_gt, zahl_ge, zahl_lt, zahl_le.
  destruct (als_gleit y) as [p|n|], (als_gleit x) as [q|m|]; cbn; try congruence.
  - unfold Qlt_bool. intros H. apply negb_true_iff in H.
    apply Qle_bool_iff. destruct (Qlt_le_dec p q) as [Hl|Hl].
    + now apply Qlt_le_weak.
    + apply Qle_bool_iff in Hl. congruence.
  - destruct n, m; cbn; congruence.
Qed.

(** The threshold topic keeps the thresholds within their ranges, also when
    it gives up in the middle of a message. *)
Lemma schwellwerte_aktualisieren_bewahrt b msg :
  bewahrt schwellen_gueltig (schwellwerte_aktualisieren b msg).
Proof.
  unfold schwellwerte_aktualisieren.
  apply bewahrt_bind; [intros s H; now destruct msg|intros daten].
  apply bewahrt_bind; [intros s H; now destruct daten|intros neue_temp].
  apply bewahrt_bind.
  { destruct (als_zahl b neue_temp); [|apply bewahrt_ret].
    intros s H. exact H. }
  intros _.
  apply bewahrt_bind; [intros s H; now destruct daten|intros neue_feuchte].
  apply bewahrt_bind.
  { destruct (als_zahl b neue_feuchte) as [x|]; [|apply bewahrt_ret].
    destruct (zahl_le (Ganz 0) x && zahl_le x (Ganz 100)) eqn:E; [|apply bewahrt_ret].
    apply andb_prop in E as (E1 & E2).
    intros s (_ & _ & H3 & H4 & H5). cbn.
    unfold schwellen_gueltig. cbn.
    unfold zahl_le in E1, E2. cbn in E1, E2. repeat split; assumption. }
  intros _.
  apply bewahrt_bind; [intros s H; now destruct daten|intros neue_co2].
  apply bewahrt_bind.
  { destruct (als_zahl b neue_co2) as [x|]; [|apply bewahrt_ret].
    destruct (zahl_gt x (Ganz 0)) eqn:E; [|apply bewahrt_ret].
    intros s (H1 & H2 & H3 & H4 & H5). cbn [wenn]. unfold bind.
    pose proof (@int_von_nicht_negativ welt x s (zahl_gt_ge _ _ E)) as Hn.
    destruct (int_von x s) as [[[n|e] s1] l1].
    - destruct Hn as (Hn & -> & ->). cbn. unfold schwellen_gueltig. cbn.
      repeat split; assumption.
    - destruct Hn as (-> & ->). cbn. repeat split; assumption. }
  intros _.
  apply bewahrt_bind; [intros s H; now destruct daten|intros neue_voc].
  destruct (als_zahl b neue_voc) as [x|]; [|apply bewahrt_ret].
  destruct (zahl_ge x (Ganz 0)) eqn:E; [|apply bewahrt_ret].
  intros s (H1 & H2 & H3 & H4 & H5). cbn [wenn]. unfold bind.
  pose proof (@int_von_nicht_negativ welt x s E) as Hn.
  destruct (int_von x s) as [[[n|e] s1] l1].
  - destruct Hn as (Hn & -> & ->). cbn. unfold schwellen_gueltig. cbn.
    repeat split; assumption.
  - destruct Hn as (-> & ->). cbn. repeat split; assumption.
Qed.

Lemma geraet_steuern_erhaelt_schwellen msg : erhaelt schwellen (geraet_steuern msg).
Proof. unfold geraet_steuern. erhalte. Qed.

Lemma mqtt_befehl_empfangen_bewahrt_schwellen b t msg :
  bewahrt schwellen_gueltig (mqtt_befehl_empfangen b t msg).
Proof.
  unfold mqtt_befehl_empfangen.
  apply bewahrt_versuche; [|intros e; apply bewahrt_ret].
  apply bewahrt_bind; [intros s H; now destruct t|intros topic].
  destruct (String.eqb topic MQTT_SCHWELLE_TOPIC).
  - apply bewahrt_versuche; [|intros e; apply bewahrt_ret].
    apply schwellwerte_aktualisieren_bewahrt.
  - destruct (String.eqb topic mqtt_steuerung.EMPFANGS_TOPIC); [|apply bewahrt_ret].
    apply (bewahrt_erhaelt _ schwellen); [apply schwellen_gueltig_gleich|].
    apply geraet_steuern_erhaelt_schwellen.
Qed.

(** The poll of the main loop: it returns; the state it leaves is the one
    the callback left, if the client delivered a message; of the variables
    of the messaging module it changes nothing, or drops the link. *)
Lemma nachrichten_pruefen_zustand b eingang f w :
  let r := nachrichten_pruefen b eingang f w in
  ergebnis r = Fertig tt
  /\ exists mq,
       (mq = mqtt w \/ mq = mqtt_steuerung.mit_verbindung None false (mqtt w))
       /\ (zustand_nach r = mit_mqtt mq w
           \/ exists t msg,
                eingang = Some (t, msg)
                /\ zustand_nach r
                   = mit_mqtt mq (zustand_nach (mqtt_befehl_empfangen b t msg w))).
Proof.
  cbv zeta.
  cbv beta delta [nachrichten_pruefen mqtt_steuerung.mqtt_nachrichten_pruefen
                  mqtt_steuerung.versuche_os versuche versuche_wenn
                  mqtt_steuerung.check_msg bind lies] zeta.
  cbn beta iota.
  destruct (negb (mqtt_steuerung.mqtt_verbunden (mqtt w))
            || ist_none (mqtt_steuerung.mqtt_client (mqtt w))).
  { split; [reflexivity|]. exists (mqtt w). split; [now left|].
    left. cbn. now rewrite mit_mqtt_gleich. }
  destruct eingang as [[t msg]|]; cbn [option_map fst snd].
  - unfold mqtt_steuerung._mqtt_interner_callback, bind, wenn. cbn [lies].
    destruct (mqtt_steuerung.mqtt_benutzer_callback (mqtt w)).
    + pose proof (versuche_faengt_alles (mqtt_befehl_empfangen b t msg) w) as He.
      assert (Hz : zustand_nach (versuche (mqtt_befehl_empfangen b t msg)
                                   (fun _ => ret tt) w)
                   = zustand_nach (mqtt_befehl_empfangen b t msg w)).
      { pose proof (mqtt_befehl_empfangen_fertig b t msg w) as Hf.
        unfold versuche, versuche_wenn.
        destruct (mqtt_befehl_empfangen b t msg w) as [[r0 w0] l0].
        cbn in Hf. now subst r0. }
      pose proof (mqtt_befehl_empfangen_erhaelt_mqtt b t msg w) as Hq.
      destruct (versuche (mqtt_befehl_empfangen b t msg) _ w) as [[r w1] l1].
      cbn in He, Hz. subst r w1. cbn.
      destruct f as [[|]|]; cbn; (split; [reflexivity|]).
      * exists (mqtt_steuerung.mit_verbindung None false (mqtt w)).
        split; [now right|]. right. exists t, msg. split; [reflexivity|].
        now rewrite Hq.
      * exists (mqtt w). split; [now left|].
        right. exists t, msg. split; [reflexivity|].
        now rewrite <- Hq, mit_mqtt_gleich.
      * exists (mqtt w). split; [now left|].
        right. exists t, msg. split; [reflexivity|].
        now rewrite <- Hq, mit_mqtt_gleich.
    + cbn. destruct f as [[|]|]; cbn; (split; [reflexivity|]).
      * eexists. split; [now right|]. left. reflexivity.
      * exists (mqtt w). split; [now left|]. left. now rewrite mit_mqtt_gleich.
      * exists (mqtt w). split; [now left|]. left. now rewrite mit_mqtt_gleich.
  - cbn. destruct f as [[|]|]; cbn; (split; [reflexivity|]).
    + eexists. split; [now right|]. left. reflexivity.
    + exists (mqtt w). split; [now left|]. left. now rewrite mit_mqtt_gleich.
    + exists (mqtt w). split; [now left|]. left. now rewrite mit_mqtt_gleich.
Qed.

Lemma schritt_fertig b x w : ergebnis (schritt_ausfuehren b x w) = Fertig tt.
Proof.
  destruct x as [u|t msg|eingang f]; cbn [schritt_ausfuehren].
  - apply tick_fertig.
  - apply mqtt_befehl_empfangen_fertig.
  - apply nachrichten_pruefen_zustand.
Qed.

(** An invariant that does not depend on the variables of the messaging
    module and that the timer callback and the command callback keep is kept
    by every run. *)
Lemma ablauf_bewahrt b (I : welt -> Prop) :
  (forall mq w, I w -> I (mit_mqtt mq w)) ->
  (forall u, bewahrt I (sensoren_lesen_verarbeiten_senden u)) ->
  (forall t msg, bewahrt I (mqtt_befehl_empfangen b t msg)) ->
  forall xs w,
    I w ->
    ergebnis (ablauf b xs w) = Fertig tt /\ I (zustand_nach (ablauf b xs w)).
Proof.
  intros Hm Ht Hb. induction xs as [|x xs IH]; intros w Hw; [split; [reflexivity|exact Hw]|].
  cbn [ablauf]. rewrite (bind_fertig _ _ _ tt (schritt_fertig b x w)).
  cbn [ergebnis zustand_nach fst snd]. apply IH.
  destruct x as [u|t msg|eingang f]; cbn [schritt_ausfuehren].
  - now apply Ht.
  - now apply Hb.
  - destruct (nachrichten_pruefen_zustand b eingang f w)
      as (_ & mq & _ & [->|(t & msg & _ & ->)]).
    + now apply Hm.
    + apply Hm. now apply Hb.
Qed.

(** X17 (timer callback, command callback and poll, in any order).  The
    ranges of the thresholds are an invariant of the running device: if the
    humidity threshold lies in 0..100, the CO2 and the VOC threshold are
    not negative and the critical CO2 threshold is the constant of the
    source, then this still holds after any sequence of timer runs,
    received messages and polls, and none of them raises. *)
Theorem schwellen_bleiben_gueltig b xs w :
  schwellen_gueltig w ->
  let r := ablauf b xs w in
  ergebnis r = Fertig tt
  /\ zahl_le (Ganz 0) (Gleit (aktuelle_feuchte_schwelle (zustand_nach r))) = true
  /\ zahl_le (Gleit (aktuelle_feuchte_schwelle (zustand_nach r))) (Ganz 100) = true
  /\ 0 <= aktuelle_co2_schwelle (zustand_nach r)
  /\ 0 <= aktuelle_voc_schwelle (zustand_nach r)
  /\ aktuelle_co2_kritisch_schwelle (zustand_nach r) = STANDARD_CO2_KRITISCH_SCHWELLE.
Proof.
  intros H. cbv zeta.
  apply (ablauf_bewahrt b schwellen_gueltig); [| | |exact H].
  - intros mq w0 H0. exact H0.
  - intros u. apply (bewahrt_erhaelt _ schwellen); [apply schwellen_gueltig_gleich|].
    apply tick_erhaelt_schwellen.
  - apply mqtt_befehl_empfangen_bewahrt_schwellen.
Qed.

Lemma schwellen_bleiben_gueltig_zeuge :
  let xs := [Nachricht (Liefert MQTT_SCHWELLE_TOPIC)
               (Liefert (JObjekt (<["schwelle_CO2" := JZahl (Gleit (Endlich (1 # 2)))]> ∅)));
             Zeitgeber (beispiel_umwelt 100 22 800)] in
  schwellen_gueltig beispiel_welt
  /\ 0 <= aktuelle_co2_schwelle (zustand_nach (ablauf true xs beispiel_welt)).
Proof.
  cbv zeta.
  assert (H : schwellen_gueltig beispiel_welt)
    by (repeat split; try reflexivity; vm_compute; discriminate).
  split; [exact H|].
  pose proof (schwellen_bleiben_gueltig true
                [Nachricht (Liefert MQTT_SCHWELLE_TOPIC)
                   (Liefert (JObjekt
                      (<["schwelle_CO2" := JZahl (Gleit (Endlich (1 # 2)))]> ∅)));
                 Zeitgeber (beispiel_umwelt 100 22 800)]
                beispiel_welt H) as H'.
  cbv zeta in H'. destruct H' as (_ & _ & _ & H3 & _). exact H3.
Defined.

(** The two alarm stages keep the bookkeeping in order. *)
Lemma alarm_logik_bewahrt u m w :
  alarm_geordnet w -> alarm_geordnet (zustand_nach (alarm_logik u m w)).
Proof.
  intros (H1 & H2).
  destruct (ist_co2_kritisch m w) eqn:Ek.
  - rewrite (alarm_logik_kritisch u m w Ek). cbv zeta.
    destruct (kritischer_alarm_aktiv w) eqn:Ea.
    + split; cbn; [intros _; apply H1; reflexivity|exact H2].
    + split; cbn; [intros _; split; reflexivity|lia].
  - destruct (kritischer_alarm_aktiv w) eqn:Ea.
    + rewrite (alarm_logik_entwarnung u m w Ek Ea). cbv zeta.
      cbn [zustand_nach fst snd].
      destruct (soll_normal_alarm m w).
      * split; cbn; [discriminate|lia].
      * destruct (0 <? normal_alarm_zaehler w), (0 <? normal_alarm_sperre_bis w);
          split; cbn; try discriminate; lia.
    + rewrite (alarm_logik_normal u m w Ek Ea).
      destruct (soll_normal_alarm m w).
      * rewrite (alarm_normal_ueberschritten u w Ea). cbv zeta.
        destruct (_ && _).
        -- cbn [zustand_nach fst snd].
           destruct (backlight u); split; cbn; try lia; rewrite ?Ea; discriminate.
        -- split; cbn; [rewrite Ea; discriminate|lia].
      * rewrite (alarm_normal_ruhig u w Ea). cbv zeta. cbn [zustand_nach fst snd].
        destruct (0 <? normal_alarm_zaehler w), (0 <? normal_alarm_sperre_bis w);
          split; cbn; rewrite ?Ea; try discriminate; lia.
Qed.

Lemma tick_bewahrt_alarm u : bewahrt alarm_geordnet (sensoren_lesen_verarbeiten_senden u).
Proof.
  intros w H.
  destruct (tick_vollstaendig u w) as (t & f & _ & _ & _ & Hr). cbv zeta in Hr.
  rewrite Hr. clear Hr.
  assert (H0 : alarm_geordnet (nach_dem_lesen u w))
    by (revert H; apply alarm_geordnet_gleich; reflexivity).
  destruct (ungueltig _); [exact H0|].
  pose proof (alarm_logik_bewahrt u
                {| temp := t; feuchte := f;
                   co2 := sensorik._letzter_co2_wert (sensoren (nach_dem_lesen u w));
                   voc := sensorik._letzter_voc_wert (sensoren (nach_dem_lesen u w)) |}
                _ H0) as Hl.
  destruct (ergebnis (alarm_logik _ _ _)); [|exact Hl].
  match goal with
  | |- context [daten_senden ?u ?m ?b1 ?b2 ?b3 ?b4 ?b5 ?w1] =>
      destruct (daten_senden_fertig u m b1 b2 b3 b4 b5 w1) as (mq & l & -> & _)
  end.
  exact Hl.
Qed.

Lemma befehl_bewahrt_alarm b t msg : bewahrt alarm_geordnet (mqtt_befehl_empfangen b t msg).
Proof.
  intros w (H1 & H2).
  pose proof (mqtt_befehl_empfangen_rahmen b t msg w) as Hr.
  pose proof (befehl_kritisch b t msg w) as Hk.
  unfold befehl_rahmen in Hr. injection Hr as _ _ _ Hz Hs _.
  split.
  - rewrite Hk, Hz, Hs. destruct (loescht_alarm t msg); [discriminate|exact H1].
  - now rewrite Hz.
Qed.

(** X18 (timer callback, command callback and poll, in any order).  While the
    critical alarm is active, the counter and the cooldown of the normal
    alarm are zero, and the counter is never negative: if this holds at
    the start, it holds after any sequence of timer runs, received
    messages and polls. *)
Theorem alarm_bleibt_geordnet b xs w :
  alarm_geordnet w ->
  let w' := zustand_nach (ablauf b xs w) in
  ergebnis (ablauf b xs w) = Fertig tt
  /\ (kritischer_alarm_aktiv w' = true ->
      normal_alarm_zaehler w' = 0 /\ normal_alarm_sperre_bis w' = 0)
  /\ 0 <= normal_alarm_zaehler w'.
Proof.
  intros H. cbv zeta.
  apply (ablauf_bewahrt b alarm_geordnet); [| | |exact H].
  - intros mq w0 H0. exact H0.
  - apply tick_bewahrt_alarm.
  - apply befehl_bewahrt_alarm.
Qed.

Lemma alarm_bleibt_geordnet_zeuge :
  let xs := [Zeitgeber (beispiel_umwelt 100 22 3000);
             Nachricht (Liefert mqtt_steuerung.EMPFANGS_TOPIC)
               (Liefert (JObjekt (<["status" := JText "OFF"]>
                                    (<["command" := JText "BUZZER"]> ∅))));
             Zeitgeber (beispiel_umwelt 102 35 3000)] in
  alarm_geordnet beispiel_welt
  /\ kritischer_alarm_aktiv (zustand_nach (ablauf true xs beispiel_welt)) = true
  /\ normal_alarm_zaehler (zustand_nach (ablauf true xs beispiel_welt)) = 0.
Proof.
  cbv zeta.
  assert (H : alarm_geordnet beispiel_welt)
    by (split; [discriminate|vm_compute; discriminate]).
  split; [exact H|].
  pose proof (alarm_bleibt_geordnet true
                [Zeitgeber (beispiel_umwelt 100 22 3000);
                 Nachricht (Liefert mqtt_steuerung.EMPFANGS_TOPIC)
                   (Liefert (JObjekt (<["status" := JText "OFF"]>
                                        (<["command" := JText "BUZZER"]> ∅))));
                 Zeitgeber (beispiel_umwelt 102 35 3000)]
                beispiel_welt H) as H'.
  cbv zeta in H'. destruct H' as (_ & H2 & _).
  assert (Hk : kritischer_alarm_aktiv
                 (zustand_nach
                    (ablauf true
                       [Zeitgeber (beispiel_umwelt 100 22 3000);
                        Nachricht (Liefert mqtt_steuerung.EMPFANGS_TOPIC)
                          (Liefert (JObjekt (<["status" := JText "OFF"]>
                                               (<["command" := JText "BUZZER"]> ∅))));
                        Zeitgeber (beispiel_umwelt 102 35 3000)]
                       beispiel_welt)) = true) by (vm_compute; reflexivity).
  split; [exact Hk|]. exact (proj1 (H2 Hk)).
Defined.

(** ** main.py: what a run of the timer callback publishes *)

Ltac alarm_faelle u m w :=
  let Ek := fresh "Ek" in
  let Ea := fresh "Ea" in
  destruct (ist_co2_kritisch m w) eqn:Ek;
  [ rewrite (alarm_logik_kritisch u m w Ek); cbv zeta;
    destruct (kritischer_alarm_aktiv w) eqn:Ea
  | destruct (kritischer_alarm_aktiv w) eqn:Ea;
    [ rewrite (alarm_logik_entwarnung u m w Ek Ea); cbv zeta
    | rewrite (alarm_logik_normal u m w Ek Ea);
      destruct (soll_normal_alarm m w);
      [ rewrite (alarm_normal_ueberschritten u w Ea); cbv zeta;
        destruct (_ && _)
      | rewrite (alarm_normal_ruhig u w Ea); cbv zeta ] ] ].

Lemma aktor_kein_publish :
  (forall a, Forall (fun e => ist_publish e = false)
               (protokoll (aktor_steuerung.summer_starten None true a)))
  /\ (forall a, Forall (fun e => ist_publish e = false)
                  (protokoll (aktor_steuerung.summer_stoppen a)))
  /\ (forall a, Forall (fun e => ist_publish e = false)
                  (protokoll (aktor_steuerung.summer_kurz_piepen
                                aktor_steuerung.SUMMER_PIEP_DAUER_MS None false a)))
  /\ (forall a, Forall (fun e => ist_publish e = false)
                  (protokoll (aktor_steuerung.servo_winken 3 45 135 400 a))).
Proof.
  repeat split; intros a; aktor_fakten.faelle a; cbv; repeat constructor.
Qed.

Lemma alarm_logik_kein_publish u m w :
  Forall (fun e => ist_publish e = false) (protokoll (alarm_logik u m w)).
Proof.
  destruct aktor_kein_publish as (H1 & H2 & H3 & H4).
  alarm_faelle u m w; cbn [protokoll snd];
    repeat first [ apply Forall_app; split | apply Forall_cons; split
                 | apply Forall_nil | apply H1 | apply H2 | apply H3 | apply H4
                 | reflexivity ].
Qed.

Lemma alarm_logik_ohne_wecken_fertig u m w :
  backlight u = None -> ergebnis (alarm_logik u m w) = Fertig tt.
Proof.
  intros Hb. alarm_faelle u m w; rewrite ?Hb; reflexivity.
Qed.

Lemma alarm_logik_erhaelt_mqtt u m w : mqtt (zustand_nach (alarm_logik u m w)) = mqtt w.
Proof.
  alarm_faelle u m w; cbn [zustand_nach fst snd];
    repeat match goal with
           | |- context [if ?c then _ else _] => destruct c
           | |- context [match ?c with Some _ => _ | None => _ end] => destruct c
           end; reflexivity.
Qed.

Lemma filter_kein_publish l :
  Forall (fun e => ist_publish e = false) l -> List.filter ist_publish l = [].
Proof.
  induction 1 as [|e l He _ IH]; [reflexivity|].
  cbn. now rewrite He.
Qed.

Lemma nutzlast_von_schwellen m w w' :
  schwellen w' = schwellen w -> nutzlast_von m w' = nutzlast_von m w.
Proof.
  unfold schwellen. intros [= H1 H2 H3 H4 H5].
  unfold nutzlast_von, ist_temp_alarm, ist_feuchte_alarm, ist_co2_alarm, ist_voc_alarm,
    ist_co2_kritisch.
  now rewrite H1, H2, H3, H4, H5.
Qed.

(** What a run on a valid reading publishes, and what it leaves of the
    link, when the display wake returns. *)
Lemma tick_senden u w m :
  werte u w = Some m ->
  ungueltig m = false ->
  backlight u = None ->
  let r := sensoren_lesen_verarbeiten_senden u w in
  let rs := mqtt_steuerung.mqtt_senden (nutzlast_von m w) (publish u) (mqtt w) in
  List.filter ist_publish (protokoll r)
  = (if mqtt_steuerung.mqtt_verbunden (mqtt w) then protokoll rs else [])
  /\ mqtt (zustand_nach r)
     = (if mqtt_steuerung.mqtt_verbunden (mqtt w) then zustand_nach rs else mqtt w).
Proof.
  intros Hm Hg Hb.
  destruct (tick_vollstaendig u w) as (t & f & _ & _ & Hw & Hr). cbv zeta in Hw, Hr.
  rewrite Hm in Hw.
  apply (f_equal (fun o => match o with Some x => x | None => m end)) in Hw.
  cbv beta iota in Hw. rewrite <- Hw in Hr. cbv zeta. rewrite Hr. clear Hr.
  rewrite Hg.
  rewrite (alarm_logik_ohne_wecken_fertig u m _ Hb).
  rewrite daten_senden_lauf. cbv zeta.
  rewrite alarm_logik_erhaelt_mqtt.
  change (mqtt (nach_dem_lesen u w)) with (mqtt w).
  change {| Temperatur := temp m;
            Temperatur_Status := if ist_temp_alarm m (nach_dem_lesen u w) then 1 else 0;
            Luftfeuchtigkeit := feuchte m;
            Luftfeuchtigkeit_Status :=
              if ist_feuchte_alarm m (nach_dem_lesen u w) then 1 else 0;
            CO2 := co2 m;
            CO2_Status := if ist_co2_kritisch m (nach_dem_lesen u w) then 2
                          else if ist_co2_alarm m (nach_dem_lesen u w) then 1 else 0;
            VOC := voc m;
            VOC_Status := if ist_voc_alarm m (nach_dem_lesen u w) then 1 else 0 |}
    with (nutzlast_von m (nach_dem_lesen u w)).
  rewrite (nutzlast_von_schwellen m w (nach_dem_lesen u w) eq_refl).
  pose proof (alarm_logik_kein_publish u m (nach_dem_lesen u w)) as Hk.
  apply filter_kein_publish in Hk.
  destruct (mqtt_steuerung.mqtt_verbunden (mqtt w)) eqn:Ev;
    cbn [zustand_nach protokoll fst snd List.filter ist_publish];
    rewrite List.filter_app, Hk; cbn [app mqtt mit_mqtt];
    rewrite ?alarm_logik_erhaelt_mqtt.
  - split; [|reflexivity].
    destruct (mqtt w) as [[[]|] v cb]; cbn in Ev; subst v;
      destruct (publish u) as [[|]|]; reflexivity.
  - split; reflexivity.
Qed.

(** X19 ([sensoren_lesen_verarbeiten_senden], [mqtt_senden]).  With the link
    up, a run over a valid reading publishes exactly once, and the payload
    is the reading just taken: the four values as read, CO2_Status 2
    exactly above the critical threshold and 1 exactly above the normal
    and not above the critical one, each other status 1 exactly above its
    threshold.  When the broker refuses, the one attempt is not repeated. *)
Theorem zeitgeber_veroeffentlicht_die_messung u w m :
  werte u w = Some m ->
  ungueltig m = false ->
  backlight u = None ->
  mqtt_steuerung.mqtt_verbunden (mqtt w) = true ->
  mqtt_steuerung.mqtt_client (mqtt w) = Some mqtt_steuerung.MQTTClient ->
  let r := sensoren_lesen_verarbeiten_senden u w in
  let p := nutzlast_von m w in
  List.filter ist_publish (protokoll r)
  = match publish u with
    | None => [Ruf_publish p; Veroeffentlicht p]
    | Some _ => [Ruf_publish p]
    end
  /\ (Temperatur p = temp m /\ Luftfeuchtigkeit p = feuchte m
      /\ CO2 p = co2 m /\ VOC p = voc m)
  /\ (CO2_Status p = 2 <-> aktuelle_co2_kritisch_schwelle w < co2 m)
  /\ (CO2_Status p = 1 <->
      aktuelle_co2_schwelle w < co2 m <= aktuelle_co2_kritisch_schwelle w)
  /\ (VOC_Status p = 1 <-> aktuelle_voc_schwelle w < voc m)
  /\ (Temperatur_Status p = 1 <-> zahl_gt (temp m) (Gleit (aktuelle_temp_schwelle w)) = true)
  /\ (Luftfeuchtigkeit_Status p = 1
      <-> zahl_gt (feuchte m) (Gleit (aktuelle_feuchte_schwelle w)) = true).
Proof.
  intros Hm Hg Hb Hv Hc. cbv zeta.
  destruct (tick_senden u w m Hm Hg Hb) as (H1 & _). cbv zeta in H1.
  rewrite Hv in H1. rewrite H1, (mqtt_senden_verbunden _ _ _ Hv Hc).
  split; [destruct (publish u) as [[|]|]; reflexivity|].
  split; [repeat split|].
  unfold nutzlast_von, ist_co2_kritisch, ist_co2_alarm, ist_voc_alarm, ist_temp_alarm,
    ist_feuchte_alarm.
  cbn [CO2_Status VOC_Status Temperatur_Status Luftfeuchtigkeit_Status].
  repeat split; intros;
    repeat match goal with
           | H : context [if ?c then _ else _] |- _ => destruct c eqn:?
           | |- context [if ?c then _ else _] => destruct c eqn:?
           end;
    try discriminate; try reflexivity; try assumption; try lia.
Qed.

Lemma zeitgeber_veroeffentlicht_die_messung_zeuge :
  let u := beispiel_umwelt 100 22 3000 in
  List.filter ist_publish (protokoll (sensoren_lesen_verarbeiten_senden u beispiel_welt))
  = [Ruf_publish (nutzlast_von (beispiel_werte 22 3000) beispiel_welt);
     Veroeffentlicht (nutzlast_von (beispiel_werte 22 3000) beispiel_welt)]
  /\ CO2_Status (nutzlast_von (beispiel_werte 22 3000) beispiel_welt) = 2.
Proof.
  cbv zeta.
  pose proof (zeitgeber_veroeffentlicht_die_messung (beispiel_umwelt 100 22 3000)
                beispiel_welt (beispiel_werte 22 3000)) as H.
  cbv zeta in H.
  destruct H as (H1 & _); [vm_compute; reflexivity|vm_compute; reflexivity
                          |reflexivity|reflexivity|reflexivity|].
  split; [exact H1|reflexivity].
Defined.

(** A run of the callback while the link is down publishes nothing and
    leaves the link as it is. *)
Lemma tick_getrennt u w :
  mqtt_steuerung.mqtt_verbunden (mqtt w) = false ->
  List.filter ist_publish (protokoll (sensoren_lesen_verarbeiten_senden u w)) = []
  /\ mqtt (zustand_nach (sensoren_lesen_verarbeiten_senden u w)) = mqtt w.
Proof.
  intros Hv.
  destruct (tick_vollstaendig u w) as (t & f & _ & _ & _ & Hr). cbv zeta in Hr.
  rewrite Hr. clear Hr.
  destruct (ungueltig _); [split; reflexivity|].
  match goal with
  | |- context [alarm_logik u ?m ?w0] =>
      pose proof (alarm_logik_kein_publish u m w0) as Hk;
      pose proof (alarm_logik_erhaelt_mqtt u m w0) as Hq
  end.
  apply filter_kein_publish in Hk.
  change (mqtt (nach_dem_lesen u w)) with (mqtt w) in Hq.
  rewrite daten_senden_lauf. cbv zeta. rewrite Hq, Hv.
  destruct (ergebnis (alarm_logik _ _ _));
    cbn [zustand_nach protokoll fst snd List.filter ist_publish];
    rewrite ?List.filter_app, Hk, Hq; split; reflexivity.
Qed.

Lemma lauf_getrennt us :
  forall w,
    mqtt_steuerung.mqtt_verbunden (mqtt w) = false ->
    List.filter ist_publish (snd (lauf us w)) = []
    /\ mqtt (fst (lauf us w)) = mqtt w.
Proof.
  induction us as [|u us IH]; intros w Hv; [split; reflexivity|].
  cbn [lauf]. cbv zeta. cbn [fst snd].
  destruct (tick_getrennt u w Hv) as (H1 & H2).
  destruct (IH (zustand_nach (sensoren_lesen_verarbeiten_senden u w))) as (I1 & I2).
  { now rewrite H2. }
  rewrite List.filter_app, H1, I1, I2, H2. split; reflexivity.
Qed.

(** X20 ([sensoren_lesen_verarbeiten_senden], [mqtt_senden]).  A publish that
    fails with [OSError] does not make the callback raise; it drops the
    client and marks the link as down.  The callback never reconnects: in
    all later runs nothing is published and the link stays as the failure
    left it. *)
Theorem sendefehler_beendet_das_senden u us w m :
  werte u w = Some m ->
  ungueltig m = false ->
  backlight u = None ->
  mqtt_steuerung.mqtt_verbunden (mqtt w) = true ->
  mqtt_steuerung.mqtt_client (mqtt w) = Some mqtt_steuerung.MQTTClient ->
  publish u = Some OSError ->
  let r := sensoren_lesen_verarbeiten_senden u w in
  let w' := zustand_nach r in
  ergebnis r = Fertig tt
  /\ anzahl ist_veroeffentlicht (protokoll r) = 0%nat
  /\ mqtt w' = mqtt_steuerung.mit_verbindung None false (mqtt w)
  /\ List.filter ist_publish (snd (lauf us w')) = []
  /\ mqtt (fst (lauf us w')) = mqtt w'.
Proof.
  intros Hm Hg Hb Hv Hc Hp. cbv zeta.
  destruct (tick_senden u w m Hm Hg Hb) as (H1 & H2). cbv zeta in H1, H2.
  rewrite Hv, (mqtt_senden_verbunden _ _ _ Hv Hc), Hp in H1, H2.
  cbn [zustand_nach protokoll fst snd] in H1, H2.
  split; [apply tick_fertig|]. split; [|split; [exact H2|]].
  - unfold anzahl.
    assert (E : forall l, List.filter ist_veroeffentlicht l
                          = List.filter ist_veroeffentlicht (List.filter ist_publish l)).
    { induction l as [|[] l IH]; cbn; congruence. }
    rewrite E, H1. reflexivity.
  - apply lauf_getrennt. rewrite H2. reflexivity.
Qed.

Lemma sendefehler_beendet_das_senden_zeuge :
  let u := {| zeit := 100;
              aht_temperature := Liefert (Gleit (Endlich 22));
              aht_humidity := Liefert (Gleit (Endlich 50));
              ccs := probe 800 100;
              backlight := None;
              publish := Some OSError |} in
  let w' := zustand_nach (sensoren_lesen_verarbeiten_senden u beispiel_welt) in
  mqtt_steuerung.mqtt_verbunden (mqtt beispiel_welt) = true
  /\ mqtt_steuerung.mqtt_verbunden (mqtt w') = false
  /\ List.filter ist_publish
       (snd (lauf [beispiel_umwelt 102 22 800; beispiel_umwelt 104 22 800] w')) = [].
Proof.
  cbv zeta.
  pose proof (sendefehler_beendet_das_senden
                {| zeit := 100;
                   aht_temperature := Liefert (Gleit (Endlich 22));
                   aht_humidity := Liefert (Gleit (Endlich 50));
                   ccs := probe 800 100;
                   backlight := None;
                   publish := Some OSError |}
                [beispiel_umwelt 102 22 800; beispiel_umwelt 104 22 800]
                beispiel_welt (beispiel_werte 22 800)) as H.
  cbv zeta in H.
  destruct H as (_ & _ & H3 & H4 & _); [vm_compute; reflexivity|vm_compute; reflexivity
                          |reflexivity|reflexivity|reflexivity|reflexivity|].
  split; [reflexivity|]. split; [rewrite H3; reflexivity|exact H4].
Defined.

(** ** main.py: the normal alarm over several readings *)

(** A run that fires the normal alarm: each of the three signals once. *)
Lemma tick_ausgeloest_anzahl u w :
  ueberschreitung u w ->
  kritischer_alarm_aktiv w = false ->
  NORMAL_ALARM_AUSLOESE_ZAEHLER <= normal_alarm_zaehler w + 1 ->
  normal_alarm_sperre_bis w < zeit u ->
  backlight u = None ->
  let r := sensoren_lesen_verarbeiten_senden u w in
  anzahl ist_piep (protokoll r) = 1%nat
  /\ anzahl ist_winken (protokoll r) = 1%nat
  /\ anzahl ist_wecken (protokoll r) = 1%nat
  /\ alarm_zustand (zustand_nach r) = (false, zeit u + NORMAL_ALARM_SPERRE_SEK, 0).
Proof.
  intros (m & Hm & Hg & Hn & Hc) Hk Hz Hs Hb. cbv zeta.
  destruct (tick_ausgeloest u w m Hm Hg (ueberschreitung_nicht_kritisch _ _ Hc) Hk Hn
              Hz Hs Hb) as (_ & Hz2 & _ & l & Hp2 & Hl2).
  destruct (aktor_fakten.summer_kurz_piepen_protokoll (aktor w))
    as (lp & Hlp & Hp1 & Hp3 & Hp4 & _).
  destruct (aktor_fakten.servo_winken_protokoll
              (zustand_nach (aktor_steuerung.summer_kurz_piepen
                               aktor_steuerung.SUMMER_PIEP_DAUER_MS None false
                               (aktor w))))
    as (lw & Hlw & Hw1 & Hw2 & Hw3 & _ & _).
  pose proof (anzahl_ohne_aktor _ _ piep_ist_aktor Hl2) as Hx1.
  pose proof (anzahl_ohne_aktor _ _ winken_ist_aktor Hl2) as Hx2.
  pose proof (anzahl_ohne_aktor _ _ wecken_ist_aktor Hl2) as Hx3.
  rewrite Hp2, Hlp, Hlw.
  split; [zaehle|]. split; [zaehle|]. split; [zaehle|exact Hz2].
Qed.

(** Readings above a threshold during the cooldown are counted. *)
Lemma lauf_in_sperre_zaehler T us :
  forall w,
    kritischer_alarm_aktiv w = false ->
    normal_alarm_sperre_bis w = T ->
    jeder_tick (fun u w' => ueberschreitung u w' /\ zeit u <= T) us w ->
    normal_alarm_zaehler (fst (lauf us w))
    = normal_alarm_zaehler w + Z.of_nat (length us).
Proof.
  induction us as [|u us IH]; intros w Hk Hs Hj; cbn [lauf fst snd length].
  - lia.
  - destruct Hj as [[(m & Hm & Hg & Hn & Hc) Ht] Hj].
    destruct (tick_gezaehlt u w m Hm Hg (ueberschreitung_nicht_kritisch _ _ Hc) Hk Hn)
      as (_ & Hz & _ & _); [right; lia|].
    apply alarm_zustand_felder in Hz. destruct Hz as (Hk1 & Hs1 & Hz1).
    rewrite Hs in Hs1.
    rewrite (IH _ Hk1 Hs1 Hj), Hz1. lia.
Qed.

(** X21 ([sensoren_lesen_verarbeiten_senden], normal alarm).  While the
    cooldown lasts, runs over exceeded values trigger nothing and only
    count.  The first such run after the cooldown triggers the alarm
    again, once: one beep, one wave, one wake-up of the display, the
    counter back at zero and a new cooldown from the time of that run. *)
Theorem alarm_wiederholt_sich_nach_der_sperre w us u :
  kritischer_alarm_aktiv w = false ->
  0 <= normal_alarm_zaehler w ->
  (0 < length us)%nat ->
  jeder_tick (fun u' w' => ueberschreitung u' w' /\ zeit u' <= normal_alarm_sperre_bis w)
    us w ->
  let w1 := fst (lauf us w) in
  ueberschreitung u w1 ->
  normal_alarm_sperre_bis w < zeit u ->
  backlight u = None ->
  let r := sensoren_lesen_verarbeiten_senden u w1 in
  anzahl ist_normal_ausloesung (snd (lauf us w)) = 0%nat
  /\ normal_alarm_zaehler w1 = normal_alarm_zaehler w + Z.of_nat (length us)
  /\ anzahl ist_piep (protokoll r) = 1%nat
  /\ anzahl ist_winken (protokoll r) = 1%nat
  /\ anzahl ist_wecken (protokoll r) = 1%nat
  /\ normal_alarm_sperre_bis (zustand_nach r) = zeit u + NORMAL_ALARM_SPERRE_SEK
  /\ normal_alarm_zaehler (zustand_nach r) = 0.
Proof.
  intros Hk Hz Hl Hj w1 Hu Hs Hb r.
  destruct (lauf_in_sperre _ us w Hk eq_refl Hj) as (Hf & Hk1 & Hs1 & _).
  pose proof (lauf_in_sperre_zaehler _ us w Hk eq_refl Hj) as Hz1.
  fold w1 in Hk1, Hs1, Hz1.
  destruct (tick_ausgeloest_anzahl u w1 Hu Hk1) as (A1 & A2 & A3 & A4).
  { rewrite Hz1. unfold NORMAL_ALARM_AUSLOESE_ZAEHLER. lia. }
  { rewrite Hs1. exact Hs. }
  { exact Hb. }
  apply alarm_zustand_felder in A4. destruct A4 as (_ & A4 & A5).
  split; [apply anzahl_ohne_aktor; [apply ausloesung_ist_aktor|exact Hf]|].
  split; [exact Hz1|].
  repeat split; assumption.
Qed.

Lemma alarm_wiederholt_sich_nach_der_sperre_zeuge :
  let w := mit_sperre_bis 400 beispiel_welt in
  anzahl ist_normal_ausloesung
    (snd (lauf [beispiel_umwelt 200 35 800; beispiel_umwelt 202 35 800] w)) = 0%nat
  /\ anzahl ist_piep
       (protokoll (sensoren_lesen_verarbeiten_senden (beispiel_umwelt 402 35 800)
                     (fst (lauf [beispiel_umwelt 200 35 800; beispiel_umwelt 202 35 800]
                             w)))) = 1%nat.
Proof.
  cbv zeta.
  pose proof (alarm_wiederholt_sich_nach_der_sperre (mit_sperre_bis 400 beispiel_welt)
                [beispiel_umwelt 200 35 800; beispiel_umwelt 202 35 800]
                (beispiel_umwelt 402 35 800)) as H.
  cbv zeta in H.
  destruct H as (H1 & _ & H3 & _).
  - reflexivity.
  - vm_compute. discriminate.
  - cbn. lia.
  - cbn [jeder_tick]. split; [split; [zeige_ueberschreitung|vm_compute; discriminate]|].
    split; [split; [zeige_ueberschreitung|vm_compute; discriminate]|exact I].
  - zeige_ueberschreitung.
  - vm_compute. reflexivity.
  - reflexivity.
  - split; [exact H1|exact H3].
Defined.

(** X22 ([sensoren_lesen_verarbeiten_senden], normal alarm).  One run over
    values below all thresholds cancels a running cooldown: counter and
    cooldown are set back.  Of the exceeded readings that follow, the first
    only counts and the second triggers the alarm, however short the time
    since the last alarm. *)
Theorem ruhige_messung_hebt_die_sperre_auf w u0 u1 u2 :
  kritischer_alarm_aktiv w = false ->
  0 <= normal_alarm_zaehler w ->
  let w0 := zustand_nach (sensoren_lesen_verarbeiten_senden u0 w) in
  let r1 := sensoren_lesen_verarbeiten_senden u1 w0 in
  let w1 := zustand_nach r1 in
  let r2 := sensoren_lesen_verarbeiten_senden u2 w1 in
  unterschreitung u0 w ->
  ueberschreitung u1 w0 ->
  ueberschreitung u2 w1 ->
  0 < zeit u2 ->
  backlight u2 = None ->
  normal_alarm_zaehler w0 = 0
  /\ normal_alarm_sperre_bis w0 <= 0
  /\ anzahl ist_normal_ausloesung (protokoll r1) = 0%nat
  /\ normal_alarm_zaehler w1 = 1
  /\ anzahl ist_piep (protokoll r2) = 1%nat
  /\ anzahl ist_winken (protokoll r2) = 1%nat
  /\ anzahl ist_wecken (protokoll r2) = 1%nat
  /\ normal_alarm_sperre_bis (zustand_nach r2) = zeit u2 + NORMAL_ALARM_SPERRE_SEK.
Proof.
  intros Hk Hz w0 r1 w1 r2 (m0 & Hm0 & Hg0 & Hu0) Hu1 Hu2 Ht Hb.
  destruct (unter_allen_schwellen_ruhig _ _ Hu0) as (Hn0 & Hc0).
  destruct (tick_ruhig u0 w m0 Hm0 Hg0 Hc0 Hk Hn0) as (_ & Hz0 & _ & _).
  fold w0 in Hz0. apply alarm_zustand_felder in Hz0. destruct Hz0 as (Hk0 & Hs0 & Hc0').
  assert (Hz0 : normal_alarm_zaehler w0 = 0)
    by (rewrite Hc0'; destruct (0 <? normal_alarm_zaehler w) eqn:E;
        [reflexivity|apply Z.ltb_ge in E; lia]).
  assert (Hs0' : normal_alarm_sperre_bis w0 <= 0)
    by (rewrite Hs0; destruct (0 <? normal_alarm_sperre_bis w) eqn:E;
        [lia|apply Z.ltb_ge in E; lia]).
  pose proof Hu1 as (m1 & Hm1 & Hg1 & Hn1 & Hc1).
  destruct (tick_gezaehlt u1 w0 m1 Hm1 Hg1 (ueberschreitung_nicht_kritisch _ _ Hc1) Hk0 Hn1)
    as (_ & Hz1 & _ & Hl1).
  { left. rewrite Hz0. reflexivity. }
  fold r1 w1 in Hz1, Hl1.
  apply alarm_zustand_felder in Hz1. destruct Hz1 as (Hk1 & Hs1 & Hc1').
  pose proof (anzahl_ohne_aktor _ _ ausloesung_ist_aktor Hl1) as Hn1'.
  assert (Hz1 : normal_alarm_zaehler w1 = 1) by (rewrite Hc1', Hz0; reflexivity).
  destruct (tick_ausgeloest_anzahl u2 w1 Hu2 Hk1) as (A1 & A2 & A3 & A4).
  { rewrite Hc1', Hz0. unfold NORMAL_ALARM_AUSLOESE_ZAEHLER. lia. }
  { rewrite Hs1. lia. }
  { exact Hb. }
  fold r2 in A1, A2, A3, A4.
  apply alarm_zustand_felder in A4. destruct A4 as (_ & A4 & _).
  repeat split; assumption.
Qed.

Lemma ruhige_messung_hebt_die_sperre_auf_zeuge :
  let w := mit_sperre_bis 400 beispiel_welt in
  let w0 := zustand_nach (sensoren_lesen_verarbeiten_senden (beispiel_umwelt 110 22 800) w) in
  let r1 := sensoren_lesen_verarbeiten_senden (beispiel_umwelt 112 35 800) w0 in
  let r2 := sensoren_lesen_verarbeiten_senden (beispiel_umwelt 114 35 800)
              (zustand_nach r1) in
  normal_alarm_sperre_bis w = 400
  /\ anzahl ist_normal_ausloesung (protokoll r1) = 0%nat
  /\ normal_alarm_zaehler (zustand_nach r1) = 1
  /\ anzahl ist_piep (protokoll r2) = 1%nat
  /\ anzahl ist_winken (protokoll r2) = 1%nat.
Proof.
  cbv zeta.
  pose proof (ruhige_messung_hebt_die_sperre_auf (mit_sperre_bis 400 beispiel_welt)
                (beispiel_umwelt 110 22 800) (beispiel_umwelt 112 35 800)
                (beispiel_umwelt 114 35 800)) as H.
  cbv zeta in H.
  destruct H as (_ & _ & H1 & H2 & H3 & H4 & _).
  - reflexivity.
  - vm_compute. discriminate.
  - zeige_unterschreitung.
  - zeige_ueberschreitung.
  - zeige_ueberschreitung.
  - reflexivity.
  - reflexivity.
  - split; [reflexivity|]. split; [exact H1|]. split; [exact H2|].
    split; [exact H3|exact H4].
Defined.

(** ** main.py with aktor_steuerung.py: a tone started by remote command *)

Lemma piepen_im_dauerton p a :
  dauerton p a ->
  aktor_steuerung.summer_kurz_piepen aktor_steuerung.SUMMER_PIEP_DAUER_MS None false a
  = (Fertig tt, a, [Ruf_summer_kurz_piepen false]).
Proof.
  intros (H1 & H2 & H3 & H4).
  destruct a as [servo summer stumm freq dauer]. cbn in H1, H2. subst summer dauer.
  destruct p as [pf pd pdef]. cbn in H3, H4. subst pdef pd.
  destruct stumm; reflexivity.
Qed.

Lemma winken_im_dauerton p a :
  dauerton p a ->
  dauerton p (zustand_nach (aktor_steuerung.servo_winken 3 45 135 400 a)).
Proof.
  intros (H1 & H2 & H3 & H4).
  destruct (aktor_fakten.servo_winken_zustand a) as (_ & E1 & E2). cbv zeta in E1, E2.
  unfold dauerton. rewrite E1, E2. repeat split; assumption.
Qed.

(** A run of the callback on a reading that is not critical, while no
    critical alarm is active, leaves a steady tone as it is. *)
Lemma tick_im_dauerton p u w :
  kritischer_alarm_aktiv w = false ->
  unkritisch u w ->
  dauerton p (aktor w) ->
  let r := sensoren_lesen_verarbeiten_senden u w in
  kritischer_alarm_aktiv (zustand_nach r) = false
  /\ dauerton p (aktor (zustand_nach r))
  /\ anzahl treibt_summer (protokoll r) = 0%nat.
Proof.
  intros Hk (m & Hm & Hc) Hd. cbv zeta.
  destruct (tick_vollstaendig u w) as (t & f & _ & _ & Hw & Hr). cbv zeta in Hw, Hr.
  rewrite Hm in Hw.
  apply (f_equal (fun o => match o with Some x => x | None => m end)) in Hw.
  cbv beta iota in Hw. rewrite <- Hw in Hr. rewrite Hr. clear Hr Hw.
  destruct (ungueltig m); [repeat split; try assumption; apply Hd|].
  set (w0 := nach_dem_lesen u w).
  assert (Hk0 : kritischer_alarm_aktiv w0 = false) by exact Hk.
  assert (Hc0 : ist_co2_kritisch m w0 = false)
    by (apply ueberschreitung_nicht_kritisch; exact Hc).
  assert (Hd0 : dauerton p (aktor w0)) by exact Hd.
  assert (Ha : kritischer_alarm_aktiv (zustand_nach (alarm_logik u m w0)) = false
               /\ dauerton p (aktor (zustand_nach (alarm_logik u m w0)))
               /\ anzahl treibt_summer (protokoll (alarm_logik u m w0)) = 0%nat).
  { rewrite (alarm_logik_normal u m w0 Hc0 Hk0).
    destruct (soll_normal_alarm m w0).
    - rewrite (alarm_normal_ueberschritten u w0 Hk0). cbv zeta.
      destruct (_ && _).
      + rewrite (piepen_im_dauerton p _ Hd0).
        cbn [zustand_nach protokoll fst snd].
        destruct (aktor_fakten.servo_winken_protokoll (aktor w0))
          as (lw & Hlw & _ & _ & _ & Hw4 & _).
        pose proof (winken_im_dauerton p _ Hd0) as Hd1.
        rewrite Hlw.
        split; [destruct (backlight u); exact Hk|].
        split; [destruct (backlight u); exact Hd1|].
        zaehle.
      + repeat split; try assumption; apply Hd0.
    - rewrite (alarm_normal_ruhig u w0 Hk0). cbv zeta.
      cbn [zustand_nach protokoll fst snd].
      destruct (0 <? normal_alarm_zaehler w0), (0 <? normal_alarm_sperre_bis w0);
        repeat split; try assumption; apply Hd0. }
  destruct Ha as (A1 & A2 & A3).
  destruct (ergebnis (alarm_logik u m w0)).
  - match goal with
    | |- context [daten_senden ?u ?m ?b1 ?b2 ?b3 ?b4 ?b5 ?w1] =>
        destruct (daten_senden_fertig u m b1 b2 b3 b4 b5 w1) as (mq & l & -> & Hl)
    end.
    cbn [zustand_nach protokoll fst snd].
    pose proof (anzahl_ohne_aktor _ _ summer_ist_aktor Hl) as Hx.
    split; [exact A1|]. split; [exact A2|]. zaehle.
  - cbn [zustand_nach protokoll fst snd].
    split; [exact A1|]. split; [exact A2|]. zaehle.
Qed.

Lemma lauf_im_dauerton p us :
  forall w,
    kritischer_alarm_aktiv w = false ->
    dauerton p (aktor w) ->
    jeder_tick unkritisch us w ->
    kritischer_alarm_aktiv (fst (lauf us w)) = false
    /\ dauerton p (aktor (fst (lauf us w)))
    /\ anzahl treibt_summer (snd (lauf us w)) = 0%nat.
Proof.
  induction us as [|u us IH]; intros w Hk Hd Hj; [repeat split; try assumption; apply Hd|].
  destruct Hj as (Hu & Hj).
  destruct (tick_im_dauerton p u w Hk Hu Hd) as (T1 & T2 & T3). cbv zeta in T1, T2, T3.
  destruct (IH _ T1 T2 Hj) as (I1 & I2 & I3).
  cbn [lauf]. cbv zeta. cbn [fst snd].
  rewrite anzahl_app, T3, I3. split; [exact I1|]. split; [exact I2|reflexivity].
Qed.

(** X23 (BUZZER ON of [mqtt_befehl_empfangen], then timer runs).  On an
    unmuted device with a working buzzer the command BUZZER ON turns the
    steady tone on, and no later run whose CO2 value is not critical turns
    it off: the tone lasts through valid, invalid and alarming readings,
    and the beeps of the normal alarm are skipped meanwhile, so that no
    run writes to the buzzer. *)
Theorem fernton_ueberdauert_normale_laeufe b d w p us :
  ist_text (feld d "command") "BUZZER" = true ->
  ist_text (feld d "status") "ON" = true ->
  aktor_steuerung._summer_pwm_objekt (aktor w) = Some p ->
  aktor_steuerung.pwm_defekt p = false ->
  aktor_lebenszyklus.summer_treu (aktor w) ->
  aktor_steuerung._ist_stummgeschaltet (aktor w) = false ->
  kritischer_alarm_aktiv w = false ->
  let w1 := zustand_nach
              (mqtt_befehl_empfangen b (Liefert mqtt_steuerung.EMPFANGS_TOPIC)
                 (Liefert (JObjekt d)) w) in
  jeder_tick unkritisch us w1 ->
  let w2 := fst (lauf us w1) in
  exists p1,
    dauerton p1 (aktor w1)
    /\ dauerton p1 (aktor w2)
    /\ kritischer_alarm_aktiv w2 = false
    /\ anzahl treibt_summer (snd (lauf us w1)) = 0%nat.
Proof.
  intros Hc Hs Hp Hd Ht Hm Hk w1 Hj w2.
  assert (Hw1 : w1 = mit_aktor (zustand_nach (aktor_steuerung.summer_starten None false
                                                (aktor w))) w).
  { unfold w1. rewrite mqtt_befehl_empfangen_objekt, geraet_steuern_lauf. cbv zeta.
    apply ist_text_eq in Hc. rewrite Hc, Hs. reflexivity. }
  assert (Hd1 : exists p1, dauerton p1 (aktor w1)).
  { rewrite Hw1. cbn [aktor mit_aktor].
    specialize (Ht p Hp Hd).
    destruct (aktor w) as [servo summer stumm freq dauer].
    cbn in Hp, Hm, Ht. subst summer stumm.
    destruct p as [pf pd pdef]. cbn in Hd, Ht. subst pdef.
    destruct dauer.
    - subst pd. eexists. repeat split.
    - eexists. repeat split. }
  destruct Hd1 as (p1 & Hd1). exists p1.
  assert (Hk1 : kritischer_alarm_aktiv w1 = false) by (rewrite Hw1; exact Hk).
  destruct (lauf_im_dauerton p1 us w1 Hk1 Hd1 Hj) as (L1 & L2 & L3).
  split; [exact Hd1|]. split; [exact L2|]. split; [exact L1|exact L3].
Qed.

Lemma fernton_ueberdauert_normale_laeufe_zeuge :
  let d : gmap string jwert :=
    <["status" := JText "ON"]> (<["command" := JText "BUZZER"]> ∅) in
  let w1 := zustand_nach
              (mqtt_befehl_empfangen true (Liefert mqtt_steuerung.EMPFANGS_TOPIC)
                 (Liefert (JObjekt d)) beispiel_welt) in
  let us := [beispiel_umwelt 100 35 800; beispiel_umwelt 102 35 800] in
  anzahl ist_winken (snd (lauf us w1)) = 1%nat
  /\ anzahl treibt_summer (snd (lauf us w1)) = 0%nat.
Proof.
  cbv zeta.
  pose proof (fernton_ueberdauert_normale_laeufe true
                (<["status" := JText "ON"]> (<["command" := JText "BUZZER"]> ∅))
                beispiel_welt (beispiel_pwm 1000)
                [beispiel_umwelt 100 35 800; beispiel_umwelt 102 35 800]) as H.
  cbv zeta in H.
  destruct H as (p1 & _ & _ & _ & H4).
  - reflexivity.
  - reflexivity.
  - reflexivity.
  - reflexivity.
  - intros p Hp Hd. vm_compute in Hp. injection Hp as <-. reflexivity.
  - reflexivity.
  - reflexivity.
  - cbn [jeder_tick]. split; [eexists; split; [vm_compute; reflexivity|vm_compute; discriminate]|].
    split; [eexists; split; [vm_compute; reflexivity|vm_compute; discriminate]|exact I].
  - split; [vm_compute; reflexivity|exact H4].
Defined.

(** ** main.py: the alarm does not depend on the link *)

Lemma alarm_logik_mit_mqtt u m w mq :
  alarm_logik u m (mit_mqtt mq w)
  = (ergebnis (alarm_logik u m w), mit_mqtt mq (zustand_nach (alarm_logik u m w)),
     protokoll (alarm_logik u m w)).
Proof.
  assert (E1 : ist_co2_kritisch m (mit_mqtt mq w) = ist_co2_kritisch m w) by reflexivity.
  assert (E2 : kritischer_alarm_aktiv (mit_mqtt mq w) = kritischer_alarm_aktiv w)
    by reflexivity.
  assert (E3 : soll_normal_alarm m (mit_mqtt mq w) = soll_normal_alarm m w) by reflexivity.
  destruct (ist_co2_kritisch m w) eqn:Ek.
  - rewrite (alarm_logik_kritisch u m w Ek), (alarm_logik_kritisch u m _ E1).
    cbv zeta. rewrite E2. cbn [aktor mit_mqtt].
    destruct (kritischer_alarm_aktiv w); [reflexivity|].
    destruct (backlight u); reflexivity.
  - destruct (kritischer_alarm_aktiv w) eqn:Ea.
    + rewrite (alarm_logik_entwarnung u m w Ek Ea), (alarm_logik_entwarnung u m _ E1 E2).
      cbv zeta. rewrite E3. cbn [aktor mit_mqtt normal_alarm_zaehler normal_alarm_sperre_bis].
      destruct (soll_normal_alarm m w); [reflexivity|].
      destruct (0 <? normal_alarm_zaehler w), (0 <? normal_alarm_sperre_bis w);
        reflexivity.
    + rewrite (alarm_logik_normal u m w Ek Ea), (alarm_logik_normal u m _ E1 E2), E3.
      destruct (soll_normal_alarm m w).
      * rewrite (alarm_normal_ueberschritten u w Ea),
          (alarm_normal_ueberschritten u _ E2).
        cbv zeta. cbn [aktor mit_mqtt normal_alarm_zaehler normal_alarm_sperre_bis].
        destruct (_ && _); [|reflexivity].
        destruct (backlight u); reflexivity.
      * rewrite (alarm_normal_ruhig u w Ea), (alarm_normal_ruhig u _ E2).
        cbv zeta. cbn [normal_alarm_zaehler normal_alarm_sperre_bis mit_mqtt].
        destruct (0 <? normal_alarm_zaehler w), (0 <? normal_alarm_sperre_bis w);
          reflexivity.
Qed.

Lemma daten_senden_nur_publish u m b1 b2 b3 b4 b5 w :
  exists mq,
    zustand_nach (daten_senden u m b1 b2 b3 b4 b5 w) = mit_mqtt mq w
    /\ List.filter (fun e => negb (ist_publish e))
         (protokoll (daten_senden u m b1 b2 b3 b4 b5 w)) = [].
Proof.
  rewrite daten_senden_lauf. cbv zeta.
  destruct (mqtt_steuerung.mqtt_verbunden (mqtt w)) eqn:Ev.
  - eexists. split; [reflexivity|]. cbn [protokoll snd].
    destruct (mqtt w) as [[[]|] v cb]; cbn in Ev; subst v;
      destruct (publish u) as [[|]|]; reflexivity.
  - exists (mqtt w). split; [cbn; now rewrite mit_mqtt_gleich|reflexivity].
Qed.

(** X24 ([sensoren_lesen_verarbeiten_senden]).  The alarm does not depend on
    the network: the same run on the same device with any other state of
    the MQTT link leaves the same alarm state, the same actuators and the
    same sensor module, and makes the same calls apart from the
    publishing. *)
Theorem alarm_unabhaengig_von_der_verbindung u w mq :
  let r := sensoren_lesen_verarbeiten_senden u w in
  let r' := sensoren_lesen_verarbeiten_senden u (mit_mqtt mq w) in
  alarm_zustand (zustand_nach r') = alarm_zustand (zustand_nach r)
  /\ aktor (zustand_nach r') = aktor (zustand_nach r)
  /\ sensoren (zustand_nach r') = sensoren (zustand_nach r)
  /\ List.filter (fun e => negb (ist_publish e)) (protokoll r')
     = List.filter (fun e => negb (ist_publish e)) (protokoll r).
Proof.
  cbv zeta.
  destruct (tick_vollstaendig u w) as (t & f & Ht & Hf & _ & Hr).
  destruct (tick_vollstaendig u (mit_mqtt mq w)) as (t' & f' & Ht' & Hf' & _ & Hr').
  cbv zeta in Hr, Hr'.
  cbn [sensoren mit_mqtt] in Ht', Hf'.
  rewrite Ht in Ht'. rewrite Hf in Hf'.
  injection Ht' as <-. injection Hf' as <-.
  rewrite Hr, Hr'. clear Hr Hr' Ht Hf.
  change (nach_dem_lesen u (mit_mqtt mq w)) with (mit_mqtt mq (nach_dem_lesen u w)).
  set (w0 := nach_dem_lesen u w).
  cbn [sensoren mit_mqtt].
  set (m := {| temp := t; feuchte := f; co2 := _; voc := _ |}).
  destruct (ungueltig m); [repeat split|].
  change (ist_temp_alarm m (mit_mqtt mq w0)) with (ist_temp_alarm m w0).
  change (ist_feuchte_alarm m (mit_mqtt mq w0)) with (ist_feuchte_alarm m w0).
  change (ist_co2_alarm m (mit_mqtt mq w0)) with (ist_co2_alarm m w0).
  change (ist_voc_alarm m (mit_mqtt mq w0)) with (ist_voc_alarm m w0).
  change (ist_co2_kritisch m (mit_mqtt mq w0)) with (ist_co2_kritisch m w0).
  rewrite alarm_logik_mit_mqtt. cbn [ergebnis zustand_nach protokoll fst snd].
  destruct (alarm_logik u m w0) as [[[[]|e] w1] l1];
    cbn [ergebnis zustand_nach protokoll fst snd]; [|repeat split].
  destruct (daten_senden_nur_publish u m (ist_temp_alarm m w0) (ist_feuchte_alarm m w0)
              (ist_co2_alarm m w0) (ist_voc_alarm m w0) (ist_co2_kritisch m w0) w1)
    as (q1 & Hq1 & Hl1).
  destruct (daten_senden_nur_publish u m (ist_temp_alarm m w0) (ist_feuchte_alarm m w0)
              (ist_co2_alarm m w0) (ist_voc_alarm m w0) (ist_co2_kritisch m w0)
              (mit_mqtt mq w1))
    as (q2 & Hq2 & Hl2).
  rewrite Hq1, Hq2.
  cbn [List.filter ist_publish negb].
  rewrite !List.filter_app, Hl1, Hl2.
  repeat split.
Qed.

(** ** mqtt_steuerung.py and main.py: the link and the main loop *)

Lemma mqtt_verbinden_lauf c s :
  mqtt_steuerung.mqtt_verbinden c s
  = if mqtt_steuerung.mqtt_verbunden s then (Fertig true, s, [])
    else match c with
         | None =>
             (Fertig true,
              mqtt_steuerung.mit_verbindung (Some mqtt_steuerung.MQTTClient) true s, [])
         | Some _ => (Fertig false, mqtt_steuerung.mit_verbindung None false s, [])
         end.
Proof. destruct s as [cl [|] cb], c as [e|]; reflexivity. Qed.

Lemma mqtt_trennen_lauf d s :
  mqtt_steuerung.mqtt_trennen d s
  = (Fertig tt,
     match mqtt_steuerung.mqtt_client s with
     | Some _ => mqtt_steuerung.mit_verbindung None false s
     | None => s
     end, []).
Proof. destruct s as [[cl|] v cb], d as [e|]; reflexivity. Qed.

Lemma mqtt_senden_zustand p f s :
  zustand_nach (mqtt_steuerung.mqtt_senden p f s) = s
  \/ zustand_nach (mqtt_steuerung.mqtt_senden p f s)
     = mqtt_steuerung.mit_verbindung None false s.
Proof. destruct s as [[cl|] [|] cb], f as [[|]|]; cbn; auto. Qed.

Lemma stimmig_getrennt s :
  verbindung_stimmig (mqtt_steuerung.mit_verbindung None false s).
Proof. intros H. discriminate H. Qed.

(** X25 ([mqtt_verbinden], [mqtt_trennen], [mqtt_senden]).  [mqtt_verbinden]
    never raises and returns the connected flag it leaves; it succeeds
    exactly when the link was already up or [connect] did not raise, it
    leaves no client behind when it fails, and it is a no-op on a link that
    is up.  [mqtt_trennen] never raises and always drops the client, after
    which [mqtt_senden] returns False without a call.  All three keep the
    module consistent: a link marked as up has a client. *)
Theorem mqtt_verbindung_auf_und_ab c d p f s :
  let rv := mqtt_steuerung.mqtt_verbinden c s in
  let rt := mqtt_steuerung.mqtt_trennen d s in
  (exists ok,
     rv = (Fertig ok, zustand_nach rv, [])
     /\ mqtt_steuerung.mqtt_verbunden (zustand_nach rv) = ok
     /\ (ok = false -> mqtt_steuerung.mqtt_client (zustand_nach rv) = None)
     /\ (ok = true <-> mqtt_steuerung.mqtt_verbunden s = true \/ c = None)
     /\ (mqtt_steuerung.mqtt_verbunden s = true -> zustand_nach rv = s))
  /\ (rt = (Fertig tt, zustand_nach rt, [])
      /\ (mqtt_steuerung.mqtt_client s <> None ->
          mqtt_steuerung.mqtt_verbunden (zustand_nach rt) = false)
      /\ mqtt_steuerung.mqtt_client (zustand_nach rt) = None
      /\ (verbindung_stimmig s ->
          mqtt_steuerung.mqtt_senden p f (zustand_nach rt)
          = (Fertig false, zustand_nach rt, [])))
  /\ (verbindung_stimmig s ->
      verbindung_stimmig (zustand_nach rv)
      /\ verbindung_stimmig (zustand_nach rt)
      /\ verbindung_stimmig (zustand_nach (mqtt_steuerung.mqtt_senden p f s))).
Proof.
  cbv zeta. rewrite mqtt_verbinden_lauf, mqtt_trennen_lauf.
  split; [|split].
  - destruct (mqtt_steuerung.mqtt_verbunden s) eqn:Ev.
    + exists true. repeat split; auto; discriminate.
    + destruct c as [e|].
      * exists false. repeat split; auto; try discriminate.
        intros [H|H]; discriminate H.
      * exists true. repeat split; auto; discriminate.
  - split; [reflexivity|]. cbn [zustand_nach fst snd].
    destruct (mqtt_steuerung.mqtt_client s) as [cl|] eqn:Ec.
    + repeat split.
    + repeat split; [intros H; now elim H|exact Ec|].
      intros Hs. apply mqtt_senden_getrennt. now right.
  - intros Hs. cbn [zustand_nach fst snd]. split; [|split].
    + destruct (mqtt_steuerung.mqtt_verbunden s) eqn:Ev; [exact Hs|].
      destruct c; [apply stimmig_getrennt|intros _; reflexivity].
    + destruct (mqtt_steuerung.mqtt_client s); [apply stimmig_getrennt|exact Hs].
    + destruct (mqtt_senden_zustand p f s) as [-> | ->];
        [exact Hs|apply stimmig_getrennt].
Qed.

Lemma bewahrt_lies {S} (I : S -> Prop) : bewahrt I lies.
Proof. intros s H. exact H. Qed.

Lemma bewahrt_melde {S} (I : S -> Prop) e : bewahrt I (melde e).
Proof. intros s H. exact H. Qed.

Lemma bewahrt_rufe {S A} (I : S -> Prop) (r : antwort A) : bewahrt I (rufe r).
Proof. intros s H. now destruct r. Qed.

Lemma bewahrt_wenn {S} (I : S -> Prop) c (m : Prog S unit) :
  bewahrt I m -> bewahrt I (wenn c m).
Proof. intros H. destruct c; [exact H|apply bewahrt_ret]. Qed.

Lemma bewahrt_aendere {S} (I : S -> Prop) (g : S -> S) :
  (forall s, I s -> I (g s)) -> bewahrt I (aendere g).
Proof. intros H s Hs. now apply H. Qed.

Lemma bewahrt_heben {S T A} (hole : T -> S) (setze : S -> T -> T) (I : S -> Prop)
    (m : Prog S A) :
  (forall s t, hole (setze s t) = s) ->
  bewahrt I m -> bewahrt (fun t => I (hole t)) (heben hole setze m).
Proof.
  intros Hh Hm t Ht. rewrite heben_lauf. cbn [zustand_nach fst snd].
  rewrite Hh. now apply Hm.
Qed.

(** The link of the device inside the main program. *)
Lemma bewahrt_im_geraet {A} (I : welt -> Prop) (m : Prog welt A) :
  bewahrt I m -> bewahrt (fun h => I (geraet h)) (im_geraet m).
Proof. apply bewahrt_heben. reflexivity. Qed.

Lemma bewahrt_im_mqtt {A} (I : mqtt_steuerung.zustand -> Prop)
    (m : Prog mqtt_steuerung.zustand A) :
  bewahrt I m -> bewahrt (fun w => I (mqtt w)) (im_mqtt m).
Proof. apply bewahrt_heben. reflexivity. Qed.

Lemma mqtt_verbinden_stimmig c : bewahrt verbindung_stimmig (mqtt_steuerung.mqtt_verbinden c).
Proof.
  intros s Hs. rewrite mqtt_verbinden_lauf.
  destruct (mqtt_steuerung.mqtt_verbunden s) eqn:Ev; [exact Hs|].
  destruct c; [apply stimmig_getrennt|intros _; reflexivity].
Qed.

Lemma mqtt_trennen_stimmig d : bewahrt verbindung_stimmig (mqtt_steuerung.mqtt_trennen d).
Proof.
  intros s Hs. rewrite mqtt_trennen_lauf. cbn [zustand_nach fst snd].
  destruct (mqtt_steuerung.mqtt_client s); [apply stimmig_getrennt|exact Hs].
Qed.

Lemma subscribe_stimmig f : bewahrt verbindung_stimmig (subscribe f).
Proof.
  intros s Hs. unfold subscribe, bind, lies.
  destruct (mqtt_steuerung.mqtt_client s); [destruct f|]; exact Hs.
Qed.

Lemma nachrichten_pruefen_stimmig b eingang f :
  bewahrt (fun w => verbindung_stimmig (mqtt w)) (nachrichten_pruefen b eingang f).
Proof.
  intros w Hw.
  destruct (nachrichten_pruefen_zustand b eingang f w)
    as (_ & mq & [-> | ->] & [-> |(t & msg & _ & ->)]);
    cbn [mqtt mit_mqtt]; first [exact Hw|apply stimmig_getrennt].
Qed.

Lemma tick_mqtt u w :
  mqtt (zustand_nach (sensoren_lesen_verarbeiten_senden u w)) = mqtt w
  \/ mqtt (zustand_nach (sensoren_lesen_verarbeiten_senden u w))
     = mqtt_steuerung.mit_verbindung None false (mqtt w).
Proof.
  destruct (tick_vollstaendig u w) as (t & f & _ & _ & _ & Hr). cbv zeta in Hr.
  rewrite Hr. clear Hr.
  destruct (ungueltig _); [now left|].
  match goal with
  | |- context [alarm_logik u ?m ?w0] =>
      pose proof (alarm_logik_erhaelt_mqtt u m w0) as Hq
  end.
  change (mqtt (nach_dem_lesen u w)) with (mqtt w) in Hq.
  rewrite daten_senden_lauf. cbv zeta. rewrite Hq.
  destruct (ergebnis (alarm_logik _ _ _)); cbn [zustand_nach fst snd]; [|now left].
  destruct (mqtt_steuerung.mqtt_verbunden (mqtt w)); cbn [zustand_nach fst snd mqtt mit_mqtt];
    [|now left].
  apply mqtt_senden_zustand.
Qed.

Lemma tick_stimmig u :
  bewahrt (fun w => verbindung_stimmig (mqtt w)) (sensoren_lesen_verarbeiten_senden u).
Proof.
  intros w Hw. destruct (tick_mqtt u w) as [-> | ->]; [exact Hw|apply stimmig_getrennt].
Qed.

Ltac bewahre :=
  repeat first
    [ apply bewahrt_bind; [|intro]
    | apply bewahrt_versuche; [|intro]
    | apply bewahrt_wenn
    | apply bewahrt_ret
    | apply bewahrt_lies
    | apply bewahrt_melde
    | apply bewahrt_rufe
    | match goal with
      | |- bewahrt _ (if ?c then _ else _) => destruct c
      | |- bewahrt _ (aendere _) => apply bewahrt_aendere; intros ? ?; assumption
      end ].

Lemma trennen_versuchen_stimmig v :
  bewahrt (fun h => verbindung_stimmig (mqtt (geraet h))) (trennen_versuchen v).
Proof.
  unfold trennen_versuchen. bewahre.
  apply (bewahrt_im_geraet (fun w => verbindung_stimmig (mqtt w))).
  apply (bewahrt_im_mqtt verbindung_stimmig). apply mqtt_trennen_stimmig.
Qed.

Lemma verbinden_und_abonnieren_stimmig v :
  bewahrt (fun h => verbindung_stimmig (mqtt (geraet h))) (mqtt_verbinden_und_abonnieren v).
Proof.
  unfold mqtt_verbinden_und_abonnieren. bewahre;
    try (apply (bewahrt_im_geraet (fun w => verbindung_stimmig (mqtt w)));
         apply (bewahrt_im_mqtt verbindung_stimmig);
         first [apply mqtt_verbinden_stimmig|apply subscribe_stimmig
               |apply mqtt_trennen_stimmig]).
Qed.

Lemma schleifenrunde_stimmig b r :
  bewahrt (fun h => verbindung_stimmig (mqtt (geraet h))) (schleifenrunde b r).
Proof.
  unfold schleifenrunde, verbindungen_verwalten, nachrichten_abholen. bewahre;
    apply (bewahrt_im_geraet (fun w => verbindung_stimmig (mqtt w)));
    first [ apply nachrichten_pruefen_stimmig
          | apply (bewahrt_im_mqtt verbindung_stimmig);
            first [ apply mqtt_verbinden_stimmig | apply subscribe_stimmig
                  | apply mqtt_trennen_stimmig ] ].
Qed.

Lemma takt_stimmig b t :
  bewahrt (fun h => verbindung_stimmig (mqtt (geraet h))) (takt_ausfuehren b t).
Proof.
  destruct t as [r|u]; cbn [takt_ausfuehren].
  - apply bewahrt_bind; [apply bewahrt_lies|intros h].
    apply bewahrt_wenn.
    apply bewahrt_versuche; [apply schleifenrunde_stimmig|intros e].
    apply bewahrt_aendere. intros s Hs. exact Hs.
  - apply (bewahrt_im_geraet (fun w => verbindung_stimmig (mqtt w))). apply tick_stimmig.
Qed.

Lemma takt_fertig b t h : ergebnis (takt_ausfuehren b t h) = Fertig tt.
Proof.
  destruct t as [r|u]; cbn [takt_ausfuehren].
  - unfold bind, lies, wenn. destruct (laeuft h); [|reflexivity].
    pose proof (versuche_faengt_alles (schleifenrunde b r)) as H.
    unfold versuche, versuche_wenn in *. specialize (H h).
    destruct (schleifenrunde b r h) as [[[[]|e] h1] l1]; cbn in *; reflexivity.
  - unfold im_geraet. rewrite heben_lauf. apply tick_fertig.
Qed.

(** [mqtt_verbinden_und_abonnieren], case by case. *)
Lemma verbinden_und_abonnieren_lauf v h :
  verbindung_stimmig (mqtt (geraet h)) ->
  mqtt_verbinden_und_abonnieren v h
  = let m := mqtt (geraet h) in
    let mit (mq : mqtt_steuerung.zustand) (ok : bool) :=
      (Fertig ok, mit_mqtt_ok ok (mit_geraet (mit_mqtt mq (geraet h)) h),
       @nil ereignis) in
    if mqtt_steuerung.mqtt_verbunden m || ist_none (connect v) then
      let m1 := if mqtt_steuerung.mqtt_verbunden m then m
                else mqtt_steuerung.mit_verbindung (Some mqtt_steuerung.MQTTClient) true m in
      if ist_none (subscribe_steuerung v) && ist_none (subscribe_schwellen v)
      then mit m1 true
      else mit (mqtt_steuerung.mit_verbindung None false m1) false
    else mit (mqtt_steuerung.mit_verbindung None false m) false.
Proof.
  intros Hs. destruct h as [w wo mo la].
  destruct w as [a s [c vb cb] ? ? ? ? ? ? ? ? ?].
  unfold verbindung_stimmig in Hs. cbn in Hs.
  destruct v as [co s1 s2 di].
  destruct vb.
  - specialize (Hs eq_refl). subst c.
    destruct s1 as [e1|], s2 as [e2|], di as [e3|]; reflexivity.
  - clear Hs.
    destruct c as [[]|], co as [e0|], s1 as [e1|], s2 as [e2|], di as [e3|];
      reflexivity.
Qed.

(** What [mqtt_verbinden_und_abonnieren] returns and leaves. *)
Lemma verbinden_und_abonnieren_folgen v h :
  verbindung_stimmig (mqtt (geraet h)) ->
  let r := mqtt_verbinden_und_abonnieren v h in
  let m' := mqtt (geraet (zustand_nach r)) in
  exists ok,
    r = (Fertig ok, zustand_nach r, [])
    /\ mqtt_ok (zustand_nach r) = ok
    /\ mqtt_steuerung.mqtt_verbunden m' = ok
    /\ mqtt_steuerung.mqtt_client m'
       = (if ok then Some mqtt_steuerung.MQTTClient else None)
    /\ (ok = true <->
        (mqtt_steuerung.mqtt_verbunden (mqtt (geraet h)) = true \/ connect v = None)
        /\ subscribe_steuerung v = None /\ subscribe_schwellen v = None)
    /\ wlan_ok (zustand_nach r) = wlan_ok h
    /\ laeuft (zustand_nach r) = laeuft h
    /\ geraet (zustand_nach r) = mit_mqtt m' (geraet h).
Proof.
  intros Hs. cbv zeta. rewrite (verbinden_und_abonnieren_lauf v h Hs). cbv zeta.
  destruct (mqtt_steuerung.mqtt_verbunden (mqtt (geraet h))) eqn:Ev.
  - specialize (Hs Ev). cbn [orb].
    destruct (subscribe_steuerung v) as [e1|], (subscribe_schwellen v) as [e2|];
      cbn [ist_none andb].
    + exists false. repeat split; try discriminate. intros (_ & H & _). discriminate H.
    + exists false. repeat split; try discriminate. intros (_ & H & _). discriminate H.
    + exists false. repeat split; try discriminate. intros (_ & _ & H). discriminate H.
    + exists true. repeat split; try assumption. now left.
  - cbn [orb]. destruct (connect v) as [e0|]; cbn [ist_none].
    + exists false. repeat split; try discriminate.
      intros ([H|H] & _); discriminate H.
    + destruct (subscribe_steuerung v) as [e1|], (subscribe_schwellen v) as [e2|];
        cbn [ist_none andb].
      * exists false. repeat split; try discriminate. intros (_ & H & _). discriminate H.
      * exists false. repeat split; try discriminate. intros (_ & H & _). discriminate H.
      * exists false. repeat split; try discriminate. intros (_ & _ & H). discriminate H.
      * exists true. repeat split. now right.
Qed.

(** The poll of the main loop with its bookkeeping. *)
Lemma nachrichten_abholen_gleichung b r h :
  nachrichten_abholen b r h
  = if mqtt_ok h then
      let rp := nachrichten_pruefen b (eingang r) (check_fehler r) (geraet h) in
      (Fertig tt,
       (if mqtt_steuerung.mqtt_verbunden (mqtt (zustand_nach rp))
        then mit_geraet (zustand_nach rp) h
        else mit_mqtt_ok false (mit_geraet (zustand_nach rp) h)),
       protokoll rp)
    else (Fertig tt, h, []).
Proof.
  unfold nachrichten_abholen. unfold bind at 1. cbn [lies]. unfold wenn at 1.
  destruct (mqtt_ok h) eqn:Em; [|reflexivity].
  unfold versuche, versuche_wenn, bind at 1, im_geraet at 1.
  rewrite heben_lauf.
  destruct (nachrichten_pruefen_zustand b (eingang r) (check_fehler r) (geraet h))
    as (Hf & _).
  cbv zeta in Hf. rewrite Hf. cbv zeta.
  set (w' := zustand_nach (nachrichten_pruefen b (eingang r) (check_fehler r) (geraet h))).
  set (l := protokoll (nachrichten_pruefen b (eingang r) (check_fehler r) (geraet h))).
  clearbody w' l.
  unfold im_geraet, im_mqtt, heben, mqtt_steuerung.mqtt_ist_verbunden, bind, lies, ret,
    wenn, aendere.
  cbn [geraet mit_geraet mqtt fst snd].
  rewrite mit_mqtt_gleich.
  destruct (mqtt_steuerung.mqtt_verbunden (mqtt w')) eqn:Ev;
    cbn [negb]; unfold ret; cbn [fst snd app]; rewrite ?app_nil_r; reflexivity.
Qed.

Lemma nachrichten_abholen_lauf b r h :
  let x := nachrichten_abholen b r h in
  ergebnis x = Fertig tt
  /\ wlan_ok (zustand_nach x) = wlan_ok h
  /\ laeuft (zustand_nach x) = laeuft h
  /\ mqtt_ok (zustand_nach x)
     = mqtt_ok h && mqtt_steuerung.mqtt_verbunden (mqtt (geraet (zustand_nach x)))
  /\ (mqtt_ok h = true ->
      geraet (zustand_nach x)
      = zustand_nach (nachrichten_pruefen b (eingang r) (check_fehler r) (geraet h))).
Proof.
  cbv zeta. rewrite nachrichten_abholen_gleichung.
  destruct (mqtt_ok h) eqn:Em.
  2:{ cbn [ergebnis zustand_nach fst snd]. rewrite Em.
      split; [reflexivity|]. split; [reflexivity|]. split; [reflexivity|].
      split; [reflexivity|discriminate]. }
  cbv zeta.
  destruct (mqtt_steuerung.mqtt_verbunden (mqtt (zustand_nach _))) eqn:Ev;
    cbn [ergebnis zustand_nach fst snd geraet mit_geraet mit_mqtt_ok wlan_ok laeuft mqtt_ok];
    rewrite ?Em, ?Ev; repeat split.
Qed.

Lemma trennen_versuchen_lauf v h :
  trennen_versuchen v h
  = (Fertig tt,
     mit_geraet
       (mit_mqtt (zustand_nach (mqtt_steuerung.mqtt_trennen (disconnect v)
                                  (mqtt (geraet h))))
          (geraet h)) h,
     []).
Proof.
  unfold trennen_versuchen, versuche, versuche_wenn, im_geraet, im_mqtt.
  rewrite heben_lauf, heben_lauf, mqtt_trennen_lauf. reflexivity.
Qed.

Lemma bind_lies {S B} (k : S -> Prog S B) s : bind lies k s = k s s.
Proof. unfold bind, lies. now destruct (k s s) as [[? ?] ?]. Qed.

Lemma mit_mqtt_ok_gleich h : mit_mqtt_ok (mqtt_ok h) h = h.
Proof. now destruct h. Qed.

(** The connection management of a round, case by case. *)
Lemma verbindungen_verwalten_gleichung r h :
  verbindung_stimmig (mqtt (geraet h)) ->
  verbindungen_verwalten r h
  = match wlan_ist_verbunden r with
    | Scheitert e => (Geworfen e, h, [])
    | Liefert true =>
        if wlan_ok h && negb (mqtt_ok h)
        then (Fertig tt, zustand_nach (mqtt_verbinden_und_abonnieren (broker r) h),
              [Schlaf_ms (MQTT_NEUVERBINDUNG_WARTEZEIT_SEK * 1000)])
        else (Fertig tt, h, [])
    | Liefert false =>
        let h1 := if mqtt_ok h
                  then mit_mqtt_ok false (zustand_nach (trennen_versuchen (broker r) h))
                  else h in
        match wlan_verbinden r with
        | Scheitert e =>
            (Geworfen e, h1, [Schlaf_ms (WLAN_NEUVERBINDUNG_WARTEZEIT_SEK * 1000)])
        | Liefert ok =>
            (Fertig tt,
             (if ok then mit_mqtt_ok false (mit_wlan_ok ok h1) else mit_wlan_ok ok h1),
             [Schlaf_ms (WLAN_NEUVERBINDUNG_WARTEZEIT_SEK * 1000)])
        end
    end.
Proof.
  intros Hs. unfold verbindungen_verwalten.
  destruct (wlan_ist_verbunden r) as [[|]|e]; cbn [rufe]; [| |reflexivity].
  - rewrite bind_ret_l, bind_lies. cbn [negb].
    destruct (wlan_ok h && negb (mqtt_ok h)); [|reflexivity].
    destruct (verbinden_und_abonnieren_folgen (broker r) h Hs)
      as (ok & Hr & Ho & _).
    unfold bind, melde, aendere. rewrite Hr.
    cbn [fst snd app]. rewrite <- Ho, mit_mqtt_ok_gleich. reflexivity.
  - rewrite bind_ret_l, bind_lies. cbn [negb].
    rewrite (trennen_versuchen_lauf (broker r) h).
    unfold bind, wenn, melde, aendere.
    destruct (mqtt_ok h); rewrite ?(trennen_versuchen_lauf (broker r) h);
      destruct (wlan_verbinden r) as [[|]|e]; reflexivity.
Qed.

(** It raises exactly when a call into [wifi_setup] does, and never changes
    the loop flag. *)
Lemma verbindungen_verwalten_lauf r h :
  verbindung_stimmig (mqtt (geraet h)) ->
  let x := verbindungen_verwalten r h in
  (if wlan_wirft r then exists e, ergebnis x = Geworfen e else ergebnis x = Fertig tt)
  /\ laeuft (zustand_nach x) = laeuft h.
Proof.
  intros Hs. cbv zeta. rewrite (verbindungen_verwalten_gleichung r h Hs).
  unfold wlan_wirft.
  destruct (wlan_ist_verbunden r) as [[|]|e].
  - destruct (wlan_ok h && negb (mqtt_ok h)); [|split; reflexivity].
    destruct (verbinden_und_abonnieren_folgen (broker r) h Hs)
      as (ok & _ & _ & _ & _ & _ & _ & Hl & _).
    split; [reflexivity|exact Hl].
  - cbv zeta. rewrite (trennen_versuchen_lauf (broker r) h).
    destruct (mqtt_ok h), (wlan_verbinden r) as [[|]|e]; (split; [eauto|reflexivity]).
  - split; [eauto|reflexivity].
Qed.

Lemma nachrichten_pruefen_getrennt b eingang f w :
  mqtt_steuerung.mqtt_verbunden (mqtt w) = false ->
  nachrichten_pruefen b eingang f w = (Fertig tt, w, []).
Proof.
  intros Hv.
  cbv beta delta [nachrichten_pruefen mqtt_steuerung.mqtt_nachrichten_pruefen bind lies].
  cbn beta iota. rewrite Hv. reflexivity.
Qed.

(** One iteration of the loop. *)
Lemma schleifenrunde_lauf b r h :
  verbindung_stimmig (mqtt (geraet h)) ->
  let x := schleifenrunde b r h in
  (if wlan_wirft r then exists e, ergebnis x = Geworfen e else ergebnis x = Fertig tt)
  /\ laeuft (zustand_nach x) = laeuft h
  /\ verbindung_stimmig (mqtt (geraet (zustand_nach x)))
  /\ (wlan_wirft r = false ->
      zustand_nach x
      = zustand_nach (nachrichten_abholen b r (zustand_nach (verbindungen_verwalten r h)))
      /\ (mqtt_ok (zustand_nach x) = true -> verbindung_steht (zustand_nach x))).
Proof.
  intros Hs. cbv zeta.
  pose proof (schleifenrunde_stimmig b r h Hs) as Hs'.
  split; [|split; [|split; [exact Hs'|]]].
  - destruct (verbindungen_verwalten_lauf r h Hs) as (Hw & _). cbv zeta in Hw.
    unfold schleifenrunde.
    destruct (wlan_wirft r).
    + destruct Hw as (e & He). exists e. now rewrite (bind_geworfen _ _ _ e He).
    + rewrite (bind_fertig _ _ _ tt Hw). cbn [ergebnis fst].
      destruct (nachrichten_abholen_lauf b r (zustand_nach (verbindungen_verwalten r h)))
        as (Ha & _). cbv zeta in Ha.
      now rewrite (bind_fertig _ _ _ tt Ha).
  - destruct (verbindungen_verwalten_lauf r h Hs) as (Hw & Hl). cbv zeta in Hw, Hl.
    unfold schleifenrunde.
    destruct (wlan_wirft r).
    + destruct Hw as (e & He). now rewrite (bind_geworfen _ _ _ e He).
    + rewrite (bind_fertig _ _ _ tt Hw). cbn [zustand_nach fst snd].
      destruct (nachrichten_abholen_lauf b r (zustand_nach (verbindungen_verwalten r h)))
        as (Ha & _ & Hl2 & _). cbv zeta in Ha, Hl2.
      rewrite (bind_fertig _ _ _ tt Ha). cbn [zustand_nach fst snd melde].
      now rewrite Hl2.
  - intros Hn.
    destruct (verbindungen_verwalten_lauf r h Hs) as (Hw & _). cbv zeta in Hw.
    rewrite Hn in Hw.
    assert (E : zustand_nach (schleifenrunde b r h)
                = zustand_nach (nachrichten_abholen b r
                                  (zustand_nach (verbindungen_verwalten r h)))).
    { unfold schleifenrunde. rewrite (bind_fertig _ _ _ tt Hw).
      cbn [zustand_nach fst snd].
      destruct (nachrichten_abholen_lauf b r (zustand_nach (verbindungen_verwalten r h)))
        as (Ha & _). cbv zeta in Ha.
      now rewrite (bind_fertig _ _ _ tt Ha). }
    split; [exact E|]. intros Hm.
    rewrite E in Hm, Hs' |- *.
    destruct (nachrichten_abholen_lauf b r (zustand_nach (verbindungen_verwalten r h)))
      as (_ & _ & _ & Hq & _). cbv zeta in Hq.
    rewrite Hm in Hq. symmetry in Hq. apply andb_prop in Hq as (_ & Hv).
    split; [exact Hm|]. split; [exact Hv|exact (Hs' Hv)].
Qed.

(** A round of the loop as a step of the program. *)
Lemma runde_takt b r h :
  verbindung_stimmig (mqtt (geraet h)) ->
  laeuft h = true ->
  let x := schleifenrunde b r h in
  takt_ausfuehren b (Runde r) h
  = (Fertig tt,
     (if wlan_wirft r then mit_laeuft false (zustand_nach x) else zustand_nach x),
     protokoll x).
Proof.
  intros Hs Hl. cbv zeta. cbn [takt_ausfuehren]. rewrite bind_lies, Hl. cbn [wenn].
  destruct (schleifenrunde_lauf b r h Hs) as (Hw & _). cbv zeta in Hw.
  unfold versuche, versuche_wenn.
  destruct (wlan_wirft r).
  - destruct Hw as (e & He).
    destruct (schleifenrunde b r h) as [[re he] le]. cbn in He. subst re.
    cbn. now rewrite app_nil_r.
  - destruct (schleifenrunde b r h) as [[re he] le]. cbn in Hw. subst re. reflexivity.
Qed.

Lemma takt_laeuft b t h :
  laeuft (zustand_nach (takt_ausfuehren b t h)) = true -> laeuft h = true.
Proof.
  destruct t as [r|u]; cbn [takt_ausfuehren].
  - rewrite bind_lies. destruct (laeuft h) eqn:E; [reflexivity|]. cbn. now rewrite E.
  - unfold im_geraet. rewrite heben_lauf. cbn. trivial.
Qed.

Lemma hauptschleife_stimmig b ts :
  forall h,
    verbindung_stimmig (mqtt (geraet h)) ->
    let x := hauptschleife b ts h in
    ergebnis x = Fertig tt
    /\ verbindung_stimmig (mqtt (geraet (zustand_nach x)))
    /\ (laeuft (zustand_nach x) = true -> laeuft h = true).
Proof.
  induction ts as [|t ts IH]; intros h Hs;
    [split; [reflexivity|split; [exact Hs|trivial]]|].
  cbv zeta.
  change (hauptschleife b (t :: ts))
    with (bind (takt_ausfuehren b t) (fun _ => hauptschleife b ts)).
  rewrite (bind_fertig _ _ _ tt (takt_fertig b t h)).
  cbn [ergebnis zustand_nach fst snd].
  destruct (IH _ (takt_stimmig b t h Hs)) as (I1 & I2 & I3).
  split; [exact I1|]. split; [exact I2|].
  intros Hl. apply (takt_laeuft b t). now apply I3.
Qed.

(** X26 (main loop with the timer).  No interleaving of loop iterations and
    timer runs raises, and each keeps the MQTT module consistent (a link
    marked as up has a client).  An iteration leaves the loop exactly when
    a call into wifi_setup raises; otherwise, when it ends with [mqtt_ok]
    set, the link is up and has a client, so the flag of the main program
    never claims a link that is not there. *)
Theorem hauptschleife_haelt_die_verbindung_stimmig b ts r h :
  verbindung_stimmig (mqtt (geraet h)) ->
  let x := hauptschleife b ts h in
  let y := takt_ausfuehren b (Runde r) (zustand_nach x) in
  ergebnis x = Fertig tt
  /\ verbindung_stimmig (mqtt (geraet (zustand_nach x)))
  /\ ergebnis y = Fertig tt
  /\ (laeuft (zustand_nach x) = true ->
      laeuft (zustand_nach y) = negb (wlan_wirft r)
      /\ (wlan_wirft r = false -> mqtt_ok (zustand_nach y) = true ->
          mqtt_steuerung.mqtt_verbunden (mqtt (geraet (zustand_nach y))) = true
          /\ mqtt_steuerung.mqtt_client (mqtt (geraet (zustand_nach y)))
             = Some mqtt_steuerung.MQTTClient)).
Proof.
  intros Hs. cbv zeta.
  destruct (hauptschleife_stimmig b ts h Hs) as (H1 & H2 & _). cbv zeta in H1, H2.
  split; [exact H1|]. split; [exact H2|]. split; [apply takt_fertig|].
  intros Hl.
  rewrite (runde_takt b r _ H2 Hl). cbv zeta. cbn [zustand_nach fst snd].
  destruct (schleifenrunde_lauf b r _ H2) as (_ & L2 & _ & L4). cbv zeta in L2, L4.
  destruct (wlan_wirft r).
  - split; [reflexivity|discriminate].
  - split; [cbn [negb]; now rewrite L2|].
    intros _ Hm. destruct (L4 eq_refl) as (_ & L5).
    destruct (L5 Hm) as (_ & Hv & Hc). split; assumption.
Qed.

Lemma hauptschleife_haelt_die_verbindung_stimmig_zeuge :
  let h := {| geraet := beispiel_welt; wlan_ok := true; mqtt_ok := true;
              laeuft := true |} in
  let u := {| zeit := 100;
              aht_temperature := Liefert (Gleit (Endlich 22));
              aht_humidity := Liefert (Gleit (Endlich 50));
              ccs := probe 800 100;
              backlight := None;
              publish := Some OSError |} in
  verbindung_stimmig (mqtt (geraet h))
  /\ verbindung_stimmig
       (mqtt (geraet (zustand_nach (hauptschleife true [Timer u; Runde gute_runde] h)))).
Proof.
  cbv zeta.
  assert (H : verbindung_stimmig
                (mqtt (geraet {| geraet := beispiel_welt; wlan_ok := true;
                                 mqtt_ok := true; laeuft := true |})))
    by (intros _; reflexivity).
  split; [exact H|].
  exact (proj1 (proj2 (hauptschleife_haelt_die_verbindung_stimmig true
                         [Timer {| zeit := 100;
                                   aht_temperature := Liefert (Gleit (Endlich 22));
                                   aht_humidity := Liefert (Gleit (Endlich 50));
                                   ccs := probe 800 100;
                                   backlight := None;
                                   publish := Some OSError |};
                          Runde gute_runde] gute_runde _ H))).
Defined.

(** Once the loop has been left only the timer runs. *)
Lemma hauptschleife_verlassen b ts :
  forall h,
    laeuft h = false ->
    hauptschleife b ts h
    = (Fertig tt, mit_geraet (fst (lauf (zeitgeber ts) (geraet h))) h,
       snd (lauf (zeitgeber ts) (geraet h))).
Proof.
  induction ts as [|t ts IH]; intros h Hl.
  - cbn. now destruct h.
  - change (hauptschleife b (t :: ts))
      with (bind (takt_ausfuehren b t) (fun _ => hauptschleife b ts)).
    rewrite (bind_fertig _ _ _ tt (takt_fertig b t h)).
    destruct t as [r|u]; cbn [takt_ausfuehren zeitgeber].
    + rewrite bind_lies, Hl. cbn [wenn ret zustand_nach protokoll fst snd app].
      rewrite <- lauf_ergebnis. exact (IH h Hl).
    + unfold im_geraet. rewrite heben_lauf.
      cbn [zustand_nach protokoll fst snd].
      rewrite (IH (mit_geraet (zustand_nach (sensoren_lesen_verarbeiten_senden u (geraet h))) h) Hl).
      cbn [lauf]. cbv zeta.
      cbn [ergebnis zustand_nach protokoll fst snd geraet mit_geraet].
      reflexivity.
Qed.

(** X27 (main loop, [except Exception] around [while True]).  The loop has no
    handler of its own around the calls into wifi_setup: when one of them
    raises, the loop is left for good.  No later iteration runs, so the
    flags [wlan_ok] and [mqtt_ok] stay as they are and nothing reconnects;
    all that still happens to the device is what the timer callbacks do,
    which the program does not stop. *)
Theorem wlan_ausnahme_beendet_die_hauptschleife b r ts h :
  verbindung_stimmig (mqtt (geraet h)) ->
  laeuft h = true ->
  wlan_wirft r = true ->
  let h1 := zustand_nach (takt_ausfuehren b (Runde r) h) in
  let x := hauptschleife b ts h1 in
  laeuft h1 = false
  /\ ergebnis x = Fertig tt
  /\ laeuft (zustand_nach x) = false
  /\ mqtt_ok (zustand_nach x) = mqtt_ok h1
  /\ wlan_ok (zustand_nach x) = wlan_ok h1
  /\ geraet (zustand_nach x) = fst (lauf (zeitgeber ts) (geraet h1))
  /\ protokoll x = snd (lauf (zeitgeber ts) (geraet h1)).
Proof.
  intros Hs Hl Hw. cbv zeta.
  assert (E : laeuft (zustand_nach (takt_ausfuehren b (Runde r) h)) = false).
  { rewrite (runde_takt b r h Hs Hl). cbv zeta. rewrite Hw. reflexivity. }
  rewrite (hauptschleife_verlassen b ts _ E).
  cbn [ergebnis zustand_nach protokoll fst snd geraet mit_geraet laeuft mqtt_ok wlan_ok].
  repeat split; assumption.
Qed.

Lemma wlan_ausnahme_beendet_die_hauptschleife_zeuge :
  let h := {| geraet := beispiel_welt; wlan_ok := true; mqtt_ok := true;
              laeuft := true |} in
  let r := {| wlan_ist_verbunden := Scheitert AndereAusnahme;
              wlan_verbinden := Liefert true;
              broker := broker gute_runde;
              eingang := None;
              check_fehler := None |} in
  let h1 := zustand_nach (takt_ausfuehren true (Runde r) h) in
  laeuft h = true
  /\ laeuft (zustand_nach
               (hauptschleife true [Runde gute_runde; Timer (beispiel_umwelt 100 22 800)]
                  h1)) = false.
Proof.
  cbv zeta. split; [reflexivity|].
  refine (proj1 (proj2 (proj2 (wlan_ausnahme_beendet_die_hauptschleife true
            {| wlan_ist_verbunden := Scheitert AndereAusnahme;
               wlan_verbinden := Liefert true;
               broker := broker gute_runde;
               eingang := None;
               check_fehler := None |}
            [Runde gute_runde; Timer (beispiel_umwelt 100 22 800)]
            {| geraet := beispiel_welt; wlan_ok := true; mqtt_ok := true;
               laeuft := true |} _ _ _)))).
  - intros _. reflexivity.
  - reflexivity.
  - reflexivity.
Defined.

(** A round that succeeds, by the state it starts in. *)
Lemma runde_gelingt_lauf b r h :
  verbindung_stimmig (mqtt (geraet h)) ->
  runde_gelingt r ->
  wlan_ok h = true ->
  let x := schleifenrunde b r h in
  ergebnis x = Fertig tt
  /\ wlan_ok (zustand_nach x) = true
  /\ laeuft (zustand_nach x) = laeuft h
  /\ verbindung_stimmig (mqtt (geraet (zustand_nach x)))
  /\ (mqtt_ok h = true -> mqtt_steuerung.mqtt_verbunden (mqtt (geraet h)) = false ->
      mqtt_ok (zustand_nach x) = false
      /\ mqtt_steuerung.mqtt_verbunden (mqtt (geraet (zustand_nach x))) = false)
  /\ (mqtt_ok h = false
      \/ mqtt_steuerung.mqtt_verbunden (mqtt (geraet h)) = true ->
      verbindung_steht (zustand_nach x)).
Proof.
  intros Hs (G1 & G2 & G3 & G4 & G5) Hw. cbv zeta.
  assert (Hn : wlan_wirft r = false) by (unfold wlan_wirft; now rewrite G1).
  destruct (schleifenrunde_lauf b r h Hs) as (L1 & L2 & L3 & L4). cbv zeta in L1, L2, L3, L4.
  rewrite Hn in L1. destruct (L4 Hn) as (E & L5). clear L4.
  pose proof (verbindungen_verwalten_gleichung r h Hs) as Hv. rewrite G1, Hw in Hv.
  cbn [andb] in Hv.
  split; [exact L1|].
  assert (Hab : forall h1,
            verbindung_stimmig (mqtt (geraet h1)) ->
            mqtt_ok h1 = true ->
            mqtt_steuerung.mqtt_verbunden (mqtt (geraet h1)) = true ->
            mqtt_ok (zustand_nach (nachrichten_abholen b r h1)) = true
            /\ wlan_ok (zustand_nach (nachrichten_abholen b r h1)) = wlan_ok h1).
  { intros h1 S1 M1 V1.
    destruct (nachrichten_abholen_lauf b r h1) as (_ & A2 & _ & A4 & A5).
    cbv zeta in A2, A4, A5. split; [|exact A2].
    rewrite A4, M1, (A5 M1). cbn [andb].
    destruct (nachrichten_pruefen_lauf b (eingang r) (check_fehler r) (geraet h1) V1 (S1 V1))
      as (_ & P2). cbv zeta in P2. rewrite P2.
    destruct (check_fehler r) as [[|]|]; try reflexivity. now elim G5. }
  destruct (mqtt_ok h) eqn:Em.
  - cbn [negb] in Hv.
    assert (Ez : zustand_nach (verbindungen_verwalten r h) = h) by now rewrite Hv.
    rewrite Ez in E.
    destruct (mqtt_steuerung.mqtt_verbunden (mqtt (geraet h))) eqn:Ev.
    + destruct (Hab h Hs Em Ev) as (A1 & A2). rewrite <- E in A1, A2.
      split; [now rewrite A2|]. split; [exact L2|]. split; [exact L3|].
      split; [discriminate|]. intros _. now apply L5.
    + destruct (nachrichten_abholen_lauf b r h) as (_ & A2 & _ & A4 & A5).
      cbv zeta in A2, A4, A5. rewrite <- E in A2, A4, A5.
      specialize (A5 Em). rewrite (nachrichten_pruefen_getrennt _ _ _ _ Ev) in A5.
      cbn [zustand_nach fst snd] in A5. rewrite A5, Ev, andb_false_r in A4.
      split; [now rewrite A2|]. split; [exact L2|]. split; [exact L3|].
      split; [intros _ _; split; [exact A4|now rewrite A5]|].
      intros [H|H]; discriminate H.
  - cbn [negb] in Hv.
    destruct (verbinden_und_abonnieren_folgen (broker r) h Hs)
      as (ok & _ & V2 & V3 & V4 & V5 & V6 & _). cbv zeta in V3, V4.
    assert (Hok : ok = true) by (apply V5; repeat split; auto).
    rewrite Hok in V2, V3, V4. clear V5.
    assert (Ez : zustand_nach (verbindungen_verwalten r h)
                 = zustand_nach (mqtt_verbinden_und_abonnieren (broker r) h))
      by now rewrite Hv.
    rewrite Ez in E.
    assert (S1 : verbindung_stimmig
                   (mqtt (geraet (zustand_nach
                                    (mqtt_verbinden_und_abonnieren (broker r) h)))))
      by (intros _; exact V4).
    destruct (Hab _ S1 V2 V3) as (A1 & A2). rewrite <- E in A1, A2.
    split; [now rewrite A2, V6|]. split; [exact L2|]. split; [exact L3|].
    split; [discriminate|]. intros _. now apply L5.
Qed.

(** X28 (main loop, reconnect).  Whatever the state of the link and of the
    flag [mqtt_ok] (a lost link that is still believed up included), two
    iterations in which the WLAN is up, the broker accepts the connection
    and both subscriptions and the poll does not fail with [OSError] bring
    the link back: afterwards [mqtt_ok] is set, the link is up and has a
    client, and the loop is still running. *)
Theorem verbindung_kehrt_zurueck b r1 r2 h :
  verbindung_stimmig (mqtt (geraet h)) ->
  laeuft h = true ->
  wlan_ok h = true ->
  runde_gelingt r1 ->
  runde_gelingt r2 ->
  let x := hauptschleife b [Runde r1; Runde r2] h in
  ergebnis x = Fertig tt
  /\ laeuft (zustand_nach x) = true
  /\ mqtt_ok (zustand_nach x) = true
  /\ mqtt_steuerung.mqtt_verbunden (mqtt (geraet (zustand_nach x))) = true
  /\ mqtt_steuerung.mqtt_client (mqtt (geraet (zustand_nach x)))
     = Some mqtt_steuerung.MQTTClient.
Proof.
  intros Hs Hl Hw G1 G2. cbv zeta.
  assert (N1 : wlan_wirft r1 = false)
    by (unfold wlan_wirft; destruct G1 as (-> & _); reflexivity).
  assert (N2 : wlan_wirft r2 = false)
    by (unfold wlan_wirft; destruct G2 as (-> & _); reflexivity).
  change (hauptschleife b [Runde r1; Runde r2])
    with (bind (takt_ausfuehren b (Runde r1))
            (fun _ => bind (takt_ausfuehren b (Runde r2)) (fun _ => ret tt))).
  rewrite (bind_fertig _ _ _ tt (takt_fertig b (Runde r1) h)).
  rewrite (runde_takt b r1 h Hs Hl). cbv zeta. rewrite N1.
  cbn [ergebnis zustand_nach protokoll fst snd].
  destruct (runde_gelingt_lauf b r1 h Hs G1 Hw) as (_ & W1 & L1 & S1 & B1 & C1).
  cbv zeta in W1, L1, S1, B1, C1.
  set (h1 := zustand_nach (schleifenrunde b r1 h)) in *.
  rewrite Hl in L1.
  rewrite (bind_fertig _ _ _ tt (takt_fertig b (Runde r2) h1)).
  rewrite (runde_takt b r2 h1 S1 L1). cbv zeta. rewrite N2.
  cbn [ergebnis zustand_nach protokoll fst snd ret].
  destruct (runde_gelingt_lauf b r2 h1 S1 G2 W1) as (_ & _ & L2 & _ & _ & C2).
  cbv zeta in L2, C2.
  assert (H2 : verbindung_steht (zustand_nach (schleifenrunde b r2 h1))).
  { apply C2.
    destruct (mqtt_ok h) eqn:Em.
    - destruct (mqtt_steuerung.mqtt_verbunden (mqtt (geraet h))) eqn:Ev.
      + right. apply (C1 (or_intror eq_refl)).
      + left. apply (B1 eq_refl eq_refl).
    - right. apply (C1 (or_introl eq_refl)). }
  destruct H2 as (M & V & C).
  split; [reflexivity|]. split; [now rewrite L2|].
  split; [exact M|]. split; [exact V|exact C].
Qed.

Lemma verbindung_kehrt_zurueck_zeuge :
  let h := {| geraet := mit_mqtt (mqtt_steuerung.mit_verbindung None false beispiel_mqtt)
                          beispiel_welt;
              wlan_ok := true; mqtt_ok := true; laeuft := true |} in
  mqtt_steuerung.mqtt_verbunden (mqtt (geraet h)) = false
  /\ mqtt_steuerung.mqtt_verbunden
       (mqtt (geraet (zustand_nach
                        (hauptschleife true [Runde gute_runde; Runde gute_runde] h))))
     = true.
Proof.
  cbv zeta. split; [reflexivity|].
  refine (proj1 (proj2 (proj2 (proj2 (verbindung_kehrt_zurueck true gute_runde gute_runde
            {| geraet := mit_mqtt (mqtt_steuerung.mit_verbindung None false beispiel_mqtt)
                           beispiel_welt;
               wlan_ok := true; mqtt_ok := true; laeuft := true |} _ _ _ _ _))))).
  - intros H. discriminate H.
  - reflexivity.
  - reflexivity.
  - repeat split. discriminate.
  - repeat split. discriminate.
Defined.

(** X29 (program start, [mqtt_verbinden_und_abonnieren]).  An exception of
    [wlan_verbinden] at the start is not caught and ends the program
    before anything is changed.  Without WLAN the broker is not contacted
    and both flags are off.  With WLAN, [mqtt_ok] is set exactly when the
    link was up or [connect] succeeded and both subscriptions succeeded;
    the connected flag of the module then equals [mqtt_ok], and after a
    failed subscription the link is taken down again and the client
    dropped. *)
Theorem programmstart_ergebnis wlan v h :
  verbindung_stimmig (mqtt (geraet h)) ->
  let r := programmstart wlan v h in
  match wlan with
  | Scheitert e => r = (Geworfen e, h, [])
  | Liefert false =>
      r = (Fertig tt, mit_mqtt_ok false (mit_wlan_ok false h), [])
  | Liefert true =>
      ergebnis r = Fertig tt
      /\ protokoll r = []
      /\ wlan_ok (zustand_nach r) = true
      /\ laeuft (zustand_nach r) = laeuft h
      /\ (mqtt_ok (zustand_nach r) = true <->
          (mqtt_steuerung.mqtt_verbunden (mqtt (geraet h)) = true \/ connect v = None)
          /\ subscribe_steuerung v = None /\ subscribe_schwellen v = None)
      /\ mqtt_steuerung.mqtt_verbunden (mqtt (geraet (zustand_nach r)))
         = mqtt_ok (zustand_nach r)
      /\ mqtt_steuerung.mqtt_client (mqtt (geraet (zustand_nach r)))
         = (if mqtt_ok (zustand_nach r) then Some mqtt_steuerung.MQTTClient else None)
  end.
Proof.
  intros Hs. cbv zeta. unfold programmstart.
  destruct wlan as [[|]|e]; cbn [rufe]; [| |reflexivity].
  - rewrite bind_ret_l.
    set (h0 := mit_mqtt_ok false (mit_wlan_ok true h)).
    assert (Hs0 : verbindung_stimmig (mqtt (geraet h0))) by exact Hs.
    destruct (verbinden_und_abonnieren_folgen v h0 Hs0)
      as (ok & Hr & Ho & Hv & Hc & Hi & Hw & Hl & _).
    cbv zeta in Hv, Hc.
    assert (E : (aendere (mit_wlan_ok true) ;; aendere (mit_mqtt_ok false) ;;
                 wenn true (ok' <- mqtt_verbinden_und_abonnieren v ;;
                            aendere (mit_mqtt_ok ok'))) h
                = (Fertig tt, zustand_nach (mqtt_verbinden_und_abonnieren v h0), [])).
    { unfold bind, aendere, wenn. fold h0. rewrite Hr. cbn [fst snd app].
      rewrite <- Ho, mit_mqtt_ok_gleich. reflexivity. }
    rewrite E. cbn [ergebnis zustand_nach protokoll fst snd].
    split; [reflexivity|]. split; [reflexivity|].
    split; [exact Hw|]. split; [exact Hl|].
    rewrite Ho. split; [exact Hi|]. split; [exact Hv|exact Hc].
  - rewrite bind_ret_l. reflexivity.
Qed.

Lemma programmstart_ergebnis_zeuge :
  let h := {| geraet := start beispiel_aktor (sensorik.anfang true true)
                          mqtt_steuerung.anfang;
              wlan_ok := false; mqtt_ok := false; laeuft := true |} in
  let v := {| connect := None; subscribe_steuerung := None;
              subscribe_schwellen := Some OSError; disconnect := None |} in
  verbindung_stimmig (mqtt (geraet h))
  /\ mqtt_steuerung.mqtt_verbunden
       (mqtt (geraet (zustand_nach (programmstart (Liefert true) v h)))) = false.
Proof.
  cbv zeta.
  assert (H : verbindung_stimmig
                (mqtt (geraet {| geraet := start beispiel_aktor (sensorik.anfang true true)
                                             mqtt_steuerung.anfang;
                                 wlan_ok := false; mqtt_ok := false; laeuft := true |})))
    by (intros H; discriminate H).
  split; [exact H|].
  pose proof (programmstart_ergebnis (Liefert true)
                {| connect := None; subscribe_steuerung := None;
                   subscribe_schwellen := Some OSError; disconnect := None |}
                _ H) as H'.
  cbv zeta in H'. destruct H' as (_ & _ & _ & _ & _ & H6 & _).
  rewrite H6. reflexivity.
Defined.

(** ** wifi_setup.py: connecting with a timeout *)

Module wifi_fakten.
Import wifi_setup.

(** The loop ends by the turn whose clock reading is more than the timeout
    after the start, at the latest. *)
Lemma warten_endet v polls :
  forall t0 s,
    antworten polls ->
    uhr_laeuft t0 polls ->
    (Z.to_nat (start_zeit v + 21 - t0) < length polls)%nat ->
    exists b s' l,
      warten v polls s = (Fertig (Some b), s', l)
      /\ (b = true -> exists t, In (Liefert true, t) polls)
      /\ (b = false -> abbrechen v = None -> deaktivieren v = None ->
          _wlan_interface s' = Some false)
      /\ (b = true -> s' = s).
Proof.
  induction polls as [|[a jetzt] rest IH]; intros t0 s Ha Hu Hl.
  - cbn in Hl. lia.
  - apply Forall_cons in Ha as ((b0 & Hb0) & Ha). cbn in Hb0. subst a.
    destruct Hu as (Ht & Hu).
    cbn [warten rufe]. rewrite bind_ret_l.
    destruct b0.
    + exists true, s, []. split; [reflexivity|].
      split; [intros _; exists jetzt; now left|]. split; [discriminate|reflexivity].
    + unfold WLAN_VERBINDUNGS_TIMEOUT_SEK.
      destruct (20 <? jetzt - start_zeit v) eqn:E.
      * destruct (abbrechen v) as [e1|], (deaktivieren v) as [e2|];
          exists false; eexists; eexists; (split; [reflexivity|]);
          (split; [discriminate|]); (split; [|discriminate]); intros _ H1 H2;
          try discriminate H1; try discriminate H2; reflexivity.
      * apply Z.ltb_ge in E. cbn [length] in Hl.
        destruct (IH (jetzt + 1) s Ha Hu) as (b & s' & l & Hw & H1 & H2 & H3); [lia|].
        exists b, s', (Schlaf_ms 1000 :: l).
        split.
        { unfold bind at 1. cbn [melde]. rewrite Hw. reflexivity. }
        split; [|split; assumption].
        intros Hb. destruct (H1 Hb) as (t & Hin). exists t. now right.
Qed.

(** X30 ([wlan_verbinden]).  The wait for the connection ends: when no
    [isconnected()] raises and the clock gains at least one second per
    turn of the loop, [wlan_verbinden] returns after at most 22 turns.  It
    returns True only if the link was already up or a poll reported the
    connection; and after a False that follows no failed driver call the
    interface is not left active. *)
Theorem wlan_verbinden_endet v s :
  (exists b, zuerst v = Liefert b) ->
  antworten (abfragen v) ->
  uhr_laeuft (start_zeit v) (abfragen v) ->
  (22 <= length (abfragen v))%nat ->
  let r := wlan_verbinden v s in
  exists b,
    ergebnis r = Fertig (Some b)
    /\ (b = true ->
        (zuerst v = Liefert true /\ _wlan_interface s = Some true)
        \/ exists t, In (Liefert true, t) (abfragen v))
    /\ (b = false -> aufbauen v = None -> abbrechen v = None ->
        deaktivieren v = None ->
        _wlan_interface (zustand_nach r) <> Some true).
Proof.
  intros (b0 & Hz) Ha Hu Hl. cbv zeta.
  assert (Hw : forall s0, exists b s' l,
             warten v (abfragen v) s0 = (Fertig (Some b), s', l)
             /\ (b = true -> exists t, In (Liefert true, t) (abfragen v))
             /\ (b = false -> abbrechen v = None -> deaktivieren v = None ->
                 _wlan_interface s' = Some false)
             /\ (b = true -> s' = s0)).
  { intros s0. apply (warten_endet v (abfragen v) (start_zeit v) s0 Ha Hu).
    replace (start_zeit v + 21 - start_zeit v) with 21 by lia.
    change (Z.to_nat 21) with 21%nat. lia. }
  unfold wlan_verbinden, wlan_ist_verbunden.
  rewrite Hz.
  destruct s as [[[|]|]], b0, (erzeugen v) as [[|]|e0], (aktivieren v) as [e1|],
    (aufbauen v) as [e2|];
    cbn -[warten];
    first
      [ match goal with
        | |- context [warten v (abfragen v) ?s0] =>
            destruct (Hw s0) as (b & s' & l & E & H1 & H2 & H3);
            rewrite E; exists b; cbn;
            (split; [reflexivity|]);
            (split; [intros Hb; right; now apply H1|]);
            intros Hb _ A1 A2; rewrite (H2 Hb A1 A2); discriminate
        end
      | exists true; (split; [reflexivity|]); (split; [now left|discriminate])
      | exists false; (split; [reflexivity|]); (split; [discriminate|]);
        intros _ A0 _ _; first [discriminate A0|cbn; discriminate] ].
Qed.

Lemma wlan_verbinden_endet_zeuge :
  let v := {| zuerst := Liefert false;
              erzeugen := Liefert false;
              aktivieren := None;
              aufbauen := None;
              start_zeit := 0;
              abfragen := map (fun k => (Liefert false, Z.of_nat k)) (List.seq 0 22);
              abbrechen := None;
              deaktivieren := None |} in
  (22 <= length (abfragen v))%nat
  /\ _wlan_interface (zustand_nach (wlan_verbinden v anfang)) <> Some true.
Proof.
  cbv zeta. split; [vm_compute; lia|].
  destruct (wlan_verbinden_endet
              {| zuerst := Liefert false;
                 erzeugen := Liefert false;
                 aktivieren := None;
                 aufbauen := None;
                 start_zeit := 0;
                 abfragen := map (fun k => (Liefert false, Z.of_nat k)) (List.seq 0 22);
                 abbrechen := None;
                 deaktivieren := None |} anfang) as (b & Hb & _ & H3).
  - exists false. reflexivity.
  - apply Forall_forall. intros [a t] Hin. cbn [abfragen] in Hin.
    apply list_elem_of_In, in_map_iff in Hin as (k & E & _).
    inversion E. exists false. reflexivity.
  - vm_compute. repeat split; discriminate.
  - vm_compute. lia.
  - cbv zeta in Hb, H3.
    assert (E : b = false).
    { vm_compute in Hb. now injection Hb as <-. }
    apply H3; [exact E|reflexivity|reflexivity|reflexivity].
Defined.

End wifi_fakten.
